(** * Technical Debt Analyzer: a shallow embedding of
      [backend/agents/technical_debt/debt_analyzer.py]

    The development follows the source file top to bottom:
    Python values (exceptions, binary64 floats, strings), the issue
    dictionaries, the AST analysers, the bracket heuristics for
    JavaScript, the duplication detector, the manifest analyser, the
    score calculator and finally [analyze_project] over a file tree. *)

From Stdlib Require Import ZArith NArith List Lia Bool Ascii String DecimalString SpecFloat
  Permutation.
Import ListNotations.
Local Open Scope string_scope.
Local Open Scope list_scope.
Local Open Scope Z_scope.

(* ================================================================== *)
(** ** Exceptions *)

(** The exceptions that the analysed code paths can meet. *)
Inductive exn : Type :=
| SyntaxError
| ValueError
| OverflowError
| ZeroDivisionError
| AttributeError
| TypeError
| UnicodeDecodeError
| OSError
| JSONDecodeError.

(** The result of evaluating a Python expression: a value or a raised
    exception. *)
Inductive outcome (A : Type) : Type :=
| Returned (a : A)
| Raised (e : exn).
Arguments Returned {A} a.
Arguments Raised {A} e.

Definition obind {A B} (o : outcome A) (k : A -> outcome B) : outcome B :=
  match o with
  | Returned a => k a
  | Raised e => Raised e
  end.

(* ================================================================== *)
(** ** Python floats: IEEE-754 binary64, round to nearest even *)

Module PyFloat.

Definition prec : Z := 53.
Definition emax : Z := 1024.

Definition float : Type := spec_float.

Definition fmul : float -> float -> float := SFmul prec emax.
Definition fadd : float -> float -> float := SFadd prec emax.
Definition fdiv : float -> float -> float := SFdiv prec emax.

(** An integer seen as an exact (not yet rounded) binary number. *)
Definition exact (z : Z) : float :=
  match z with
  | Z0 => S754_zero false
  | Zpos p => S754_finite false p 0
  | Zneg p => S754_finite true p 0
  end.

(** [float(z)]: the nearest double (used when an [int] meets a [float]
    in an arithmetic operation). *)
Definition of_int (z : Z) : float := binary_normalize prec emax z 0 false.

(** A decimal literal [n/d], as the tokenizer reads it: the double
    nearest to the quotient. *)
Definition decimal (n d : Z) : float := fdiv (exact n) (exact d).

Definition f0_05 : float := Eval vm_compute in decimal 5 100.
Definition f0_1 : float := Eval vm_compute in decimal 1 10.
Definition f0_2 : float := Eval vm_compute in decimal 2 10.
Definition f0_3 : float := Eval vm_compute in decimal 3 10.
Definition f0_4 : float := Eval vm_compute in decimal 4 10.
Definition f0_5 : float := Eval vm_compute in decimal 5 10.
Definition f1_5 : float := Eval vm_compute in decimal 15 10.

(** [a / b] on two [int]s: the correctly rounded quotient;
    [ZeroDivisionError] for a zero divisor and [OverflowError] when the
    quotient is too large for a double. *)
Definition int_truediv (a b : Z) : outcome float :=
  if b =? 0 then Raised ZeroDivisionError
  else match fdiv (exact a) (exact b) with
       | S754_infinity _ => Raised OverflowError
       | q => Returned q
       end.

(** The integer part of the magnitude [m * 2^e]. *)
Definition magnitude_trunc (m : positive) (e : Z) : Z :=
  match e with
  | Zneg p => Zpos m / 2 ^ Zpos p
  | _ => Zpos m * 2 ^ e
  end.

(** [int(x)]: truncation toward zero. *)
Definition to_int (x : float) : outcome Z :=
  match x with
  | S754_zero _ => Returned 0
  | S754_finite s m e =>
      Returned (if s then - magnitude_trunc m e else magnitude_trunc m e)
  | S754_infinity _ => Raised OverflowError
  | S754_nan => Raised ValueError
  end.

(** [math.floor(x)]: the spec's word for the integer part. *)
Definition floor (x : float) : outcome Z :=
  match x with
  | S754_zero _ => Returned 0
  | S754_finite s m e =>
      Returned (match e with
                | Zneg p => (if s then Zneg m else Zpos m) / 2 ^ Zpos p
                | _ => (if s then Zneg m else Zpos m) * 2 ^ e
                end)
  | S754_infinity _ => Raised OverflowError
  | S754_nan => Raised ValueError
  end.

(** Round half to even of the non-negative rational [n / d]. *)
Definition rne_div (n d : Z) : Z :=
  let q := n / d in
  let r := n mod d in
  match 2 * r ?= d with
  | Lt => q
  | Gt => q + 1
  | Eq => if Z.even q then q else q + 1
  end.

(** The nearest integer (ties to even) to ten times the magnitude
    [m * 2^e]. *)
Definition tenths (m : positive) (e : Z) : Z :=
  match e with
  | Zneg p => rne_div (10 * Zpos m) (2 ^ Zpos p)
  | _ => 10 * Zpos m * 2 ^ e
  end.

(** [round(x, 1)]: the decimal with one fractional digit nearest to the
    exact value of [x] (ties to even), read back as a double; zeros,
    infinities and NaN round to themselves. *)
Definition round1 (x : float) : float :=
  match x with
  | S754_finite s m e =>
      match tenths m e with
      | Z0 => S754_zero s
      | t => fdiv (exact (if s then - t else t)) (exact 10)
      end
  | _ => x
  end.

(** [0 <= x] as Python decides it. *)
Definition nonneg (x : float) : Prop := SFleb (S754_zero false) x = true.

(** [x == y] on floats. *)
Definition feqb (x y : float) : bool := SFeqb x y.

End PyFloat.

Import PyFloat.


(* ================================================================== *)
(** ** Python strings

    A [str] is modelled by a [string] of 8-bit characters read as the
    code points 0..255; the character classes below are Python's on that
    range. *)

Module PyStr.

Definition code (c : ascii) : N := N_of_ascii c.

Definition in_range (lo hi : N) (c : ascii) : bool :=
  ((lo <=? code c) && (code c <=? hi))%N.

(** [c.isspace()], also the class [\s] of [re]. *)
Definition isspace (c : ascii) : bool :=
  in_range 9 13 c || in_range 28 32 c || (code c =? 133)%N || (code c =? 160)%N.

(** The class [\w] of [re] on [str] patterns: alphanumerics and the
    underscore. *)
Definition isword (c : ascii) : bool :=
  in_range 48 57 c || in_range 65 90 c || in_range 97 122 c || (code c =? 95)%N
  || (code c =? 170)%N || (code c =? 178)%N || (code c =? 179)%N || (code c =? 181)%N
  || (code c =? 185)%N || (code c =? 186)%N || in_range 188 190 c
  || in_range 192 214 c || in_range 216 246 c || in_range 248 255 c.

Definition newline : ascii := ascii_of_N 10.
Definition nl : string := String newline EmptyString.

(** [str(z)] for an [int]. *)
Definition str_int (z : Z) : string := NilZero.string_of_int (Z.to_int z).

(** [len(s)]. *)
Definition len (s : string) : Z := Z.of_nat (String.length s).

(** [s.startswith(p)]. *)
Definition startswith (p s : string) : bool := String.prefix p s.

Fixpoint rev_acc (s acc : string) : string :=
  match s with
  | EmptyString => acc
  | String c s' => rev_acc s' (String c acc)
  end.

Definition rev (s : string) : string := rev_acc s EmptyString.

(** [s.endswith(p)]. *)
Definition endswith (p s : string) : bool := String.prefix (rev p) (rev s).

(** [s.lstrip()], [s.rstrip()] and [s.strip()]. *)
Fixpoint lstrip (s : string) : string :=
  match s with
  | EmptyString => EmptyString
  | String c s' => if isspace c then lstrip s' else s
  end.

Fixpoint rstrip (s : string) : string :=
  match s with
  | EmptyString => EmptyString
  | String c s' =>
      match rstrip s' with
      | EmptyString => if isspace c then EmptyString else String c EmptyString
      | r => String c r
      end
  end.

Definition strip (s : string) : string := rstrip (lstrip s).

(** [sub in s]. *)
Fixpoint contains (sub s : string) : bool :=
  String.prefix sub s ||
  match s with
  | EmptyString => false
  | String _ s' => contains sub s'
  end.

(** [s.split(sep)] for a non-empty separator: the pieces between the
    successive occurrences of [sep], scanned from the left.  [skip]
    counts the characters of the current occurrence still to pass. *)
Fixpoint split_go (sep : string) (skip : nat) (s : string) : string * list string :=
  match s with
  | EmptyString => (EmptyString, [])
  | String c s' =>
      match skip with
      | S k => split_go sep k s'
      | O =>
          if String.prefix sep s then
            let '(p, ps) := split_go sep (String.length sep - 1) s' in
            (EmptyString, p :: ps)
          else
            let '(p, ps) := split_go sep 0 s' in
            (String c p, ps)
      end
  end.

Definition split (sep s : string) : list string :=
  let '(p, ps) := split_go sep 0 s in p :: ps.

(** [sep.join(l)]. *)
Definition join (sep : string) (l : list string) : string := String.concat sep l.

(** [s.count(c)] for a one-character [c]. *)
Fixpoint count_char (c : ascii) (s : string) : Z :=
  match s with
  | EmptyString => 0
  | String d s' => (if Ascii.eqb c d then 1 else 0) + count_char c s'
  end.

(** [s[:n]] and [s[n:]] for [0 <= n]. *)
Fixpoint take (n : nat) (s : string) : string :=
  match n, s with
  | S k, String c s' => String c (take k s')
  | _, _ => EmptyString
  end.

Fixpoint drop (n : nat) (s : string) : string :=
  match n, s with
  | S k, String _ s' => drop k s'
  | _, _ => s
  end.

(** [c.lower()] on one character. *)
Definition lower_char (c : ascii) : ascii :=
  if in_range 65 90 c || in_range 192 214 c || in_range 216 222 c
  then ascii_of_N (code c + 32) else c.

(** [s.lower()]. *)
Fixpoint lower (s : string) : string :=
  match s with
  | EmptyString => EmptyString
  | String c s' => String (lower_char c) (lower s')
  end.

(** [x in l] for a list or set of strings. *)
Definition mem (x : string) (l : list string) : bool := existsb (String.eqb x) l.

(** The distinct elements of [l], each at its first position. *)
Fixpoint dedup (l : list string) : list string :=
  match l with
  | [] => []
  | x :: l' => x :: filter (fun y => negb (String.eqb x y)) (dedup l')
  end.

End PyStr.

(* ================================================================== *)
(** ** Sets of strings *)

Module PySet.

(** The order in which CPython lists the elements of a set of strings.
    It is the order of the hash table of the set: it depends on the hash
    seed of the process and on the additions that built the set, and the
    language promises nothing about it.  [history] holds the sequences of
    strings that were added to the sets from which the set was computed,
    [elements] the elements of the set, each once; whatever the history,
    the listing holds the same elements, each once. *)
Class order : Type := {
  listing : list (list string) -> list string -> list string;
  listing_perm : forall history elements,
      Permutation (listing history elements) elements
}.

End PySet.

(* ================================================================== *)
(** ** Words of a text *)

Module TextRules.
Import PyStr.

(** [s.split()]: the maximal runs of characters that are not white
    space. *)
Fixpoint words (s : string) : list string :=
  match s with
  | EmptyString => []
  | String c s' =>
      if isspace c then words s'
      else match s' with
           | EmptyString => [String c EmptyString]
           | String d _ =>
               if isspace d then String c EmptyString :: words s'
               else match words s' with
                    | w :: ws => String c w :: ws
                    | [] => [String c EmptyString]
                    end
           end
  end.

(** A text without white space. *)
Fixpoint spaceless (s : string) : bool :=
  match s with
  | EmptyString => true
  | String c s' => negb (isspace c) && spaceless s'
  end.

(** A word: not empty, no white space. *)
Definition is_word (w : string) : bool :=
  negb (String.eqb w EmptyString) && spaceless w.

(** The text begins with white space. *)
Definition starts_with_space (s : string) : bool :=
  match s with
  | String c _ => isspace c
  | EmptyString => false
  end.

End TextRules.

(* ================================================================== *)
(** ** Issues *)

(** One entry of the issue list; the dictionary keys of the source are
    the fields.  [line_start] and [line_end] are [None] where the
    dictionary has no such key. *)
Record issue : Type := mk_issue {
  file_path : string;
  issue_type : string;
  category : string;
  severity : string;
  title : string;
  description : string;
  line_start : option Z;
  line_end : option Z;
  suggested_fix : string;
  estimated_hours : float
}.

Definition issue_types : list string :=
  ["complexity"; "smell"; "duplication"; "dependency"; "architecture"].

Definition severities : list string := ["critical"; "high"; "medium"; "low"].

(** The largest length a list can have ([sys.maxsize]). *)
Definition PY_SSIZE_T_MAX : Z := 2 ^ 63 - 1.

(** The sum of a list of integers. *)
Definition Zsum (l : list Z) : Z := fold_right Z.add 0 l.

(* ================================================================== *)
(** ** Statements that append to [issues] and may raise *)

Module Stmt.

(** A block of statements: from the issue list on entry to the list on
    exit, with the value returned or the exception raised. *)
Definition block (A : Type) : Type := list issue -> outcome A * list issue.

Definition ret {A} (a : A) : block A := fun issues => (Returned a, issues).

Definition raise {A} (e : exn) : block A := fun issues => (Raised e, issues).

Definition bind {A B} (m : block A) (k : A -> block B) : block B :=
  fun issues =>
    match m issues with
    | (Returned a, issues') => k a issues'
    | (Raised e, issues') => (Raised e, issues')
    end.

(** An expression evaluated for its value. *)
Definition eval {A} (o : outcome A) : block A := fun issues => (o, issues).

(** [issues.append(i)]. *)
Definition append (i : issue) : block unit := fun issues => (Returned tt, issues ++ [i]).

(** [for x in l: body(x)]. *)
Fixpoint for_each {A} (l : list A) (body : A -> block unit) : block unit :=
  match l with
  | [] => ret tt
  | x :: l' => bind (body x) (fun _ => for_each l' body)
  end.

(** [if c: body]. *)
Definition when (c : bool) (body : block unit) : block unit :=
  if c then body else ret tt.

(** [try: body  except Exception: <log>]: what was appended before the
    exception stays in the list. *)
Definition try_except (body : block unit) : block unit :=
  fun issues =>
    match body issues with
    | (Raised _, issues') => (Returned tt, issues')
    | r => r
    end.

(** The list that a function starting with [issues = []] returns. *)
Definition issues_of (body : block unit) : list issue := snd (body []).

End Stmt.

Declare Scope stmt_scope.
Delimit Scope stmt_scope with stmt.
Notation "x <- m ;; k" := (Stmt.bind m (fun x => k))
  (at level 61, m at next level, right associativity) : stmt_scope.
Notation "m ;;; k" := (Stmt.bind m (fun _ => k))
  (at level 61, right associativity) : stmt_scope.

(* ================================================================== *)
(** ** Python syntax trees *)

Module PyAst.

(** The node classes of [ast] that the analyser tells apart; every other
    class is [Other].  The arguments are the fields of the class in the
    order of [_fields]; [children] gathers the fields that the analyser
    does not look at by name. *)
#[warnings="-register-all"]
Inductive node : Type :=
| Module_ (body : list node)
| FunctionDef (name : string) (lineno : Z) (end_lineno : option Z) (children : list node)
| AsyncFunctionDef (name : string) (lineno : Z) (end_lineno : option Z)
                   (children : list node)
| ClassDef (name : string) (lineno : Z) (end_lineno : option Z)
           (bases_keywords : list node) (body : list node) (decorator_list : list node)
| If (children : list node)
| While (children : list node)
| For (children : list node)
| AsyncFor (children : list node)
| ExceptHandler (children : list node)
| BoolOp (op : node) (values : list node)
| Name (id : string) (ctx : node)
| Load
| Store
| Del
| And
| Or
| Other (children : list node).

(** [ast.iter_child_nodes]. *)
Definition iter_child_nodes (n : node) : list node :=
  match n with
  | Module_ body => body
  | FunctionDef _ _ _ children | AsyncFunctionDef _ _ _ children => children
  | ClassDef _ _ _ bases_keywords body decorator_list =>
      bases_keywords ++ body ++ decorator_list
  | If children | While children | For children | AsyncFor children
  | ExceptHandler children | Other children => children
  | BoolOp op values => op :: values
  | Name _ ctx => [ctx]
  | Load | Store | Del | And | Or => []
  end.

(** The number of nodes of a tree. *)
Fixpoint size (n : node) : nat :=
  let fix sizes (l : list node) : nat :=
    match l with
    | [] => O
    | x :: l' => (size x + sizes l')%nat
    end in
  S (match n with
     | Module_ body => sizes body
     | FunctionDef _ _ _ children | AsyncFunctionDef _ _ _ children => sizes children
     | ClassDef _ _ _ bases_keywords body decorator_list =>
         sizes bases_keywords + sizes body + sizes decorator_list
     | If children | While children | For children | AsyncFor children
     | ExceptHandler children | Other children => sizes children
     | BoolOp op values => size op + sizes values
     | Name _ ctx => size ctx
     | Load | Store | Del | And | Or => O
     end)%nat.

(** [ast.walk]: the queue [todo] is served from the left and the
    children of the node served are appended on the right. *)
Fixpoint walk_queue (fuel : nat) (todo : list node) : list node :=
  match fuel with
  | O => []
  | S fuel' =>
      match todo with
      | [] => []
      | n :: rest => n :: walk_queue fuel' (rest ++ iter_child_nodes n)
      end
  end.

Definition walk (n : node) : list node := walk_queue (size n) [n].

(** The nodes of the subtree rooted at [n], the root first. *)
Fixpoint subtree (n : node) : list node :=
  let fix subtrees (l : list node) : list node :=
    match l with
    | [] => []
    | x :: l' => subtree x ++ subtrees l'
    end in
  n :: match n with
       | Module_ body => subtrees body
       | FunctionDef _ _ _ children | AsyncFunctionDef _ _ _ children => subtrees children
       | ClassDef _ _ _ bases_keywords body decorator_list =>
           subtrees bases_keywords ++ subtrees body ++ subtrees decorator_list
       | If children | While children | For children | AsyncFor children
       | ExceptHandler children | Other children => subtrees children
       | BoolOp op values => subtree op ++ subtrees values
       | Name _ ctx => subtree ctx
       | Load | Store | Del | And | Or => []
       end.

Definition is_function (n : node) : bool :=
  match n with
  | FunctionDef _ _ _ _ | AsyncFunctionDef _ _ _ _ => true
  | _ => false
  end.

End PyAst.

(* ================================================================== *)
(** ** The analysers of Python files *)

Module PyAnalysis.
Import PyAst PyStr.

(** [_calculate_cyclomatic_complexity]: one step of the loop over
    [ast.walk(node)]. *)
Definition complexity_step (complexity : Z) (child : node) : Z :=
  match child with
  | If _ | While _ | For _ | AsyncFor _ => complexity + 1
  | ExceptHandler _ => complexity + 1
  | BoolOp _ values => complexity + (Z.of_nat (List.length values) - 1)
  | _ => complexity
  end.

Definition _calculate_cyclomatic_complexity (n : node) : Z :=
  fold_left complexity_step (walk n) 1.

(** [node.end_lineno if hasattr(node, 'end_lineno') else node.lineno]. *)
Definition end_or_start (lineno : Z) (end_lineno : option Z) : Z :=
  match end_lineno with
  | Some e => e
  | None => lineno
  end.

Definition complexity_severity (complexity : Z) : string :=
  if complexity >? 25 then "critical"
  else if complexity >? 20 then "high"
  else "medium".

(** The dictionary appended for a function of high complexity. *)
Definition complexity_issue (rel_path name : string) (lineno : Z)
           (end_lineno : option Z) (complexity : Z) : issue :=
  let severity := complexity_severity complexity in
  let estimated_hours := fmul (of_int (complexity - 15)) f0_5 in
  {| file_path := rel_path;
     issue_type := "complexity";
     category := "High Cyclomatic Complexity";
     severity := severity;
     title := "Function '" ++ name ++ "' has high complexity ("
              ++ str_int complexity ++ ")";
     description := "The function '" ++ name ++ "' has a cyclomatic complexity of "
              ++ str_int complexity
              ++ ", which exceeds the recommended threshold of 15. High complexity makes code harder to understand, test, and maintain.";
     line_start := Some lineno;
     line_end := Some (end_or_start lineno end_lineno);
     suggested_fix := "Consider breaking this function into smaller, more focused functions. Extract complex conditional logic into separate helper functions.";
     estimated_hours := round1 estimated_hours |}.

(** The dictionary appended for a class with too many methods. *)
Definition god_object_issue (rel_path name : string) (lineno : Z)
           (end_lineno : option Z) (method_count : Z) : issue :=
  {| file_path := rel_path;
     issue_type := "architecture";
     category := "God Object";
     severity := "high";
     title := "Class '" ++ name ++ "' has too many methods ("
              ++ str_int method_count ++ ")";
     description := "The class '" ++ name ++ "' has " ++ str_int method_count
              ++ " methods, indicating it may have too many responsibilities. This violates the Single Responsibility Principle.";
     line_start := Some lineno;
     line_end := Some (end_or_start lineno end_lineno);
     suggested_fix := "Consider splitting this class into multiple smaller classes, each with a single, well-defined responsibility.";
     estimated_hours := fmul (of_int method_count) f0_3 |}.

(** The body of the loop of [_analyze_python_complexity]: what the visit
    of one node appends to [issues]. *)
Definition complexity_visit (rel_path : string) (n : node) : list issue :=
  match n with
  | FunctionDef name lineno end_lineno _
  | AsyncFunctionDef name lineno end_lineno _ =>
      let complexity := _calculate_cyclomatic_complexity n in
      if complexity >? 15
      then [complexity_issue rel_path name lineno end_lineno complexity]
      else []
  | ClassDef name lineno end_lineno _ body _ =>
      let method_count := Z.of_nat (List.length (filter is_function body)) in
      if method_count >? 20
      then [god_object_issue rel_path name lineno end_lineno method_count]
      else []
  | _ => []
  end.

(** The dictionary appended for a long function. *)
Definition long_function_issue (rel_path name : string) (lineno end_lineno : Z) : issue :=
  let func_length := end_lineno - lineno in
  let severity := if func_length >? 100 then "high" else "medium" in
  {| file_path := rel_path;
     issue_type := "smell";
     category := "Long Method";
     severity := severity;
     title := "Function '" ++ name ++ "' is too long (" ++ str_int func_length
              ++ " lines)";
     description := "This function has " ++ str_int func_length
              ++ " lines of code, which exceeds the recommended maximum of 50 lines. Long functions are harder to understand and maintain.";
     line_start := Some lineno;
     line_end := Some end_lineno;
     suggested_fix := "Break this function into smaller, focused functions with clear responsibilities.";
     estimated_hours := round1 (fmul (of_int (func_length - 50)) f0_05) |}.

Definition long_function_visit (rel_path : string) (n : node) : list issue :=
  match n with
  | FunctionDef name lineno (Some end_lineno) _
  | AsyncFunctionDef name lineno (Some end_lineno) _ =>
      if end_lineno - lineno >? 50
      then [long_function_issue rel_path name lineno end_lineno]
      else []
  | _ => []
  end.

(** The names stored and the names loaded below a function node, in the
    order of the walk. *)
Definition names_with (ctx_is : node -> bool) (n : node) : list string :=
  flat_map (fun child => match child with
                         | Name id ctx => if ctx_is ctx then [id] else []
                         | _ => []
                         end) (walk n).

Definition is_store (c : node) : bool := match c with Store => true | _ => false end.
Definition is_load (c : node) : bool := match c with Load => true | _ => false end.

(** The elements of the set [unused], each once: assigned, never
    read, and not starting with an underscore. *)
Definition unused_set (n : node) : list string :=
  let assigned_vars := dedup (names_with is_store n) in
  let used_vars := names_with is_load n in
  let unused := filter (fun v => negb (mem v used_vars)) assigned_vars in
  filter (fun v => negb (startswith "_" v)) unused.

(** [list(unused)]: the set in the order in which the process lists it;
    the sets were built from the names stored and the names loaded, in
    the order of the walk. *)
Definition unused_names {so : PySet.order} (n : node) : list string :=
  PySet.listing [names_with is_store n; names_with is_load n] (unused_set n).

Definition unused_issue (rel_path name : string) (lineno : Z) (unused : list string)
  : issue :=
  {| file_path := rel_path;
     issue_type := "smell";
     category := "Unused Variable";
     severity := "low";
     title := "Function '" ++ name ++ "' has unused variables: "
              ++ join ", " (firstn 3 unused);
     description := "Found " ++ str_int (Z.of_nat (List.length unused))
              ++ " unused variable(s): " ++ join ", " unused
              ++ ". Remove unused variables to improve code clarity.";
     line_start := Some lineno;
     line_end := None;
     suggested_fix := "Remove the unused variables or prefix them with underscore if intentionally unused.";
     estimated_hours := f0_1 |}.

Definition unused_visit {so : PySet.order} (rel_path : string) (n : node) : list issue :=
  match n with
  | FunctionDef name lineno _ _ | AsyncFunctionDef name lineno _ _ =>
      match unused_names n with
      | [] => []
      | unused => [unused_issue rel_path name lineno unused]
      end
  | _ => []
  end.

Section Parser.

Context {so : PySet.order}.

(** [ast.parse]: the tree of a source text, or the exception raised. *)
Variable ast_parse : string -> outcome node.

(** [_analyze_python_complexity]: [issues] is returned whatever happens
    in the [try] block; [SyntaxError] is passed over, any other
    exception is logged. *)
Definition _analyze_python_complexity (content rel_path : string) : list issue :=
  match ast_parse content with
  | Returned tree => flat_map (complexity_visit rel_path) (walk tree)
  | Raised SyntaxError => []
  | Raised _ => []
  end.

(** [_detect_long_python_functions], with its bare [except]. *)
Definition _detect_long_python_functions (content rel_path : string) : list issue :=
  match ast_parse content with
  | Returned tree => flat_map (long_function_visit rel_path) (walk tree)
  | Raised _ => []
  end.

(** [_detect_unused_python_variables], with its bare [except]. *)
Definition _detect_unused_python_variables (content rel_path : string) : list issue :=
  match ast_parse content with
  | Returned tree => flat_map (unused_visit rel_path) (walk tree)
  | Raised _ => []
  end.

End Parser.

(** *** Cyclomatic complexity as the specification words it *)

Definition is_branch (n : node) : bool :=
  match n with
  | If _ | While _ | For _ | AsyncFor _ => true
  | _ => false
  end.

Definition is_handler (n : node) : bool :=
  match n with
  | ExceptHandler _ => true
  | _ => false
  end.

Definition boolop_extra (n : node) : Z :=
  match n with
  | BoolOp _ values => Z.of_nat (List.length values) - 1
  | _ => 0
  end.

Definition spec_complexity (n : node) : Z :=
  1 + Z.of_nat (List.length (filter is_branch (subtree n)))
    + Z.of_nat (List.length (filter is_handler (subtree n)))
    + Zsum (map boolop_extra (subtree n)).

Definition spec_severity (complexity : Z) : string :=
  if (16 <=? complexity) && (complexity <=? 20) then "medium"
  else if (21 <=? complexity) && (complexity <=? 25) then "high"
  else "critical".

(** The complexity issues that a node of the tree calls for. *)
Definition spec_complexity_issues (rel_path : string) (n : node) : list issue :=
  match n with
  | FunctionDef name lineno end_lineno _
  | AsyncFunctionDef name lineno end_lineno _ =>
      let c := spec_complexity n in
      if 15 <? c then [complexity_issue rel_path name lineno end_lineno c] else []
  | _ => []
  end.

End PyAnalysis.

(* ================================================================== *)
(** ** Regular expressions, as the patterns of the analyser use them *)

Module Re.
Import PyStr.

(** The constructs of [re] that occur in the source: a character class,
    a literal, sequence, alternation, greedy and lazy repetition of a
    class, a capturing group and the word boundary. *)
Inductive regex : Type :=
| Chars (p : ascii -> bool)
| Lit (s : string)
| Seq (r1 r2 : regex)
| Alt (r1 r2 : regex)
| Star (greedy : bool) (p : ascii -> bool)
| Group (r : regex)
| WordBoundary.

Definition Plus (p : ascii -> bool) : regex := Seq (Chars p) (Star true p).

(** The last character of [s], or [prev] when [s] is empty. *)
Fixpoint last_char (prev : option ascii) (s : string) : option ascii :=
  match s with
  | EmptyString => prev
  | String c s' => last_char (Some c) s'
  end.

Definition is_word_opt (c : option ascii) : bool :=
  match c with
  | Some c => isword c
  | None => false
  end.

Definition first_char (s : string) : option ascii :=
  match s with
  | EmptyString => None
  | String c _ => Some c
  end.

Section Matcher.
Context {R : Type}.

(** A continuation receives the character before the current position,
    the text still to read and the groups captured so far. *)
Definition cont : Type := option ascii -> string -> list string -> option R.

(** Greedy [p*]: the longest run first, then shorter ones. *)
Fixpoint star_greedy (p : ascii -> bool) (prev : option ascii) (s : string)
         (caps : list string) (k : cont) : option R :=
  match s with
  | String c s' =>
      if p c then
        match star_greedy p (Some c) s' caps k with
        | Some r => Some r
        | None => k prev s caps
        end
      else k prev s caps
  | EmptyString => k prev s caps
  end.

(** Lazy [p*?]: the shortest run first, then longer ones. *)
Fixpoint star_lazy (p : ascii -> bool) (prev : option ascii) (s : string)
         (caps : list string) (k : cont) : option R :=
  match k prev s caps with
  | Some r => Some r
  | None =>
      match s with
      | String c s' => if p c then star_lazy p (Some c) s' caps k else None
      | EmptyString => None
      end
  end.

(** The backtracking matcher of [re]: alternatives are tried in order
    and the first way to complete the match wins. *)
Fixpoint match_re (r : regex) (prev : option ascii) (s : string)
         (caps : list string) (k : cont) : option R :=
  match r with
  | Chars p =>
      match s with
      | String c s' => if p c then k (Some c) s' caps else None
      | EmptyString => None
      end
  | Lit l =>
      if String.prefix l s
      then k (last_char prev l) (drop (String.length l) s) caps
      else None
  | Seq r1 r2 =>
      match_re r1 prev s caps (fun prev' s' caps' => match_re r2 prev' s' caps' k)
  | Alt r1 r2 =>
      match match_re r1 prev s caps k with
      | Some x => Some x
      | None => match_re r2 prev s caps k
      end
  | Star true p => star_greedy p prev s caps k
  | Star false p => star_lazy p prev s caps k
  | Group r1 =>
      match_re r1 prev s caps
               (fun prev' s' caps' =>
                  k prev' s' (caps' ++ [take (String.length s - String.length s') s]))
  | WordBoundary =>
      if xorb (is_word_opt prev) (is_word_opt (first_char s))
      then k prev s caps
      else None
  end.

End Matcher.

(** A match object: [start()], [end()] and the captured groups. *)
Record match_obj : Type := mk_match {
  m_start : nat;
  m_end : nat;
  m_groups : list string
}.

(** [pattern.match] at the current position: the groups and the text
    left after the match. *)
Definition match_here (r : regex) (prev : option ascii) (s : string)
  : option (list string * string) :=
  match_re r prev s [] (fun _ rest caps => Some (caps, rest)).

(** [re.finditer]: the leftmost matches, none overlapping.  [pos] is the
    index of the head of [s]; [skip] counts the characters of the last
    match still to pass. *)
Fixpoint finditer_go (r : regex) (prev : option ascii) (pos skip : nat) (s : string)
  : list match_obj :=
  match skip with
  | S k =>
      match s with
      | String c s' => finditer_go r (Some c) (S pos) k s'
      | EmptyString => []
      end
  | O =>
      match match_here r prev s with
      | Some (caps, rest) =>
          let n := (String.length s - String.length rest)%nat in
          mk_match pos (pos + n) caps ::
          match s with
          | String c s' => finditer_go r (Some c) (S pos) (n - 1) s'
          | EmptyString => []
          end
      | None =>
          match s with
          | String c s' => finditer_go r (Some c) (S pos) 0 s'
          | EmptyString => []
          end
      end
  end.

Definition finditer (r : regex) (s : string) : list match_obj :=
  finditer_go r None 0 0 s.

(** [match.group(1)]. *)
Definition group1 (m : match_obj) : string := nth 0 (m_groups m) EmptyString.

(** [len(re.findall(r, s))] for a pattern without groups. *)
Definition count_matches (r : regex) (s : string) : Z :=
  Z.of_nat (List.length (finditer r s)).

Definition any_but_newline (c : ascii) : bool := negb (Ascii.eqb c newline).
Definition one_of (l : string) (c : ascii) : bool :=
  existsb (Ascii.eqb c) (list_ascii_of_string l).

(** [\bword\b]. *)
Definition whole_word (w : string) : regex :=
  Seq WordBoundary (Seq (Lit w) WordBoundary).

End Re.

(* ================================================================== *)
(** ** The bracket heuristics for JavaScript and TypeScript *)

Module JsAnalysis.
Import PyStr Re.

(** [keyword\s+(\w+)\s*[=\(].*?{] after the alternation of keywords. *)
Definition declaration (keywords : regex) : regex :=
  Seq keywords
      (Seq (Plus isspace)
           (Seq (Group (Plus isword))
                (Seq (Star true isspace)
                     (Seq (Chars (one_of "=("))
                          (Seq (Star false any_but_newline) (Lit "{")))))).

(** [(?:function|const|let|var)\s+(\w+)\s*[=\(].*?{], the pattern of
    [_analyze_js_complexity]. *)
Definition complexity_pattern : regex :=
  declaration (Alt (Lit "function") (Alt (Lit "const") (Alt (Lit "let") (Lit "var")))).

(** [(?:function|const|let)\s+(\w+)\s*[=\(].*?{], the pattern of
    [_detect_long_js_functions]. *)
Definition func_pattern : regex :=
  declaration (Alt (Lit "function") (Alt (Lit "const") (Lit "let"))).

(** [content.find(c, start)]: [None] stands for [-1]. *)
Fixpoint find_from (c : ascii) (i : nat) (s : string) : option nat :=
  match s with
  | EmptyString => None
  | String d s' => if Ascii.eqb c d then Some i else find_from c (S i) s'
  end.

Definition find (c : ascii) (start : nat) (content : string) : option nat :=
  find_from c start (drop start content).

(** The brace-counting loop over [range(func_start, len(content))]: the
    index where the count comes back to zero, if it does. *)
Fixpoint close_from (brace_count : Z) (i : nat) (s : string) : option nat :=
  match s with
  | EmptyString => None
  | String c s' =>
      if Ascii.eqb c "{" then close_from (brace_count + 1) (S i) s'
      else if Ascii.eqb c "}" then
        if brace_count - 1 =? 0 then Some i
        else close_from (brace_count - 1) (S i) s'
      else close_from brace_count (S i) s'
  end.

(** [func_end] after the loop: initialised to [func_start]. *)
Definition func_end_of (func_start : nat) (content : string) : nat :=
  match close_from 0 func_start (drop func_start content) with
  | Some i => i
  | None => func_start
  end.

(** [content[:pos].count('\n') + 1]. *)
Definition line_of (content : string) (pos : nat) : Z :=
  count_char newline (take pos content) + 1.

(** [content[a:b]]. *)
Definition slice (a b : nat) (content : string) : string :=
  take (b - a) (drop a content).

Definition decision_points (func_body : string) : Z :=
  1 + count_matches (whole_word "if") func_body
    + count_matches (whole_word "for") func_body
    + count_matches (whole_word "while") func_body
    + count_matches (whole_word "case") func_body
    + count_matches (whole_word "catch") func_body
    + count_matches (Alt (Lit "&&") (Lit "||")) func_body.

Definition js_complexity_issue (rel_path func_name : string) (line_num complexity : Z)
  : issue :=
  {| file_path := rel_path;
     issue_type := "complexity";
     category := "High Cyclomatic Complexity";
     severity := PyAnalysis.complexity_severity complexity;
     title := "Function '" ++ func_name ++ "' has high complexity ("
              ++ str_int complexity ++ ")";
     description := "This function has a cyclomatic complexity of "
              ++ str_int complexity
              ++ ", which exceeds the recommended threshold of 15.";
     line_start := Some line_num;
     line_end := None;
     suggested_fix := "Break down this function into smaller, more focused functions.";
     estimated_hours := round1 (fmul (of_int (complexity - 15)) f0_5) |}.

(** The body of the loop of [_analyze_js_complexity] for one match. *)
Definition js_complexity_visit (content rel_path : string) (m : match_obj) : list issue :=
  let func_name := group1 m in
  let start_pos := m_start m in
  match find "{" start_pos content with
  | None => []
  | Some func_start =>
      let func_end := func_end_of func_start content in
      let func_body := slice func_start func_end content in
      let complexity := decision_points func_body in
      if complexity >? 15
      then [js_complexity_issue rel_path func_name (line_of content start_pos) complexity]
      else []
  end.

Definition _analyze_js_complexity (content rel_path : string) : list issue :=
  flat_map (js_complexity_visit content rel_path) (finditer complexity_pattern content).

Definition long_js_issue (rel_path func_name : string) (start_line end_line : Z) : issue :=
  let func_length := end_line - start_line in
  {| file_path := rel_path;
     issue_type := "smell";
     category := "Long Method";
     severity := if func_length >? 100 then "high" else "medium";
     title := "Function '" ++ func_name ++ "' is too long (" ++ str_int func_length
              ++ " lines)";
     description := "This function has " ++ str_int func_length
              ++ " lines of code, which exceeds the recommended maximum of 50 lines.";
     line_start := Some start_line;
     line_end := Some end_line;
     suggested_fix := "Break this function into smaller, focused functions.";
     estimated_hours := round1 (fmul (of_int (func_length - 50)) f0_05) |}.

(** The body of the loop of [_detect_long_js_functions] for one match. *)
Definition long_js_visit (content rel_path : string) (m : match_obj) : list issue :=
  let func_name := group1 m in
  let start_pos := m_start m in
  let start_line := line_of content start_pos in
  match find "{" start_pos content with
  | None => []
  | Some func_start =>
      let func_end_pos := func_end_of func_start content in
      let end_line := line_of content func_end_pos in
      let func_length := end_line - start_line in
      if func_length >? 50
      then [long_js_issue rel_path func_name start_line end_line]
      else []
  end.

Definition _detect_long_js_functions (content rel_path : string) : list issue :=
  flat_map (long_js_visit content rel_path) (finditer func_pattern content).

(** *** The long-function rule as the specification words it *)

(** The span of a declaration: the line distance from the line of the
    opening brace to the line of the closing brace that matches it. *)
Definition spec_span (content : string) (m : match_obj) : option Z :=
  match find "{" (m_start m) content with
  | None => None
  | Some open_brace =>
      match close_from 0 open_brace (drop open_brace content) with
      | None => None
      | Some close_brace => Some (line_of content close_brace - line_of content open_brace)
      end
  end.

Definition spec_long_severity (span : Z) : string :=
  if 100 <? span then "high" else "medium".

Definition spec_long_hours (span : Z) : float :=
  round1 (fmul (of_int (span - 50)) f0_05).

(** What the claim asks of the issue list, for the declarations that
    [pattern] finds: a Long Method issue for each declaration whose span
    exceeds 50, graded on the span. *)
Definition spec_long_js (pattern : regex) (content : string) (issues : list issue) : Prop :=
  forall m span,
    In m (finditer pattern content) -> spec_span content m = Some span -> 50 < span ->
    exists i, In i issues /\ issue_type i = "smell" /\ category i = "Long Method" /\
              severity i = spec_long_severity span /\
              estimated_hours i = spec_long_hours span.

(** The length that the code measures: from the line where the match
    starts to the line of the closing brace, or of the opening brace when
    no brace closes it. *)
Definition declared_length (content : string) (m : match_obj) : option Z :=
  match find "{" (m_start m) content with
  | None => None
  | Some open_brace =>
      Some (line_of content (func_end_of open_brace content)
            - line_of content (m_start m))
  end.

End JsAnalysis.

(* ================================================================== *)
(** ** Dictionaries in insertion order *)

Module Dict.

(** A [dict] with string keys: the items in insertion order, no key
    twice. *)
Definition dict (V : Type) : Type := list (string * V).

Fixpoint get {V} (d : dict V) (k : string) : option V :=
  match d with
  | [] => None
  | (k', v) :: d' => if String.eqb k k' then Some v else get d' k
  end.

(** [d[k] = v]: a key already present keeps its place. *)
Fixpoint set {V} (d : dict V) (k : string) (v : V) : dict V :=
  match d with
  | [] => [(k, v)]
  | (k', v') :: d' =>
      if String.eqb k k' then (k', v) :: d' else (k', v') :: set d' k v
  end.

(** [d[k].append(x)] on a [defaultdict(list)]. *)
Fixpoint append_to {X} (d : dict (list X)) (k : string) (x : X) : dict (list X) :=
  match d with
  | [] => [(k, [x])]
  | (k', xs) :: d' =>
      if String.eqb k k' then (k', xs ++ [x]) :: d' else (k', xs) :: append_to d' k x
  end.

Definition keys {V} (d : dict V) : list string := map fst d.

End Dict.

(* ================================================================== *)
(** ** [_detect_duplication] *)

Module Duplication.
Import PyStr.

Definition min_block_size : nat := 5.

(** [re.sub(r'\s+', ' ', s)]: every maximal run of white space becomes
    one space.  [in_run] tells that the previous character was white
    space. *)
Fixpoint collapse (in_run : bool) (s : string) : string :=
  match s with
  | EmptyString => EmptyString
  | String c s' =>
      if isspace c
      then if in_run then collapse true s' else String " " (collapse true s')
      else String c (collapse false s')
  end.

Definition normalize (block : string) : string := collapse false (strip block).

(** An occurrence [(rel_path, line)]. *)
Definition occurrence : Type := string * Z.

(** The normalized text of the window of [lines] that starts at index
    [i]. *)
Definition window (lines : list string) (i : nat) : string :=
  normalize (join nl (firstn min_block_size (skipn i lines))).

Section Hash.

Context {so : PySet.order}.

(** [hashlib.md5(s.encode()).hexdigest()]. *)
Variable md5_hexdigest : string -> string.

(** The body of the inner loop for the window at [i]. *)
Definition record_window (rel_path : string) (lines : list string)
           (code_block_hashes : Dict.dict (list occurrence)) (i : nat)
  : Dict.dict (list occurrence) :=
  let normalized := window lines i in
  if len normalized >? 50
  then Dict.append_to code_block_hashes (md5_hexdigest normalized)
                      (rel_path, Z.of_nat i + 1)
  else code_block_hashes.

(** The body of the outer loop for one file of the cache. *)
Definition record_file (code_block_hashes : Dict.dict (list occurrence))
           (item : string * string) : Dict.dict (list occurrence) :=
  let '(rel_path, content) := item in
  let lines := split nl content in
  fold_left (record_window rel_path lines)
            (seq 0 (S (List.length lines) - min_block_size))
            code_block_hashes.

Definition hash_blocks (file_contents : Dict.dict string) : Dict.dict (list occurrence) :=
  fold_left record_file file_contents [].

(** [set(f[0] for f in occurrences[:3])], as [join] lists it: the set
    is filled with the files of the first three occurrences, in their
    order. *)
Definition files_affected (occurrences : list occurrence) : list string :=
  let files := map fst (firstn 3 occurrences) in
  PySet.listing [files] (dedup files).

Definition duplication_issue (occurrences : list occurrence) : issue :=
  let first := hd (EmptyString, 0) occurrences in
  let n := Z.of_nat (List.length occurrences) in
  {| file_path := fst first;
     issue_type := "duplication";
     category := "Code Duplication";
     severity := if n >? 3 then "medium" else "low";
     title := "Duplicate code block found in " ++ str_int n ++ " locations";
     description := "This code block appears in " ++ str_int n
              ++ " different locations: " ++ join ", " (files_affected occurrences)
              ++ ". Consider extracting to a shared function.";
     line_start := Some (snd first);
     line_end := Some (snd first + Z.of_nat min_block_size);
     suggested_fix := "Extract this duplicated code into a reusable function or module.";
     estimated_hours := fmul f0_5 (of_int n) |}.

(** The body of the reporting loop: the state is [reported_hashes] and
    [issues]. *)
Definition report_step (state : list string * list issue)
           (item : string * list occurrence) : list string * list issue :=
  let '(reported_hashes, issues) := state in
  let '(block_hash, occurrences) := item in
  if (Z.of_nat (List.length occurrences) >? 1) && negb (mem block_hash reported_hashes)
  then (block_hash :: reported_hashes, issues ++ [duplication_issue occurrences])
  else state.

Definition _detect_duplication (file_contents : Dict.dict string) : list issue :=
  snd (fold_left report_step (hash_blocks file_contents) ([], [])).

(** *** The detector as the specification words it *)

(** Every window position of the corpus, in scanning order. *)
Definition corpus_windows (file_contents : Dict.dict string)
  : list (string * list string * nat) :=
  flat_map (fun item : string * string =>
              let lines := split nl (snd item) in
              map (fun i => (fst item, lines, i))
                  (seq 0 (S (List.length lines) - min_block_size)))
           file_contents.

(** The whitespace-normalized text of a window: the words of its five
    lines, joined by single spaces. *)
Definition spec_window (lines : list string) (i : nat) : string :=
  join " " (TextRules.words (join nl (firstn 5 (skipn i lines)))).

(** The windows that are kept: normalized text longer than 50
    characters; with the text, the file and the 1-based line of the
    window. *)
Definition qualifying_windows (file_contents : Dict.dict string)
  : list (string * occurrence) :=
  flat_map (fun w : string * list string * nat =>
              let '(rel_path, lines, i) := w in
              let normalized := spec_window lines i in
              if 50 <? len normalized
              then [(normalized, (rel_path, Z.of_nat i + 1))]
              else [])
           (corpus_windows file_contents).

(** The kept windows under their hash. *)
Definition hashed_windows (file_contents : Dict.dict string)
  : list (string * occurrence) :=
  map (fun p => (md5_hexdigest (fst p), snd p)) (qualifying_windows file_contents).

(** The occurrences recorded for a hash. *)
Definition occurrences_of (file_contents : Dict.dict string) (h : string)
  : list occurrence :=
  map snd (filter (fun p => String.eqb (fst p) h) (hashed_windows file_contents)).

(** What the issue reported for the occurrences of one hash must be:
    its description names the distinct files of the first three
    occurrences, in some order. *)
Definition spec_issue (occurrences : list occurrence) (i : issue) : Prop :=
  match occurrences with
  | [] => False
  | (first_file, first_line) :: _ =>
      let n := Z.of_nat (List.length occurrences) in
      issue_type i = "duplication" /\ category i = "Code Duplication" /\
      file_path i = first_file /\ line_start i = Some first_line /\
      severity i = (if 3 <? n then "medium" else "low") /\
      estimated_hours i = fmul f0_5 (of_int n) /\
      exists files,
        Permutation files (dedup (map fst (firstn 3 occurrences))) /\
        description i
        = ("This code block appears in " ++ str_int n ++ " different locations: "
           ++ join ", " files
           ++ ". Consider extracting to a shared function.")%string
  end.

End Hash.

End Duplication.

(* ================================================================== *)
(** ** The file tree *)

Module Fs.
Import PyStr.

(** A file (whether it may be opened, whether its bytes decode in the
    default encoding, and its text as [read()] returns it with decoding
    errors ignored and line ends translated), or a directory (whether it
    may be listed, and its entries in the order of [scandir]). *)
#[warnings="-register-all"]
Inductive entry : Type :=
| File (readable decodable : bool) (text : string)
| Dir (listable : bool) (entries : list (string * entry)).

Definition sep : ascii := "/".

(** [os.path.join(a, b)]. *)
Definition path_join (a b : string) : string :=
  if startswith "/" b then b
  else if String.eqb a EmptyString || endswith "/" a then a ++ b
  else a ++ "/" ++ b.

(** The components of a path after [normpath]: empty and [.] components
    dropped, [..] climbing one level.  Only [relpath] reads a path this
    way. *)
Definition norm_step (stack : list string) (c : string) : list string :=
  if String.eqb c EmptyString || String.eqb c "." then stack
  else if String.eqb c ".." then tl stack
  else c :: stack.

Definition components (path : string) : list string :=
  List.rev (fold_left norm_step (split "/" path) []).

Fixpoint child (name : string) (entries : list (string * entry)) : option entry :=
  match entries with
  | [] => None
  | (n, e) :: rest => if String.eqb name n then Some e else child name rest
  end.

(** The system resolves a path one component at a time: [up] holds the
    directories passed on the way to [e], the nearest first.  Every
    component, even an empty one, [.] or [..], needs a directory to start
    from; [..] at the root stays there. *)
Fixpoint resolve (up : list entry) (e : entry) (comps : list string) : option entry :=
  match comps with
  | [] => Some e
  | c :: cs =>
      match e with
      | Dir _ entries =>
          if String.eqb c EmptyString || String.eqb c "." then resolve up e cs
          else if String.eqb c ".." then
            match up with
            | parent :: up' => resolve up' parent cs
            | [] => resolve [] e cs
            end
          else match child c entries with
               | Some e' => resolve (e :: up) e' cs
               | None => None
               end
      | File _ _ _ => None
      end
  end.

(** A path with a null character names nothing: the calls that take it
    raise [ValueError] before the system is asked. *)
Fixpoint embedded_null (path : string) : bool :=
  match path with
  | EmptyString => false
  | String c rest => Ascii.eqb c "000"%char || embedded_null rest
  end.

(** The entry that a path names, from the root directory [fs] (which is
    also the working directory); the empty path names nothing. *)
Definition lookup (fs : entry) (path : string) : option entry :=
  if String.eqb path EmptyString || embedded_null path then None
  else resolve [] fs (split "/" path).

(** [os.path.exists]: false, too, for a path that cannot be passed to
    the system. *)
Definition exists_ (fs : entry) (path : string) : bool :=
  match lookup fs path with
  | Some _ => true
  | None => false
  end.

(** [open(path, 'r', encoding='utf-8', errors='ignore').read()]. *)
Definition read_ignore (fs : entry) (path : string) : outcome string :=
  if embedded_null path then Raised ValueError
  else match lookup fs path with
       | Some (File true _ text) => Returned text
       | _ => Raised OSError
       end.

(** [open(path, 'r').read()], decoding strictly. *)
Definition read_strict (fs : entry) (path : string) : outcome string :=
  if embedded_null path then Raised ValueError
  else match lookup fs path with
       | Some (File true true text) => Returned text
       | Some (File true false _) => Raised UnicodeDecodeError
       | _ => Raised OSError
       end.

(** [f.readlines()] on a text: the lines with their terminators. *)
Fixpoint readlines (text : string) : list string :=
  match text with
  | EmptyString => []
  | String c rest =>
      if Ascii.eqb c newline then String c EmptyString :: readlines rest
      else match readlines rest with
           | [] => [String c EmptyString]
           | l :: ls => String c l :: ls
           end
  end.

Fixpoint common_prefix (a b : list string) : nat :=
  match a, b with
  | x :: a', y :: b' => if String.eqb x y then S (common_prefix a' b') else O
  | _, _ => O
  end.

(** [os.path.relpath(path, start)]. *)
Definition relpath (path start : string) : string :=
  let start_list := components start in
  let path_list := components path in
  let i := common_prefix start_list path_list in
  match (repeat ".." (List.length start_list - i) ++ skipn i path_list)%list with
  | [] => "."
  | rel_list => join "/" rel_list
  end.

(** [s.replace("\\", "/")]. *)
Fixpoint backslash_to_slash (s : string) : string :=
  match s with
  | EmptyString => EmptyString
  | String c s' =>
      String (if Ascii.eqb c "\" then "/"%char else c) (backslash_to_slash s')
  end.

(** The extension of [os.path.splitext] for a file name: from the last
    dot on, when a character other than a dot comes before it. *)
Fixpoint ext_from (seen_other : bool) (s : string) : string :=
  match s with
  | EmptyString => EmptyString
  | String c s' =>
      let is_dot := Ascii.eqb c "." in
      match ext_from (seen_other || negb is_dot) s' with
      | EmptyString => if is_dot && seen_other then s else EmptyString
      | later => later
      end
  end.

Definition splitext_ext (name : string) : string := ext_from false name.

Definition is_dir (e : entry) : bool :=
  match e with
  | Dir _ _ => true
  | File _ _ _ => false
  end.

End Fs.

(* ================================================================== *)
(** ** [_analyze_dependencies] *)

Module Dependencies.
Import PyStr Stmt.
Local Open Scope stmt_scope.

(** The values that [json.load] builds. *)
#[warnings="-register-all"]
Inductive json : Type :=
| JNull
| JBool (b : bool)
| JNumber (n : Z)
| JString (s : string)
| JArray (items : list json)
| JObject (items : Dict.dict json).

Definition outdated_issue (package_name version : string) (line_num : Z) : issue :=
  {| file_path := "requirements.txt";
     issue_type := "dependency";
     category := "Potentially Outdated Dependency";
     severity := "low";
     title := "Package '" ++ package_name ++ "' may be outdated (v" ++ version ++ ")";
     description := "The package '" ++ package_name ++ "' is pinned to version "
              ++ version ++ ". Consider checking for updates.";
     line_start := Some line_num;
     line_end := None;
     suggested_fix := "Run 'pip list --outdated' to check for newer versions of "
              ++ package_name ++ ".";
     estimated_hours := f0_2 |}.

(** The body of the loop over [enumerate(lines, 1)]. *)
Definition requirement_line (line_num : Z) (line : string) : block unit :=
  let line := strip line in
  when (negb (String.eqb line EmptyString) && negb (startswith "#" line))
    (when (contains "==" line)
       (let package_name := strip (nth 0 (split "==" line) EmptyString) in
        let version := strip (nth 1 (split "==" line) EmptyString) in
        when (existsb (fun old => contains old version) ["0."; "1."; "2."]
              && negb (mem package_name ["python"]))
          (append (outdated_issue package_name version line_num)))).

(** [enumerate(lines, 1)]. *)
Definition enumerate1 {A} (l : list A) : list (Z * A) :=
  combine (map (fun n => Z.of_nat n) (seq 1 (List.length l))) l.

Definition flexible_issue (pkg version : string) : issue :=
  {| file_path := "package.json";
     issue_type := "dependency";
     category := "Flexible Dependency Version";
     severity := "low";
     title := "Package '" ++ pkg ++ "' uses flexible versioning (" ++ version ++ ")";
     description := "Consider pinning exact versions for production stability.";
     line_start := None;
     line_end := None;
     suggested_fix := "Run 'npm outdated' to check for updates.";
     estimated_hours := f0_1 |}.

(** [data.get(key, {})]: only a dictionary has the method. *)
Definition get_or_empty (data : json) (key : string) : outcome json :=
  match data with
  | JObject items =>
      match Dict.get items key with
      | Some v => Returned v
      | None => Returned (JObject [])
      end
  | _ => Raised AttributeError
  end.

(** [{**a, **b}]: both must be mappings. *)
Definition merge (a b : json) : outcome (Dict.dict json) :=
  match a, b with
  | JObject da, JObject db =>
      Returned (fold_left (fun d kv => Dict.set d (fst kv) (snd kv)) db da)
  | _, _ => Raised TypeError
  end.

(** [version.startswith(('^', '~'))]: only a string has the method. *)
Definition starts_flexible (version : json) : outcome bool :=
  match version with
  | JString v => Returned (startswith "^" v || startswith "~" v)
  | _ => Raised AttributeError
  end.

Section Manifests.

(** [json.load] on the text of a file. *)
Variable json_load : string -> outcome json.

Variable fs : Fs.entry.

Definition requirements_block (requirements_file : string) : block unit :=
  lines <- eval (obind (Fs.read_strict fs requirements_file)
                       (fun text => Returned (Fs.readlines text))) ;;
  for_each (enumerate1 lines) (fun nl => requirement_line (fst nl) (snd nl)).

Definition package_json_block (package_json : string) : block unit :=
  data <- eval (obind (Fs.read_strict fs package_json) json_load) ;;
  dependencies <- eval (get_or_empty data "dependencies") ;;
  devDependencies <- eval (get_or_empty data "devDependencies") ;;
  deps <- eval (merge dependencies devDependencies) ;;
  for_each deps (fun item =>
    let pkg := fst item in
    flexible <- eval (starts_flexible (snd item)) ;;
    when flexible
      (append (flexible_issue pkg match snd item with
                                  | JString v => v
                                  | _ => EmptyString
                                  end))).

Definition _analyze_dependencies (project_path : string) : list issue :=
  issues_of (
    let requirements_file := Fs.path_join project_path "requirements.txt" in
    when (Fs.exists_ fs requirements_file)
      (try_except (requirements_block requirements_file)) ;;;
    let package_json := Fs.path_join project_path "package.json" in
    when (Fs.exists_ fs package_json)
      (try_except (package_json_block package_json))).

End Manifests.

(** *** The Python manifest rule as the specification words it *)

(** The lines of the manifest: the pieces of its text between line
    feeds, the first being line 1. *)
Definition manifest_lines (text : string) : list (Z * string) :=
  enumerate1 (split nl text).

(** A line to look at: not blank, not a comment, with [==] in it. *)
Definition pinned (line : string) : bool :=
  negb (String.eqb (strip line) EmptyString)
  && negb (startswith "#" (strip line))
  && contains "==" (strip line).

Definition spec_package (line : string) : string :=
  strip (nth 0 (split "==" (strip line)) EmptyString).

Definition spec_version (line : string) : string :=
  strip (nth 1 (split "==" (strip line)) EmptyString).

Definition legacy_major (version : string) : bool :=
  contains "0." version || contains "1." version || contains "2." version.

(** What a line of the Python manifest calls for. *)
Definition spec_requirement (nl : Z * string) : list issue :=
  let '(line_num, line) := nl in
  if pinned line && legacy_major (spec_version line)
     && negb (String.eqb (spec_package line) "python")
  then [outdated_issue (spec_package line) (spec_version line) line_num]
  else [].

End Dependencies.

(* ================================================================== *)
(** ** [_calculate_scores] *)

Module Scores.

Record scores : Type := mk_scores {
  overall : Z;
  complexity : Z;
  duplication : Z;
  dependency : Z
}.

(** The [if]/[elif]/[else] chain of the penalty loop. *)
Definition severity_penalty (sev : string) : Z :=
  if String.eqb sev "critical" then 15
  else if String.eqb sev "high" then 10
  else if String.eqb sev "medium" then 5
  else 2.

(** The inner function [calc_category_score], closed over
    [files_analyzed]. *)
Definition calc_category_score (files_analyzed : Z) (category_issues : list issue)
  : outcome Z :=
  match category_issues with
  | [] => Returned 100
  | _ =>
      let penalty :=
        fold_left (fun penalty i => penalty + severity_penalty (severity i))
                  category_issues 0 in
      obind (int_truediv penalty (Z.max files_analyzed 1)) (fun penalty_per_file =>
      obind (to_int (fmul penalty_per_file (of_int 10))) (fun n =>
      Returned (Z.max 0 (100 - n))))
  end.

Definition of_type (t : string) (issues : list issue) : list issue :=
  filter (fun i => String.eqb (issue_type i) t) issues.

Definition _calculate_scores (issues : list issue) (files_analyzed : Z)
  : outcome scores :=
  if files_analyzed =? 0 then Returned (mk_scores 100 100 100 100)
  else
    let complexity_issues := of_type "complexity" issues in
    let duplication_issues := of_type "duplication" issues in
    let dependency_issues := of_type "dependency" issues in
    let smell_issues := of_type "smell" issues in
    let architecture_issues := of_type "architecture" issues in
    let all_complexity := complexity_issues ++ smell_issues ++ architecture_issues in
    obind (calc_category_score files_analyzed all_complexity) (fun complexity_score =>
    obind (calc_category_score files_analyzed duplication_issues) (fun duplication_score =>
    obind (calc_category_score files_analyzed dependency_issues) (fun dependency_score =>
    obind (to_int (fadd (fadd (fmul (of_int complexity_score) f0_4)
                              (fmul (of_int duplication_score) f0_3))
                        (fmul (of_int dependency_score) f0_3))) (fun overall_score =>
    Returned (mk_scores overall_score complexity_score duplication_score
                        dependency_score))))).

(** *** The score model as the specification words it *)

Definition severity_weight (sev : string) : Z :=
  if String.eqb sev "critical" then 15
  else if String.eqb sev "high" then 10
  else if String.eqb sev "medium" then 5
  else 2.

Definition in_bucket (types : list string) (i : issue) : bool :=
  existsb (String.eqb (issue_type i)) types.

Definition spec_bucket_score (files_analyzed : Z) (bucket : list issue) : outcome Z :=
  if (List.length bucket =? 0)%nat then Returned 100
  else
    let penalty := Zsum (map (fun i => severity_weight (severity i)) bucket) in
    obind (int_truediv penalty (Z.max files_analyzed 1)) (fun penalty_per_file =>
    obind (floor (fmul penalty_per_file (of_int 10))) (fun n =>
    Returned (Z.max 0 (100 - n)))).

Definition spec_scores (issues : list issue) (files_analyzed : Z) : outcome scores :=
  if files_analyzed =? 0 then Returned (mk_scores 100 100 100 100)
  else
    obind (spec_bucket_score files_analyzed
             (filter (in_bucket ["complexity"; "smell"; "architecture"]) issues))
          (fun c =>
    obind (spec_bucket_score files_analyzed (filter (in_bucket ["duplication"]) issues))
          (fun d =>
    obind (spec_bucket_score files_analyzed (filter (in_bucket ["dependency"]) issues))
          (fun e =>
    obind (floor (fadd (fadd (fmul (of_int c) f0_4) (fmul (of_int d) f0_3))
                       (fmul (of_int e) f0_3))) (fun o =>
    Returned (mk_scores o c d e))))).

Definition valid_score (n : Z) : Prop := 0 <= n <= 100.

Definition valid_scores (s : scores) : Prop :=
  valid_score (overall s) /\ valid_score (complexity s) /\
  valid_score (duplication s) /\ valid_score (dependency s).

End Scores.

(* ================================================================== *)
(** ** [TechnicalDebtAnalyzer] *)

Module Analyzer.
Import PyStr.

Definition exclude_dirs : list string :=
  [".git"; "venv"; "__pycache__"; "node_modules"; ".next"; "dist"; "build"; "coverage"].

Definition code_extensions : list string :=
  [".py"; ".js"; ".ts"; ".tsx"; ".jsx"; ".java"; ".cpp"; ".c"; ".cs"; ".go"; ".rb"; ".php"].

(** The report dictionary that [analyze_project] returns. *)
Record report : Type := mk_report {
  overall_score : Z;
  complexity_score : Z;
  duplication_score : Z;
  dependency_score : Z;
  total_issues : Z;
  critical_issues : Z;
  estimated_hours_total : float;
  issues : list issue;
  files_analyzed : Z
}.

Definition is_js (abs_path : string) : bool :=
  endswith ".js" abs_path || endswith ".ts" abs_path
  || endswith ".tsx" abs_path || endswith ".jsx" abs_path.

Definition mentions_test (name : string) : bool :=
  contains "test" (lower name) || contains "spec" (lower name).

Section Run.

Context {so : PySet.order}.

Variable ast_parse : string -> outcome PyAst.node.
Variable md5_hexdigest : string -> string.
Variable json_load : string -> outcome Dependencies.json.

(** The file tree at the time of the call. *)
Variable fs : Fs.entry.

(** [_analyze_complexity]. *)
Definition _analyze_complexity (content rel_path abs_path : string) : list issue :=
  if endswith ".py" abs_path
  then PyAnalysis._analyze_python_complexity ast_parse content rel_path
  else if is_js abs_path
  then JsAnalysis._analyze_js_complexity content rel_path
  else [].

(** [_detect_code_smells]. *)
Definition _detect_code_smells (content rel_path abs_path : string) : list issue :=
  if endswith ".py" abs_path
  then PyAnalysis._detect_long_python_functions ast_parse content rel_path
       ++ PyAnalysis._detect_unused_python_variables ast_parse content rel_path
  else if is_js abs_path
  then JsAnalysis._detect_long_js_functions content rel_path
  else [].

Section Collect.

Variable project_path : string.
Variable include_tests : bool.
Variable max_depth : Z.

(** The files of one directory that the loop [for file in files] keeps. *)
Definition collect_file (root file : string) : list string :=
  let ext := lower (Fs.splitext_ext file) in
  if mem ext code_extensions
  then if negb include_tests && mentions_test file
       then []
       else [Fs.path_join root file]
  else [].

(** The sub-directories left in [dirs] after the two filters. *)
Definition keep_dir (d : string) : bool :=
  negb (mem d exclude_dirs) && (include_tests || negb (mentions_test d)).

(** [_collect_code_files]: the loop over [os.walk(project_path)], top
    down; [root] is the path of the directory [e].  Nothing is yielded
    for what is not a directory that can be listed. *)
Fixpoint collect_from (root : string) (e : Fs.entry) : list string :=
  match e with
  | Fs.Dir true entries =>
      let depth := count_char Fs.sep (drop (String.length project_path) root) in
      if depth >=? max_depth then []
      else
        let files := map fst (filter (fun ne => negb (Fs.is_dir (snd ne))) entries) in
        flat_map (collect_file root) files
        ++ (fix walk_dirs (l : list (string * Fs.entry)) : list string :=
              match l with
              | [] => []
              | (d, sub) :: l' =>
                  (if Fs.is_dir sub && keep_dir d
                   then collect_from (Fs.path_join root d) sub
                   else [])
                  ++ walk_dirs l'
              end) entries
  | _ => []
  end.

(** The walk from the top: nothing for a top that is missing or cannot
    be listed ([os.walk] passes over the [OSError] of [scandir]). *)
Definition walk_top : list string :=
  match Fs.lookup fs project_path with
  | Some top => collect_from project_path top
  | None => []
  end.

(** [_collect_code_files]: [os.walk] is called outside every [try], and
    the [ValueError] that [scandir] raises for a path with a null
    character is not an [OSError]: it leaves the function. *)
Definition _collect_code_files : outcome (list string) :=
  if Fs.embedded_null project_path then Raised ValueError
  else Returned walk_top.

End Collect.

(** The relative path under which a file is cached and reported. *)
Definition rel_path_of (project_path file_path : string) : string :=
  Fs.backslash_to_slash (Fs.relpath file_path project_path).

(** First pass, one file: the cache after the [try] statement. *)
Definition load_file (project_path : string) (file_contents : Dict.dict string)
           (file_path : string) : Dict.dict string :=
  match Fs.read_ignore fs file_path with
  | Returned content => Dict.set file_contents (rel_path_of project_path file_path) content
  | Raised _ => file_contents
  end.

(** Second pass, one file: what is appended to [all_issues]. *)
Definition analyze_file (project_path : string) (file_contents : Dict.dict string)
           (file_path : string) : list issue :=
  let rel_path := rel_path_of project_path file_path in
  let content := match Dict.get file_contents rel_path with
                 | Some c => c
                 | None => EmptyString
                 end in
  _analyze_complexity content rel_path file_path
  ++ _detect_code_smells content rel_path file_path.

(** The files to analyse: [if specific_files:] is false for [None] and
    for the empty list. *)
Definition code_files_of (project_path : string) (include_tests : bool) (max_depth : Z)
           (specific_files : option (list string)) : outcome (list string) :=
  match specific_files with
  | Some (f :: fs') =>
      Returned (filter (Fs.exists_ fs) (map (Fs.path_join project_path) (f :: fs')))
  | _ => _collect_code_files project_path include_tests max_depth
  end.

Definition all_issues_of (project_path : string) (code_files : list string)
  : list issue :=
  let file_contents := fold_left (load_file project_path) code_files [] in
  flat_map (analyze_file project_path file_contents) code_files
  ++ Duplication._detect_duplication md5_hexdigest file_contents
  ++ Dependencies._analyze_dependencies json_load fs project_path.

(** [sum(i.get("estimated_hours", 0) for i in all_issues)]. *)
Definition sum_hours (l : list issue) : float :=
  fold_left (fun acc i => fadd acc (estimated_hours i)) l (of_int 0).

Definition analyze_project (project_path : string) (include_tests : bool)
           (max_depth : Z) (specific_files : option (list string)) : outcome report :=
  obind (code_files_of project_path include_tests max_depth specific_files)
        (fun code_files =>
  let all_issues := all_issues_of project_path code_files in
  let files_analyzed := Z.of_nat (List.length code_files) in
  obind (Scores._calculate_scores all_issues files_analyzed) (fun scores =>
  Returned
    {| overall_score := Scores.overall scores;
       complexity_score := Scores.complexity scores;
       duplication_score := Scores.duplication scores;
       dependency_score := Scores.dependency scores;
       total_issues := Z.of_nat (List.length all_issues);
       critical_issues :=
         Z.of_nat (List.length
                     (filter (fun i => String.eqb (severity i) "critical") all_issues));
       estimated_hours_total := sum_hours all_issues;
       issues := all_issues;
       files_analyzed := files_analyzed |})).

End Run.

End Analyzer.

(* ================================================================== *)
(** ** Predicates used to state facts on rounding *)

Module FloatSpec.

(** What rounding does to [mx * 2^ex < 2^B]: the sign is kept, the
    exponent only grows, up to [max ex (B - 52)] at most; the result
    stays at or below [2^B] and exceeds the exact quantity by at most one
    unit of the exponent that [B] selects.  Overflow needs an exponent
    bound above [emax - prec = 971]. *)
Definition round_post (s : bool) (mx ex B : Z) (r : float) : Prop :=
  match r with
  | S754_zero s' => s' = s
  | S754_finite s' m e =>
      s' = s /\ ex <= e /\ -1074 <= e /\ e <= Z.max ex (Z.max (B - 52) (-1074)) /\
      e <= B /\ Zpos m <= 2 ^ (B - e) /\
      Zpos m * 2 ^ (e - ex) <= mx + 2 ^ (Z.max ex (Z.max (B - 53) (-1074)) - ex)
  | S754_infinity s' => s' = s /\ 971 < Z.max ex (Z.max (B - 52) (-1074))
  | S754_nan => False
  end.

(** [x] is a non-negative finite double of value at most [X * 2^-1074]. *)
Definition below (X : Z) (x : float) : Prop :=
  match x with
  | S754_zero _ => True
  | S754_finite false m e => -1074 <= e /\ Zpos m * 2 ^ (e + 1074) <= X
  | _ => False
  end.

Definition belowb (X : Z) (x : float) : bool :=
  match x with
  | S754_zero _ => true
  | S754_finite false m e => (-1074 <=? e) && (Zpos m * 2 ^ (e + 1074) <=? X)
  | _ => false
  end.

(** A float that is neither negative nor NaN. *)
Definition signless (x : float) : Prop :=
  match x with
  | S754_zero _ | S754_finite false _ _ | S754_infinity false => True
  | _ => False
  end.

End FloatSpec.

(* ================================================================== *)
(** ** Measures on syntax trees *)

Module AstSpec.
Import PyAst PyAnalysis.

(** The number of nodes of a forest. *)
Definition sizes (l : list node) : nat := list_sum (map size l).

(** What one visited node adds to the complexity. *)
Definition contribution (n : node) : Z :=
  (if is_branch n then 1 else 0) + (if is_handler n then 1 else 0) + boolop_extra n.

End AstSpec.

(* ================================================================== *)
(** ** What a block of statements appends *)

Module StmtSpec.
Import Stmt.

(** Whatever the entry list, [m] leaves it in place and appends only
    issues that satisfy [P]. *)
Definition appends (P : issue -> Prop) {A} (m : block A) : Prop :=
  forall issues, exists extra, snd (m issues) = issues ++ extra /\ Forall P extra.

(** [m] returns normally and appends exactly [extra]. *)
Definition appends_exactly {A} (m : block A) (a : A) (extra : list issue) : Prop :=
  forall issues, m issues = (Returned a, issues ++ extra).

End StmtSpec.

(* ================================================================== *)
(** ** Reading a table of occurrences *)

Module DictSpec.

(** The list stored under [h], empty when [h] is not a key. *)
Definition occ_list {X} (d : Dict.dict (list X)) (h : string) : list X :=
  match Dict.get d h with
  | Some l => l
  | None => []
  end.

(** [d[fst p].append(snd p)]. *)
Definition append_pair {X} (d : Dict.dict (list X)) (p : string * X) : Dict.dict (list X) :=
  Dict.append_to d (fst p) (snd p).

(** An item of the table that is reported: more than one occurrence. *)
Definition repeated {X} (item : string * list X) : bool :=
  (1 <? List.length (snd item))%nat.

(** No key of the table has an empty list. *)
Definition inhabited {X} (d : Dict.dict (list X)) : Prop :=
  forall h, Dict.get d h <> Some [].

End DictSpec.

(* ================================================================== *)
(** ** Well-formed issues *)

(** The invariant of the data model: a severity of the fixed set, a
    non-negative estimate, and an issue type that is one (and, the list
    having no repetition, only one) of the five. *)
Definition well_formed (i : issue) : Prop :=
  In (severity i) severities /\
  nonneg (estimated_hours i) /\
  count_occ string_dec issue_types (issue_type i) = 1%nat.

(* ================================================================== *)
(** ** Texts and patterns without a given character *)

Module TextSpec.
Import PyStr Re.

(** [c in s] for one character. *)
Fixpoint occurs (c : ascii) (s : string) : bool :=
  match s with
  | EmptyString => false
  | String d s' => Ascii.eqb c d || occurs c s'
  end.

(** No text that [r] matches contains [c]. *)
Fixpoint avoids (c : ascii) (r : regex) : bool :=
  match r with
  | Chars p => negb (p c)
  | Lit l => negb (occurs c l)
  | Seq r1 r2 | Alt r1 r2 => avoids c r1 && avoids c r2
  | Star _ p => negb (p c)
  | Group r1 => avoids c r1
  | WordBoundary => true
  end.

(** The continuation that ends a match. *)
Definition finish : @cont (list string * string) :=
  fun _ rest caps => Some (caps, rest).

(** The text consumed before the continuation that succeeded: it does
    not contain [c]. *)
Definition consumed (c : ascii) {R : Type} (s : string) (k : @cont R) (x : R) : Prop :=
  exists w s' prev' caps',
    s = (w ++ s')%string /\ occurs c w = false /\ k prev' s' caps' = Some x.

End TextSpec.

(* ================================================================== *)
(** ** Lines and their terminators *)

Module LinesSpec.
Import PyStr.

(** The pieces of a text between line feeds, each with its line feed
    put back; a last piece that is empty is no line. *)
Fixpoint with_ends (pieces : list string) : list string :=
  match pieces with
  | [] => []
  | [q] => if String.eqb q EmptyString then [] else [q]
  | q :: qs => (q ++ nl)%string :: with_ends qs
  end.

(** [enumerate(l, start)]. *)
Definition enumerate_from {A} (start : nat) (l : list A) : list (Z * A) :=
  combine (map (fun n => Z.of_nat n) (seq start (List.length l))) l.

End LinesSpec.
(* ================================================================== *)
(** ** The kinds of issue that the detectors build *)

Module IssueKinds.
Import PyStr.

(** [version.startswith(('^', '~'))] on a string. *)
Definition flexible (version : string) : bool :=
  startswith "^" version || startswith "~" version.

(** An issue of the per-file detectors for the file reported as
    [rel_path], with what the guard of its [if] statement tells. *)
Inductive per_file (rel_path : string) : issue -> Prop :=
| pf_complexity name lineno end_lineno c :
    15 < c ->
    per_file rel_path (PyAnalysis.complexity_issue rel_path name lineno end_lineno c)
| pf_god_object name lineno end_lineno method_count :
    20 < method_count ->
    per_file rel_path (PyAnalysis.god_object_issue rel_path name lineno end_lineno
                                                   method_count)
| pf_long_function name lineno end_lineno :
    50 < end_lineno - lineno ->
    per_file rel_path (PyAnalysis.long_function_issue rel_path name lineno end_lineno)
| pf_unused name lineno unused :
    unused <> [] ->
    per_file rel_path (PyAnalysis.unused_issue rel_path name lineno unused)
| pf_js_complexity func_name line_num c :
    15 < c -> 1 <= line_num ->
    per_file rel_path (JsAnalysis.js_complexity_issue rel_path func_name line_num c)
| pf_long_js func_name start_line end_line :
    1 <= start_line -> 50 < end_line - start_line ->
    per_file rel_path (JsAnalysis.long_js_issue rel_path func_name start_line end_line).

(** An issue of a run over the files reported as [files]: a per-file
    issue of one of them, a duplication among them, or an issue of one of
    the two manifests. *)
Inductive reported {so : PySet.order} (files : list string) : issue -> Prop :=
| rp_file rel_path i :
    In rel_path files -> per_file rel_path i -> reported files i
| rp_duplication first second others :
    Forall (fun o : Duplication.occurrence => In (fst o) files /\ 1 <= snd o)
           (first :: second :: others) ->
    reported files (Duplication.duplication_issue (first :: second :: others))
| rp_outdated package_name version line_num :
    1 <= line_num ->
    reported files (Dependencies.outdated_issue package_name version line_num)
| rp_flexible pkg version :
    flexible version = true ->
    reported files (Dependencies.flexible_issue pkg version).

(** The severities that an issue type can carry. *)
Definition severities_of_type (t : string) : list string :=
  if String.eqb t "complexity" then ["critical"; "high"; "medium"]
  else if String.eqb t "architecture" then ["high"]
  else if String.eqb t "smell" then ["high"; "medium"; "low"]
  else if String.eqb t "duplication" then ["medium"; "low"]
  else if String.eqb t "dependency" then ["low"]
  else [].

(** The manifests that dependency issues name. *)
Definition manifests : list string := ["requirements.txt"; "package.json"].

End IssueKinds.

(* ================================================================== *)
(** ** Reading function and class nodes *)

Module PyRules.
Import PyAst PyStr.

(** The name and the line numbers of a function node. *)
Definition function_header (n : node) : option (string * Z * option Z) :=
  match n with
  | FunctionDef name lineno end_lineno _
  | AsyncFunctionDef name lineno end_lineno _ => Some (name, lineno, end_lineno)
  | _ => None
  end.

(** The number of function definitions among the statements of a class
    body. *)
Definition direct_methods (body : list node) : Z :=
  Z.of_nat (List.length (filter is_function body)).

(** [v] is assigned, and [v] is read, somewhere below [n]. *)
Definition stored (v : string) (n : node) : Prop := In (Name v Store) (subtree n).
Definition loaded (v : string) (n : node) : Prop := In (Name v Load) (subtree n).

(** Every boolean operator below [n] has an operand, as in the trees
    that the parser builds. *)
Definition operands_present (n : node) : Prop :=
  forall op values, In (BoolOp op values) (subtree n) -> values <> [].

End PyRules.

(* ================================================================== *)
(** ** Reading the Node manifest *)

Module ManifestRules.
Import PyStr Dependencies.

(** [{**data.get('dependencies', {}), **data.get('devDependencies', {})}]. *)
Definition package_deps (data : json) : outcome (Dict.dict json) :=
  obind (get_or_empty data "dependencies") (fun dependencies =>
  obind (get_or_empty data "devDependencies") (fun devDependencies =>
  merge dependencies devDependencies)).

(** The entries of [deps] before the first one whose version is not a
    string, with their versions. *)
Fixpoint string_versions (deps : Dict.dict json) : list (string * string) :=
  match deps with
  | (pkg, JString version) :: rest => (pkg, version) :: string_versions rest
  | _ => []
  end.

(** The issues that a list of packages and versions calls for. *)
Definition flexible_issues (versions : list (string * string)) : list issue :=
  map (fun pv => flexible_issue (fst pv) (snd pv))
      (filter (fun pv => IssueKinds.flexible (snd pv)) versions).

(** What the Python manifest contributes: the issues of its lines when
    it can be read, nothing otherwise. *)
Definition requirements_part (fs : Fs.entry) (project_path : string) : list issue :=
  match Fs.read_strict fs (Fs.path_join project_path "requirements.txt") with
  | Returned text => flat_map spec_requirement (manifest_lines text)
  | Raised _ => []
  end.

(** What the Node manifest contributes: nothing when it cannot be read,
    is not JSON, or its two sections do not merge; otherwise the issues
    of the packages that come before the first version that is not a
    string. *)
Definition package_part (json_load : string -> outcome json) (fs : Fs.entry)
           (project_path : string) : list issue :=
  match obind (Fs.read_strict fs (Fs.path_join project_path "package.json")) json_load with
  | Returned data =>
      match package_deps data with
      | Returned deps => flexible_issues (string_versions deps)
      | Raised _ => []
      end
  | Raised _ => []
  end.

End ManifestRules.

(* ================================================================== *)
(** ** What the scores look at *)

Module ScoreRules.

(** The two fields of an issue that the score calculator reads. *)
Definition kind (i : issue) : string * string := (issue_type i, severity i).

(** The weighted sum of three scores, computed as the source does. *)
Definition weighted (c d e : Z) : outcome Z :=
  to_int (fadd (fadd (fmul (of_int c) f0_4) (fmul (of_int d) f0_3))
               (fmul (of_int e) f0_3)).

End ScoreRules.

(* ================================================================== *)
(** ** Files below a directory *)

Module WalkRules.
Import PyStr.

(** A name of a directory entry: not empty, without separator. *)
Definition plain (name : string) : bool :=
  negb (String.eqb name EmptyString) && negb (TextSpec.occurs Fs.sep name).

(** Every directory of the tree has a plain name. *)
Fixpoint plain_dirs (e : Fs.entry) : bool :=
  match e with
  | Fs.File _ _ _ => true
  | Fs.Dir _ entries =>
      (fix all (l : list (string * Fs.entry)) : bool :=
         match l with
         | [] => true
         | (name, sub) :: l' =>
             (negb (Fs.is_dir sub) || plain name) && plain_dirs sub && all l'
         end) entries
  end.

(** [file] is a file of the directory reached from [e] through the
    directories [dirs], all of which can be listed. *)
Fixpoint located (dirs : list string) (e : Fs.entry) (file : string) : Prop :=
  match e with
  | Fs.Dir true entries =>
      match dirs with
      | [] => exists x, In (file, x) entries /\ Fs.is_dir x = false
      | d :: ds =>
          exists sub, In (d, sub) entries /\ Fs.is_dir sub = true /\ located ds sub file
      end
  | _ => False
  end.

(** A file name that the walk keeps: a code extension, and no mention of
    tests when tests are left out. *)
Definition admitted (include_tests : bool) (file : string) : bool :=
  mem (lower (Fs.splitext_ext file)) Analyzer.code_extensions
  && (include_tests || negb (Analyzer.mentions_test file)).

(** The path of [file] in the directory reached from [root] through
    [dirs], as the walk builds it. *)
Definition path_below (root : string) (dirs : list string) (file : string) : string :=
  Fs.path_join (fold_left Fs.path_join dirs root) file.

(** A path that is not empty and does not end with the separator. *)
Definition open_ended (path : string) : bool :=
  negb (String.eqb path EmptyString) && negb (endswith "/" path).

(** The entry reached from [e] by following the names one by one, each
    looked up in the directory that the one before it named. *)
Fixpoint descend (e : Fs.entry) (names : list string) : option Fs.entry :=
  match names with
  | [] => Some e
  | name :: rest =>
      match e with
      | Fs.Dir _ entries =>
          match Fs.child name entries with
          | Some sub => descend sub rest
          | None => None
          end
      | Fs.File _ _ _ => None
      end
  end.

(** A root that gives the walk nothing to list: a path that names
    nothing, a file, or a directory that cannot be listed. *)
Definition unlistable (fs : Fs.entry) (path : string) : bool :=
  match Fs.lookup fs path with
  | Some (Fs.Dir true _) => false
  | _ => true
  end.

End WalkRules.

(* ================================================================== *)
(** ** Names of directory entries *)

Module NameRules.
Import PyStr.

(** A name that a directory can hold: plain, and neither [.] nor [..]. *)
Definition regular (name : string) : bool :=
  WalkRules.plain name && negb (String.eqb name ".") && negb (String.eqb name "..").

(** Every entry of the tree has a regular name. *)
Fixpoint regular_names (e : Fs.entry) : bool :=
  match e with
  | Fs.File _ _ _ => true
  | Fs.Dir _ entries =>
      (fix all (l : list (string * Fs.entry)) : bool :=
         match l with
         | [] => true
         | (name, sub) :: l' => regular name && regular_names sub && all l'
         end) entries
  end.

End NameRules.

(* ================================================================== *)
(** ** Scores in integer arithmetic *)

Module ExactRules.

(** The penalty that the loop of [calc_category_score] adds up. *)
Definition penalty_of (category_issues : list issue) : Z :=
  Zsum (map (fun i => Scores.severity_penalty (severity i)) category_issues).

(** The score of a category in integer arithmetic: 100 less ten times
    the penalty per file, rounded down, and not below 0. *)
Definition category_points (files_analyzed : Z) (category_issues : list issue) : Z :=
  Z.max 0 (100 - (10 * penalty_of category_issues) / Z.max files_analyzed 1).

(** The tenths [k / 10] as the division computes them with the scale
    [2^s], when the scaled quotient has 53 or 54 bits: ten times the
    double has the integer part [k]. *)
Definition tenth_ok (k s : Z) : bool :=
  let a := k * 2 ^ s in
  negb ((2 ^ 52 <=? a / 10) && (a / 10 <? 2 ^ 54))
  || match to_int (fmul (binary_round_aux prec emax false (a / 10) (- s)
                                          (new_location 10 (a mod 10)))
                        (of_int 10)) with
     | Returned n => n =? k
     | Raised _ => false
     end.

Definition tenths_ok : bool :=
  forallb (fun k => forallb (fun s => tenth_ok (Z.of_nat k) (Z.of_nat s)) (seq 49 9))
          (seq 1 99).

(** [x] is a non-negative finite double of value at least
    [X * 2^-1074]. *)
Definition above (X : Z) (x : float) : Prop :=
  match x with
  | S754_zero _ => X <= 0
  | S754_finite false m e => -1074 <= e /\ X <= Zpos m * 2 ^ (e + 1074)
  | _ => False
  end.

Definition aboveb (X : Z) (x : float) : bool :=
  match x with
  | S754_zero _ => X <=? 0
  | S754_finite false m e => (-1074 <=? e) && (X <=? Zpos m * 2 ^ (e + 1074))
  | _ => false
  end.

End ExactRules.

(* ================================================================== *)
(** ** Sample inputs *)

Module Samples.

(** Two ways of listing a set: as its elements were first added, and the
    other way round. *)
Definition first_added : PySet.order :=
  {| PySet.listing := fun _ elements => elements;
     PySet.listing_perm := fun _ elements => Permutation_refl elements |}.

Definition last_added : PySet.order :=
  {| PySet.listing := fun _ elements => List.rev elements;
     PySet.listing_perm := fun _ elements => Permutation_sym (Permutation_rev elements) |}.

Definition plain_issue (ty sev : string) : issue :=
  mk_issue "a.py" ty EmptyString sev EmptyString EmptyString None None EmptyString f0_1.

(** Ten files; complexity penalties of 105, duplication penalties of 99
    and dependency penalties of 91. *)
Definition scored_issues : list issue :=
  repeat (plain_issue "complexity" "critical") 7
  ++ repeat (plain_issue "duplication" "critical") 6
  ++ [plain_issue "duplication" "medium"; plain_issue "duplication" "low";
      plain_issue "duplication" "low"]
  ++ repeat (plain_issue "dependency" "critical") 5
  ++ [plain_issue "dependency" "high"; plain_issue "dependency" "low";
      plain_issue "dependency" "low"; plain_issue "dependency" "low"].

(** [def f(a, b, c): if a and b and c: pass]. *)
Definition if_and_function : PyAst.node :=
  PyAst.FunctionDef "f" 1 (Some 3)
    [ PyAst.Other [PyAst.Other []; PyAst.Other []; PyAst.Other []];
      PyAst.If
        [ PyAst.BoolOp PyAst.And
            [ PyAst.Name "a" PyAst.Load; PyAst.Name "b" PyAst.Load;
              PyAst.Name "c" PyAst.Load ];
          PyAst.Other [] ] ].

(** A function whose body is a chain of [k] plain [if] statements. *)
Definition ifs_function (k : nat) : PyAst.node :=
  PyAst.FunctionDef "g" 1 (Some (Z.of_nat k + 1))
    (PyAst.Other [] :: repeat (PyAst.If [PyAst.Name "x" PyAst.Load; PyAst.Other []]) k).

Definition sample_module : PyAst.node :=
  PyAst.Module_ [if_and_function; ifs_function 14; ifs_function 15].

(** A parser that knows one source text. *)
Definition sample_parse (content : string) : outcome PyAst.node :=
  if String.eqb content "sample" then Returned sample_module else Raised SyntaxError.

(** A project directory [/proj] with a Python manifest. *)
Definition requirements_text : string :=
  "# pinned" ++ PyStr.nl ++ "flask==1.1.2" ++ PyStr.nl ++ PyStr.nl
  ++ "python==3.11" ++ PyStr.nl ++ "requests>=2.0" ++ PyStr.nl.

Definition manifest_fs : Fs.entry :=
  Fs.Dir true
    [("proj", Fs.Dir true [("requirements.txt", Fs.File true true requirements_text)])].

(** A [json.load] that fails on every text. *)
Definition no_json (text : string) : outcome Dependencies.json := Raised JSONDecodeError.

(** A block of five lines, and a corpus of three files that consist of
    it. *)
Definition block_text : string :=
  "def compute_total(items):" ++ PyStr.nl
  ++ "    total = 0" ++ PyStr.nl
  ++ "    for item in items:" ++ PyStr.nl
  ++ "        total += item.price" ++ PyStr.nl
  ++ "    return total".

Definition block_normalized : string :=
  "def compute_total(items): total = 0 for item in items: total += item.price return total".

Definition three_files : Dict.dict string :=
  [("a.py", block_text); ("b.py", block_text); ("c.py", block_text)].

(** [n] line ends. *)
Definition newlines (n : nat) : string := String.concat EmptyString (repeat PyStr.nl n).

(** An arrow function bound with [keyword], its braces [n] lines apart. *)
Definition arrow_function (keyword : string) (n : nat) : string :=
  keyword ++ " f = () => {" ++ newlines n ++ "}".

(** The same with the keyword alone on the line before the name. *)
Definition split_declaration (keyword : string) (n : nat) : string :=
  keyword ++ PyStr.nl ++ "f = () => {" ++ newlines n ++ "}".

(** A project [/proj]: a Python file that parses, one that does not, a
    JavaScript file with a function of 60 lines, both manifests (the Node
    one is not JSON), and two directories that the walk treats
    specially. *)
Definition project_fs : Fs.entry :=
  Fs.Dir true
    [("proj",
      Fs.Dir true
        [("a.py", Fs.File true true "sample");
         ("bad.py", Fs.File true true "def (");
         ("app.js", Fs.File true true (arrow_function "const" 60));
         ("requirements.txt", Fs.File true true requirements_text);
         ("package.json", Fs.File true true "{not json");
         ("node_modules", Fs.Dir true [("x.js", Fs.File true true "let y = 1")]);
         ("tests", Fs.Dir true [("test_a.py", Fs.File true true "sample")])])].

Definition plain_hash (s : string) : string := s.

(** A path that no system call accepts: it holds a null character. *)
Definition null_path : string := "/proj" ++ String "000"%char "x".

End Samples.
(* ================================================================== *)
(** ** Further sample inputs *)

Module Fixtures.

(** [def outer(): x = 0; def inner(): tmp = 1; if x: pass; return x]. *)
Definition inner_function : PyAst.node :=
  PyAst.FunctionDef "inner" 3 (Some 6)
    [ PyAst.Other [];
      PyAst.Other [PyAst.Name "tmp" PyAst.Store; PyAst.Other []];
      PyAst.If [PyAst.Name "x" PyAst.Load; PyAst.Other []] ].

Definition outer_function : PyAst.node :=
  PyAst.FunctionDef "outer" 1 (Some 7)
    [ PyAst.Other [];
      PyAst.Other [PyAst.Name "x" PyAst.Store; PyAst.Other []];
      inner_function;
      PyAst.Other [PyAst.Name "x" PyAst.Load] ].

(** [def scratch(): alpha = 1; beta = 2; gamma = 3; delta = 4]. *)
Definition scratch_function : PyAst.node :=
  PyAst.FunctionDef "scratch" 1 (Some 5)
    [ PyAst.Other [];
      PyAst.Other [PyAst.Name "alpha" PyAst.Store; PyAst.Other []];
      PyAst.Other [PyAst.Name "beta" PyAst.Store; PyAst.Other []];
      PyAst.Other [PyAst.Name "gamma" PyAst.Store; PyAst.Other []];
      PyAst.Other [PyAst.Name "delta" PyAst.Store; PyAst.Other []] ].

(** A parser that knows the text of this function. *)
Definition scratch_parse (content : string) : outcome PyAst.node :=
  if String.eqb content "scratch" then Returned (PyAst.Module_ [scratch_function])
  else Raised SyntaxError.

(** A class whose body holds [k] methods, each with a nested helper, and
    one assignment. *)
Definition method : PyAst.node :=
  PyAst.FunctionDef "m" 2 (Some 4)
    [PyAst.Other []; PyAst.FunctionDef "helper" 3 (Some 4) [PyAst.Other []]].

Definition class_of (k : nat) : PyAst.node :=
  PyAst.ClassDef "Big" 1 (Some 90) [] (PyAst.Other [] :: repeat method k) [].

(** A function that spans the lines [first] to [last]. *)
Definition spanning_function (first last : Z) : PyAst.node :=
  PyAst.FunctionDef "long" first (Some last) [PyAst.Other []].

Definition fixture_module : PyAst.node :=
  PyAst.Module_
    [outer_function; class_of 20; class_of 21; spanning_function 10 60;
     spanning_function 100 151; spanning_function 200 301].

(** A parser that knows one source text. *)
Definition fixture_parse (content : string) : outcome PyAst.node :=
  if String.eqb content "fixture" then Returned fixture_module else Raised SyntaxError.

(** A Node manifest: [lodash] is in both sections, and one version of
    [devDependencies] is a number. *)
Definition package_data : Dependencies.json :=
  Dependencies.JObject
    [("name", Dependencies.JString "app");
     ("dependencies",
      Dependencies.JObject
        [("react", Dependencies.JString "^18.2.0");
         ("lodash", Dependencies.JString "4.17.21");
         ("left-pad", Dependencies.JString "~1.3.0")]);
     ("devDependencies",
      Dependencies.JObject
        [("jest", Dependencies.JString "29.0.0");
         ("lodash", Dependencies.JString "^4.17.0");
         ("broken", Dependencies.JNumber 1);
         ("late", Dependencies.JString "^1.0.0")])].

(** A [json.load] that knows one text. *)
Definition fixture_json_load (text : string) : outcome Dependencies.json :=
  if String.eqb text "package" then Returned package_data else Raised JSONDecodeError.

Definition node_fs : Fs.entry :=
  Fs.Dir true [("app", Fs.Dir true [("package.json", Fs.File true true "package")])].

(** [{"dependencies": {"a": "^1.0", "b": 1}}]: valid JSON in which the
    second version is a number. *)
Definition half_data : Dependencies.json :=
  Dependencies.JObject
    [("dependencies",
      Dependencies.JObject
        [("a", Dependencies.JString "^1.0"); ("b", Dependencies.JNumber 1)])].

Definition half_json_load (text : string) : outcome Dependencies.json :=
  if String.eqb text "half" then Returned half_data else Raised JSONDecodeError.

(** A project [/app] with this manifest, a Python file that cannot be
    opened and one that can. *)
Definition half_fs : Fs.entry :=
  Fs.Dir true
    [("app",
      Fs.Dir true
        [("package.json", Fs.File true true "half");
         ("locked.py", Fs.File false true "fixture");
         ("main.py", Fs.File true true "fixture")])].

(** [function f() { if (x) { y(); } ... }] with [k] conditionals, and the
    same text without the braces that close the conditionals and the
    function. *)
Definition branching_function (k : nat) : string :=
  "function f() {" ++ String.concat EmptyString (repeat " if (x) { y(); }" k) ++ " }".

Definition unbalanced_function (k : nat) : string :=
  "function f() {" ++ String.concat EmptyString (repeat " if (x) { y();" k).

(** A tree with a file outside the project [/proj], and files whose
    names contain [test] or [spec] without being tests. *)
Definition outside_fs : Fs.entry :=
  Fs.Dir true
    [("etc", Fs.Dir true [("tool.js", Fs.File true true (branching_function 15))]);
     ("proj",
      Fs.Dir true
        [("main.py", Fs.File true true "fixture");
         ("latest.py", Fs.File true true "fixture");
         ("Inspector.JS", Fs.File true true (branching_function 15));
         ("contest", Fs.Dir true [("entry.py", Fs.File true true "fixture")])])].

End Fixtures.
(* ================================================================== *)
(** * Proofs *)

(** ** Sample values of the float model *)

Example f0_4_value : f0_4 = S754_finite false 7205759403792794 (-54).
Proof. reflexivity. Qed.

Example round1_samples :
  round1 (fmul (of_int 1) f0_05) = f0_1 /\
  round1 (fmul (of_int 3) f0_05) = f0_2 /\
  round1 (fmul (of_int 5) f0_05) = f0_2 /\
  round1 (fmul (of_int 9) f0_05) = f0_5 /\
  round1 (fmul (of_int 5) f0_5) = decimal 25 10.
Proof. vm_compute. repeat split. Qed.

(** ** Facts on binary64 rounding *)

Module FloatFacts.
Import FloatSpec.

Lemma iter_pos_nat {A} (f : A -> A) (p : positive) (x : A) :
  iter_pos f p x = Nat.iter (Pos.to_nat p) f x.
Proof.
  revert x; induction p as [p IH | p IH |]; intros x; cbn [iter_pos].
  - rewrite !IH, Pos2Nat.inj_xI.
    replace (S (2 * Pos.to_nat p))%nat with (Pos.to_nat p + (Pos.to_nat p + 1))%nat by lia.
    rewrite !Nat.iter_add. reflexivity.
  - rewrite !IH, Pos2Nat.inj_xO.
    replace (2 * Pos.to_nat p)%nat with (Pos.to_nat p + Pos.to_nat p)%nat by lia.
    rewrite Nat.iter_add. reflexivity.
  - reflexivity.
Qed.

Lemma shr_1_m (mrs : shr_record) :
  0 <= shr_m mrs -> shr_m (shr_1 mrs) = shr_m mrs / 2.
Proof.
  destruct mrs as [m r s]; cbn [shr_m shr_1]; intros Hm.
  destruct m as [| p | p]; [reflexivity | | lia].
  destruct p as [p | p |]; cbn [shr_m].
  - change (Zpos p~1) with (2 * Zpos p + 1). apply Z.div_unique with (r := 1); lia.
  - change (Zpos p~0) with (2 * Zpos p). apply Z.div_unique with (r := 0); lia.
  - reflexivity.
Qed.

Lemma shr_iter_m (n : nat) (mrs : shr_record) :
  0 <= shr_m mrs ->
  shr_m (Nat.iter n shr_1 mrs) = shr_m mrs / 2 ^ Z.of_nat n.
Proof.
  intros Hm. induction n as [| n IH].
  - cbn. now rewrite Z.div_1_r.
  - rewrite Nat.iter_succ, shr_1_m.
    + rewrite IH, Nat2Z.inj_succ, Z.pow_succ_r by lia.
      rewrite Z.div_div by lia. f_equal. lia.
    + rewrite IH. apply Z.div_pos; lia.
Qed.

Lemma shr_m_of_loc (m : Z) (l : location) : shr_m (shr_record_of_loc m l) = m.
Proof. destruct l as [| []]; reflexivity. Qed.

(** Shifting to the target exponent: the exponent becomes the larger of
    the two, the mantissa is divided accordingly. *)
Lemma shr_fexp_spec (m e : Z) (l : location) :
  0 <= m ->
  let e' := Z.max e (fexp prec emax (Zdigits2 m + e)) in
  snd (shr_fexp prec emax m e l) = e' /\
  shr_m (fst (shr_fexp prec emax m e l)) = m / 2 ^ (e' - e).
Proof.
  intros Hm e'. unfold shr_fexp, shr.
  destruct (fexp prec emax (Zdigits2 m + e) - e) as [| p | p] eqn:E; cbn [fst snd].
  - subst e'. replace (Z.max e _) with e by lia.
    rewrite shr_m_of_loc, Z.sub_diag, Z.div_1_r. auto.
  - subst e'. replace (Z.max e _) with (e + Z.pos p) by lia. split; [reflexivity |].
    rewrite iter_pos_nat, shr_iter_m by (rewrite shr_m_of_loc; exact Hm).
    rewrite shr_m_of_loc, positive_nat_Z. f_equal. f_equal. lia.
  - subst e'. replace (Z.max e _) with e by lia.
    rewrite shr_m_of_loc, Z.sub_diag, Z.div_1_r. auto.
Qed.

Lemma round_nearest_even_bounds (m : Z) (l : location) :
  m <= round_nearest_even m l <= m + 1.
Proof.
  unfold round_nearest_even. destruct l as [| []]; try lia.
  destruct (Z.even m); lia.
Qed.

Lemma digits2_pos_bound (p : positive) : Zpos p < 2 ^ Zpos (digits2_pos p).
Proof.
  induction p as [p IH | p IH |]; cbn [digits2_pos].
  - rewrite Pos2Z.inj_succ, Z.pow_succ_r by lia.
    change (Zpos p~1) with (2 * Zpos p + 1). lia.
  - rewrite Pos2Z.inj_succ, Z.pow_succ_r by lia.
    change (Zpos p~0) with (2 * Zpos p). lia.
  - reflexivity.
Qed.

Lemma digits2_pos_low (p : positive) : 2 ^ (Zpos (digits2_pos p) - 1) <= Zpos p.
Proof.
  induction p as [p IH | p IH |]; cbn [digits2_pos].
  - rewrite Pos2Z.inj_succ.
    replace (Z.succ (Zpos (digits2_pos p)) - 1) with (Z.succ (Zpos (digits2_pos p) - 1)) by lia.
    rewrite Z.pow_succ_r by lia. change (Zpos p~1) with (2 * Zpos p + 1). lia.
  - rewrite Pos2Z.inj_succ.
    replace (Z.succ (Zpos (digits2_pos p)) - 1) with (Z.succ (Zpos (digits2_pos p) - 1)) by lia.
    rewrite Z.pow_succ_r by lia. change (Zpos p~0) with (2 * Zpos p). lia.
  - reflexivity.
Qed.

Lemma Zdigits2_le (m k : Z) : 0 <= m < 2 ^ k -> 0 <= k -> Zdigits2 m <= k.
Proof.
  intros [Hm Hlt] Hk. destruct m as [| p | p]; cbn [Zdigits2]; try lia.
  destruct (Z_le_gt_dec (Zpos (digits2_pos p)) k) as [|Hgt]; [assumption | exfalso].
  pose proof (digits2_pos_low p) as Hlow.
  assert (2 ^ k <= 2 ^ (Zpos (digits2_pos p) - 1)) by (apply Z.pow_le_mono_r; lia).
  lia.
Qed.

Lemma Zdigits2_nonneg (m : Z) : 0 <= Zdigits2 m.
Proof. destruct m; cbn; lia. Qed.

Lemma pow2_div_le (a k n : Z) :
  0 <= n <= k -> a <= 2 ^ k -> a / 2 ^ n <= 2 ^ (k - n).
Proof.
  intros Hn Ha.
  replace (2 ^ (k - n)) with (2 ^ k / 2 ^ n).
  - apply Z.div_le_mono; lia.
  - replace k with ((k - n) + n) at 1 by lia.
    rewrite Z.pow_add_r by lia. apply Z.div_mul. lia.
Qed.

Lemma pow2_div_lt (a k n : Z) :
  0 <= n <= k -> a < 2 ^ k -> a / 2 ^ n < 2 ^ (k - n).
Proof.
  intros Hn Ha. apply Z.div_lt_upper_bound; [lia |].
  rewrite <- Z.pow_add_r by lia. replace (n + (k - n)) with k by lia. exact Ha.
Qed.

Lemma binary_round_aux_post (s : bool) (mx ex : Z) (lx : location) (B : Z) :
  0 <= mx < 2 ^ (B - ex) -> ex <= B -> -1074 <= B ->
  round_post s mx ex B (binary_round_aux prec emax s mx ex lx).
Proof.
  intros [Hm0 Hmx] HexB HB.
  unfold binary_round_aux.
  destruct (shr_fexp_spec mx ex lx Hm0) as [He1 Hm1].
  destruct (shr_fexp prec emax mx ex lx) as [mrs1 e1]. cbn [fst snd] in He1, Hm1.
  rewrite <- He1 in Hm1.
  set (m1' := round_nearest_even (shr_m mrs1) (loc_of_shr_record mrs1)).
  pose proof (round_nearest_even_bounds (shr_m mrs1) (loc_of_shr_record mrs1)) as Hr.
  fold m1' in Hr.
  assert (Hd : Zdigits2 mx <= B - ex) by (apply Zdigits2_le; lia).
  assert (Hfe : -1074 <= fexp prec emax (Zdigits2 mx + ex) <= Z.max (B - 53) (-1074)).
  { unfold fexp, SpecFloat.emin, prec, emax. lia. }
  assert (He1B : ex <= e1 <= B) by lia.
  assert (Hm1lt : 0 <= shr_m mrs1 < 2 ^ (B - e1)).
  { rewrite Hm1. split; [apply Z.div_pos; lia |].
    replace (B - e1) with ((B - ex) - (e1 - ex)) by lia.
    apply pow2_div_lt; lia. }
  assert (Hm1' : 0 <= m1' <= 2 ^ (B - e1)) by lia.
  assert (Hd1 : Zdigits2 m1' <= B - e1 + 1).
  { apply Zdigits2_le; [| lia]. split; [lia |].
    rewrite Z.pow_add_r by lia. change (2 ^ 1) with 2. lia. }
  assert (Hm1'0 : 0 <= m1') by lia.
  destruct (shr_fexp_spec m1' e1 loc_Exact Hm1'0) as [He2 Hm2].
  destruct (shr_fexp prec emax m1' e1 loc_Exact) as [mrs2 e2]. cbn [fst snd] in He2, Hm2.
  rewrite <- He2 in Hm2.
  assert (Hfe2 : -1074 <= fexp prec emax (Zdigits2 m1' + e1) <= Z.max (B - 52) (-1074)).
  { unfold fexp, SpecFloat.emin, prec, emax. lia. }
  assert (He2B : e1 <= e2 <= B) by lia.
  assert (Hm2le : 0 <= shr_m mrs2 <= 2 ^ (B - e2)).
  { rewrite Hm2. split; [apply Z.div_pos; lia |].
    replace (B - e2) with ((B - e1) - (e2 - e1)) by lia.
    apply pow2_div_le; lia. }
  assert (Hup : shr_m mrs2 * 2 ^ (e2 - ex) <= mx + 2 ^ (e1 - ex)).
  { replace (e2 - ex) with ((e2 - e1) + (e1 - ex)) by lia.
    rewrite Z.pow_add_r by lia.
    assert (H1 : shr_m mrs2 * 2 ^ (e2 - e1) <= m1').
    { rewrite Hm2, Z.mul_comm. apply Z.mul_div_le. lia. }
    assert (H2 : shr_m mrs1 * 2 ^ (e1 - ex) <= mx).
    { rewrite Hm1, Z.mul_comm. apply Z.mul_div_le. lia. }
    assert (Hp : 0 <= 2 ^ (e1 - ex)) by lia.
    rewrite Z.mul_assoc.
    apply Z.le_trans with ((shr_m mrs1 + 1) * 2 ^ (e1 - ex)).
    - apply Z.mul_le_mono_nonneg_r; lia.
    - rewrite Z.mul_add_distr_r. lia. }
  assert (He1E : 2 ^ (e1 - ex) <= 2 ^ (Z.max ex (Z.max (B - 53) (-1074)) - ex)).
  { apply Z.pow_le_mono_r; lia. }
  destruct (shr_m mrs2) as [| m2 | m2] eqn:Em2; cbn [round_post].
  - reflexivity.
  - destruct (Z.leb_spec e2 (emax - prec)) as [Hle | Hgt]; cbn [round_post].
    + repeat split; try lia.
    + unfold emax, prec in Hgt. split; [reflexivity | lia].
  - lia.
Qed.

(** A rounded non-negative quantity keeps its sign and is never NaN. *)
Lemma binary_round_aux_sign (s : bool) (mx ex : Z) (lx : location) :
  0 <= mx ->
  match binary_round_aux prec emax s mx ex lx with
  | S754_zero s' | S754_finite s' _ _ | S754_infinity s' => s' = s
  | S754_nan => False
  end.
Proof.
  intros Hm.
  pose proof (binary_round_aux_post s mx ex lx
                (Z.max (Zdigits2 mx + ex) (Z.max ex (-1074)))) as H.
  pose proof (Zdigits2_nonneg mx) as Hd.
  assert (Hlt : mx < 2 ^ Zdigits2 mx).
  { destruct mx as [| p | p]; [reflexivity | apply digits2_pos_bound | lia]. }
  assert (Hle : 2 ^ Zdigits2 mx <= 2 ^ (Z.max (Zdigits2 mx + ex) (Z.max ex (-1074)) - ex)).
  { apply Z.pow_le_mono_r; lia. }
  specialize (H ltac:(lia) ltac:(lia) ltac:(lia)).
  destruct (binary_round_aux prec emax s mx ex lx); cbn [round_post] in H; tauto.
Qed.

Lemma pos_iter_xO (m d : positive) : Zpos (Pos.iter xO m d) = Zpos m * 2 ^ Zpos d.
Proof.
  induction d as [| d IH] using Pos.peano_ind.
  - cbn [Pos.iter]. change (Zpos m~0) with (2 * Zpos m). rewrite Z.pow_1_r. lia.
  - rewrite Pos.iter_succ, Pos2Z.inj_succ, Z.pow_succ_r by lia.
    change (Zpos (Pos.iter xO m d)~0) with (2 * Zpos (Pos.iter xO m d)).
    rewrite IH. lia.
Qed.

Lemma shl_align_spec (mx : positive) (ex ex' : Z) :
  snd (shl_align mx ex ex') = Z.min ex ex' /\
  Zpos (fst (shl_align mx ex ex')) = Zpos mx * 2 ^ (ex - Z.min ex ex').
Proof.
  unfold shl_align. destruct (ex' - ex) as [| d | d] eqn:E; cbn [fst snd].
  - replace (Z.min ex ex') with ex by lia. rewrite Z.sub_diag. cbn. lia.
  - replace (Z.min ex ex') with ex by lia. rewrite Z.sub_diag. cbn. lia.
  - replace (Z.min ex ex') with ex' by lia. split; [reflexivity |].
    rewrite pos_iter_xO. f_equal. f_equal. lia.
Qed.

Lemma below_mono (X Y : Z) (x : float) : X <= Y -> below X x -> below Y x.
Proof. destruct x as [| | | [] m e]; cbn; intuition lia. Qed.

Lemma belowb_below (X : Z) (x : float) : belowb X x = true -> below X x.
Proof.
  destruct x as [| | | [] m e]; cbn; try discriminate; auto.
  rewrite andb_true_iff, Z.leb_le, Z.leb_le. auto.
Qed.

(** Rounding a positive quantity of value at most [V < 2^B]. *)
Lemma binary_round_below (mx : positive) (ex V B : Z) :
  -1074 <= ex -> Zpos mx * 2 ^ (ex + 1074) <= V -> V < 2 ^ (B + 1074) ->
  -1074 <= B <= 1023 ->
  below (V + 2 ^ (Z.max (B - 53) (-1074) + 1074)) (binary_round prec emax false mx ex).
Proof.
  intros Hex HV HVB HB. unfold binary_round.
  set (t := fexp prec emax (Zpos (digits2_pos mx) + ex)).
  destruct (shl_align_spec mx ex t) as [He Hm].
  destruct (shl_align mx ex t) as [mz ez]. cbn [fst snd] in He, Hm.
  rewrite <- He in Hm.
  assert (Hlt : Zpos mx * 2 ^ (ex + 1074) < 2 ^ (B + 1074)) by lia.
  assert (HexB : ex < B).
  { assert (H2 : 2 ^ (ex + 1074) < 2 ^ (B + 1074)).
    { assert (Hq : 0 < 2 ^ (ex + 1074)) by lia. clear - Hlt Hq. nia. }
    apply Z.pow_lt_mono_r_iff in H2; lia. }
  assert (Hmxlt : Zpos mx < 2 ^ (B - ex)).
  { replace (B + 1074) with ((B - ex) + (ex + 1074)) in Hlt by lia.
    rewrite (Z.pow_add_r 2 (B - ex) (ex + 1074)) in Hlt by lia.
    assert (Hq : 0 < 2 ^ (ex + 1074)) by lia.
    apply Z.mul_lt_mono_pos_r in Hlt; assumption. }
  assert (Hdig : Zpos (digits2_pos mx) <= B - ex).
  { apply (Zdigits2_le (Zpos mx)); lia. }
  assert (Ht : -1074 <= t <= Z.max (B - 53) (-1074)).
  { unfold t, fexp, SpecFloat.emin, prec, emax. lia. }
  assert (Hez : -1074 <= ez <= ex) by lia.
  assert (Hmzlt : Zpos mz < 2 ^ (B - ez)).
  { rewrite Hm. replace (B - ez) with ((B - ex) + (ex - ez)) by lia.
    rewrite Z.pow_add_r by lia. apply Z.mul_lt_mono_pos_r; [lia | assumption]. }
  pose proof (binary_round_aux_post false (Zpos mz) ez loc_Exact B
                ltac:(lia) ltac:(lia) ltac:(lia)) as Hpost.
  replace (Z.max ez (Z.max (B - 53) (-1074))) with (Z.max (B - 53) (-1074)) in Hpost by lia.
  destruct (binary_round_aux prec emax false (Zpos mz) ez loc_Exact) as [| s | | s m e];
    cbn [round_post below] in *.
  - exact I.
  - lia.
  - exact Hpost.
  - destruct Hpost as (-> & Hee & He1074 & _ & _ & _ & Hup). split; [lia |].
    replace (Z.max ez (Z.max (B - 53) (-1074))) with (Z.max (B - 53) (-1074)) in Hup by lia.
    assert (HV' : Zpos mz * 2 ^ (ez + 1074) <= V).
    { rewrite Hm. rewrite <- Z.mul_assoc, <- Z.pow_add_r by lia.
      replace (ex - ez + (ez + 1074)) with (ex + 1074) by lia. exact HV. }
    replace (e + 1074) with ((e - ez) + (ez + 1074)) by lia.
    rewrite Z.pow_add_r, Z.mul_assoc by lia.
    replace (Z.max (B - 53) (-1074) + 1074)
      with ((Z.max (B - 53) (-1074) - ez) + (ez + 1074)) by lia.
    rewrite (Z.pow_add_r 2 (Z.max (B - 53) (-1074) - ez)) by lia.
    apply Z.le_trans
      with ((Zpos mz + 2 ^ (Z.max (B - 53) (-1074) - ez)) * 2 ^ (ez + 1074)).
    + apply Z.mul_le_mono_nonneg_r; [lia | exact Hup].
    + rewrite Z.mul_add_distr_r. lia.
Qed.

(** Adding two non-negative doubles: the sum exceeds the exact one by at
    most one unit in the last place of [2^B]. *)
Lemma fadd_below (X Y B : Z) (x y : float) :
  below X x -> below Y y -> 0 <= X -> 0 <= Y ->
  X + Y < 2 ^ (B + 1074) -> -1074 <= B <= 1023 ->
  below (X + Y + 2 ^ (Z.max (B - 53) (-1074) + 1074)) (fadd x y).
Proof.
  intros Hx Hy HX HY Hlt HB.
  assert (Hpow : 0 < 2 ^ (Z.max (B - 53) (-1074) + 1074)) by lia.
  destruct x as [sx | sx | | sx mx ex]; try contradiction;
    destruct y as [sy | sy | | sy my ey]; try contradiction.
  - destruct sx, sy; exact I.
  - apply below_mono with Y; [lia | exact Hy].
  - apply below_mono with X; [lia | exact Hx].
  - destruct sx; [contradiction |]. destruct sy; [contradiction |].
    cbn [below] in Hx, Hy. destruct Hx as [Hex Hx], Hy as [Hey Hy].
    unfold fadd, SFadd. cbn [cond_Zopp].
    set (ez := Z.min ex ey).
    destruct (shl_align_spec mx ex ez) as [_ Hmx].
    destruct (shl_align_spec my ey ez) as [_ Hmy].
    replace (Z.min ex ez) with ez in Hmx by lia.
    replace (Z.min ey ez) with ez in Hmy by lia.
    set (ax := fst (shl_align mx ex ez)) in *.
    set (ay := fst (shl_align my ey ez)) in *.
    change (Zpos ax + Zpos ay) with (Zpos (ax + ay)).
    cbn [binary_normalize].
    apply binary_round_below; try lia.
    rewrite Pos2Z.inj_add, Z.mul_add_distr_r, Hmx, Hmy.
    rewrite <- !Z.mul_assoc, <- !Z.pow_add_r by lia.
    replace (ex - ez + (ez + 1074)) with (ex + 1074) by lia.
    replace (ey - ez + (ez + 1074)) with (ey + 1074) by lia.
    lia.
Qed.

(** [int] of a bounded non-negative double. *)
Lemma to_int_below (V : Z) (x : float) :
  below V x -> 0 <= V ->
  exists n, to_int x = Returned n /\ 0 <= n /\ n * 2 ^ 1074 <= V.
Proof.
  intros Hx HV. destruct x as [s | s | | s m e]; try contradiction.
  - exists 0. cbn. repeat split; lia.
  - destruct s; [contradiction |]. destruct Hx as [He Hx].
    exists (magnitude_trunc m e). split; [reflexivity |].
    unfold magnitude_trunc. destruct e as [| p | p].
    + rewrite Z.pow_0_r, Z.mul_1_r. cbn [Z.add] in Hx. lia.
    + split; [lia |]. rewrite <- Z.mul_assoc, <- Z.pow_add_r by lia. exact Hx.
    + assert (Hp : 0 < 2 ^ Zpos p) by lia.
      split; [apply Z.div_pos; lia |].
      replace 1074 with (Zpos p + (Zneg p + 1074)) at 1 by lia.
      rewrite Z.pow_add_r, Z.mul_assoc by lia.
      assert (Hd : Zpos m / 2 ^ Zpos p * 2 ^ Zpos p <= Zpos m).
      { rewrite Z.mul_comm. apply Z.mul_div_le. lia. }
      apply Z.le_trans with (Zpos m * 2 ^ (Zneg p + 1074)); [| exact Hx].
      apply Z.mul_le_mono_nonneg_r; [lia | exact Hd].
Qed.

Lemma below_signless (V : Z) (x : float) : below V x -> signless x.
Proof. destruct x as [| | | [] m e]; cbn; tauto. Qed.

End FloatFacts.

(* ================================================================== *)
(** ** Walking a syntax tree *)

Module AstFacts.
Import PyAst PyAnalysis AstSpec.

Lemma sizes_cons (n : node) (l : list node) : sizes (n :: l) = (size n + sizes l)%nat.
Proof. reflexivity. Qed.

Lemma sizes_app (l l' : list node) : sizes (l ++ l') = (sizes l + sizes l')%nat.
Proof. unfold sizes. now rewrite map_app, list_sum_app. Qed.

Lemma size_children (n : node) : size n = S (sizes (iter_child_nodes n)).
Proof.
  assert (Hfix : forall l,
             (fix sizes (l : list node) : nat :=
                match l with
                | [] => O
                | x :: l' => (size x + sizes l')%nat
                end) l = sizes l).
  { induction l as [| x l IH]; [reflexivity |]. now rewrite sizes_cons, IH. }
  destruct n; cbn [size iter_child_nodes]; rewrite ?Hfix;
    rewrite ?sizes_app, ?sizes_cons; change (sizes []) with O; lia.
Qed.

Lemma subtree_children (n : node) :
  subtree n = n :: flat_map subtree (iter_child_nodes n).
Proof.
  assert (Hfix : forall l,
             (fix subtrees (l : list node) : list node :=
                match l with
                | [] => []
                | x :: l' => subtree x ++ subtrees l'
                end) l = flat_map subtree l).
  { induction l as [| x l IH]; [reflexivity |]. cbn. now rewrite IH. }
  destruct n; cbn [subtree iter_child_nodes]; rewrite ?Hfix;
    rewrite ?flat_map_app; cbn [flat_map]; rewrite ?app_nil_r; reflexivity.
Qed.

Lemma size_pos (n : node) : (0 < size n)%nat.
Proof. rewrite size_children. lia. Qed.

(** With enough fuel the queue discipline visits the nodes of the
    subtrees of the queued nodes, each once. *)
Lemma walk_queue_perm (fuel : nat) (todo : list node) :
  (sizes todo <= fuel)%nat ->
  Permutation (walk_queue fuel todo) (flat_map subtree todo).
Proof.
  revert todo; induction fuel as [| fuel IH]; intros todo Hfuel.
  - destruct todo as [| n rest]; [constructor |].
    rewrite sizes_cons in Hfuel. pose proof (size_pos n). lia.
  - destruct todo as [| n rest]; [constructor |].
    cbn [walk_queue flat_map]. rewrite subtree_children. cbn [app].
    constructor.
    etransitivity; [apply IH |].
    + rewrite sizes_app. rewrite sizes_cons, size_children in Hfuel. lia.
    + rewrite flat_map_app. apply Permutation_app_comm.
Qed.

Lemma walk_perm (n : node) : Permutation (walk n) (subtree n).
Proof.
  unfold walk. rewrite (walk_queue_perm (size n) [n]).
  - cbn [flat_map]. now rewrite app_nil_r.
  - rewrite sizes_cons. change (sizes []) with O. lia.
Qed.

Lemma complexity_step_contribution (c : Z) (n : node) :
  complexity_step c n = c + contribution n.
Proof. destruct n; cbn; lia. Qed.

Lemma fold_complexity (l : list node) (c : Z) :
  fold_left complexity_step l c = c + Zsum (map contribution l).
Proof.
  revert c; induction l as [| n l IH]; intros c; cbn [fold_left map Zsum fold_right].
  - lia.
  - rewrite IH, complexity_step_contribution. unfold Zsum. lia.
Qed.

Lemma Zsum_perm (l l' : list Z) : Permutation l l' -> Zsum l = Zsum l'.
Proof.
  induction 1 as [| x l l' _ IH | x y l | l l' l'' _ IH1 _ IH2]; unfold Zsum in *;
    cbn [fold_right]; lia.
Qed.

Lemma Zsum_contribution (l : list node) :
  Zsum (map contribution l)
  = Z.of_nat (List.length (filter is_branch l))
    + Z.of_nat (List.length (filter is_handler l))
    + Zsum (map boolop_extra l).
Proof.
  induction l as [| n l IH]; [reflexivity |].
  cbn [map filter]. unfold Zsum in *. cbn [fold_right]. rewrite IH.
  unfold contribution.
  destruct (is_branch n), (is_handler n); cbn [List.length]; lia.
Qed.

(** The loop over [ast.walk] computes the complexity of the
    specification. *)
Lemma cyclomatic_complexity_spec (n : node) :
  _calculate_cyclomatic_complexity n = spec_complexity n.
Proof.
  unfold _calculate_cyclomatic_complexity, spec_complexity.
  rewrite fold_complexity.
  rewrite (Zsum_perm _ _ (Permutation_map contribution (walk_perm n))).
  rewrite Zsum_contribution. lia.
Qed.

Lemma complexity_part (rel_path : string) (n : node) :
  Scores.of_type "complexity" (complexity_visit rel_path n)
  = spec_complexity_issues rel_path n.
Proof.
  unfold Scores.of_type.
  destruct n; cbn [complexity_visit spec_complexity_issues]; try reflexivity.
  - rewrite cyclomatic_complexity_spec, Z.gtb_ltb.
    destruct (15 <? _); reflexivity.
  - rewrite cyclomatic_complexity_spec, Z.gtb_ltb.
    destruct (15 <? _); reflexivity.
  - destruct (_ >? 20); reflexivity.
Qed.

Lemma filter_flat_map {A B} (p : B -> bool) (f : A -> list B) (l : list A) :
  filter p (flat_map f l) = flat_map (fun a => filter p (f a)) l.
Proof.
  induction l as [| a l IH]; [reflexivity |].
  cbn [flat_map]. now rewrite filter_app, IH.
Qed.

End AstFacts.

(** C3.  For a file that parses: the complexity computed for any node
    is 1 plus the number of [If]/[While]/[For]/[AsyncFor] nodes of its
    subtree, plus the number of exception handlers, plus
    [operand_count - 1] over the boolean operators; the complexity
    issues of the file are those of the function nodes of complexity
    above 15, one each; the severity is medium for 16..20, high for
    21..25 and critical above, and the estimate is
    [round((complexity - 15) * 0.5, 1)]; [if a and b and c] alone gives
    4; complexity 15 gives no issue and complexity 16 a medium one. *)
Theorem python_complexity_correct
        (ast_parse : string -> outcome PyAst.node) (content rel_path : string)
        (tree : PyAst.node) :
  ast_parse content = Returned tree ->
  (forall n, PyAnalysis._calculate_cyclomatic_complexity n = PyAnalysis.spec_complexity n) /\
  Permutation
    (Scores.of_type "complexity"
       (PyAnalysis._analyze_python_complexity ast_parse content rel_path))
    (flat_map (PyAnalysis.spec_complexity_issues rel_path) (PyAst.subtree tree)) /\
  (forall name lineno end_lineno c,
      15 < c ->
      let i := PyAnalysis.complexity_issue rel_path name lineno end_lineno c in
      issue_type i = "complexity" /\
      severity i = PyAnalysis.spec_severity c /\
      estimated_hours i = round1 (fmul (of_int (c - 15)) f0_5)) /\
  PyAnalysis._calculate_cyclomatic_complexity Samples.if_and_function = 4 /\
  (forall n, PyAst.is_function n = true ->
             PyAnalysis.spec_complexity n = 15 ->
             PyAnalysis.complexity_visit rel_path n = []) /\
  (forall n, PyAst.is_function n = true ->
             PyAnalysis.spec_complexity n = 16 ->
             exists i, PyAnalysis.complexity_visit rel_path n = [i] /\
                       issue_type i = "complexity" /\ severity i = "medium" /\
                       estimated_hours i = f0_5).
Proof.
  intros Hparse. split; [exact AstFacts.cyclomatic_complexity_spec |]. split.
  { unfold PyAnalysis._analyze_python_complexity. rewrite Hparse.
    unfold Scores.of_type. rewrite AstFacts.filter_flat_map.
    erewrite flat_map_ext by (intros n; apply AstFacts.complexity_part).
    apply Permutation_flat_map, AstFacts.walk_perm. }
  split.
  { intros name lineno end_lineno c Hc i. subst i. cbn [issue_type severity estimated_hours
      PyAnalysis.complexity_issue]. split; [reflexivity |]. split; [| reflexivity].
    unfold PyAnalysis.complexity_severity, PyAnalysis.spec_severity.
    rewrite !Z.gtb_ltb.
    destruct (Z.ltb_spec 25 c), (Z.ltb_spec 20 c), (Z.leb_spec 16 c), (Z.leb_spec c 20),
      (Z.leb_spec 21 c), (Z.leb_spec c 25); cbn [andb]; try reflexivity; lia. }
  split; [vm_compute; reflexivity |]. split.
  - intros n Hfun Hc. destruct n; try discriminate; cbn [PyAnalysis.complexity_visit];
      rewrite AstFacts.cyclomatic_complexity_spec, Hc; reflexivity.
  - intros n Hfun Hc. destruct n; try discriminate; cbn [PyAnalysis.complexity_visit];
      rewrite AstFacts.cyclomatic_complexity_spec, Hc; cbn [Z.gtb Z.compare Pos.compare
        Pos.compare_cont]; eexists; (split; [reflexivity |]); cbn; auto.
Qed.

Lemma python_complexity_witness :
  Samples.sample_parse "sample" = Returned Samples.sample_module /\
  Permutation
    (Scores.of_type "complexity"
       (PyAnalysis._analyze_python_complexity Samples.sample_parse "sample" "m.py"))
    (flat_map (PyAnalysis.spec_complexity_issues "m.py")
              (PyAst.subtree Samples.sample_module)).
Proof.
  split; [reflexivity |].
  exact (proj1 (proj2 (python_complexity_correct Samples.sample_parse "sample" "m.py"
                         Samples.sample_module eq_refl))).
Defined.

(** The sample module: the function of complexity 4 and the one of
    complexity 15 give nothing, the one of complexity 16 a medium issue
    with an estimate of half an hour. *)
Example python_complexity_sample :
  map (fun i => (severity i, line_start i, estimated_hours i))
      (PyAnalysis._analyze_python_complexity Samples.sample_parse "sample" "m.py")
  = [("medium", Some 1, f0_5)].
Proof. vm_compute. reflexivity. Qed.

(* ================================================================== *)
(** ** Strings *)

Module StrFacts.
Import PyStr TextSpec.

Lemma append_nil_r (s : string) : (s ++ EmptyString)%string = s.
Proof. induction s as [| c s IH]; cbn; [reflexivity | now rewrite IH]. Qed.

Lemma append_assoc (a b c : string) : ((a ++ b) ++ c = a ++ (b ++ c))%string.
Proof. induction a as [| x a IH]; cbn; [reflexivity | now rewrite IH]. Qed.

Lemma length_append (a b : string) :
  String.length (a ++ b) = (String.length a + String.length b)%nat.
Proof. induction a as [| x a IH]; cbn; [reflexivity | now rewrite IH]. Qed.

Lemma prefix_split (l s : string) :
  String.prefix l s = true -> s = (l ++ drop (String.length l) s)%string.
Proof.
  revert s; induction l as [| a l IH]; intros s H; [reflexivity |].
  destruct s as [| b s]; [discriminate |]. cbn in H.
  destruct (ascii_dec a b) as [-> |]; [| discriminate].
  cbn. now rewrite <- IH.
Qed.

Lemma drop_append (a b : string) : drop (String.length a) (a ++ b) = b.
Proof. induction a as [| x a IH]; cbn; [now destruct b | exact IH]. Qed.

Lemma drop_step (pos : nat) (content : string) (c : ascii) (s : string) :
  drop pos content = String c s -> drop (S pos) content = s.
Proof.
  revert content; induction pos as [| pos IH]; intros content H.
  - destruct content; cbn in *; congruence.
  - destruct content as [| d content]; [discriminate |]. cbn in H |- *. now apply IH.
Qed.

Lemma prefix_one (a : ascii) (s : string) :
  String.prefix (String a EmptyString) s
  = match s with
    | String b _ => Ascii.eqb a b
    | EmptyString => false
    end.
Proof.
  destruct s as [| b s]; [reflexivity |]. cbn.
  destruct (ascii_dec a b) as [-> | Hne].
  - rewrite Ascii.eqb_refl. now destruct s.
  - destruct (Ascii.eqb_spec a b); [congruence | reflexivity].
Qed.

Lemma occurs_append (c : ascii) (a b : string) :
  occurs c (a ++ b) = occurs c a || occurs c b.
Proof.
  induction a as [| x a IH]; cbn; [reflexivity |]. now rewrite IH, orb_assoc.
Qed.

End StrFacts.

(* ================================================================== *)
(** ** What a match consumes *)

Module ReFacts.
Import PyStr Re TextSpec StrFacts.

Section Consumes.
Variable c : ascii.
Context {R : Type}.

Lemma star_greedy_consumes (p : ascii -> bool) :
  p c = false ->
  forall s prev caps (k : @cont R) x,
    star_greedy p prev s caps k = Some x -> consumed c s k x.
Proof.
  intros Hp. induction s as [| d s IH]; intros prev caps k x H; cbn [star_greedy] in H.
  - exists EmptyString, EmptyString, prev, caps. auto.
  - destruct (p d) eqn:Hd.
    + destruct (star_greedy p (Some d) s caps k) as [r |] eqn:E.
      * injection H as <-. destruct (IH _ _ _ _ E) as (w & s' & prev' & caps' & -> & Hw & Hk).
        exists (String d w), s', prev', caps'. split; [reflexivity |]. split; [| exact Hk].
        cbn [occurs]. rewrite Hw. destruct (Ascii.eqb_spec c d); [congruence | reflexivity].
      * exists EmptyString, (String d s), prev, caps. auto.
    + exists EmptyString, (String d s), prev, caps. auto.
Qed.

Lemma star_lazy_consumes (p : ascii -> bool) :
  p c = false ->
  forall s prev caps (k : @cont R) x,
    star_lazy p prev s caps k = Some x -> consumed c s k x.
Proof.
  intros Hp. induction s as [| d s IH]; intros prev caps k x H; cbn [star_lazy] in H.
  - destruct (k prev EmptyString caps) eqn:E; [| discriminate].
    injection H as <-. exists EmptyString, EmptyString, prev, caps. auto.
  - destruct (k prev (String d s) caps) eqn:E.
    + injection H as <-. exists EmptyString, (String d s), prev, caps. auto.
    + destruct (p d) eqn:Hd; [| discriminate].
      destruct (IH _ _ _ _ H) as (w & s' & prev' & caps' & -> & Hw & Hk).
      exists (String d w), s', prev', caps'. split; [reflexivity |]. split; [| exact Hk].
      cbn [occurs]. rewrite Hw. destruct (Ascii.eqb_spec c d); [congruence | reflexivity].
Qed.

End Consumes.

(** A pattern that avoids [c] consumes a text without [c]. *)
Lemma match_re_consumes (c : ascii) (r : regex) :
  avoids c r = true ->
  forall (R : Type) s prev caps (k : @cont R) x,
    match_re r prev s caps k = Some x -> consumed c s k x.
Proof.
  induction r as [p | l | r1 IH1 r2 IH2 | r1 IH1 r2 IH2 | greedy p | r1 IH1 |];
    cbn [avoids]; intros Hav R s prev caps k x H; cbn [match_re] in H.
  - destruct s as [| d s]; [discriminate |]. destruct (p d) eqn:Hd; [| discriminate].
    exists (String d EmptyString), s, (Some d), caps. split; [reflexivity |].
    split; [| exact H]. cbn [occurs]. rewrite orb_false_r.
    destruct (Ascii.eqb_spec c d) as [-> |]; [| reflexivity].
    rewrite Hd in Hav. discriminate.
  - destruct (String.prefix l s) eqn:Hl; [| discriminate].
    exists l, (drop (String.length l) s), (last_char prev l), caps.
    split; [now apply prefix_split |]. split; [| exact H].
    now apply negb_true_iff in Hav.
  - apply andb_true_iff in Hav. destruct Hav as [H1 H2].
    destruct (IH1 H1 _ _ _ _ _ _ H) as (w1 & s1 & prev1 & caps1 & -> & Hw1 & Hk1).
    destruct (IH2 H2 _ _ _ _ _ _ Hk1) as (w2 & s2 & prev2 & caps2 & -> & Hw2 & Hk2).
    exists (w1 ++ w2)%string, s2, prev2, caps2. rewrite append_assoc, occurs_append, Hw1, Hw2.
    auto.
  - apply andb_true_iff in Hav. destruct Hav as [H1 H2].
    destruct (match_re r1 prev s caps k) as [y |] eqn:E.
    + injection H as <-. exact (IH1 H1 _ _ _ _ _ _ E).
    + exact (IH2 H2 _ _ _ _ _ _ H).
  - apply negb_true_iff in Hav. destruct greedy.
    + exact (star_greedy_consumes c p Hav _ _ _ _ _ H).
    + exact (star_lazy_consumes c p Hav _ _ _ _ _ H).
  - destruct (IH1 Hav _ _ _ _ _ _ H) as (w & s' & prev' & caps' & -> & Hw & Hk).
    exists w, s', prev', (caps' ++ [take (String.length (w ++ s') - String.length s')
                                      (w ++ s')%string]).
    auto.
  - destruct (xorb _ _); [| discriminate].
    exists EmptyString, s, prev, caps. auto.
Qed.

(** The lazy [.*?] followed by the brace stops at the first brace. *)
Lemma lazy_to_brace (s : string) :
  forall prev caps x,
    star_lazy any_but_newline prev s caps
              (fun prev' s' caps' => match_re (Lit "{") prev' s' caps' finish) = Some x ->
    exists w rest, s = (w ++ String "{" rest)%string /\ occurs "{" w = false /\
                   x = (caps, rest).
Proof.
  induction s as [| d s IH]; intros prev caps x H; cbn [star_lazy match_re] in H;
    rewrite prefix_one in H.
  - discriminate.
  - destruct (Ascii.eqb_spec "{" d) as [<- | Hne].
    + cbn [String.length drop finish] in H.
      assert (Hx : x = (caps, s)) by congruence.
      exists EmptyString, s. auto.
    + destruct (any_but_newline d); [| discriminate].
      destruct (IH _ _ _ H) as (w & rest & -> & Hw & ->).
      exists (String d w), rest. split; [reflexivity |]. split; [| reflexivity].
      cbn [occurs]. rewrite Hw. destruct (Ascii.eqb_spec "{" d); [congruence | reflexivity].
Qed.

(** A match of a declaration pattern ends with the first brace of the
    matched text. *)
Lemma declaration_match (keywords : regex) (prev : option ascii) (s rest : string)
      (caps : list string) :
  avoids "{" keywords = true ->
  match_here (JsAnalysis.declaration keywords) prev s = Some (caps, rest) ->
  exists w, s = (w ++ String "{" rest)%string /\ occurs "{" w = false.
Proof.
  intros Hkw H. unfold match_here in H.
  change (match_re (JsAnalysis.declaration keywords) prev s []
                   (fun _ rest caps => Some (caps, rest)))
    with (match_re
            (Seq keywords
                 (Seq (Plus isspace)
                      (Seq (Group (Plus isword))
                           (Seq (Star true isspace) (Chars (one_of "=("))))))
            prev s []
            (fun prev' s' caps' =>
               star_lazy any_but_newline prev' s' caps'
                         (fun prev'' s'' caps'' =>
                            match_re (Lit "{") prev'' s'' caps'' finish))) in H.
  apply (match_re_consumes "{") in H.
  - destruct H as (w1 & s1 & prev1 & caps1 & -> & Hw1 & Hk).
    destruct (lazy_to_brace _ _ _ _ Hk) as (w2 & rest' & -> & Hw2 & [= -> ->]).
    exists (w1 ++ w2)%string. rewrite append_assoc, occurs_append, Hw1, Hw2. auto.
  - cbn [avoids Plus]. rewrite Hkw. reflexivity.
Qed.

(** Every match that [finditer] lists is a match of the pattern at its
    start position. *)
Lemma finditer_go_sound (r : regex) (content : string) :
  forall s prev pos skip m,
    drop pos content = s ->
    In m (finditer_go r prev pos skip s) ->
    exists prev' rest,
      match_here r prev' (drop (m_start m) content) = Some (m_groups m, rest) /\
      m_end m = (m_start m + (String.length (drop (m_start m) content)
                              - String.length rest))%nat.
Proof.
  induction s as [| d s IH]; intros prev pos skip m Hdrop Hin.
  - destruct skip; cbn [finditer_go] in Hin; [| destruct Hin].
    destruct (match_here r prev EmptyString) as [[caps rest] |] eqn:E; [| destruct Hin].
    destruct Hin as [<- | []]. cbn [m_start m_end m_groups]. rewrite Hdrop.
    exists prev, rest. auto.
  - pose proof (drop_step _ _ _ _ Hdrop) as Hnext.
    destruct skip as [| skip]; cbn [finditer_go] in Hin.
    + destruct (match_here r prev (String d s)) as [[caps rest] |] eqn:E.
      * destruct Hin as [<- | Hin]; [| exact (IH _ _ _ _ Hnext Hin)].
        cbn [m_start m_end m_groups]. rewrite Hdrop. exists prev, rest. auto.
      * exact (IH _ _ _ _ Hnext Hin).
    + exact (IH _ _ _ _ Hnext Hin).
Qed.

Lemma find_from_brace (w rest : string) (i : nat) :
  occurs "{" w = false ->
  JsAnalysis.find_from "{" i (w ++ String "{" rest) = Some (i + String.length w)%nat.
Proof.
  revert i; induction w as [| d w IH]; intros i Hw; cbn [JsAnalysis.find_from append].
  - rewrite Ascii.eqb_refl. f_equal. cbn [String.length]. lia.
  - cbn [occurs] in Hw. apply orb_false_iff in Hw. destruct Hw as [Hd Hw].
    rewrite Hd, IH by exact Hw. f_equal. cbn [String.length]. lia.
Qed.

(** The brace that the search finds from the start of a match is the
    one that ends the match: the search never fails. *)
Lemma declaration_brace (keywords : regex) (content : string) (m : match_obj) :
  avoids "{" keywords = true ->
  In m (finditer (JsAnalysis.declaration keywords) content) ->
  exists open_brace,
    JsAnalysis.find "{" (m_start m) content = Some open_brace /\
    m_end m = S open_brace.
Proof.
  intros Hkw Hin. unfold finditer in Hin.
  destruct (finditer_go_sound _ content _ _ _ _ m eq_refl Hin) as (prev' & rest & Hm & He).
  destruct (declaration_match _ _ _ _ _ Hkw Hm) as (w & Hs & Hw).
  unfold JsAnalysis.find. rewrite Hs, (find_from_brace _ _ _ Hw).
  eexists; split; [reflexivity |].
  rewrite He, Hs, length_append. cbn [String.length]. lia.
Qed.

End ReFacts.

(* ================================================================== *)
(** ** Long functions in JavaScript and TypeScript files *)

Module JsFacts.
Import PyStr Re JsAnalysis.

(** A path ending in [.js], [.ts], [.tsx] or [.jsx] does not end in
    [.py]. *)
Lemma is_js_not_py (abs_path : string) :
  Analyzer.is_js abs_path = true -> endswith ".py" abs_path = false.
Proof.
  unfold Analyzer.is_js, endswith. generalize (rev abs_path) as t. intros t.
  destruct t as [| c t]; [reflexivity |].
  cbn [rev rev_acc String.prefix].
  destruct (ascii_dec "y" c) as [<- | Hne]; [| intros _; reflexivity].
  cbn. discriminate.
Qed.

Lemma long_js_visit_spec (content rel_path : string) (m : match_obj) :
  long_js_visit content rel_path m
  = match declared_length content m with
    | Some len =>
        if 50 <? len
        then [long_js_issue rel_path (group1 m) (line_of content (m_start m))
                            (line_of content (m_start m) + len)]
        else []
    | None => []
    end.
Proof.
  unfold long_js_visit, declared_length.
  destruct (find "{" (m_start m) content) as [open_brace |]; [| reflexivity].
  rewrite Z.gtb_ltb. destruct (50 <? _); [| reflexivity].
  do 2 f_equal. lia.
Qed.

End JsFacts.

(** C6, as the code has it.  In a [.js], [.ts], [.tsx] or [.jsx] file
    the smells are those of the long-function detector.  For every match
    of the pattern [function|const|let], name, [=] or [(], up to the
    first brace of the line, the brace searched from the start of the
    match is the one that ends the match; the length measured is the
    line distance from the line where the match starts to the line of
    the closing brace that balances it (of the opening brace when none
    does); a Long Method issue is emitted exactly for the matches whose
    length exceeds 50, high above 100 and medium otherwise, with an
    estimate of [round((length - 50) * 0.05, 1)]. *)
Theorem long_js_functions_amended {so : PySet.order}
        (ast_parse : string -> outcome PyAst.node) (content rel_path abs_path : string) :
  Analyzer.is_js abs_path = true ->
  let issues := Analyzer._detect_code_smells ast_parse content rel_path abs_path in
  issues = JsAnalysis._detect_long_js_functions content rel_path /\
  (forall m, In m (Re.finditer JsAnalysis.func_pattern content) ->
             exists open_brace,
               JsAnalysis.find "{" (Re.m_start m) content = Some open_brace /\
               Re.m_end m = S open_brace /\
               JsAnalysis.declared_length content m
               = Some (JsAnalysis.line_of content
                         (JsAnalysis.func_end_of open_brace content)
                       - JsAnalysis.line_of content (Re.m_start m))) /\
  (forall i,
      In i issues <->
      exists m len,
        In m (Re.finditer JsAnalysis.func_pattern content) /\
        JsAnalysis.declared_length content m = Some len /\ 50 < len /\
        i = JsAnalysis.long_js_issue rel_path (Re.group1 m)
              (JsAnalysis.line_of content (Re.m_start m))
              (JsAnalysis.line_of content (Re.m_start m) + len)) /\
  (forall name start_line len,
      let i := JsAnalysis.long_js_issue rel_path name start_line (start_line + len) in
      issue_type i = "smell" /\ category i = "Long Method" /\
      severity i = (if 100 <? len then "high" else "medium") /\
      estimated_hours i = round1 (fmul (of_int (len - 50)) f0_05)).
Proof.
  intros Hjs issues.
  assert (Hissues : issues = JsAnalysis._detect_long_js_functions content rel_path).
  { subst issues. unfold Analyzer._detect_code_smells.
    now rewrite (JsFacts.is_js_not_py _ Hjs), Hjs. }
  split; [exact Hissues |]. split.
  { intros m Hm.
    destruct (ReFacts.declaration_brace
                (Re.Alt (Re.Lit "function") (Re.Alt (Re.Lit "const") (Re.Lit "let")))
                content m eq_refl Hm) as (ob & Hfind & Hend).
    exists ob. split; [exact Hfind |]. split; [exact Hend |].
    unfold JsAnalysis.declared_length. now rewrite Hfind. }
  split.
  { intros i. rewrite Hissues. unfold JsAnalysis._detect_long_js_functions.
    rewrite in_flat_map. split.
    - intros (m & Hm & Hi). rewrite JsFacts.long_js_visit_spec in Hi.
      destruct (JsAnalysis.declared_length content m) as [len |] eqn:El; [| destruct Hi].
      destruct (Z.ltb_spec 50 len); [| destruct Hi].
      destruct Hi as [<- | []]. exists m, len. auto.
    - intros (m & len & Hm & El & Hlen & ->). exists m. split; [exact Hm |].
      rewrite JsFacts.long_js_visit_spec, El.
      destruct (Z.ltb_spec 50 len); [left; reflexivity | lia]. }
  intros name start_line len i. subst i.
  cbn [issue_type category severity estimated_hours JsAnalysis.long_js_issue].
  replace (start_line + len - start_line) with len by lia.
  rewrite Z.gtb_ltb. auto.
Qed.

Lemma long_js_functions_witness :
  Analyzer.is_js "/proj/app.js" = true /\
  Analyzer._detect_code_smells (so := Samples.first_added) Samples.sample_parse (Samples.arrow_function "const" 60)
                               "app.js" "/proj/app.js"
  = JsAnalysis._detect_long_js_functions (Samples.arrow_function "const" 60) "app.js".
Proof.
  split; [reflexivity |].
  exact (proj1 (long_js_functions_amended (so := Samples.first_added) Samples.sample_parse
                  (Samples.arrow_function "const" 60) "app.js" "/proj/app.js" eq_refl)).
Defined.

(** Functions bound with [const], [let] or declared with [function]:
    nothing at 50 lines, a medium issue at 51, a high one at 101. *)
Example long_js_samples :
  JsAnalysis._detect_long_js_functions (Samples.arrow_function "const" 50) "a.js" = [] /\
  map (fun i => (severity i, line_start i, line_end i, estimated_hours i))
      (JsAnalysis._detect_long_js_functions (Samples.arrow_function "const" 51) "a.js")
  = [("medium", Some 1, Some 52, f0_1)] /\
  map (fun i => (severity i, line_start i, line_end i))
      (JsAnalysis._detect_long_js_functions (Samples.arrow_function "let" 101) "a.js")
  = [("high", Some 1, Some 102)] /\
  map (fun i => (severity i, title i))
      (JsAnalysis._detect_long_js_functions
         ("function f() {" ++ Samples.newlines 51 ++ "}") "a.js")
  = [("medium", "Function 'f' is too long (51 lines)")].
Proof. vm_compute. repeat split; reflexivity. Qed.

(** C6, as stated, fails.  The keyword stands on the line before the
    name: the pattern finds the declaration, its braces are 100 lines
    apart, so the claim asks for a medium issue with the estimate of a
    span of 100; the code measures 101 lines from the keyword and emits a
    high issue, and no medium one. *)
Lemma long_js_span_counterexample :
  let content := Samples.split_declaration "const" 100 in
  map (JsAnalysis.spec_span content) (Re.finditer JsAnalysis.complexity_pattern content)
  = [Some 100] /\
  map (fun i => (severity i, estimated_hours i))
      (JsAnalysis._detect_long_js_functions content "a.js")
  = [("high", decimal 26 10)] /\
  JsAnalysis.spec_long_severity 100 = "medium" /\
  JsAnalysis.spec_long_hours 100 = decimal 25 10 /\
  ~ JsAnalysis.spec_long_js JsAnalysis.complexity_pattern content
      (JsAnalysis._detect_long_js_functions content "a.js").
Proof.
  cbn zeta.
  assert (Hissues :
            map (fun i => (severity i, estimated_hours i))
                (JsAnalysis._detect_long_js_functions
                   (Samples.split_declaration "const" 100) "a.js")
            = [("high", decimal 26 10)]) by (vm_compute; reflexivity).
  split; [vm_compute; reflexivity |]. split; [exact Hissues |].
  split; [reflexivity |]. split; [vm_compute; reflexivity |].
  intros Hspec.
  destruct (Hspec (Re.mk_match 0 17 ["f"]) 100) as (i & Hi & _ & _ & Hsev & _).
  - vm_compute. left. reflexivity.
  - vm_compute. reflexivity.
  - lia.
  - apply (in_map (fun i => (severity i, estimated_hours i))) in Hi.
    rewrite Hissues in Hi. destruct Hi as [Heq | []].
    rewrite Hsev in Heq. vm_compute in Heq. discriminate.
Qed.

(** The long-function pattern has no [var]: a function bound with [var]
    is found by the complexity pattern and not by the long-function
    detector, whatever its length. *)
Example long_js_var_sample :
  map Re.group1 (Re.finditer JsAnalysis.complexity_pattern (Samples.arrow_function "var" 60))
  = ["f"] /\
  map (JsAnalysis.spec_span (Samples.arrow_function "var" 60))
      (Re.finditer JsAnalysis.complexity_pattern (Samples.arrow_function "var" 60))
  = [Some 60] /\
  Re.finditer JsAnalysis.func_pattern (Samples.arrow_function "var" 60) = [] /\
  JsAnalysis._detect_long_js_functions (Samples.arrow_function "var" 60) "a.js" = [].
Proof. vm_compute. repeat split; reflexivity. Qed.
(* ================================================================== *)
(** ** Words and normalized texts *)

Module TextRulesFacts.
Import PyStr Duplication TextRules.


Lemma join_cons (sep w : string) (ws : list string) :
  join sep (w :: ws)
  = match ws with
    | [] => w
    | _ :: _ => (w ++ sep ++ join sep ws)%string
    end.
Proof. destruct ws; reflexivity. Qed.

Lemma words_nonempty (c : ascii) (s : string) :
  isspace c = false -> words (String c s) <> [].
Proof.
  intros Hc. cbn [words]. rewrite Hc.
  destruct s as [| d s]; [discriminate |].
  destruct (isspace d); [discriminate |]. destruct (words (String d s)); discriminate.
Qed.

Lemma rstrip_cons (c : ascii) (s : string) :
  isspace c = false -> rstrip (String c s) = String c (rstrip s).
Proof. intros Hc. cbn [rstrip]. rewrite Hc. destruct (rstrip s); reflexivity. Qed.

Lemma collapse_space (in_run : bool) (c : ascii) (s : string) :
  isspace c = true ->
  collapse in_run (String c s)
  = if in_run then collapse true s else String " " (collapse true s).
Proof. intros Hc. cbn [collapse]. rewrite Hc. reflexivity. Qed.

Lemma collapse_other (in_run : bool) (c : ascii) (s : string) :
  isspace c = false -> collapse in_run (String c s) = String c (collapse false s).
Proof. intros Hc. cbn [collapse]. rewrite Hc. reflexivity. Qed.

(** What [collapse] makes of a text without its trailing white space. *)
Lemma collapse_rstrip (s : string) :
  collapse true (rstrip s) = join " " (words s) /\
  collapse false (rstrip s)
  = (if starts_with_space s
     then match words s with
          | [] => EmptyString
          | _ :: _ => (" " ++ join " " (words s))%string
          end
     else join " " (words s)) /\
  (rstrip s = EmptyString <-> words s = []).
Proof.
  induction s as [| c s IH]; [repeat split; reflexivity |].
  destruct IH as (IHt & IHf & IHe).
  destruct (isspace c) eqn:Ec.
  - assert (Hw : words (String c s) = words s) by (cbn [words]; now rewrite Ec).
    rewrite Hw. cbn [rstrip starts_with_space]. rewrite Ec.
    destruct (rstrip s) as [| r0 r] eqn:Er.
    + assert (Hnil : words s = []) by (now apply IHe). rewrite Hnil.
      repeat split; reflexivity.
    + assert (Hne : words s <> []).
      { intros Hnil. apply IHe in Hnil. discriminate. }
      rewrite !(collapse_space _ c _ Ec), IHt. split; [reflexivity |]. split.
      * destruct (words s); [congruence | reflexivity].
      * split; [discriminate | intros H; congruence].
  - rewrite (rstrip_cons c s Ec), !(collapse_other _ c _ Ec).
    cbn [starts_with_space]. rewrite Ec.
    assert (Hj : String c (collapse false (rstrip s)) = join " " (words (String c s))).
    { cbn [words]. rewrite Ec. destruct s as [| d s']; [reflexivity |].
      cbn [starts_with_space] in IHf. destruct (isspace d) eqn:Ed.
      - rewrite IHf, join_cons. destruct (words (String d s')); reflexivity.
      - rewrite IHf. pose proof (words_nonempty d s' Ed) as Hne.
        destruct (words (String d s')) as [| w ws]; [congruence |].
        rewrite !join_cons. destruct ws; reflexivity. }
    split; [exact Hj |]. split; [exact Hj |].
    split; [discriminate |]. intros H. now apply words_nonempty in H.
Qed.

Lemma lstrip_no_space (s : string) : starts_with_space (lstrip s) = false.
Proof.
  induction s as [| c s IH]; [reflexivity |]. cbn [lstrip].
  destruct (isspace c) eqn:E; [exact IH |]. cbn [starts_with_space]. exact E.
Qed.

Lemma words_lstrip (s : string) : words (lstrip s) = words s.
Proof.
  induction s as [| c s IH]; [reflexivity |]. cbn [lstrip].
  destruct (isspace c) eqn:E; [| reflexivity]. cbn [words]. now rewrite E.
Qed.

(** Normalizing a block joins its words with single spaces. *)
Lemma normalize_words (block : string) : normalize block = join " " (words block).
Proof.
  unfold normalize, strip.
  destruct (collapse_rstrip (lstrip block)) as (_ & Hf & _).
  now rewrite Hf, lstrip_no_space, words_lstrip.
Qed.

Lemma spaceless_append (a b : string) :
  spaceless (a ++ b) = spaceless a && spaceless b.
Proof.
  induction a as [| c a IH]; [reflexivity |]. cbn [append spaceless].
  now rewrite IH, andb_assoc.
Qed.

(** The words of a text are words. *)
Lemma words_are_words (s : string) : forallb is_word (words s) = true.
Proof.
  induction s as [| c s IH]; [reflexivity |]. cbn [words].
  destruct (isspace c) eqn:Ec; [exact IH |].
  destruct s as [| d s']; [cbn; now rewrite Ec |].
  destruct (isspace d) eqn:Ed.
  - cbn [forallb]. rewrite IH. cbn. now rewrite Ec.
  - destruct (words (String d s')) as [| w ws]; [cbn; now rewrite Ec |].
    cbn [forallb] in *. apply andb_true_iff in IH. destruct IH as [Hw Hws].
    rewrite Hws, andb_true_r. unfold is_word in *. cbn [String.eqb spaceless negb andb].
    rewrite Ec. apply andb_true_iff in Hw. now destruct Hw as [_ ->].
Qed.

(** The words of a word followed by white space and a text. *)
Lemma words_word_space (w : string) (c : ascii) (s : string) :
  is_word w = true -> isspace c = true ->
  words (w ++ String c s) = w :: words s.
Proof.
  intros Hw Hc. unfold is_word in Hw. apply andb_true_iff in Hw. destruct Hw as [Hne Hsp].
  induction w as [| a w IH]; [discriminate |].
  cbn [spaceless] in Hsp. apply andb_true_iff in Hsp. destruct Hsp as [Ha Hsp].
  apply negb_true_iff in Ha. cbn [append words]. rewrite Ha.
  destruct w as [| b w'].
  - cbn [append]. rewrite Hc. cbn [words]. now rewrite Hc.
  - cbn [append]. cbn [append] in IH.
    assert (Hb : isspace b = false).
    { cbn [spaceless] in Hsp. apply andb_true_iff in Hsp. now apply negb_true_iff. }
    rewrite Hb, IH by (reflexivity || assumption). reflexivity.
Qed.

Lemma words_word (w : string) : is_word w = true -> words w = [w].
Proof.
  intros Hw. unfold is_word in Hw. apply andb_true_iff in Hw. destruct Hw as [Hne Hsp].
  induction w as [| a w IH]; [discriminate |].
  cbn [spaceless] in Hsp. apply andb_true_iff in Hsp. destruct Hsp as [Ha Hsp].
  apply negb_true_iff in Ha. cbn [words]. rewrite Ha.
  destruct w as [| b w']; [reflexivity |].
  assert (Hb : isspace b = false).
  { cbn [spaceless] in Hsp. apply andb_true_iff in Hsp. now apply negb_true_iff. }
  rewrite Hb, IH by (reflexivity || assumption). reflexivity.
Qed.

(** Joining words with single spaces and splitting again gives the
    words back. *)
Lemma words_join (ws : list string) :
  forallb is_word ws = true -> words (join " " ws) = ws.
Proof.
  induction ws as [| w ws IH]; [reflexivity |]. cbn [forallb].
  intros H. apply andb_true_iff in H. destruct H as [Hw Hws].
  rewrite join_cons. destruct ws as [| w' ws'].
  - now apply words_word.
  - cbn [append]. rewrite words_word_space by (assumption || reflexivity).
    now rewrite IH.
Qed.

End TextRulesFacts.


(* ================================================================== *)
(** ** The duplication detector *)

Module DuplicationFacts.
Import PyStr Dict DictSpec Duplication.

Section Listing.
Context {so : PySet.order}.

Lemma get_append_to {X} (d : dict (list X)) (k h : string) (x : X) :
  get (append_to d k x) h
  = if String.eqb h k then Some (occ_list d k ++ [x]) else get d h.
Proof.
  unfold occ_list. induction d as [| [k' xs] d IH]; cbn [append_to get].
  - destruct (String.eqb h k); reflexivity.
  - destruct (String.eqb_spec k k') as [-> | Hkk'].
    + cbn [get]. destruct (String.eqb h k'); reflexivity.
    + cbn [get]. rewrite IH.
      destruct (String.eqb_spec h k') as [E1 | N1], (String.eqb_spec h k) as [E2 | N2];
        try congruence; reflexivity.
Qed.

Lemma keys_append_to {X} (d : dict (list X)) (k : string) (x : X) :
  keys (append_to d k x) = if mem k (keys d) then keys d else keys d ++ [k].
Proof.
  unfold keys, mem. induction d as [| [k' xs] d IH]; cbn [append_to map existsb fst].
  - reflexivity.
  - destruct (String.eqb k k'); cbn [map fst orb]; [reflexivity |].
    rewrite IH. destruct (existsb _ _); reflexivity.
Qed.

Lemma mem_In (k : string) (l : list string) : mem k l = true <-> In k l.
Proof.
  unfold mem. rewrite existsb_exists. split.
  - intros (y & Hy & E). apply String.eqb_eq in E. now subst.
  - intros H. exists k. split; [assumption | apply String.eqb_refl].
Qed.

Lemma NoDup_keys_append_to {X} (d : dict (list X)) (k : string) (x : X) :
  NoDup (keys d) -> NoDup (keys (append_to d k x)).
Proof.
  intros Hd. rewrite keys_append_to. destruct (mem k (keys d)) eqn:E; [exact Hd |].
  apply NoDup_app; [exact Hd | repeat constructor; intros [] | ].
  intros y Hy [<- | []]. apply mem_In in Hy. congruence.
Qed.

Lemma inhabited_append_to {X} (d : dict (list X)) (k : string) (x : X) :
  inhabited d -> inhabited (append_to d k x).
Proof.
  intros Hd h. rewrite get_append_to. destruct (String.eqb h k); [| apply Hd].
  intros [= E]. now destruct (occ_list d k).
Qed.

(** Appending a list of pairs one after the other: every key gathers its
    values in order. *)
Lemma fold_append {X} (ps : list (string * X)) (d : dict (list X)) :
  NoDup (keys d) -> inhabited d ->
  let d' := fold_left append_pair ps d in
  NoDup (keys d') /\ inhabited d' /\
  forall h, occ_list d' h
            = occ_list d h ++ map snd (filter (fun p => String.eqb (fst p) h) ps).
Proof.
  revert d; induction ps as [| p ps IH]; intros d Hnd Hin; cbn [fold_left].
  - repeat split; auto. intros h. cbn. now rewrite app_nil_r.
  - destruct (IH (append_pair d p) (NoDup_keys_append_to d (fst p) (snd p) Hnd)
                (inhabited_append_to d (fst p) (snd p) Hin)) as (H1 & H2 & H3).
    repeat split; auto. intros h. rewrite H3. cbn [filter].
    unfold occ_list at 1, append_pair. rewrite get_append_to.
    rewrite (String.eqb_sym h (fst p)).
    destruct (String.eqb_spec (fst p) h) as [<- | Hne]; cbn [map].
    + now rewrite <- app_assoc.
    + reflexivity.
Qed.

Section Hash.
Variable md5_hexdigest : string -> string.

(** The text that the detector hashes is the one the specification
    names. *)
Lemma window_spec (lines : list string) (i : nat) :
  window lines i = spec_window lines i.
Proof. unfold window, spec_window. apply TextRulesFacts.normalize_words. Qed.

Lemma record_window_pairs (rel_path : string) (lines : list string)
      (d : dict (list occurrence)) (l : list nat) :
  fold_left (record_window md5_hexdigest rel_path lines) l d
  = fold_left append_pair
      (map (fun p => (md5_hexdigest (fst p), snd p))
           (flat_map (fun w : string * list string * nat =>
                        let '(rel_path, lines, i) := w in
                        let normalized := spec_window lines i in
                        if 50 <? len normalized
                        then [(normalized, (rel_path, Z.of_nat i + 1))]
                        else [])
                     (map (fun i => (rel_path, lines, i)) l)))
      d.
Proof.
  revert d; induction l as [| i l IH]; intros d; [reflexivity |].
  cbn [fold_left map flat_map]. rewrite map_app, fold_left_app, IH. f_equal.
  unfold record_window. rewrite Z.gtb_ltb, window_spec.
  destruct (50 <? len (spec_window lines i)); reflexivity.
Qed.

(** The table is built by recording the kept windows in scanning order. *)
Lemma hash_blocks_pairs (file_contents : dict string) :
  hash_blocks md5_hexdigest file_contents
  = fold_left append_pair (hashed_windows md5_hexdigest file_contents) [].
Proof.
  unfold hash_blocks, hashed_windows, qualifying_windows, corpus_windows.
  generalize (@nil (string * list occurrence)) as d.
  induction file_contents as [| [rel_path content] fc IH]; intros d; [reflexivity |].
  cbn [fold_left flat_map fst snd].
  rewrite flat_map_app, map_app, fold_left_app, <- IH. f_equal.
  unfold record_file. apply record_window_pairs.
Qed.

Lemma hash_blocks_table (file_contents : dict string) :
  let table := hash_blocks md5_hexdigest file_contents in
  NoDup (keys table) /\
  forall h, get table h = match occurrences_of md5_hexdigest file_contents h with
                          | [] => None
                          | occ => Some occ
                          end.
Proof.
  cbn zeta. rewrite hash_blocks_pairs.
  destruct (fold_append (hashed_windows md5_hexdigest file_contents) []
              (NoDup_nil _) (fun h => ltac:(discriminate))) as (H1 & H2 & H3).
  split; [exact H1 |]. intros h. specialize (H3 h). specialize (H2 h).
  unfold occurrences_of. unfold occ_list in H3. cbn [get app] in H3.
  rewrite <- H3. destruct (get _ h) as [[| o l] |]; congruence.
Qed.

(** The reporting loop never meets a hash twice, so its test on
    [reported_hashes] always passes. *)
Lemma report_loop (items : dict (list occurrence)) (reported : list string)
      (issues : list issue) :
  NoDup (keys items) -> (forall h, In h (keys items) -> ~ In h reported) ->
  snd (fold_left report_step items (reported, issues))
  = issues ++ map (fun item => duplication_issue (snd item)) (filter repeated items).
Proof.
  revert reported issues; induction items as [| [h occ] items IH];
    intros reported issues Hnd Hfresh; cbn [fold_left filter map].
  - cbn. now rewrite app_nil_r.
  - inversion Hnd as [| ? ? Hh Hnd']; subst.
    assert (Hmem : mem h reported = false).
    { destruct (mem h reported) eqn:E; [| reflexivity].
      apply mem_In in E. exfalso. apply (Hfresh h); [left; reflexivity | exact E]. }
    unfold report_step at 2. rewrite Hmem. cbn [negb]. rewrite andb_true_r.
    unfold repeated at 1. cbn [snd].
    replace (Z.of_nat (List.length occ) >? 1) with (1 <? List.length occ)%nat.
    2:{ rewrite Z.gtb_ltb. destruct (Nat.ltb_spec 1 (List.length occ)),
          (Z.ltb_spec 1 (Z.of_nat (List.length occ))); try reflexivity; lia. }
    destruct (1 <? List.length occ)%nat.
    + rewrite IH; [now rewrite <- app_assoc | exact Hnd' |].
      intros h' Hin [<- | Hrep]; [exact (Hh Hin) |].
      apply (Hfresh h'); [right; exact Hin | exact Hrep].
    + apply IH; [exact Hnd' |]. intros h' Hin. apply Hfresh. right. exact Hin.
Qed.

Lemma detect_duplication_map (file_contents : dict string) :
  _detect_duplication md5_hexdigest file_contents
  = map (fun item => duplication_issue (snd item))
        (filter repeated (hash_blocks md5_hexdigest file_contents)).
Proof.
  unfold _detect_duplication.
  rewrite report_loop; [reflexivity | apply hash_blocks_table | intros h _ []].
Qed.

End Hash.

Lemma dedup_incl (l : list string) : incl (dedup l) l.
Proof.
  induction l as [| x l IH]; [intros y [] |]. cbn [dedup].
  intros y [<- | Hy]; [left; reflexivity |].
  right. apply IH. now apply filter_In in Hy.
Qed.

Lemma dedup_NoDup (l : list string) : NoDup (dedup l).
Proof.
  induction l as [| x l IH]; cbn [dedup]; constructor.
  - intros Hin. apply filter_In in Hin. destruct Hin as [_ Hne].
    now rewrite String.eqb_refl in Hne.
  - now apply NoDup_filter.
Qed.

Lemma dedup_length (l : list string) : (List.length (dedup l) <= List.length l)%nat.
Proof.
  induction l as [| x l IH]; cbn [dedup List.length]; [lia |].
  pose proof (filter_length_le (fun y => negb (String.eqb x y)) (dedup l)). lia.
Qed.

Lemma files_affected_spec (occurrences : list occurrence) :
  (List.length (files_affected occurrences) <= 3)%nat /\
  NoDup (files_affected occurrences) /\
  incl (files_affected occurrences) (map fst occurrences).
Proof.
  unfold files_affected. cbn zeta.
  pose proof (PySet.listing_perm [map fst (firstn 3 occurrences)]
                (dedup (map fst (firstn 3 occurrences)))) as Hperm.
  split; [| split].
  - rewrite (Permutation_length Hperm).
    pose proof (dedup_length (map fst (firstn 3 occurrences))) as H.
    rewrite length_map, length_firstn in H. lia.
  - apply (Permutation_NoDup (Permutation_sym Hperm)), dedup_NoDup.
  - intros f Hf. apply (Permutation_in _ Hperm), dedup_incl in Hf. apply in_map_iff in Hf.
    destruct Hf as (o & <- & Ho). apply in_map.
    rewrite <- (firstn_skipn 3 occurrences). apply in_or_app. now left.
Qed.

(** The issue of a repeated block is the one the specification asks
    for, whatever the order in which the set of files is listed. *)
Lemma duplication_issue_spec (o : occurrence) (occ : list occurrence) :
  spec_issue (o :: occ) (duplication_issue (o :: occ)).
Proof.
  destruct o as [f l].
  cbn [spec_issue duplication_issue hd fst snd issue_type category file_path line_start
         severity estimated_hours description].
  rewrite Z.gtb_ltb. repeat (split; [reflexivity |]).
  exists (files_affected ((f, l) :: occ)). split; [| reflexivity].
  unfold files_affected. apply PySet.listing_perm.
Qed.

End Listing.

End DuplicationFacts.

Module DuplicationTable.
Import PyStr Dict DictSpec Duplication DuplicationFacts.

Section Listing.
Context {so : PySet.order}.

Lemma get_In {V} (d : dict V) (h : string) (v : V) :
  NoDup (keys d) -> In (h, v) d -> get d h = Some v.
Proof.
  unfold keys. induction d as [| [k w] d IH]; intros Hnd Hin; [destruct Hin |].
  cbn [map fst] in Hnd. inversion Hnd as [| ? ? Hk Hnd']; subst.
  cbn [get]. destruct Hin as [[= -> ->] | Hin].
  - now rewrite String.eqb_refl.
  - destruct (String.eqb_spec h k) as [-> | _]; [| auto].
    exfalso. apply Hk. apply in_map_iff. exists (k, v). auto.
Qed.

(** As many reported items as hashes with more than one occurrence. *)
Lemma repeated_count (md5_hexdigest : string -> string) (file_contents : dict string) :
  let table := hash_blocks md5_hexdigest file_contents in
  List.length (filter repeated table)
  = List.length
      (filter (fun h => (1 <? List.length (occurrences_of md5_hexdigest file_contents h))%nat)
              (keys table)).
Proof.
  cbn zeta. destruct (hash_blocks_table md5_hexdigest file_contents) as [Hnd Hget].
  assert (Hall : forall h v, In (h, v) (hash_blocks md5_hexdigest file_contents) ->
                             v = occurrences_of md5_hexdigest file_contents h).
  { intros h v Hin. apply (get_In _ _ _ Hnd) in Hin. rewrite Hget in Hin.
    destruct (occurrences_of _ _ h); congruence. }
  clear Hnd Hget. unfold keys.
  induction (hash_blocks md5_hexdigest file_contents) as [| [h v] d IH]; [reflexivity |].
  cbn [filter map fst]. unfold repeated at 1. cbn [snd].
  rewrite <- (Hall h v) by (left; reflexivity).
  destruct (1 <? List.length v)%nat; cbn [List.length]; rewrite IH; auto;
    intros h' v' Hin; apply Hall; right; exact Hin.
Qed.

Lemma three_files_windows :
  qualifying_windows Samples.three_files
  = [(Samples.block_normalized, ("a.py", 1)); (Samples.block_normalized, ("b.py", 1));
     (Samples.block_normalized, ("c.py", 1))].
Proof. vm_compute. reflexivity. Qed.

Lemma three_files_issues (md5_hexdigest : string -> string) :
  _detect_duplication md5_hexdigest Samples.three_files
  = [duplication_issue [("a.py", 1); ("b.py", 1); ("c.py", 1)]].
Proof.
  rewrite detect_duplication_map, hash_blocks_pairs.
  unfold hashed_windows. rewrite three_files_windows.
  cbn [map fold_left fst snd append_pair append_to].
  rewrite String.eqb_refl. cbn [app append_to]. rewrite String.eqb_refl.
  cbn [app filter repeated snd List.length Nat.ltb Nat.leb map].
  reflexivity.
Qed.

Lemma window_length (rel_path : string) (lines : list string) (k : nat)
      (file_contents : dict string) :
  In (rel_path, lines, k) (corpus_windows file_contents) ->
  List.length (firstn min_block_size (skipn k lines)) = 5%nat.
Proof.
  unfold corpus_windows. rewrite in_flat_map. intros ([r c] & _ & Hin).
  apply in_map_iff in Hin. destruct Hin as (i & [= <- <- <-] & Hi).
  apply in_seq in Hi. rewrite length_firstn, length_skipn.
  unfold min_block_size in *. cbn [snd] in *. lia.
Qed.

End Listing.

End DuplicationTable.

(** C4.  The table of the detector holds, under each hash, the windows
    of five lines whose whitespace-normalized text (the words of the
    window joined by single spaces) is longer than 50 characters, in
    scanning order, and nothing else; every hash with more than one
    occurrence gives exactly one "Code Duplication" issue, anchored at
    the first occurrence, medium when there are more than 3 occurrences
    and low otherwise, with an estimate of [0.5 * occurrence_count]; its
    description lists the distinct files of the first three occurrences,
    in the order in which the process lists a set.  Three files made of
    one qualifying block give one low issue of 1.5 hours naming the three
    files. *)
Theorem duplication_detection_correct
        {so : PySet.order} (md5_hexdigest : string -> string)
        (file_contents : Dict.dict string) :
  let table := Duplication.hash_blocks md5_hexdigest file_contents in
  NoDup (Dict.keys table) /\
  (forall h, Dict.get table h
             = match Duplication.occurrences_of md5_hexdigest file_contents h with
               | [] => None
               | occ => Some occ
               end) /\
  (forall lines i,
      Duplication.window lines i
      = PyStr.join " " (TextRules.words
                          (PyStr.join PyStr.nl (firstn 5 (skipn i lines))))) /\
  (forall p, In p (Duplication.qualifying_windows file_contents) ->
             50 < PyStr.len (fst p)) /\
  Duplication._detect_duplication md5_hexdigest file_contents
  = map (fun item => Duplication.duplication_issue (snd item))
        (filter DictSpec.repeated table) /\
  List.length (Duplication._detect_duplication md5_hexdigest file_contents)
  = List.length
      (filter (fun h => (1 <? List.length
                                (Duplication.occurrences_of md5_hexdigest file_contents h))%nat)
              (Dict.keys table)) /\
  (forall o occ,
      Duplication.spec_issue (o :: occ) (Duplication.duplication_issue (o :: occ)) /\
      (List.length (Duplication.files_affected (o :: occ)) <= 3)%nat /\
      NoDup (Duplication.files_affected (o :: occ)) /\
      incl (Duplication.files_affected (o :: occ)) (map fst (o :: occ))) /\
  (exists i files,
      Duplication._detect_duplication md5_hexdigest Samples.three_files = [i] /\
      file_path i = "a.py" /\ line_start i = Some 1 /\
      severity i = "low" /\ estimated_hours i = f1_5 /\
      Permutation files ["a.py"; "b.py"; "c.py"] /\
      description i
      = ("This code block appears in 3 different locations: " ++ PyStr.join ", " files
         ++ ". Consider extracting to a shared function.")%string).
Proof.
  cbn zeta.
  destruct (DuplicationFacts.hash_blocks_table md5_hexdigest file_contents) as [Hnd Hget].
  split; [exact Hnd |]. split; [exact Hget |].
  split; [exact DuplicationFacts.window_spec |]. split.
  { intros [normalized o] Hin. unfold Duplication.qualifying_windows in Hin.
    apply in_flat_map in Hin. destruct Hin as ([[r lines] k] & _ & Hin).
    cbn zeta in Hin.
    destruct (Z.ltb_spec 50 (PyStr.len (Duplication.spec_window lines k))) as [Hlt | _];
      [| destruct Hin].
    destruct Hin as [[= <- <-] | []]. exact Hlt. }
  split; [apply DuplicationFacts.detect_duplication_map |]. split.
  { rewrite DuplicationFacts.detect_duplication_map, length_map.
    apply DuplicationTable.repeated_count. }
  split.
  { intros o occ. split; [apply DuplicationFacts.duplication_issue_spec |].
    apply DuplicationFacts.files_affected_spec. }
  exists (Duplication.duplication_issue [("a.py", 1); ("b.py", 1); ("c.py", 1)]),
         (Duplication.files_affected [("a.py", 1); ("b.py", 1); ("c.py", 1)]).
  split; [apply DuplicationTable.three_files_issues |].
  split; [reflexivity |]. split; [reflexivity |]. split; [reflexivity |].
  split; [vm_compute; reflexivity |].
  split; [| reflexivity].
  unfold Duplication.files_affected. apply PySet.listing_perm.
Qed.

(** The description under two ways of listing a set: the three files in
    the order of their first occurrence, or the other way round. *)
Example duplication_description_orders :
  map description
      (Duplication._detect_duplication (so := Samples.first_added) (fun s => s)
                                       Samples.three_files)
  = ["This code block appears in 3 different locations: a.py, b.py, c.py. Consider extracting to a shared function."] /\
  map description
      (Duplication._detect_duplication (so := Samples.last_added) (fun s => s)
                                       Samples.three_files)
  = ["This code block appears in 3 different locations: c.py, b.py, a.py. Consider extracting to a shared function."].
Proof. vm_compute. split; reflexivity. Qed.

(** C10.  Every "Code Duplication" issue ends five lines after its
    start, a range of six lines, while every window that is hashed has
    five lines. *)
Theorem duplication_line_range
        {so : PySet.order} (md5_hexdigest : string -> string) (file_contents : Dict.dict string) (i : issue) :
  In i (Duplication._detect_duplication md5_hexdigest file_contents) ->
  category i = "Code Duplication" /\
  (exists ls le, line_start i = Some ls /\ line_end i = Some le /\
                 le = ls + 5 /\ le - ls + 1 = 6) /\
  (forall rel_path lines k,
      In (rel_path, lines, k) (Duplication.corpus_windows file_contents) ->
      List.length (firstn Duplication.min_block_size (skipn k lines)) = 5%nat).
Proof.
  intros Hin. rewrite DuplicationFacts.detect_duplication_map in Hin.
  apply in_map_iff in Hin. destruct Hin as ([h occ] & <- & _).
  split; [reflexivity |]. split.
  - eexists _, _. cbn [Duplication.duplication_issue line_start line_end].
    split; [reflexivity |]. split; [reflexivity |].
    unfold Duplication.min_block_size. cbn [Z.of_nat Pos.of_succ_nat Pos.succ]. lia.
  - intros r lines k. apply DuplicationTable.window_length.
Qed.

Lemma duplication_line_range_witness :
  In (Duplication.duplication_issue (so := Samples.first_added)
       [("a.py", 1); ("b.py", 1); ("c.py", 1)])
     (Duplication._detect_duplication (so := Samples.first_added) (fun s => s)
                                      Samples.three_files) /\
  exists ls le,
    line_start (Duplication.duplication_issue (so := Samples.first_added)
       [("a.py", 1); ("b.py", 1); ("c.py", 1)])
      = Some ls /\
    line_end (Duplication.duplication_issue (so := Samples.first_added)
       [("a.py", 1); ("b.py", 1); ("c.py", 1)])
      = Some le /\
    le = ls + 5 /\ le - ls + 1 = 6.
Proof.
  assert (Hin : In (Duplication.duplication_issue (so := Samples.first_added)
       [("a.py", 1); ("b.py", 1); ("c.py", 1)])
                   (Duplication._detect_duplication (so := Samples.first_added) (fun s => s)
                                      Samples.three_files))
    by (left; vm_compute; reflexivity).
  split; [exact Hin |].
  exact (proj1 (proj2 (duplication_line_range (so := Samples.first_added) (fun s => s)
                          Samples.three_files _ Hin))).
Defined.

(* ================================================================== *)
(** ** Blocks of statements *)

Module StmtFacts.
Import Stmt StmtSpec.

Lemma appends_ret P {A} (a : A) : appends P (ret a).
Proof. intros st. exists []. cbn. rewrite app_nil_r. auto. Qed.

Lemma appends_eval P {A} (o : outcome A) : appends P (eval o).
Proof. intros st. exists []. cbn. rewrite app_nil_r. auto. Qed.

Lemma appends_append (P : issue -> Prop) (i : issue) : P i -> appends P (append i).
Proof. intros Hi st. exists [i]. cbn. auto. Qed.

Lemma appends_raised P {A B} (e : exn) (k : A -> block B) :
  appends P (bind (eval (Raised e)) k).
Proof. intros st. exists []. cbn. rewrite app_nil_r. auto. Qed.

Lemma appends_bind P {A B} (m : block A) (k : A -> block B) :
  appends P m -> (forall a, appends P (k a)) -> appends P (bind m k).
Proof.
  intros Hm Hk st. unfold bind. destruct (Hm st) as (e1 & E1 & F1).
  destruct (m st) as [[a | ex] st1]; cbn [snd] in E1; subst st1.
  - destruct (Hk a (st ++ e1)) as (e2 & E2 & F2).
    exists (e1 ++ e2). rewrite E2, app_assoc. split; [reflexivity |].
    apply Forall_app; auto.
  - exists e1. auto.
Qed.

Lemma appends_when P (c : bool) (m : block unit) : appends P m -> appends P (when c m).
Proof. destruct c; [auto | intros _; apply appends_ret]. Qed.

Lemma appends_for_each P {A} (l : list A) (body : A -> block unit) :
  (forall x, appends P (body x)) -> appends P (for_each l body).
Proof.
  intros Hbody. induction l as [| x l IH]; cbn [for_each].
  - apply appends_ret.
  - apply appends_bind; auto.
Qed.

Lemma appends_try P (m : block unit) : appends P m -> appends P (try_except m).
Proof.
  intros Hm st. unfold try_except. destruct (Hm st) as (e & E & F).
  exists e. destruct (m st) as [[[] | ex] st1]; cbn [snd] in *; auto.
Qed.

(** A block of the [try] statement always returns. *)
Lemma try_except_returns (m : block unit) (st : list issue) :
  fst (try_except m st) = Returned tt.
Proof. unfold try_except. destruct (m st) as [[[] | ex] st1]; reflexivity. Qed.

Lemma exactly_bind {A B} (m : block A) (k : A -> block B) a b e1 e2 :
  appends_exactly m a e1 -> appends_exactly (k a) b e2 ->
  appends_exactly (bind m k) b (e1 ++ e2).
Proof.
  intros Hm Hk st. unfold bind. rewrite Hm, Hk, app_assoc. reflexivity.
Qed.

Lemma exactly_for_each {A} (l : list A) (body : A -> block unit) (f : A -> list issue) :
  (forall x, appends_exactly (body x) tt (f x)) ->
  appends_exactly (for_each l body) tt (flat_map f l).
Proof.
  intros Hbody. induction l as [| x l IH]; cbn [for_each flat_map].
  - intros st. cbn. now rewrite app_nil_r.
  - eapply exactly_bind; [apply Hbody | apply IH].
Qed.

Lemma exactly_try (m : block unit) (extra : list issue) :
  appends_exactly m tt extra -> appends_exactly (try_except m) tt extra.
Proof. intros Hm st. unfold try_except. rewrite Hm. reflexivity. Qed.

End StmtFacts.

(* ================================================================== *)
(** ** The manifest analyser *)

Module DependenciesFacts.
Import PyStr Stmt StmtSpec StmtFacts Dependencies.

Lemma requirement_line_exactly (line_num : Z) (line : string) :
  appends_exactly (requirement_line line_num line) tt (spec_requirement (line_num, line)).
Proof.
  intros st. unfold requirement_line, spec_requirement, pinned, spec_package, spec_version,
    legacy_major, when, mem.
  cbn [existsb].
  destruct (String.eqb (strip line) EmptyString), (startswith "#" (strip line)),
    (contains "==" (strip line)), (contains "0." _), (contains "1." _), (contains "2." _),
    (String.eqb _ "python");
    cbv [ret append negb andb orb]; rewrite ?app_nil_r; reflexivity.
Qed.

(** [readlines] gives the pieces between line feeds, with the line
    feeds. *)
Lemma readlines_split (text : string) :
  Fs.readlines text = LinesSpec.with_ends (split nl text).
Proof.
  unfold split. induction text as [| c rest IH]; [reflexivity |].
  cbn [Fs.readlines split_go String.prefix nl String.length Nat.sub].
  destruct (split_go nl 0 rest) as [p ps] eqn:E.
  change (String newline EmptyString) with nl in *.
  destruct (Ascii.eqb_spec c newline) as [-> | Hc].
  - destruct (ascii_dec newline newline) as [_ | Hn]; [| congruence].
    replace (String.prefix EmptyString rest) with true by (now destruct rest).
    rewrite IH. reflexivity.
  - destruct (ascii_dec newline c) as [Heq | _]; [congruence |].
    rewrite IH. cbn [LinesSpec.with_ends].
    destruct ps as [| q qs].
    + destruct (String.eqb_spec p EmptyString) as [-> | Hp]; [reflexivity |].
      destruct p; [congruence | reflexivity].
    + reflexivity.
Qed.

Lemma rstrip_step (d : ascii) (s : string) :
  rstrip (String d s)
  = match rstrip s with
    | EmptyString => if isspace d then EmptyString else String d EmptyString
    | r => String d r
    end.
Proof. reflexivity. Qed.

Lemma rstrip_append_space (x : string) (c : ascii) :
  isspace c = true -> rstrip (x ++ String c EmptyString) = rstrip x.
Proof.
  intros Hc. induction x as [| d x IH].
  - cbn. now rewrite Hc.
  - change (String d x ++ String c EmptyString)%string
      with (String d (x ++ String c EmptyString)).
    now rewrite !rstrip_step, IH.
Qed.

(** The line feed at the end of a line is stripped with it. *)
Lemma strip_line_end (q : string) : strip (q ++ nl) = strip q.
Proof.
  unfold strip. induction q as [| c q IH]; [reflexivity |].
  change (String c q ++ nl)%string with (String c (q ++ nl)).
  cbn [lstrip]. destruct (isspace c); [exact IH |].
  change (String c (q ++ nl)) with (String c q ++ nl)%string.
  now apply rstrip_append_space.
Qed.

Lemma spec_requirement_line_end (n : Z) (q : string) :
  spec_requirement (n, (q ++ nl)%string) = spec_requirement (n, q).
Proof.
  unfold spec_requirement, pinned, spec_package, spec_version.
  now rewrite !strip_line_end.
Qed.

(** The line feeds change nothing to what the lines call for. *)
Lemma requirements_with_ends (pieces : list string) (start : nat) :
  flat_map spec_requirement (LinesSpec.enumerate_from start (LinesSpec.with_ends pieces))
  = flat_map spec_requirement (LinesSpec.enumerate_from start pieces).
Proof.
  revert start. induction pieces as [| q qs IH]; intros start; [reflexivity |].
  destruct qs as [| q' qs'].
  - cbn [LinesSpec.with_ends].
    destruct (String.eqb_spec q EmptyString) as [-> | _]; reflexivity.
  - change (LinesSpec.with_ends (q :: q' :: qs'))
      with ((q ++ nl)%string :: LinesSpec.with_ends (q' :: qs')).
    unfold LinesSpec.enumerate_from in *. cbn [List.length seq map combine flat_map].
    rewrite spec_requirement_line_end. f_equal. apply IH.
Qed.

Lemma requirements_of_text (text : string) :
  flat_map spec_requirement (enumerate1 (Fs.readlines text))
  = flat_map spec_requirement (manifest_lines text).
Proof.
  unfold manifest_lines. rewrite readlines_split.
  apply (requirements_with_ends (split nl text) 1).
Qed.

Lemma requirement_line_appends (P : issue -> Prop) (line_num : Z) (line : string) :
  (forall p v, P (outdated_issue p v line_num)) ->
  appends P (requirement_line line_num line).
Proof.
  intros HP. unfold requirement_line.
  repeat apply appends_when. apply appends_append, HP.
Qed.

(** What can be read exists. *)
Lemma read_strict_exists (fs : Fs.entry) (path text : string) :
  Fs.read_strict fs path = Returned text -> Fs.exists_ fs path = true.
Proof.
  unfold Fs.read_strict, Fs.exists_.
  destruct (Fs.embedded_null path); [discriminate |].
  destruct (Fs.lookup fs path); [reflexivity | discriminate].
Qed.

Section Manifests.
Variable json_load : string -> outcome json.
Variable fs : Fs.entry.

Lemma requirements_block_appends (P : issue -> Prop) (path : string) :
  (forall p v n, P (outdated_issue p v n)) ->
  appends P (requirements_block fs path).
Proof.
  intros HP. unfold requirements_block.
  apply appends_bind; [apply appends_eval |]. intros lines.
  apply appends_for_each. intros [n l]. apply requirement_line_appends. auto.
Qed.

Lemma package_json_block_appends (P : issue -> Prop) (path : string) :
  (forall p v, P (flexible_issue p v)) ->
  appends P (package_json_block json_load fs path).
Proof.
  intros HP. unfold package_json_block.
  apply appends_bind; [apply appends_eval |]. intros data.
  apply appends_bind; [apply appends_eval |]. intros d1.
  apply appends_bind; [apply appends_eval |]. intros d2.
  apply appends_bind; [apply appends_eval |]. intros deps.
  apply appends_for_each. intros [pkg v].
  apply appends_bind; [apply appends_eval |]. intros flexible.
  apply appends_when, appends_append, HP.
Qed.

(** Every issue of the manifest analyser is one of the two kinds. *)
Lemma analyze_dependencies_forall (P : issue -> Prop) (project_path : string) :
  (forall p v n, P (outdated_issue p v n)) ->
  (forall p v, P (flexible_issue p v)) ->
  Forall P (_analyze_dependencies json_load fs project_path).
Proof.
  intros H1 H2. unfold _analyze_dependencies, issues_of.
  match goal with |- Forall P (snd (?m [])) =>
    assert (Happ : appends P m)
  end.
  { apply appends_bind.
    - apply appends_when, appends_try, requirements_block_appends, H1.
    - intros _. apply appends_when, appends_try, package_json_block_appends, H2. }
  destruct (Happ []) as (extra & -> & HF). exact HF.
Qed.

(** With a manifest that can be read, its lines are examined one by
    one; what follows comes from [package.json]. *)
Lemma analyze_dependencies_requirements (project_path text : string) :
  Fs.read_strict fs (Fs.path_join project_path "requirements.txt") = Returned text ->
  exists pkg_issues,
    _analyze_dependencies json_load fs project_path
    = flat_map spec_requirement (manifest_lines text) ++ pkg_issues /\
    Forall (fun i => file_path i = "package.json") pkg_issues.
Proof.
  intros Hread. rewrite <- requirements_of_text.
  unfold _analyze_dependencies, issues_of.
  assert (Hex : Fs.exists_ fs (Fs.path_join project_path "requirements.txt") = true).
  { apply (read_strict_exists _ _ _ Hread). }
  rewrite Hex. cbn [when].
  assert (Hreq : appends_exactly
                   (try_except
                      (requirements_block fs (Fs.path_join project_path "requirements.txt")))
                   tt (flat_map spec_requirement (enumerate1 (Fs.readlines text)))).
  { apply exactly_try. unfold requirements_block. rewrite Hread. cbn [obind].
    intros st. unfold bind, eval.
    rewrite (exactly_for_each _ _ spec_requirement); [reflexivity |].
    intros [n l]. apply requirement_line_exactly. }
  unfold bind at 1. rewrite Hreq. cbn [app].
  match goal with |- context [snd (?m ?st)] =>
    assert (Happ : appends (fun i => file_path i = "package.json") m)
  end.
  { apply appends_when, appends_try, package_json_block_appends. reflexivity. }
  destruct (Happ (flat_map spec_requirement (enumerate1 (Fs.readlines text))))
    as (extra & -> & HF).
  exists extra. auto.
Qed.

End Manifests.

End DependenciesFacts.

Lemma enumerate_from_nth {A} (l : list A) (start k : nat) (x : A) :
  nth_error l k = Some x ->
  In (Z.of_nat (start + k), x)
     (combine (map (fun n => Z.of_nat n) (seq start (List.length l))) l).
Proof.
  revert start k; induction l as [| y l IH]; intros start k Hk.
  - destruct k; discriminate.
  - destruct k as [| k]; cbn [nth_error] in Hk; cbn [List.length seq map combine].
    + left. rewrite Nat.add_0_r. congruence.
    + right. replace (start + S k)%nat with (S start + k)%nat by lia. now apply IH.
Qed.

Lemma enumerate1_nth {A} (l : list A) (k : nat) (x : A) :
  nth_error l k = Some x -> In (Z.of_nat k + 1, x) (Dependencies.enumerate1 l).
Proof.
  intros Hk. unfold Dependencies.enumerate1.
  replace (Z.of_nat k + 1) with (Z.of_nat (1 + k)) by lia.
  now apply enumerate_from_nth.
Qed.

(** C7.  With a readable [requirements.txt], the lines of its text
    (the pieces between line feeds) are numbered from 1 and examined one
    by one, and a line yields an issue exactly when it is neither blank
    nor a comment, contains [==], its version part contains ["0."],
    ["1."] or ["2."] and its package part is not [python]; the issue is
    a low "Potentially Outdated Dependency" of 0.2 hours at the line
    number; the issues of the manifest come first, in the order of the
    lines.  [flask==1.1.2] yields one issue naming flask,
    [python==3.11] none. *)
Theorem requirements_analysis_correct
        (json_load : string -> outcome Dependencies.json) (fs : Fs.entry)
        (project_path text : string) :
  Fs.read_strict fs (Fs.path_join project_path "requirements.txt") = Returned text ->
  (exists pkg_issues,
      Dependencies._analyze_dependencies json_load fs project_path
      = flat_map Dependencies.spec_requirement (Dependencies.manifest_lines text)
        ++ pkg_issues /\
      Forall (fun i => file_path i = "package.json") pkg_issues) /\
  (forall k line, nth_error (PyStr.split PyStr.nl text) k = Some line ->
                  In (Z.of_nat k + 1, line) (Dependencies.manifest_lines text)) /\
  (forall line_num line issues,
      Dependencies.requirement_line line_num line issues
      = (Returned tt, issues ++ Dependencies.spec_requirement (line_num, line))) /\
  (forall line_num line,
      if Dependencies.pinned line
         && Dependencies.legacy_major (Dependencies.spec_version line)
         && negb (String.eqb (Dependencies.spec_package line) "python")
      then exists i,
          Dependencies.spec_requirement (line_num, line) = [i] /\
          file_path i = "requirements.txt" /\ issue_type i = "dependency" /\
          category i = "Potentially Outdated Dependency" /\ severity i = "low" /\
          estimated_hours i = f0_2 /\ line_start i = Some line_num /\
          title i = ("Package '" ++ Dependencies.spec_package line
                     ++ "' may be outdated (v" ++ Dependencies.spec_version line
                     ++ ")")%string
      else Dependencies.spec_requirement (line_num, line) = []) /\
  (forall line_num,
      map title (Dependencies.spec_requirement (line_num, "flask==1.1.2"))
      = ["Package 'flask' may be outdated (v1.1.2)"] /\
      Dependencies.spec_requirement (line_num, "python==3.11") = []).
Proof.
  intros Hread.
  split; [apply DependenciesFacts.analyze_dependencies_requirements, Hread |].
  split; [intros k line; apply enumerate1_nth |].
  split; [intros n line st; apply DependenciesFacts.requirement_line_exactly |].
  split.
  - intros n line. unfold Dependencies.spec_requirement.
    destruct (_ && _ && _); [| reflexivity].
    eexists; split; [reflexivity |]. cbn. repeat split; reflexivity.
  - intros n. split; reflexivity.
Qed.

(** The sample manifest has five lines; only the second, the [flask]
    line, is reported. *)
Lemma requirements_analysis_witness :
  Fs.read_strict Samples.manifest_fs (Fs.path_join "/proj" "requirements.txt")
    = Returned Samples.requirements_text /\
  exists pkg_issues,
    Dependencies._analyze_dependencies Samples.no_json Samples.manifest_fs "/proj"
    = [Dependencies.outdated_issue "flask" "1.1.2" 2] ++ pkg_issues /\
    Forall (fun i => file_path i = "package.json") pkg_issues.
Proof.
  split; [reflexivity |].
  exact (proj1 (requirements_analysis_correct Samples.no_json Samples.manifest_fs
                  "/proj" Samples.requirements_text eq_refl)).
Defined.

(** The same, computed from the analyser. *)
Example requirements_sample :
  map (fun i => (title i, line_start i, severity i))
      (Dependencies._analyze_dependencies Samples.no_json Samples.manifest_fs "/proj")
  = [("Package 'flask' may be outdated (v1.1.2)", Some 2, "low")].
Proof. vm_compute. reflexivity. Qed.
(* ================================================================== *)
(** ** The steps of a run *)

Module RunFacts.
Import PyStr Analyzer.

Lemma embedded_null_append (a b : string) :
  Fs.embedded_null (a ++ b) = Fs.embedded_null a || Fs.embedded_null b.
Proof.
  induction a as [| c a IH]; cbn [append Fs.embedded_null]; [reflexivity |].
  now rewrite IH, orb_assoc.
Qed.

(** The paths that no system call accepts are those in which the null
    character occurs. *)
Lemma embedded_null_spec (path : string) :
  Fs.embedded_null path = true
  <-> exists a b, path = (a ++ String "000"%char b)%string.
Proof.
  split.
  - induction path as [| c path IH]; cbn [Fs.embedded_null]; [discriminate |].
    destruct (Ascii.eqb_spec c "000"%char) as [-> | _]; cbn [orb].
    + intros _. exists EmptyString, path. reflexivity.
    + intros H. destruct (IH H) as (a & b & ->). exists (String c a), b. reflexivity.
  - intros (a & b & ->). rewrite embedded_null_append. cbn [Fs.embedded_null].
    rewrite Ascii.eqb_refl. cbn [orb]. apply orb_true_r.
Qed.

Section Run.
Context {so : PySet.order}.
Variable ast_parse : string -> outcome PyAst.node.
Variable md5_hexdigest : string -> string.
Variable json_load : string -> outcome Dependencies.json.
Variable fs : Fs.entry.

(** A report that is returned comes from the files that were selected
    and from the scores of their issues. *)
Lemma analyze_project_returned (project_path : string) (include_tests : bool)
      (max_depth : Z) (specific_files : option (list string)) (r : report) :
  analyze_project ast_parse md5_hexdigest json_load fs project_path include_tests
                  max_depth specific_files = Returned r ->
  exists code_files sc,
    code_files_of fs project_path include_tests max_depth specific_files
    = Returned code_files /\
    Scores._calculate_scores
      (all_issues_of ast_parse md5_hexdigest json_load fs project_path code_files)
      (Z.of_nat (List.length code_files)) = Returned sc /\
    issues r = all_issues_of ast_parse md5_hexdigest json_load fs project_path code_files /\
    files_analyzed r = Z.of_nat (List.length code_files) /\
    total_issues r = Z.of_nat (List.length (issues r)) /\
    overall_score r = Scores.overall sc /\
    complexity_score r = Scores.complexity sc /\
    duplication_score r = Scores.duplication sc /\
    dependency_score r = Scores.dependency sc.
Proof.
  unfold analyze_project.
  destruct (code_files_of fs project_path include_tests max_depth specific_files)
    as [code_files | ex]; cbn [obind]; [| discriminate].
  destruct (Scores._calculate_scores _ _) as [sc | ex] eqn:Esc; cbn [obind];
    [| discriminate].
  intros [= <-]. exists code_files, sc.
  cbn [issues files_analyzed total_issues overall_score complexity_score duplication_score
         dependency_score].
  repeat split; auto.
Qed.

(** The files are selected without failure unless the tree is walked
    from a path with a null character. *)
Lemma code_files_returned (project_path : string) (include_tests : bool)
      (max_depth : Z) (specific_files : option (list string)) :
  Fs.embedded_null project_path = false \/ (exists f rest, specific_files = Some (f :: rest)) ->
  exists code_files,
    code_files_of fs project_path include_tests max_depth specific_files
    = Returned code_files.
Proof.
  intros H. unfold code_files_of, _collect_code_files.
  destruct specific_files as [[| f rest] |]; try (eexists; reflexivity);
    destruct H as [-> | (f & rest & [=])]; eexists; reflexivity.
Qed.

(** A path with a null character stops the walk, and the run. *)
Lemma null_root_raises (project_path : string) (include_tests : bool) (max_depth : Z)
      (specific_files : option (list string)) :
  Fs.embedded_null project_path = true ->
  specific_files = None \/ specific_files = Some [] ->
  analyze_project ast_parse md5_hexdigest json_load fs project_path include_tests
                  max_depth specific_files = Raised ValueError.
Proof.
  intros Hnull Hnone. unfold analyze_project, code_files_of, _collect_code_files.
  destruct Hnone as [-> | ->]; rewrite Hnull; reflexivity.
Qed.

End Run.

End RunFacts.

(* ================================================================== *)
(** ** Every detector emits well-formed issues *)

Module WellFormed.
Import FloatSpec FloatFacts PyStr.

Section Listing.
Context {so : PySet.order}.

Lemma signless_nonneg (x : float) : signless x -> nonneg x.
Proof. destruct x as [[] | [] | | [] m e]; cbn; intros H; try reflexivity; contradiction. Qed.

Lemma of_int_signless (z : Z) : 0 <= z -> signless (of_int z).
Proof.
  intros Hz. destruct z as [| p | p]; [exact I | | lia].
  unfold of_int, binary_normalize, binary_round.
  destruct (shl_align p 0 _) as [mz ez].
  pose proof (binary_round_aux_sign false (Zpos mz) ez loc_Exact ltac:(lia)) as Hs.
  destruct (binary_round_aux _ _ _ _ _ _) as [s | s | | s m e]; try contradiction;
    subst s; exact I.
Qed.

(** Multiplying by a positive finite constant keeps the sign. *)
Lemma fmul_signless_r (x : float) (m : positive) (e : Z) :
  signless x -> signless (fmul x (S754_finite false m e)).
Proof.
  destruct x as [[] | [] | | [] mx ex]; cbn [signless]; try contradiction; intros _;
    try exact I.
  unfold fmul, SFmul. cbn [xorb].
  pose proof (binary_round_aux_sign false (Zpos (mx * m)) (ex + e) loc_Exact ltac:(lia))
    as Hs.
  destruct (binary_round_aux _ _ _ _ _ _) as [s | s | | s m1 e1]; try contradiction;
    subst s; exact I.
Qed.

Lemma fmul_signless_l (x : float) (m : positive) (e : Z) :
  signless x -> signless (fmul (S754_finite false m e) x).
Proof.
  destruct x as [[] | [] | | [] mx ex]; cbn [signless]; try contradiction; intros _;
    try exact I.
  unfold fmul, SFmul. cbn [xorb].
  pose proof (binary_round_aux_sign false (Zpos (m * mx)) (e + ex) loc_Exact ltac:(lia))
    as Hs.
  destruct (binary_round_aux _ _ _ _ _ _) as [s | s | | s m1 e1]; try contradiction;
    subst s; exact I.
Qed.

Lemma fdiv_exact_signless (a b : positive) : signless (fdiv (exact (Zpos a)) (exact (Zpos b))).
Proof.
  cbn [exact]. unfold fdiv, SFdiv.
  destruct (SFdiv_core_binary prec emax (Zpos a) 0 (Zpos b) 0) as [[mz ez] lz] eqn:Ecore.
  assert (Hmz : 0 <= mz).
  { unfold SFdiv_core_binary in Ecore.
    match type of Ecore with
    | (let '(q, r) := Z.div_eucl ?n ?d in _) = _ =>
        pose proof (Z.div_eucl_eq n d ltac:(lia)) as Hd;
        pose proof (Z.mod_pos_bound n d ltac:(lia)) as Hmod;
        assert (Hn : 0 <= n);
        [| unfold Z.modulo in Hmod; destruct (Z.div_eucl n d) as [q0 r0];
           injection Ecore as <- _ _; nia ]
    end.
    destruct (0 - 0 - _) as [| sh | sh]; try lia.
    rewrite Z.shiftl_mul_pow2 by lia. apply Z.mul_nonneg_nonneg; lia. }
  pose proof (binary_round_aux_sign (xorb false false) mz ez lz Hmz) as Hs.
  destruct (binary_round_aux _ _ _ _ _ _) as [s | s | | s m e]; try contradiction;
    cbn [xorb] in Hs; subst s; exact I.
Qed.

Lemma rne_div_nonneg (n d : Z) : 0 <= n -> 0 < d -> 0 <= rne_div n d.
Proof.
  intros Hn Hd. unfold rne_div. pose proof (Z.div_pos n d Hn Hd).
  destruct (2 * (n mod d) ?= d); [destruct (Z.even (n / d)) | |]; lia.
Qed.

Lemma tenths_nonneg (m : positive) (e : Z) : 0 <= tenths m e.
Proof.
  unfold tenths. destruct e as [| p | p].
  - lia.
  - apply Z.mul_nonneg_nonneg; [lia | apply Z.pow_nonneg; lia].
  - apply rne_div_nonneg; [lia | apply Z.pow_pos_nonneg; lia].
Qed.

(** [round(x, 1)] keeps the sign. *)
Lemma round1_signless (x : float) : signless x -> signless (round1 x).
Proof.
  destruct x as [[] | [] | | [] m e]; cbn [signless round1]; try contradiction; intros _;
    try exact I.
  pose proof (tenths_nonneg m e) as Ht.
  destruct (tenths m e) as [| t | t]; [exact I | apply fdiv_exact_signless | lia].
Qed.

Lemma scaled_hours_nonneg (z : Z) (m : positive) (e : Z) :
  0 <= z -> nonneg (round1 (fmul (of_int z) (S754_finite false m e))).
Proof.
  intros Hz. apply signless_nonneg, round1_signless, fmul_signless_r, of_int_signless, Hz.
Qed.

Lemma complexity_severity_in (c : Z) : In (PyAnalysis.complexity_severity c) severities.
Proof.
  unfold PyAnalysis.complexity_severity, severities.
  destruct (c >? 25); [cbn; tauto |]. destruct (c >? 20); cbn; tauto.
Qed.

Lemma wf_complexity_issue rel name lineno e c :
  15 <= c -> well_formed (PyAnalysis.complexity_issue rel name lineno e c).
Proof.
  intros Hc. split; [apply complexity_severity_in |]. split; [| reflexivity].
  apply scaled_hours_nonneg. lia.
Qed.

Lemma wf_god_object_issue rel name lineno e n :
  0 <= n -> well_formed (PyAnalysis.god_object_issue rel name lineno e n).
Proof.
  intros Hn. split; [cbn; tauto |]. split; [| reflexivity].
  apply signless_nonneg, fmul_signless_r, of_int_signless, Hn.
Qed.

Lemma wf_long_function_issue rel name lineno e :
  50 <= e - lineno -> well_formed (PyAnalysis.long_function_issue rel name lineno e).
Proof.
  intros Hl. split; [| split; [| reflexivity]].
  - cbn [severity PyAnalysis.long_function_issue].
    destruct (_ >? 100); cbn; tauto.
  - apply scaled_hours_nonneg. lia.
Qed.

Lemma wf_unused_issue rel name lineno unused :
  well_formed (PyAnalysis.unused_issue rel name lineno unused).
Proof. split; [cbn; tauto |]. split; reflexivity. Qed.

Lemma wf_js_complexity_issue rel name line c :
  15 <= c -> well_formed (JsAnalysis.js_complexity_issue rel name line c).
Proof.
  intros Hc. split; [apply complexity_severity_in |]. split; [| reflexivity].
  apply scaled_hours_nonneg. lia.
Qed.

Lemma wf_long_js_issue rel name s e :
  50 <= e - s -> well_formed (JsAnalysis.long_js_issue rel name s e).
Proof.
  intros Hl. split; [| split; [| reflexivity]].
  - cbn [severity JsAnalysis.long_js_issue]. destruct (_ >? 100); cbn; tauto.
  - apply scaled_hours_nonneg. lia.
Qed.

Lemma wf_duplication_issue occ : well_formed (Duplication.duplication_issue occ).
Proof.
  split; [| split; [| reflexivity]].
  - cbn [severity Duplication.duplication_issue]. destruct (_ >? 3); cbn; tauto.
  - apply signless_nonneg, fmul_signless_l, of_int_signless. lia.
Qed.

Lemma wf_outdated_issue p v n : well_formed (Dependencies.outdated_issue p v n).
Proof. split; [cbn; tauto |]. split; reflexivity. Qed.

Lemma wf_flexible_issue p v : well_formed (Dependencies.flexible_issue p v).
Proof. split; [cbn; tauto |]. split; reflexivity. Qed.

Lemma Forall_flat_map_intro {A B} (P : B -> Prop) (f : A -> list B) (l : list A) :
  (forall a, Forall P (f a)) -> Forall P (flat_map f l).
Proof.
  intros Hf. induction l as [| a l IH]; [constructor |].
  cbn [flat_map]. apply Forall_app. auto.
Qed.

Ltac single_issue := first [apply Forall_nil | apply Forall_cons; [| apply Forall_nil]].

Section Detectors.
Variable ast_parse : string -> outcome PyAst.node.
Variable md5_hexdigest : string -> string.
Variable json_load : string -> outcome Dependencies.json.
Variable fs : Fs.entry.

Lemma wf_python_complexity content rel :
  Forall well_formed (PyAnalysis._analyze_python_complexity ast_parse content rel).
Proof.
  unfold PyAnalysis._analyze_python_complexity.
  destruct (ast_parse content) as [tree | []]; try apply Forall_nil.
  apply Forall_flat_map_intro. intros n.
  destruct n; cbn [PyAnalysis.complexity_visit]; try apply Forall_nil.
  - destruct (Z.gtb_spec (PyAnalysis._calculate_cyclomatic_complexity
                            (PyAst.FunctionDef name lineno end_lineno children)) 15);
      single_issue. apply wf_complexity_issue. lia.
  - destruct (Z.gtb_spec (PyAnalysis._calculate_cyclomatic_complexity
                            (PyAst.AsyncFunctionDef name lineno end_lineno children)) 15);
      single_issue. apply wf_complexity_issue. lia.
  - destruct (Z.gtb_spec (Z.of_nat (List.length (filter PyAst.is_function body))) 20);
      single_issue. apply wf_god_object_issue. lia.
Qed.

Lemma wf_long_python content rel :
  Forall well_formed (PyAnalysis._detect_long_python_functions ast_parse content rel).
Proof.
  unfold PyAnalysis._detect_long_python_functions.
  destruct (ast_parse content) as [tree | ex]; try apply Forall_nil.
  apply Forall_flat_map_intro. intros n.
  destruct n; cbn [PyAnalysis.long_function_visit]; try apply Forall_nil;
    destruct end_lineno as [e |]; try apply Forall_nil;
    destruct (Z.gtb_spec (e - lineno) 50); single_issue;
    apply wf_long_function_issue; lia.
Qed.

Lemma wf_unused_python content rel :
  Forall well_formed (PyAnalysis._detect_unused_python_variables ast_parse content rel).
Proof.
  unfold PyAnalysis._detect_unused_python_variables.
  destruct (ast_parse content) as [tree | ex]; try apply Forall_nil.
  apply Forall_flat_map_intro. intros n.
  destruct n; cbn [PyAnalysis.unused_visit]; try apply Forall_nil;
    destruct (PyAnalysis.unused_names _); single_issue; apply wf_unused_issue.
Qed.

Lemma wf_js_complexity content rel :
  Forall well_formed (JsAnalysis._analyze_js_complexity content rel).
Proof.
  unfold JsAnalysis._analyze_js_complexity. apply Forall_flat_map_intro. intros m.
  unfold JsAnalysis.js_complexity_visit.
  destruct (JsAnalysis.find _ _ _) as [func_start |]; [| apply Forall_nil].
  destruct (Z.gtb_spec (JsAnalysis.decision_points
                          (JsAnalysis.slice func_start
                             (JsAnalysis.func_end_of func_start content) content)) 15);
    single_issue. apply wf_js_complexity_issue. lia.
Qed.

Lemma wf_long_js content rel :
  Forall well_formed (JsAnalysis._detect_long_js_functions content rel).
Proof.
  unfold JsAnalysis._detect_long_js_functions. apply Forall_flat_map_intro. intros m.
  unfold JsAnalysis.long_js_visit.
  destruct (JsAnalysis.find _ _ _) as [func_start |]; [| apply Forall_nil].
  match goal with |- context [?a >? 50] => destruct (Z.gtb_spec a 50) end;
    single_issue. apply wf_long_js_issue. lia.
Qed.

Lemma wf_analyze_complexity content rel abs :
  Forall well_formed (Analyzer._analyze_complexity ast_parse content rel abs).
Proof.
  unfold Analyzer._analyze_complexity.
  destruct (endswith ".py" abs); [apply wf_python_complexity |].
  destruct (Analyzer.is_js abs); [apply wf_js_complexity | apply Forall_nil].
Qed.

Lemma wf_detect_code_smells content rel abs :
  Forall well_formed (Analyzer._detect_code_smells ast_parse content rel abs).
Proof.
  unfold Analyzer._detect_code_smells.
  destruct (endswith ".py" abs).
  - apply Forall_app. split; [apply wf_long_python | apply wf_unused_python].
  - destruct (Analyzer.is_js abs); [apply wf_long_js | apply Forall_nil].
Qed.

Lemma wf_detect_duplication file_contents :
  Forall well_formed (Duplication._detect_duplication md5_hexdigest file_contents).
Proof.
  rewrite DuplicationFacts.detect_duplication_map. apply Forall_map, Forall_forall.
  intros item _. apply wf_duplication_issue.
Qed.

Lemma wf_analyze_dependencies project_path :
  Forall well_formed (Dependencies._analyze_dependencies json_load fs project_path).
Proof.
  apply DependenciesFacts.analyze_dependencies_forall.
  - intros. apply wf_outdated_issue.
  - intros. apply wf_flexible_issue.
Qed.

Lemma wf_all_issues project_path code_files :
  Forall well_formed
         (Analyzer.all_issues_of ast_parse md5_hexdigest json_load fs project_path code_files).
Proof.
  unfold Analyzer.all_issues_of. repeat (apply Forall_app; split).
  - apply Forall_flat_map_intro. intros f. unfold Analyzer.analyze_file.
    apply Forall_app. split; [apply wf_analyze_complexity | apply wf_detect_code_smells].
  - apply wf_detect_duplication.
  - apply wf_analyze_dependencies.
Qed.

End Detectors.

End Listing.

End WellFormed.

(** C9.  Every issue that a detector emits (complexity and architecture
    issues of Python and JavaScript files, smells, duplications,
    dependency issues), hence every issue of a report, has a severity
    among critical, high, medium and low, a non-negative estimate and
    exactly one of the five issue types. *)
Theorem issues_well_formed {so : PySet.order}
        (ast_parse : string -> outcome PyAst.node) (md5_hexdigest : string -> string)
        (json_load : string -> outcome Dependencies.json) (fs : Fs.entry) :
  (forall content rel_path abs_path,
      Forall well_formed (Analyzer._analyze_complexity ast_parse content rel_path abs_path) /\
      Forall well_formed (Analyzer._detect_code_smells ast_parse content rel_path abs_path)) /\
  (forall file_contents,
      Forall well_formed (Duplication._detect_duplication md5_hexdigest file_contents)) /\
  (forall project_path,
      Forall well_formed (Dependencies._analyze_dependencies json_load fs project_path)) /\
  (forall project_path include_tests max_depth specific_files r,
      Analyzer.analyze_project ast_parse md5_hexdigest json_load fs project_path
                               include_tests max_depth specific_files = Returned r ->
      Forall well_formed (Analyzer.issues r)) /\
  NoDup issue_types /\ NoDup severities.
Proof.
  split; [intros; split;
          [apply WellFormed.wf_analyze_complexity | apply WellFormed.wf_detect_code_smells] |].
  split; [intros; apply WellFormed.wf_detect_duplication |].
  split; [intros; apply WellFormed.wf_analyze_dependencies |].
  split.
  - intros project_path include_tests max_depth specific_files r Hr.
    destruct (RunFacts.analyze_project_returned _ _ _ _ _ _ _ _ _ Hr)
      as (code_files & sc & _ & _ & -> & _).
    apply WellFormed.wf_all_issues.
  - split; repeat constructor; cbn; intuition discriminate.
Qed.

(* ================================================================== *)
(** ** The score calculator *)

Module ScoresFacts.
Import FloatSpec FloatFacts Scores.

(** [a / b] for a positive numerator below [2^B] and a positive divisor:
    a non-negative double with a mantissa of value below [2^B]. *)
Lemma int_truediv_post (p f : positive) (B : Z) :
  Zpos p < 2 ^ B -> 0 <= B <= 1023 ->
  exists q, int_truediv (Zpos p) (Zpos f) = Returned q /\
    match q with
    | S754_zero s => s = false
    | S754_finite s m e =>
        s = false /\ -1074 <= e <= Z.max 0 (B - 52) /\ e <= B /\ Zpos m <= 2 ^ (B - e)
    | _ => False
    end.
Proof.
  intros Hp HB. unfold int_truediv. cbn [Z.eqb exact].
  unfold fdiv, SFdiv, SFdiv_core_binary.
  set (e' := Z.min (fexp prec emax (Zdigits2 (Zpos p) + 0 - (Zdigits2 (Zpos f) + 0))) (0 - 0)).
  assert (He' : -1074 <= e' <= 0).
  { unfold e', fexp, SpecFloat.emin, prec, emax. lia. }
  set (m' := match 0 - 0 - e' with
             | 0 => Zpos p
             | Zpos _ => Z.shiftl (Zpos p) (0 - 0 - e')
             | Zneg _ => 0
             end).
  assert (Hm' : m' = Zpos p * 2 ^ (- e')).
  { unfold m'. destruct (0 - 0 - e') as [| s | s] eqn:Es.
    - replace (- e') with 0 by lia. cbn. lia.
    - rewrite Z.shiftl_mul_pow2 by lia. f_equal. f_equal. lia.
    - lia. }
  pose proof (Z.div_eucl_eq m' (Zpos f) ltac:(lia)) as Hdiv.
  pose proof (Z.mod_pos_bound m' (Zpos f) ltac:(lia)) as Hmod.
  unfold Z.modulo in Hmod.
  destruct (Z.div_eucl m' (Zpos f)) as [q r].
  assert (Hm'0 : 0 <= m') by (rewrite Hm'; apply Z.mul_nonneg_nonneg; lia).
  assert (Hq : 0 <= q <= m') by nia.
  assert (Hqlt : q < 2 ^ (B - e')).
  { apply Z.le_lt_trans with m'; [lia |]. rewrite Hm'.
    replace (B - e') with (B + - e') by lia. rewrite Z.pow_add_r by lia.
    apply Z.mul_lt_mono_pos_r; lia. }
  pose proof (binary_round_aux_post (xorb false false) q e' (new_location (Zpos f) r) B
                ltac:(lia) ltac:(lia) ltac:(lia)) as Hpost.
  destruct (binary_round_aux prec emax (xorb false false) q e' (new_location (Zpos f) r))
    as [s | s | | s m e]; cbn [round_post] in Hpost.
  - eexists; split; [reflexivity | exact Hpost].
  - lia.
  - contradiction.
  - eexists; split; [reflexivity |]. cbn [xorb] in Hpost. intuition lia.
Qed.

Lemma of_int_10 : of_int 10 = S754_finite false 5629499534213120 (-49).
Proof. reflexivity. Qed.

(** Ten times a quotient as above is again a finite non-negative double. *)
Lemma times_ten_post (q : float) (B : Z) :
  match q with
  | S754_zero s => s = false
  | S754_finite s m e =>
      s = false /\ -1074 <= e <= Z.max 0 (B - 52) /\ e <= B /\ Zpos m <= 2 ^ (B - e)
  | _ => False
  end ->
  0 <= B <= 1000 ->
  exists n, to_int (fmul q (of_int 10)) = Returned n /\ 0 <= n.
Proof.
  intros Hq HB. rewrite of_int_10.
  destruct q as [s | s | | s m e]; try contradiction.
  - exists 0. split; [reflexivity | lia].
  - destruct Hq as (-> & He & HeB & Hm).
    unfold fmul, SFmul. cbn [xorb].
    assert (Hprod : 0 <= Zpos (m * 5629499534213120)
                    < 2 ^ ((B + 4) - (e + -49))).
    { split; [lia |]. rewrite Pos2Z.inj_mul.
      replace (B + 4 - (e + -49)) with ((B - e) + 53) by lia.
      rewrite Z.pow_add_r by lia.
      assert (H53 : 5629499534213120 < 2 ^ 53) by reflexivity.
      assert (0 < 2 ^ (B - e)) by lia.
      apply Z.le_lt_trans with (2 ^ (B - e) * 5629499534213120).
      - apply Z.mul_le_mono_nonneg_r; lia.
      - apply Z.mul_lt_mono_pos_l; lia. }
    pose proof (binary_round_aux_post false (Zpos (m * 5629499534213120)) (e + -49)
                  loc_Exact (B + 4) Hprod ltac:(lia) ltac:(lia)) as Hpost.
    destruct (binary_round_aux prec emax false (Zpos (m * 5629499534213120)) (e + -49)
                loc_Exact) as [s | s | | s m2 e2]; cbn [round_post] in Hpost.
    + exists 0. split; [reflexivity | lia].
    + lia.
    + contradiction.
    + destruct Hpost as (-> & _). eexists; split; [reflexivity |].
      unfold magnitude_trunc. destruct e2; try lia.
      apply Z.div_pos; lia.
Qed.

Lemma fold_left_penalty (w : issue -> Z) (l : list issue) (a : Z) :
  fold_left (fun penalty i => penalty + w i) l a = a + Zsum (map w l).
Proof.
  revert a; induction l as [| i l IH]; intros a; cbn [fold_left map Zsum fold_right].
  - lia.
  - rewrite IH. unfold Zsum. lia.
Qed.

Lemma severity_penalty_range (s : string) : 2 <= severity_penalty s <= 15.
Proof.
  unfold severity_penalty.
  repeat match goal with |- context [String.eqb ?a ?b] => destruct (String.eqb a b) end; lia.
Qed.

Lemma Zsum_penalty_range (l : list issue) :
  2 * Z.of_nat (List.length l)
  <= Zsum (map (fun i => severity_penalty (severity i)) l)
  <= 15 * Z.of_nat (List.length l).
Proof.
  induction l as [| i l IH].
  - cbn. lia.
  - cbn [map Zsum fold_right List.length]. fold (Zsum (map (fun i => severity_penalty (severity i)) l)).
    pose proof (severity_penalty_range (severity i)). lia.
Qed.

(** The quotient of a non-negative by a positive integer is never
    negative and never NaN. *)
Lemma int_truediv_signless (a b : Z) (q : float) :
  0 <= a -> 0 < b -> int_truediv a b = Returned q -> signless q.
Proof.
  intros Ha Hb. unfold int_truediv.
  destruct (Z.eqb_spec b 0) as [| _]; [lia |].
  destruct b as [| f | f]; try lia.
  destruct a as [| p | p]; try lia; cbn [exact].
  - cbn. intros [= <-]. exact I.
  - unfold fdiv, SFdiv.
    destruct (SFdiv_core_binary prec emax (Zpos p) 0 (Zpos f) 0) as [[mz ez] lz] eqn:Ecore.
    assert (Hmz : 0 <= mz).
    { unfold SFdiv_core_binary in Ecore.
      match type of Ecore with
      | (let '(q, r) := Z.div_eucl ?a ?b in _) = _ =>
          pose proof (Z.div_eucl_eq a b ltac:(lia)) as Hd;
          pose proof (Z.mod_pos_bound a b ltac:(lia)) as Hmod;
          assert (Ha' : 0 <= a);
          [| unfold Z.modulo in Hmod; destruct (Z.div_eucl a b) as [q0 r0];
             injection Ecore as <- _ _; nia ]
      end.
      destruct (0 - 0 - _) as [| sh | sh]; try lia.
      rewrite Z.shiftl_mul_pow2 by lia. apply Z.mul_nonneg_nonneg; lia. }
    pose proof (binary_round_aux_sign (xorb false false) mz ez lz Hmz) as Hs.
    destruct (binary_round_aux prec emax (xorb false false) mz ez lz)
      as [s0 | s0 | | s0 m0 e0]; try discriminate; try contradiction;
      cbn [xorb] in Hs; subst s0; intros [= <-]; exact I.
Qed.

Lemma fmul_signless_10 (q : float) :
  signless q -> signless (fmul q (of_int 10)) \/ fmul q (of_int 10) = S754_nan.
Proof.
  rewrite of_int_10. destruct q as [[] | [] | | [] m e]; cbn [signless]; try tauto;
    intros _; try (left; exact I).
  unfold fmul, SFmul. cbn [xorb].
  pose proof (binary_round_aux_sign false (Zpos (m * 5629499534213120)) (e + -49)
                loc_Exact ltac:(lia)) as Hs.
  destruct (binary_round_aux _ _ _ _ _ _) as [s | s | | s m1 e1]; try contradiction;
    subst s; left; exact I.
Qed.

Lemma to_int_floor (x : float) : signless x -> floor x = to_int x.
Proof.
  destruct x as [s | s | | [] m e]; cbn [signless floor to_int]; tauto.
Qed.

Lemma to_int_signless (x : float) (n : Z) :
  signless x -> to_int x = Returned n -> 0 <= n.
Proof.
  destruct x as [s | s | | s m e]; cbn [signless to_int]; try tauto; try discriminate.
  - intros _ H. assert (n = 0) by congruence. lia.
  - destruct s; [tauto |]. intros _ H.
    assert (Hn : n = magnitude_trunc m e) by congruence. subst n.
    unfold magnitude_trunc. destruct e; try lia. apply Z.div_pos; lia.
Qed.

Lemma penalty_pos (i : issue) (l : list issue) :
  0 < fold_left (fun penalty i0 => penalty + severity_penalty (severity i0)) (i :: l) 0.
Proof.
  rewrite fold_left_penalty.
  pose proof (Zsum_penalty_range (i :: l)) as H. cbn [List.length] in H. lia.
Qed.

(** A category score, when it is returned, is a valid score. *)
Lemma calc_category_score_range (files : Z) (l : list issue) (s : Z) :
  calc_category_score files l = Returned s -> valid_score s.
Proof.
  unfold calc_category_score, valid_score. destruct l as [| i l].
  - intros H. assert (s = 100) by congruence. lia.
  - pose proof (penalty_pos i l) as Hpen.
    remember (fold_left (fun penalty i0 => penalty + severity_penalty (severity i0))
                        (i :: l) 0) as penalty eqn:Epen.
    destruct (int_truediv penalty (Z.max files 1)) as [q | ex] eqn:Eq; cbv [obind];
      [| discriminate].
    destruct (to_int (fmul q (of_int 10))) as [n | ex] eqn:En; cbv [obind];
      [| discriminate].
    intros Hret. assert (Hs : s = Z.max 0 (100 - n)) by congruence.
    subst s. clear Hret.
    enough (0 <= n) by lia.
    apply int_truediv_signless in Eq; try lia.
    destruct (fmul_signless_10 q Eq) as [Hsl | Hnan].
    + eapply to_int_signless; eassumption.
    + rewrite Hnan in En. discriminate.
Qed.

(** Truncation and floor agree inside the category score. *)
Lemma category_to_int_floor (penalty files : Z) (q : float) :
  0 <= penalty -> int_truediv penalty (Z.max files 1) = Returned q ->
  floor (fmul q (of_int 10)) = to_int (fmul q (of_int 10)).
Proof.
  intros Hp Hq. apply int_truediv_signless in Hq; try lia.
  destruct (fmul_signless_10 q Hq) as [Hsl | ->]; [| reflexivity].
  apply to_int_floor, Hsl.
Qed.

(** With a list that fits in memory the category score is returned. *)
Lemma calc_category_score_returns (files : Z) (l : list issue) :
  Z.of_nat (List.length l) <= PY_SSIZE_T_MAX ->
  exists s, calc_category_score files l = Returned s.
Proof.
  intros Hlen. unfold calc_category_score. destruct l as [| i l].
  - eexists; reflexivity.
  - rewrite fold_left_penalty.
    pose proof (Zsum_penalty_range (i :: l)) as Hrange.
    remember (0 + Zsum (map (fun i0 => severity_penalty (severity i0)) (i :: l)))
      as penalty eqn:Epen.
    assert (Hpen : 0 < penalty < 2 ^ 67).
    { cbn [List.length] in Hrange, Hlen. unfold PY_SSIZE_T_MAX in Hlen.
      change (2 ^ 63) with 9223372036854775808 in Hlen.
      change (2 ^ 67) with 147573952589676412928. lia. }
    destruct penalty as [| p | p]; try lia.
    destruct (Z.max files 1) as [| f | f] eqn:Ef; try lia.
    destruct (int_truediv_post p f 67 ltac:(lia) ltac:(lia)) as (q & -> & Hq).
    cbv [obind].
    destruct (times_ten_post q 67 Hq ltac:(lia)) as (n & -> & Hn).
    eexists; reflexivity.
Qed.

Lemma weighted_scores_below (c : Z) :
  0 <= c <= 100 ->
  below (40 * 2 ^ 1074) (fmul (of_int c) f0_4) /\
  below (30 * 2 ^ 1074) (fmul (of_int c) f0_3).
Proof.
  intros Hc.
  assert (Htab : forallb (fun n => belowb (40 * 2 ^ 1074) (fmul (of_int (Z.of_nat n)) f0_4)
                                   && belowb (30 * 2 ^ 1074) (fmul (of_int (Z.of_nat n)) f0_3))
                         (seq 0 101) = true) by (vm_compute; reflexivity).
  rewrite forallb_forall in Htab.
  specialize (Htab (Z.to_nat c)). rewrite Z2Nat.id in Htab by lia.
  rewrite andb_true_iff in Htab.
  destruct Htab as [Ha Hb]; [apply in_seq; lia |].
  split; apply belowb_below; assumption.
Qed.

(** The weighted sum of three valid scores truncates to a valid score,
    and truncation and floor agree on it. *)
Lemma overall_post (c d e : Z) :
  valid_score c -> valid_score d -> valid_score e ->
  exists o,
    to_int (fadd (fadd (fmul (of_int c) f0_4) (fmul (of_int d) f0_3))
                 (fmul (of_int e) f0_3)) = Returned o /\
    floor (fadd (fadd (fmul (of_int c) f0_4) (fmul (of_int d) f0_3))
                (fmul (of_int e) f0_3)) = Returned o /\
    valid_score o.
Proof.
  unfold valid_score. intros Hc Hd He.
  destruct (weighted_scores_below c Hc) as [Ha _].
  destruct (weighted_scores_below d Hd) as [_ Hb].
  destruct (weighted_scores_below e He) as [_ Hb'].
  assert (P0 : 0 < 2 ^ 1074) by (apply Z.pow_pos_nonneg; lia).
  assert (P1 : 2 ^ (7 + 1074) = 128 * 2 ^ 1074).
  { rewrite Z.pow_add_r by lia. reflexivity. }
  assert (P2 : 2 ^ (Z.max (7 - 53) (-1074) + 1074) * 2 ^ 46 = 2 ^ 1074).
  { rewrite <- Z.pow_add_r by lia. reflexivity. }
  remember (2 ^ 1074) as U eqn:EU.
  remember (2 ^ (Z.max (7 - 53) (-1074) + 1074)) as u eqn:Eu.
  assert (Hu : 0 < u) by (rewrite Eu; apply Z.pow_pos_nonneg; lia).
  change (2 ^ 46) with 70368744177664 in P2.
  pose proof (fadd_below (40 * U) (30 * U) 7 _ _ Ha Hb
                ltac:(lia) ltac:(lia) ltac:(lia) ltac:(lia)) as Hab.
  rewrite <- Eu in Hab.
  pose proof (fadd_below _ (30 * U) 7 _ _ Hab Hb'
                ltac:(lia) ltac:(lia) ltac:(lia) ltac:(lia)) as Hsum.
  rewrite <- Eu in Hsum.
  destruct (to_int_below _ _ Hsum ltac:(lia)) as (o & Ho & Ho0 & Hole).
  rewrite <- EU in Hole.
  exists o. split; [exact Ho |]. split; [| nia].
  rewrite to_int_floor by (eapply below_signless; exact Hsum). exact Ho.
Qed.

(** Concatenating the complexity, smell and architecture issues gives the
    complexity bucket, up to the order of its elements. *)
Lemma complexity_bucket_perm (issues : list issue) :
  Permutation
    (of_type "complexity" issues ++ of_type "smell" issues
       ++ of_type "architecture" issues)
    (filter (in_bucket ["complexity"; "smell"; "architecture"]) issues).
Proof.
  unfold of_type, in_bucket. induction issues as [| i l IH]; [constructor |].
  cbn [filter existsb].
  destruct (String.eqb_spec (issue_type i) "complexity") as [E1 | N1].
  - rewrite E1. cbn [String.eqb Ascii.eqb Bool.eqb andb orb app]. constructor. exact IH.
  - destruct (String.eqb_spec (issue_type i) "smell") as [E2 | N2].
    + cbn [orb]. rewrite E2. cbn [String.eqb Ascii.eqb Bool.eqb andb].
      apply Permutation_sym, Permutation_cons_app, Permutation_sym, IH.
    + destruct (String.eqb_spec (issue_type i) "architecture") as [E3 | N3].
      * cbn [orb]. rewrite app_assoc.
        apply Permutation_sym, Permutation_cons_app, Permutation_sym.
        rewrite <- app_assoc. exact IH.
      * cbn [orb]. exact IH.
Qed.

Lemma single_bucket (t : string) (issues : list issue) :
  filter (in_bucket [t]) issues = of_type t issues.
Proof.
  unfold of_type, in_bucket. apply filter_ext. intros i. cbn. apply orb_false_r.
Qed.

(** The category score of the code is the bucket score of the
    specification on any rearrangement of the bucket. *)
Lemma calc_category_score_spec (files : Z) (l l' : list issue) :
  Permutation l l' ->
  calc_category_score files l = spec_bucket_score files l'.
Proof.
  intros Hperm. unfold calc_category_score, spec_bucket_score.
  destruct l as [| i l].
  - apply Permutation_nil in Hperm. subst l'. reflexivity.
  - destruct l' as [| i' l'];
      [apply Permutation_sym, Permutation_nil in Hperm; discriminate |].
    cbn [List.length Nat.eqb].
    pose proof (penalty_pos i l) as Hpos.
    rewrite fold_left_penalty in *. cbn [Z.add] in *.
    rewrite (AstFacts.Zsum_perm _ _ (Permutation_map (fun i0 => severity_penalty (severity i0)) Hperm))
      in *.
    change (fun i0 : issue => severity_penalty (severity i0))
      with (fun i0 : issue => severity_weight (severity i0)) in *.
    destruct (int_truediv _ (Z.max files 1)) as [q | ex] eqn:Eq; cbv [obind];
      [| reflexivity].
    rewrite (category_to_int_floor _ files q (Z.lt_le_incl _ _ Hpos) Eq). reflexivity.
Qed.

(** With a list that fits in memory the four scores are returned and
    each lies between 0 and 100; they are all 100 when no file was
    analysed. *)
Lemma calculate_scores_returns (issues : list issue) (files_analyzed : Z) :
  Z.of_nat (List.length issues) <= PY_SSIZE_T_MAX ->
  (files_analyzed = 0 ->
   _calculate_scores issues files_analyzed = Returned (mk_scores 100 100 100 100)) /\
  exists sc, _calculate_scores issues files_analyzed = Returned sc /\ valid_scores sc.
Proof.
  intros Hlen. split; [intros ->; reflexivity |].
  unfold _calculate_scores.
  destruct (files_analyzed =? 0).
  { eexists; split; [reflexivity |]. unfold valid_scores, valid_score. cbn. lia. }
  assert (Hfilter : forall t, Z.of_nat (List.length (of_type t issues)) <= PY_SSIZE_T_MAX).
  { intros t. pose proof (filter_length_le
                            (fun i => String.eqb (issue_type i) t) issues) as H.
    unfold of_type. lia. }
  assert (Hall : Z.of_nat (List.length
                   (of_type "complexity" issues ++ of_type "smell" issues
                      ++ of_type "architecture" issues)) <= PY_SSIZE_T_MAX).
  { rewrite (Permutation_length (complexity_bucket_perm issues)).
    pose proof (filter_length_le
                  (in_bucket ["complexity"; "smell"; "architecture"]) issues). lia. }
  destruct (calc_category_score_returns files_analyzed _ Hall) as [c Ec].
  destruct (calc_category_score_returns files_analyzed _ (Hfilter "duplication")) as [d Ed].
  destruct (calc_category_score_returns files_analyzed _ (Hfilter "dependency")) as [e Ee].
  rewrite Ec, Ed, Ee. cbv [obind].
  apply calc_category_score_range in Ec, Ed, Ee.
  destruct (overall_post c d e Ec Ed Ee) as (o & -> & _ & Ho).
  eexists; split; [reflexivity |].
  unfold valid_scores. cbn. auto.
Qed.

End ScoresFacts.

(** C2.  The score calculator computes what the specification states:
    smell and architecture issues count in the complexity bucket, an empty
    bucket scores 100, a non-empty one
    [max(0, 100 - floor(penalty / max(files_analyzed, 1) * 10))] with the
    severity weights 15/10/5/2, the overall score is the floor of the
    0.4/0.3/0.3 weighted sum (all in binary64 arithmetic, as the
    source); with [files_analyzed = 0] all four scores are 100; and for
    every issue list and every [files_analyzed >= 0] the four scores are
    returned and lie in [0, 100]. *)
Theorem calculate_scores_correct (issues : list issue) (files_analyzed : Z) :
  0 <= files_analyzed ->
  Z.of_nat (List.length issues) <= PY_SSIZE_T_MAX ->
  Scores._calculate_scores issues files_analyzed
    = Scores.spec_scores issues files_analyzed /\
  (files_analyzed = 0 ->
   Scores._calculate_scores issues files_analyzed
     = Returned (Scores.mk_scores 100 100 100 100)) /\
  exists sc, Scores._calculate_scores issues files_analyzed = Returned sc /\
             Scores.valid_scores sc.
Proof.
  intros Hfiles Hlen.
  assert (Hspec : Scores._calculate_scores issues files_analyzed
                  = Scores.spec_scores issues files_analyzed).
  { unfold Scores._calculate_scores, Scores.spec_scores.
    destruct (files_analyzed =? 0); [reflexivity |].
    rewrite <- (ScoresFacts.calc_category_score_spec files_analyzed _ _
                  (ScoresFacts.complexity_bucket_perm issues)).
    rewrite !ScoresFacts.single_bucket.
    rewrite <- !(ScoresFacts.calc_category_score_spec files_analyzed _ _
                   (Permutation_refl _)).
    destruct (Scores.calc_category_score files_analyzed
                (Scores.of_type "complexity" issues ++ Scores.of_type "smell" issues
                   ++ Scores.of_type "architecture" issues)) as [c | ex] eqn:Ec;
      cbv [obind]; [| reflexivity].
    destruct (Scores.calc_category_score files_analyzed
                (Scores.of_type "duplication" issues)) as [d | ex] eqn:Ed;
      [| reflexivity].
    destruct (Scores.calc_category_score files_analyzed
                (Scores.of_type "dependency" issues)) as [e | ex] eqn:Ee;
      [| reflexivity].
    apply ScoresFacts.calc_category_score_range in Ec, Ed, Ee.
    destruct (ScoresFacts.overall_post c d e Ec Ed Ee) as (o & -> & -> & _).
    reflexivity. }
  split; [exact Hspec |]. split.
  - intros ->. reflexivity.
  - unfold Scores._calculate_scores.
    destruct (files_analyzed =? 0).
    { eexists; split; [reflexivity |]. unfold Scores.valid_scores, Scores.valid_score.
      cbn. lia. }
    assert (Hfilter : forall t, Z.of_nat (List.length (Scores.of_type t issues))
                                <= PY_SSIZE_T_MAX).
    { intros t. pose proof (filter_length_le
                              (fun i => String.eqb (issue_type i) t) issues) as H.
      unfold Scores.of_type. lia. }
    assert (Hall : Z.of_nat (List.length
                     (Scores.of_type "complexity" issues ++ Scores.of_type "smell" issues
                        ++ Scores.of_type "architecture" issues)) <= PY_SSIZE_T_MAX).
    { rewrite (Permutation_length (ScoresFacts.complexity_bucket_perm issues)).
      pose proof (filter_length_le
                    (Scores.in_bucket ["complexity"; "smell"; "architecture"]) issues). lia. }
    destruct (ScoresFacts.calc_category_score_returns files_analyzed _ Hall) as [c Ec].
    destruct (ScoresFacts.calc_category_score_returns files_analyzed _
                (Hfilter "duplication")) as [d Ed].
    destruct (ScoresFacts.calc_category_score_returns files_analyzed _
                (Hfilter "dependency")) as [e Ee].
    rewrite Ec, Ed, Ee. cbv [obind].
    apply ScoresFacts.calc_category_score_range in Ec, Ed, Ee.
    destruct (ScoresFacts.overall_post c d e Ec Ed Ee) as (o & -> & _ & Ho).
    eexists; split; [reflexivity |].
    unfold Scores.valid_scores. cbn. auto.
Qed.

Lemma calculate_scores_witness :
  0 <= 10 /\
  Z.of_nat (List.length Samples.scored_issues) <= PY_SSIZE_T_MAX /\
  Scores._calculate_scores Samples.scored_issues 10
    = Scores.spec_scores Samples.scored_issues 10 /\
  (10 = 0 ->
   Scores._calculate_scores Samples.scored_issues 10
     = Returned (Scores.mk_scores 100 100 100 100)) /\
  exists sc, Scores._calculate_scores Samples.scored_issues 10 = Returned sc /\
             Scores.valid_scores sc.
Proof.
  split; [lia |]. split; [apply Z.leb_le; reflexivity |].
  apply (calculate_scores_correct Samples.scored_issues 10);
    [lia | apply Z.leb_le; reflexivity].
Defined.

(** On the sample the category scores are 0, 1 and 9; the weighted sum
    is [0.3 + 2.6999999999999997] in binary64, so the overall score is 2. *)
Example calculate_scores_sample :
  Scores._calculate_scores Samples.scored_issues 10
  = Returned (Scores.mk_scores 2 0 1 9).
Proof. vm_compute. reflexivity. Qed.
(* ================================================================== *)
(** ** The coordinator *)

Module AnalyzerFacts.
Import PyStr Analyzer.

Section Run.
Context {so : PySet.order}.
Variable ast_parse : string -> outcome PyAst.node.
Variable md5_hexdigest : string -> string.
Variable json_load : string -> outcome Dependencies.json.
Variable fs : Fs.entry.

(** A root that cannot be listed: nothing to walk either. *)
Lemma collect_unlistable_root (project_path : string) (include_tests : bool)
      (max_depth : Z) :
  WalkRules.unlistable fs project_path = true ->
  walk_top fs project_path include_tests max_depth = [].
Proof.
  unfold WalkRules.unlistable, walk_top.
  destruct (Fs.lookup fs project_path) as [[r d t | [|] entries] |];
    [reflexivity | discriminate | reflexivity | reflexivity].
Qed.

Lemma missing_unlistable (project_path : string) :
  Fs.exists_ fs project_path = false -> WalkRules.unlistable fs project_path = true.
Proof.
  unfold Fs.exists_, WalkRules.unlistable.
  destruct (Fs.lookup fs project_path); [discriminate | reflexivity].
Qed.

(** Once the files are selected, the run returns as soon as the score
    calculator does, and the report is then complete. *)
Lemma analyze_project_report (project_path : string) (include_tests : bool)
      (max_depth : Z) (specific_files : option (list string)) (code_files : list string) :
  code_files_of fs project_path include_tests max_depth specific_files
  = Returned code_files ->
  let all_issues :=
    all_issues_of ast_parse md5_hexdigest json_load fs project_path code_files in
  Z.of_nat (List.length all_issues) <= PY_SSIZE_T_MAX ->
  exists r,
    analyze_project ast_parse md5_hexdigest json_load fs project_path include_tests
                    max_depth specific_files = Returned r /\
    issues r = all_issues /\
    files_analyzed r = Z.of_nat (List.length code_files) /\
    total_issues r = Z.of_nat (List.length all_issues) /\
    Scores.valid_scores
      (Scores.mk_scores (overall_score r) (complexity_score r) (duplication_score r)
                        (dependency_score r)) /\
    (files_analyzed r = 0 ->
     overall_score r = 100 /\ complexity_score r = 100 /\
     duplication_score r = 100 /\ dependency_score r = 100).
Proof.
  intros Hfiles all_issues Hlen. unfold analyze_project.
  rewrite Hfiles. cbn [obind]. fold all_issues.
  destruct (ScoresFacts.calculate_scores_returns
              all_issues (Z.of_nat (List.length code_files)) Hlen)
    as (Hzero & sc & Hsc & Hvalid).
  rewrite Hsc. cbn [obind]. eexists. split; [reflexivity |].
  cbn [issues files_analyzed total_issues overall_score complexity_score duplication_score
         dependency_score].
  split; [reflexivity |]. split; [reflexivity |]. split; [reflexivity |]. split.
  - destruct sc. exact Hvalid.
  - intros H0. rewrite (Hzero H0) in Hsc.
    assert (Hsc' : sc = Scores.mk_scores 100 100 100 100) by congruence.
    subst sc. cbn. auto.
Qed.

End Run.

End AnalyzerFacts.

(** C1, as the code has it.  [analyze_project] does not check that the
    root exists.  Unless the tree is walked from a path that holds a null
    character, the files are selected without failure and the run returns
    a complete report (all issues, the file count, four valid scores),
    whether the root exists or not; for a root that does not exist, or
    that is a file or a directory that cannot be listed, and no specific
    files, the report counts no file and its four scores are 100.  The
    walk from a path with a null character raises [ValueError], and so
    does the run; such a path is one in which the character of code 0
    occurs. *)
Theorem analyze_project_always_reports
        {so : PySet.order}
        (ast_parse : string -> outcome PyAst.node) (md5_hexdigest : string -> string)
        (json_load : string -> outcome Dependencies.json) (fs : Fs.entry)
        (project_path : string) (include_tests : bool) (max_depth : Z)
        (specific_files : option (list string)) :
  (Fs.embedded_null project_path = false \/
   (exists f rest, specific_files = Some (f :: rest)) ->
   exists code_files,
     Analyzer.code_files_of fs project_path include_tests max_depth specific_files
     = Returned code_files /\
     let all_issues :=
       Analyzer.all_issues_of ast_parse md5_hexdigest json_load fs project_path
                              code_files in
     (Z.of_nat (List.length all_issues) <= PY_SSIZE_T_MAX ->
      exists r,
        Analyzer.analyze_project ast_parse md5_hexdigest json_load fs project_path
                                 include_tests max_depth specific_files = Returned r /\
        Analyzer.issues r = all_issues /\
        Analyzer.files_analyzed r = Z.of_nat (List.length code_files) /\
        Analyzer.total_issues r = Z.of_nat (List.length all_issues) /\
        Scores.valid_scores
          (Scores.mk_scores (Analyzer.overall_score r) (Analyzer.complexity_score r)
                            (Analyzer.duplication_score r)
                            (Analyzer.dependency_score r)) /\
        (Fs.exists_ fs project_path = false \/
         WalkRules.unlistable fs project_path = true ->
         specific_files = None \/ specific_files = Some [] ->
         Analyzer.files_analyzed r = 0 /\
         Analyzer.overall_score r = 100 /\ Analyzer.complexity_score r = 100 /\
         Analyzer.duplication_score r = 100 /\ Analyzer.dependency_score r = 100))) /\
  (Fs.embedded_null project_path = true ->
   specific_files = None \/ specific_files = Some [] ->
   Analyzer.analyze_project ast_parse md5_hexdigest json_load fs project_path
                            include_tests max_depth specific_files = Raised ValueError) /\
  (Fs.embedded_null project_path = true
   <-> exists a b, project_path = (a ++ String "000"%char b)%string).
Proof.
  split; [| split; [apply RunFacts.null_root_raises | apply RunFacts.embedded_null_spec]].
  intros Hwalk.
  destruct (RunFacts.code_files_returned fs project_path include_tests max_depth
              specific_files Hwalk) as (code_files & Hfiles).
  exists code_files. split; [exact Hfiles |]. intros all_issues Hlen.
  destruct (AnalyzerFacts.analyze_project_report ast_parse md5_hexdigest json_load fs
              project_path include_tests max_depth specific_files code_files Hfiles Hlen)
    as (r & Hr & Hi & Hf & Ht & Hv & Hz).
  exists r. repeat (split; [assumption |]).
  intros Hmissing Hnone.
  assert (Hfiles0 : Analyzer.files_analyzed r = 0).
  { assert (Hroot : WalkRules.unlistable fs project_path = true).
    { destruct Hmissing as [Hmissing | Hroot]; [| exact Hroot].
      now apply AnalyzerFacts.missing_unlistable. }
    rewrite Hf. unfold Analyzer.code_files_of, Analyzer._collect_code_files in Hfiles.
    rewrite (AnalyzerFacts.collect_unlistable_root fs _ _ _ Hroot) in Hfiles.
    destruct Hnone as [-> | ->];
      destruct (Fs.embedded_null project_path); try discriminate;
      injection Hfiles as <-; reflexivity. }
  split; [exact Hfiles0 | exact (Hz Hfiles0)].
Qed.

Lemma analyze_project_always_reports_witness :
  Fs.embedded_null "/proj" = false /\
  exists r,
    Analyzer.analyze_project (so := Samples.first_added) Samples.sample_parse
                             Samples.plain_hash Samples.no_json
                             Samples.project_fs "/proj" true 10 None = Returned r /\
    Analyzer.files_analyzed r = 4.
Proof.
  split; [reflexivity |].
  destruct (proj1 (analyze_project_always_reports
                     (so := Samples.first_added) Samples.sample_parse Samples.plain_hash
                     Samples.no_json Samples.project_fs "/proj" true 10 None)
                  (or_introl eq_refl))
    as (code_files & Hfiles & Hrun).
  assert (E : Analyzer.code_files_of Samples.project_fs "/proj" true 10 None
              = Returned ["/proj/a.py"; "/proj/bad.py"; "/proj/app.js";
                          "/proj/tests/test_a.py"]) by (vm_compute; reflexivity).
  rewrite E in Hfiles. injection Hfiles as <-.
  destruct Hrun as (r & Hr & _ & Hf & _).
  - apply Z.leb_le. vm_compute. reflexivity.
  - exists r. split; [exact Hr | exact Hf].
Defined.

(** C1, as stated, fails: the root [/missing] does not exist and the run
    returns the vacuous report instead of failing. *)
Lemma missing_root_counterexample :
  Fs.exists_ Samples.project_fs "/missing" = false /\
  Analyzer.analyze_project (so := Samples.first_added) Samples.sample_parse
                           Samples.plain_hash Samples.no_json
                           Samples.project_fs "/missing" true 10 None
  = Returned (Analyzer.mk_report 100 100 100 100 0 0 (of_int 0) [] 0) /\
  ~ (Fs.exists_ Samples.project_fs "/missing" = false ->
     exists e,
       Analyzer.analyze_project (so := Samples.first_added) Samples.sample_parse
                                Samples.plain_hash Samples.no_json
                                Samples.project_fs "/missing" true 10 None = Raised e).
Proof.
  assert (Hrun : Analyzer.analyze_project (so := Samples.first_added) Samples.sample_parse
                   Samples.plain_hash Samples.no_json Samples.project_fs "/missing" true 10
                   None
                 = Returned (Analyzer.mk_report 100 100 100 100 0 0 (of_int 0) [] 0))
    by (vm_compute; reflexivity).
  split; [reflexivity |]. split; [exact Hrun |].
  intros H. destruct (H eq_refl) as [e He]. rewrite Hrun in He. discriminate.
Qed.

(** Roots that are not there, each in its way: a missing directory
    followed by [..], a file followed by a separator, the empty path; a
    root that is a file; and the walk from a path with a null character,
    which raises. *)
Example unusual_roots :
  Fs.exists_ Samples.project_fs "/proj/nodir/.." = false /\
  Fs.exists_ Samples.project_fs "/proj/tests/.." = true /\
  Fs.exists_ Samples.project_fs "/proj/a.py/" = false /\
  Fs.exists_ Samples.project_fs "/proj/" = true /\
  Fs.exists_ Samples.project_fs EmptyString = false /\
  Analyzer._collect_code_files Samples.project_fs "/proj/nodir/.." true 10 = Returned [] /\
  Analyzer._collect_code_files Samples.project_fs "/proj/a.py" true 10 = Returned [] /\
  Analyzer._collect_code_files Samples.project_fs Samples.null_path true 10
  = Raised ValueError /\
  Analyzer.analyze_project (so := Samples.first_added) Samples.sample_parse
                           Samples.plain_hash Samples.no_json
                           Samples.project_fs Samples.null_path true 10 None
  = Raised ValueError.
Proof. vm_compute. repeat split; reflexivity. Qed.
(* ================================================================== *)
(** ** The issues of a run, kind by kind *)

Module ReportFacts.
Import PyStr Stmt StmtSpec StmtFacts IssueKinds.

Section Listing.
Context {so : PySet.order}.

Lemma count_char_nonneg (c : ascii) (s : string) : 0 <= count_char c s.
Proof.
  induction s as [| d s IH]; cbn [count_char]; [lia |].
  destruct (Ascii.eqb c d); lia.
Qed.

Lemma line_of_pos (content : string) (pos : nat) : 1 <= JsAnalysis.line_of content pos.
Proof.
  unfold JsAnalysis.line_of. pose proof (count_char_nonneg newline (take pos content)). lia.
Qed.

Lemma Forall_flat_map_in {A B} (P : B -> Prop) (f : A -> list B) (l : list A) :
  (forall a, In a l -> Forall P (f a)) -> Forall P (flat_map f l).
Proof.
  intros Hf. induction l as [| a l IH]; [constructor |].
  cbn [flat_map]. apply Forall_app. split.
  - apply Hf. left. reflexivity.
  - apply IH. intros b Hb. apply Hf. right. exact Hb.
Qed.

Lemma appends_for_each_in P {A} (l : list A) (body : A -> block unit) :
  (forall x, In x l -> appends P (body x)) -> appends P (for_each l body).
Proof.
  intros Hbody. induction l as [| x l IH]; cbn [for_each].
  - apply appends_ret.
  - apply appends_bind.
    + apply Hbody. left. reflexivity.
    + intros _. apply IH. intros y Hy. apply Hbody. right. exact Hy.
Qed.

Lemma enumerate1_bounds {A} (l : list A) (n : Z) (x : A) :
  In (n, x) (Dependencies.enumerate1 l) -> 1 <= n <= Z.of_nat (List.length l).
Proof.
  unfold Dependencies.enumerate1. intros Hin.
  apply in_combine_l in Hin. apply in_map_iff in Hin. destruct Hin as (k & <- & Hk).
  apply in_seq in Hk. lia.
Qed.

Lemma reported_incl (files files' : list string) (i : issue) :
  incl files files' -> reported files i -> reported files' i.
Proof.
  intros Hincl Hi. destruct Hi as [rel i Hrel Hi | o1 o2 occ Hocc | p v n Hn | p v Hv].
  - apply rp_file with rel; auto.
  - apply rp_duplication. eapply Forall_impl; [| exact Hocc].
    intros o [Ho1 Ho2]. auto.
  - apply rp_outdated. exact Hn.
  - apply rp_flexible. exact Hv.
Qed.

Lemma appends_returned P {A B} (a : A) (k : A -> block B) :
  appends P (k a) -> appends P (bind (eval (Returned a)) k).
Proof. intros Hk st. exact (Hk st). Qed.

Lemma keys_set {V} (d : Dict.dict V) (k : string) (v : V) (x : string) :
  In x (Dict.keys (Dict.set d k v)) -> x = k \/ In x (Dict.keys d).
Proof.
  unfold Dict.keys. induction d as [| [k' v'] d IH]; cbn [Dict.set map fst].
  - intros [<- | []]. left. reflexivity.
  - destruct (String.eqb k k'); cbn [map fst]; [intros Hx; right; exact Hx |].
    intros [<- | Hx]; [right; left; reflexivity |].
    destruct (IH Hx) as [-> | Hd]; [left; reflexivity | right; right; exact Hd].
Qed.

Ltac one_issue := first [apply Forall_nil | apply Forall_cons; [| apply Forall_nil]].

Section Detectors.
Variable ast_parse : string -> outcome PyAst.node.
Variable md5_hexdigest : string -> string.
Variable json_load : string -> outcome Dependencies.json.
Variable fs : Fs.entry.

Lemma per_file_python_complexity (content rel : string) :
  Forall (per_file rel) (PyAnalysis._analyze_python_complexity ast_parse content rel).
Proof.
  unfold PyAnalysis._analyze_python_complexity.
  destruct (ast_parse content) as [tree | []]; try apply Forall_nil.
  apply WellFormed.Forall_flat_map_intro. intros n.
  destruct n; cbn [PyAnalysis.complexity_visit]; try apply Forall_nil.
  - destruct (Z.gtb_spec (PyAnalysis._calculate_cyclomatic_complexity
                            (PyAst.FunctionDef name lineno end_lineno children)) 15);
      one_issue. apply pf_complexity. lia.
  - destruct (Z.gtb_spec (PyAnalysis._calculate_cyclomatic_complexity
                            (PyAst.AsyncFunctionDef name lineno end_lineno children)) 15);
      one_issue. apply pf_complexity. lia.
  - destruct (Z.gtb_spec (Z.of_nat (List.length (filter PyAst.is_function body))) 20);
      one_issue. apply pf_god_object. lia.
Qed.

Lemma per_file_long_python (content rel : string) :
  Forall (per_file rel) (PyAnalysis._detect_long_python_functions ast_parse content rel).
Proof.
  unfold PyAnalysis._detect_long_python_functions.
  destruct (ast_parse content) as [tree | ex]; try apply Forall_nil.
  apply WellFormed.Forall_flat_map_intro. intros n.
  destruct n; cbn [PyAnalysis.long_function_visit]; try apply Forall_nil;
    destruct end_lineno as [e |]; try apply Forall_nil;
    destruct (Z.gtb_spec (e - lineno) 50); one_issue;
    apply pf_long_function; lia.
Qed.

Lemma per_file_unused_python (content rel : string) :
  Forall (per_file rel) (PyAnalysis._detect_unused_python_variables ast_parse content rel).
Proof.
  unfold PyAnalysis._detect_unused_python_variables.
  destruct (ast_parse content) as [tree | ex]; try apply Forall_nil.
  apply WellFormed.Forall_flat_map_intro. intros n.
  destruct n; cbn [PyAnalysis.unused_visit]; try apply Forall_nil;
    destruct (PyAnalysis.unused_names _) eqn:E; one_issue; apply pf_unused; discriminate.
Qed.

Lemma per_file_js_complexity (content rel : string) :
  Forall (per_file rel) (JsAnalysis._analyze_js_complexity content rel).
Proof.
  unfold JsAnalysis._analyze_js_complexity. apply WellFormed.Forall_flat_map_intro.
  intros m. unfold JsAnalysis.js_complexity_visit.
  destruct (JsAnalysis.find _ _ _) as [func_start |]; [| apply Forall_nil].
  destruct (Z.gtb_spec (JsAnalysis.decision_points
                          (JsAnalysis.slice func_start
                             (JsAnalysis.func_end_of func_start content) content)) 15);
    one_issue. apply pf_js_complexity; [lia | apply line_of_pos].
Qed.

Lemma per_file_long_js (content rel : string) :
  Forall (per_file rel) (JsAnalysis._detect_long_js_functions content rel).
Proof.
  unfold JsAnalysis._detect_long_js_functions. apply WellFormed.Forall_flat_map_intro.
  intros m. unfold JsAnalysis.long_js_visit.
  destruct (JsAnalysis.find _ _ _) as [func_start |]; [| apply Forall_nil].
  match goal with |- context [?a >? 50] => destruct (Z.gtb_spec a 50) end;
    one_issue. apply pf_long_js; [apply line_of_pos | lia].
Qed.

Lemma per_file_analyze_file (project_path : string) (file_contents : Dict.dict string)
      (file_path : string) :
  Forall (per_file (Analyzer.rel_path_of project_path file_path))
         (Analyzer.analyze_file ast_parse project_path file_contents file_path).
Proof.
  unfold Analyzer.analyze_file, Analyzer._analyze_complexity, Analyzer._detect_code_smells.
  apply Forall_app. split.
  - destruct (endswith ".py" file_path); [apply per_file_python_complexity |].
    destruct (Analyzer.is_js file_path); [apply per_file_js_complexity | apply Forall_nil].
  - destruct (endswith ".py" file_path).
    + apply Forall_app. split; [apply per_file_long_python | apply per_file_unused_python].
    + destruct (Analyzer.is_js file_path); [apply per_file_long_js | apply Forall_nil].
Qed.

(** An occurrence recorded in the table names a file of the cache and a
    line from which five lines of that file can be read. *)
Lemma table_occurrence (file_contents : Dict.dict string) (h : string)
      (occ : list Duplication.occurrence) (o : Duplication.occurrence) :
  In (h, occ) (Duplication.hash_blocks md5_hexdigest file_contents) -> In o occ ->
  exists content,
    In (fst o, content) file_contents /\ 1 <= snd o /\
    snd o + 4 <= Z.of_nat (List.length (split nl content)).
Proof.
  intros Hitem Ho.
  destruct (DuplicationFacts.hash_blocks_table md5_hexdigest file_contents) as [Hnd Hget].
  apply (DuplicationTable.get_In _ _ _ Hnd) in Hitem. rewrite Hget in Hitem.
  assert (Hocc : Duplication.occurrences_of md5_hexdigest file_contents h = occ).
  { destruct (Duplication.occurrences_of md5_hexdigest file_contents h); congruence. }
  subst occ. unfold Duplication.occurrences_of in Ho.
  apply in_map_iff in Ho. destruct Ho as ([h' o'] & Ho' & Hin). cbn [snd] in Ho'. subst o'.
  apply filter_In in Hin. destruct Hin as [Hin _].
  unfold Duplication.hashed_windows in Hin. apply in_map_iff in Hin.
  destruct Hin as ([normalized o'] & [= _ ->] & Hin).
  unfold Duplication.qualifying_windows in Hin. apply in_flat_map in Hin.
  destruct Hin as ([[rel_path lines] k] & Hw & Hin). cbn zeta in Hin.
  destruct (50 <? len (Duplication.spec_window lines k)); [| destruct Hin].
  destruct Hin as [[= _ <-] | []].
  unfold Duplication.corpus_windows in Hw. apply in_flat_map in Hw.
  destruct Hw as ([rel_path' content] & Hfile & Hw). cbn [fst snd] in Hw.
  apply in_map_iff in Hw. destruct Hw as (k' & [= -> <- ->] & Hk).
  apply in_seq in Hk. unfold Duplication.min_block_size in Hk.
  exists content. cbn [fst snd]. split; [exact Hfile |]. lia.
Qed.

Lemma duplication_reported (file_contents : Dict.dict string) :
  Forall (reported (Dict.keys file_contents))
         (Duplication._detect_duplication md5_hexdigest file_contents).
Proof.
  rewrite DuplicationFacts.detect_duplication_map. apply Forall_map, Forall_forall.
  intros [h occ] Hitem. apply filter_In in Hitem. destruct Hitem as [Hitem Hrep].
  unfold DictSpec.repeated in Hrep. cbn [snd] in *.
  destruct occ as [| o1 [| o2 occ]]; try discriminate.
  apply rp_duplication. apply Forall_forall. intros o Ho.
  destruct (table_occurrence _ _ _ _ Hitem Ho) as (content & Hfile & Hline & _).
  split; [| exact Hline].
  unfold Dict.keys. apply in_map_iff. exists (fst o, content). auto.
Qed.

Lemma requirements_block_reported (files : list string) (path : string) :
  appends (reported files) (Dependencies.requirements_block fs path).
Proof.
  unfold Dependencies.requirements_block.
  apply appends_bind; [apply appends_eval |]. intros lines.
  apply appends_for_each_in. intros [n l] Hin. apply enumerate1_bounds in Hin.
  apply DependenciesFacts.requirement_line_appends. intros p v.
  apply rp_outdated. cbn [fst]. lia.
Qed.

Lemma package_json_block_reported (files : list string) (path : string) :
  appends (reported files) (Dependencies.package_json_block json_load fs path).
Proof.
  unfold Dependencies.package_json_block.
  apply appends_bind; [apply appends_eval |]. intros data.
  apply appends_bind; [apply appends_eval |]. intros d1.
  apply appends_bind; [apply appends_eval |]. intros d2.
  apply appends_bind; [apply appends_eval |]. intros deps.
  apply appends_for_each. intros [pkg v]. cbn [fst snd].
  destruct v; try apply StmtFacts.appends_raised.
  apply appends_returned. cbn [Dependencies.starts_flexible]. fold (flexible s).
  destruct (flexible s) eqn:E; [| apply appends_ret].
  apply appends_append, rp_flexible, E.
Qed.

Lemma dependencies_reported (files : list string) (project_path : string) :
  Forall (reported files) (Dependencies._analyze_dependencies json_load fs project_path).
Proof.
  unfold Dependencies._analyze_dependencies, issues_of.
  match goal with |- Forall ?P (snd (?m [])) => assert (Happ : appends P m) end.
  { apply appends_bind.
    - apply appends_when, appends_try, requirements_block_reported.
    - intros _. apply appends_when, appends_try, package_json_block_reported. }
  destruct (Happ []) as (extra & -> & HF). exact HF.
Qed.

(** The keys of the cache are relative paths of the files to analyse. *)
Lemma cache_keys (project_path : string) (code_files : list string)
      (file_contents : Dict.dict string) :
  incl (Dict.keys (fold_left (Analyzer.load_file fs project_path) code_files file_contents))
       (Dict.keys file_contents ++ map (Analyzer.rel_path_of project_path) code_files).
Proof.
  revert file_contents. induction code_files as [| f l IH]; intros d; cbn [fold_left map].
  - rewrite app_nil_r. apply incl_refl.
  - intros k Hk. apply IH in Hk. apply in_app_or in Hk. apply in_or_app.
    destruct Hk as [Hk | Hk]; [| right; right; exact Hk].
    unfold Analyzer.load_file in Hk.
    destruct (Fs.read_ignore fs f) as [content | e]; [| left; exact Hk].
    apply keys_set in Hk. destruct Hk as [-> | Hk]; [right; left; reflexivity | left; exact Hk].
Qed.

(** Every issue of a run is of one of the kinds, for the files of the
    run. *)
Lemma all_issues_reported (project_path : string) (code_files : list string) :
  Forall (reported (map (Analyzer.rel_path_of project_path) code_files))
         (Analyzer.all_issues_of ast_parse md5_hexdigest json_load fs project_path
                                 code_files).
Proof.
  unfold Analyzer.all_issues_of. repeat (apply Forall_app; split).
  - apply Forall_flat_map_in. intros f Hf.
    eapply Forall_impl; [| apply per_file_analyze_file].
    intros i Hi. apply rp_file with (Analyzer.rel_path_of project_path f); [| exact Hi].
    apply in_map, Hf.
  - eapply Forall_impl; [| apply duplication_reported].
    intros i. apply reported_incl. intros k Hk.
    apply cache_keys in Hk. exact Hk.
  - apply dependencies_reported.
Qed.

Lemma report_issues (project_path : string) (include_tests : bool) (max_depth : Z)
      (specific_files : option (list string)) (r : Analyzer.report) :
  Analyzer.analyze_project ast_parse md5_hexdigest json_load fs project_path include_tests
                           max_depth specific_files = Returned r ->
  exists code_files,
    Analyzer.code_files_of fs project_path include_tests max_depth specific_files
    = Returned code_files /\
    Analyzer.issues r
    = Analyzer.all_issues_of ast_parse md5_hexdigest json_load fs project_path code_files /\
    Analyzer.files_analyzed r = Z.of_nat (List.length code_files) /\
    Analyzer.critical_issues r
    = Z.of_nat (List.length (filter (fun i => String.eqb (severity i) "critical")
                                    (Analyzer.issues r))).
Proof.
  unfold Analyzer.analyze_project.
  destruct (Analyzer.code_files_of fs project_path include_tests max_depth specific_files)
    as [code_files | ex]; cbv [obind]; [| discriminate].
  destruct (Scores._calculate_scores _ _) as [sc | ex]; [| discriminate].
  intros H. injection H as <-. exists code_files.
  cbn [Analyzer.issues Analyzer.critical_issues Analyzer.files_analyzed].
  repeat split; reflexivity.
Qed.

End Detectors.

End Listing.

End ReportFacts.

(** X1.  In every report the severity of an issue is one that its type
    allows: critical, high or medium for complexity, high for
    architecture, high, medium or low for smells, medium or low for
    duplications and low for dependencies; so the count of critical
    issues of the report is the count of its critical complexity
    issues. *)
Theorem severity_by_issue_type {so : PySet.order}
        (ast_parse : string -> outcome PyAst.node) (md5_hexdigest : string -> string)
        (json_load : string -> outcome Dependencies.json) (fs : Fs.entry)
        (project_path : string) (include_tests : bool) (max_depth : Z)
        (specific_files : option (list string)) (r : Analyzer.report) :
  Analyzer.analyze_project ast_parse md5_hexdigest json_load fs project_path include_tests
                           max_depth specific_files = Returned r ->
  Forall (fun i => In (severity i) (IssueKinds.severities_of_type (issue_type i)))
         (Analyzer.issues r) /\
  Analyzer.critical_issues r
  = Z.of_nat (List.length
                (filter (fun i => String.eqb (issue_type i) "complexity"
                                  && String.eqb (severity i) "critical")
                        (Analyzer.issues r))).
Proof.
  intros Hrun.
  destruct (ReportFacts.report_issues _ _ _ _ _ _ _ _ _ Hrun)
    as (code_files & _ & Hissues & _ & Hcritical).
  assert (Hsev : Forall (fun i => In (severity i)
                                     (IssueKinds.severities_of_type (issue_type i)))
                        (Analyzer.issues r)).
  { rewrite Hissues.
    eapply Forall_impl; [| apply ReportFacts.all_issues_reported].
    intros i Hi.
    destruct Hi as [rel i _ Hi | o1 o2 occ _ | p v n _ | p v _].
    - destruct Hi as [name l e c Hc | name l e n Hn | name l e Hlen | name l u Hu
                     | name line c Hc Hline | name s e Hs Hlen];
        cbn [severity issue_type PyAnalysis.complexity_issue PyAnalysis.god_object_issue
               PyAnalysis.long_function_issue PyAnalysis.unused_issue
               JsAnalysis.js_complexity_issue JsAnalysis.long_js_issue].
      + unfold PyAnalysis.complexity_severity.
        destruct (c >? 25); [left; reflexivity |].
        destruct (c >? 20); [right; left | right; right; left]; reflexivity.
      + left. reflexivity.
      + destruct (_ >? 100); [left | right; left]; reflexivity.
      + right. right. left. reflexivity.
      + unfold PyAnalysis.complexity_severity.
        destruct (c >? 25); [left; reflexivity |].
        destruct (c >? 20); [right; left | right; right; left]; reflexivity.
      + destruct (_ >? 100); [left | right; left]; reflexivity.
    - cbn [severity issue_type Duplication.duplication_issue].
      destruct (_ >? 3); [left | right; left]; reflexivity.
    - left. reflexivity.
    - left. reflexivity. }
  split; [exact Hsev |].
  rewrite Hcritical. do 2 f_equal. apply filter_ext_in. intros i Hi.
  rewrite Forall_forall in Hsev. specialize (Hsev i Hi).
  destruct (String.eqb_spec (severity i) "critical") as [Hc | _];
    [| now rewrite andb_false_r].
  rewrite andb_true_r. rewrite Hc in Hsev. unfold IssueKinds.severities_of_type in Hsev.
  destruct (String.eqb (issue_type i) "complexity"); [reflexivity |]. exfalso.
  repeat match type of Hsev with
         | In _ (if ?b then _ else _) => destruct b
         end; cbn in Hsev; intuition discriminate.
Qed.

Lemma severity_by_issue_type_witness :
  exists r,
    Analyzer.analyze_project (so := Samples.first_added) Samples.sample_parse
                             Samples.plain_hash Samples.no_json
                             Samples.project_fs "/proj" true 10 None = Returned r /\
    Forall (fun i => In (severity i) (IssueKinds.severities_of_type (issue_type i)))
           (Analyzer.issues r) /\
    Analyzer.critical_issues r = 0.
Proof.
  destruct (Analyzer.analyze_project (so := Samples.first_added) Samples.sample_parse
              Samples.plain_hash Samples.no_json Samples.project_fs "/proj" true 10 None)
    as [r | e] eqn:E.
  - exists r. split; [reflexivity |].
    split; [exact (proj1 (severity_by_issue_type _ _ _ _ _ _ _ _ r E)) |].
    vm_compute in E. injection E as <-. reflexivity.
  - vm_compute in E. discriminate.
Defined.

(** X2.  Every issue of a report names a file of the run: a dependency
    issue names one of the two manifests, and any other issue names the
    path, relative to the project root, of one of the files that were
    analysed. *)
Theorem issues_name_analysed_files {so : PySet.order}
        (ast_parse : string -> outcome PyAst.node) (md5_hexdigest : string -> string)
        (json_load : string -> outcome Dependencies.json) (fs : Fs.entry)
        (project_path : string) (include_tests : bool) (max_depth : Z)
        (specific_files : option (list string)) (r : Analyzer.report) :
  Analyzer.analyze_project ast_parse md5_hexdigest json_load fs project_path include_tests
                           max_depth specific_files = Returned r ->
  exists code_files,
    Analyzer.code_files_of fs project_path include_tests max_depth specific_files
    = Returned code_files /\
    Forall (fun i =>
              if String.eqb (issue_type i) "dependency"
              then In (file_path i) IssueKinds.manifests
              else In (file_path i) (map (Analyzer.rel_path_of project_path) code_files))
           (Analyzer.issues r).
Proof.
  intros Hrun.
  destruct (ReportFacts.report_issues _ _ _ _ _ _ _ _ _ Hrun)
    as (code_files & Hfiles & Hissues & _).
  exists code_files. split; [exact Hfiles |].
  rewrite Hissues.
  eapply Forall_impl; [| apply ReportFacts.all_issues_reported].
  intros i Hi.
  destruct Hi as [rel i Hrel Hi | o1 o2 occ Hocc | p v n _ | p v _].
  - destruct Hi; exact Hrel.
  - cbn [issue_type file_path Duplication.duplication_issue hd String.eqb Ascii.eqb
           Bool.eqb].
    apply Forall_inv in Hocc. apply Hocc.
  - left. reflexivity.
  - right. left. reflexivity.
Qed.

Lemma issues_name_analysed_files_witness :
  exists r,
    Analyzer.analyze_project (so := Samples.first_added) Samples.sample_parse
                             Samples.plain_hash Samples.no_json
                             Samples.project_fs "/proj" true 10 None = Returned r /\
    exists code_files,
      Analyzer.code_files_of Samples.project_fs "/proj" true 10 None
      = Returned code_files /\
      Forall (fun i =>
                if String.eqb (issue_type i) "dependency"
                then In (file_path i) IssueKinds.manifests
                else In (file_path i) (map (Analyzer.rel_path_of "/proj") code_files))
             (Analyzer.issues r).
Proof.
  destruct (Analyzer.analyze_project (so := Samples.first_added) Samples.sample_parse
              Samples.plain_hash Samples.no_json Samples.project_fs "/proj" true 10 None)
    as [r | e] eqn:E.
  - exists r. split; [reflexivity |].
    exact (issues_name_analysed_files _ _ _ _ _ _ _ _ r E).
  - vm_compute in E. discriminate.
Defined.
(* ================================================================== *)
(** ** Line numbers and complexity of JavaScript declarations *)

Module JsLineFacts.
Import PyStr Re JsAnalysis.

Lemma count_char_take (c : ascii) (n : nat) (s : string) :
  count_char c (take n s) <= count_char c s.
Proof.
  revert n; induction s as [| d s IH]; intros [| n]; cbn [take count_char]; try lia.
  - pose proof (ReportFacts.count_char_nonneg c s). destruct (Ascii.eqb c d); lia.
  - specialize (IH n). lia.
Qed.

(** [s.split(c)] gives one piece more than [s.count(c)]. *)
Lemma split_go_length (c : ascii) (s p : string) (ps : list string) :
  split_go (String c EmptyString) 0 s = (p, ps) ->
  Z.of_nat (List.length ps) = count_char c s.
Proof.
  revert p ps; induction s as [| d s IH]; intros p ps H; cbn [split_go] in H.
  - injection H as <- <-. reflexivity.
  - cbn [String.length Nat.sub] in H.
    destruct (split_go (String c EmptyString) 0 s) as [p' ps'] eqn:E.
    specialize (IH _ _ eq_refl). cbn [count_char].
    rewrite StrFacts.prefix_one in H.
    destruct (Ascii.eqb c d); injection H as <- <-; cbn [List.length]; lia.
Qed.

Lemma split_length (c : ascii) (s : string) :
  Z.of_nat (List.length (split (String c EmptyString) s)) = count_char c s + 1.
Proof.
  unfold split. destruct (split_go (String c EmptyString) 0 s) as [p ps] eqn:E.
  apply split_go_length in E. cbn [List.length]. lia.
Qed.

Lemma line_of_le (content : string) (pos : nat) :
  line_of content pos <= Z.of_nat (List.length (split nl content)).
Proof.
  unfold line_of, nl. rewrite split_length.
  pose proof (count_char_take newline pos content). lia.
Qed.

Lemma slice_empty (a : nat) (content : string) : slice a a content = EmptyString.
Proof. unfold slice. rewrite Nat.sub_diag. destruct (drop a content); reflexivity. Qed.

Lemma js_complexity_visit_spec (content rel_path : string) (m : match_obj) :
  js_complexity_visit content rel_path m
  = match find "{" (m_start m) content with
    | Some open_brace =>
        let func_body := slice open_brace (func_end_of open_brace content) content in
        if 15 <? decision_points func_body
        then [js_complexity_issue rel_path (group1 m) (line_of content (m_start m))
                                  (decision_points func_body)]
        else []
    | None => []
    end.
Proof.
  unfold js_complexity_visit.
  destruct (find "{" (m_start m) content) as [open_brace |]; [| reflexivity].
  cbn zeta. now rewrite Z.gtb_ltb.
Qed.

End JsLineFacts.

(** X3.  The line numbers of the issues of a JavaScript or TypeScript
    file are line numbers of its text: a Long Method issue starts at a
    line [s >= 1] and ends more than 50 lines later, at a line that is at
    most the number of lines of the text; a complexity issue has a start
    line between 1 and the number of lines, and no end line. *)
Theorem js_issue_lines_within_file (content rel_path : string) :
  let line_count := Z.of_nat (List.length (PyStr.split PyStr.nl content)) in
  Forall (fun i => exists s e,
              line_start i = Some s /\ line_end i = Some e /\
              1 <= s /\ s + 50 < e /\ e <= line_count)
         (JsAnalysis._detect_long_js_functions content rel_path) /\
  Forall (fun i => exists s,
              line_start i = Some s /\ line_end i = None /\ 1 <= s <= line_count)
         (JsAnalysis._analyze_js_complexity content rel_path).
Proof.
  intros line_count. split.
  - unfold JsAnalysis._detect_long_js_functions.
    apply WellFormed.Forall_flat_map_intro. intros m. unfold JsAnalysis.long_js_visit.
    destruct (JsAnalysis.find _ _ _) as [func_start |]; [| apply Forall_nil].
    match goal with |- context [?a >? 50] => destruct (Z.gtb_spec a 50) end;
      [| apply Forall_nil].
    apply Forall_cons; [| apply Forall_nil].
    eexists _, _. cbn [line_start line_end JsAnalysis.long_js_issue].
    split; [reflexivity |]. split; [reflexivity |].
    pose proof (ReportFacts.line_of_pos content (Re.m_start m)).
    pose proof (JsLineFacts.line_of_le content
                  (JsAnalysis.func_end_of func_start content)).
    subst line_count. lia.
  - unfold JsAnalysis._analyze_js_complexity.
    apply WellFormed.Forall_flat_map_intro. intros m.
    rewrite JsLineFacts.js_complexity_visit_spec.
    destruct (JsAnalysis.find _ _ _) as [func_start |]; [| apply Forall_nil].
    cbn zeta. destruct (15 <? _); [| apply Forall_nil].
    apply Forall_cons; [| apply Forall_nil].
    eexists. cbn [line_start line_end JsAnalysis.js_complexity_issue].
    split; [reflexivity |]. split; [reflexivity |].
    pose proof (ReportFacts.line_of_pos content (Re.m_start m)).
    pose proof (JsLineFacts.line_of_le content (Re.m_start m)).
    subst line_count. lia.
Qed.

(** X4.  In a [.js], [.ts], [.tsx] or [.jsx] file the complexity issues
    are those of the bracket heuristic.  For every match of the pattern
    [function|const|let|var], name, [=] or [(], up to the first brace of
    the line, the brace searched from the start of the match is the one
    that ends the match, so the search never fails; the body is the text
    from that brace up to, and without, the closing brace that balances
    it, and is empty when no brace does; the complexity is 1 plus the
    number of [if], [for], [while], [case] and [catch] words and of [&&]
    and [||] operators of the body; an issue is emitted exactly for the
    matches whose complexity exceeds 15, at the line where the match
    starts, so a declaration whose braces do not balance is never
    reported. *)
Theorem js_complexity_rule
        (ast_parse : string -> outcome PyAst.node) (content rel_path abs_path : string) :
  Analyzer.is_js abs_path = true ->
  let issues := Analyzer._analyze_complexity ast_parse content rel_path abs_path in
  issues = JsAnalysis._analyze_js_complexity content rel_path /\
  (forall m, In m (Re.finditer JsAnalysis.complexity_pattern content) ->
             exists open_brace,
               JsAnalysis.find "{" (Re.m_start m) content = Some open_brace /\
               Re.m_end m = S open_brace) /\
  (forall i,
      In i issues <->
      exists m open_brace,
        In m (Re.finditer JsAnalysis.complexity_pattern content) /\
        JsAnalysis.find "{" (Re.m_start m) content = Some open_brace /\
        let func_body :=
          JsAnalysis.slice open_brace (JsAnalysis.func_end_of open_brace content) content in
        15 < JsAnalysis.decision_points func_body /\
        i = JsAnalysis.js_complexity_issue rel_path (Re.group1 m)
              (JsAnalysis.line_of content (Re.m_start m))
              (JsAnalysis.decision_points func_body)) /\
  (forall m open_brace,
      JsAnalysis.find "{" (Re.m_start m) content = Some open_brace ->
      JsAnalysis.close_from 0 open_brace (PyStr.drop open_brace content) = None ->
      JsAnalysis.js_complexity_visit content rel_path m = []) /\
  (forall func_name line_num c,
      let i := JsAnalysis.js_complexity_issue rel_path func_name line_num c in
      issue_type i = "complexity" /\
      severity i = (if 25 <? c then "critical" else if 20 <? c then "high" else "medium") /\
      estimated_hours i = round1 (fmul (of_int (c - 15)) f0_5)).
Proof.
  intros Hjs issues.
  assert (Hissues : issues = JsAnalysis._analyze_js_complexity content rel_path).
  { subst issues. unfold Analyzer._analyze_complexity.
    now rewrite (JsFacts.is_js_not_py _ Hjs), Hjs. }
  split; [exact Hissues |]. split.
  { intros m Hm.
    exact (ReFacts.declaration_brace
             (Re.Alt (Re.Lit "function")
                     (Re.Alt (Re.Lit "const") (Re.Alt (Re.Lit "let") (Re.Lit "var"))))
             content m eq_refl Hm). }
  split.
  { intros i. rewrite Hissues. unfold JsAnalysis._analyze_js_complexity.
    rewrite in_flat_map. split.
    - intros (m & Hm & Hi). rewrite JsLineFacts.js_complexity_visit_spec in Hi.
      destruct (JsAnalysis.find "{" (Re.m_start m) content) as [ob |] eqn:Ef;
        [| destruct Hi].
      cbn zeta in Hi.
      destruct (Z.ltb_spec 15 (JsAnalysis.decision_points
                                 (JsAnalysis.slice ob (JsAnalysis.func_end_of ob content)
                                                   content))) as [Hc | _]; [| destruct Hi].
      destruct Hi as [<- | []]. exists m, ob. cbn zeta. auto.
    - intros (m & ob & Hm & Ef & Hc & ->). exists m. split; [exact Hm |].
      rewrite JsLineFacts.js_complexity_visit_spec, Ef. cbn zeta.
      destruct (Z.ltb_spec 15 (JsAnalysis.decision_points
                                 (JsAnalysis.slice ob (JsAnalysis.func_end_of ob content)
                                                   content))); [left; reflexivity | lia]. }
  split.
  { intros m ob Ef Hclose. rewrite JsLineFacts.js_complexity_visit_spec, Ef. cbn zeta.
    unfold JsAnalysis.func_end_of. rewrite Hclose, JsLineFacts.slice_empty.
    reflexivity. }
  intros name line c i. subst i.
  cbn [issue_type severity estimated_hours JsAnalysis.js_complexity_issue].
  unfold PyAnalysis.complexity_severity. rewrite !Z.gtb_ltb. auto.
Qed.

Lemma js_complexity_rule_witness :
  Analyzer.is_js "/proj/app.js" = true /\
  Analyzer._analyze_complexity Samples.sample_parse (Samples.arrow_function "var" 60)
                               "app.js" "/proj/app.js"
  = JsAnalysis._analyze_js_complexity (Samples.arrow_function "var" 60) "app.js".
Proof.
  split; [reflexivity |].
  exact (proj1 (js_complexity_rule Samples.sample_parse
                  (Samples.arrow_function "var" 60) "app.js" "/proj/app.js" eq_refl)).
Defined.

(** Fifteen conditionals give a complexity of 16 and a medium issue,
    fourteen give none, and without closing braces nothing is reported. *)
Example js_complexity_samples :
  map (fun i => (title i, severity i, line_start i, line_end i, estimated_hours i))
      (JsAnalysis._analyze_js_complexity (Fixtures.branching_function 15) "a.js")
  = [("Function 'f' has high complexity (16)", "medium", Some 1, None, f0_5)] /\
  JsAnalysis._analyze_js_complexity (Fixtures.branching_function 14) "a.js" = [] /\
  JsAnalysis._analyze_js_complexity (Fixtures.unbalanced_function 30) "a.js" = [].
Proof. vm_compute. repeat split; reflexivity. Qed.
(* ================================================================== *)
(** ** The rules of the Python detectors *)

Module PyRulesFacts.
Import PyAst PyAnalysis PyStr AstSpec AstFacts PyRules.

Section Listing.
Context {so : PySet.order}.

Lemma size_le_sizes (c : node) (l : list node) : In c l -> (size c <= sizes l)%nat.
Proof.
  induction l as [| x l IH]; intros Hin; [destruct Hin |].
  rewrite sizes_cons. destruct Hin as [-> | Hin]; [lia | specialize (IH Hin); lia].
Qed.

(** Induction on the nodes of a tree, children first. *)
Lemma node_children_ind (P : node -> Prop) :
  (forall n, (forall c, In c (iter_child_nodes n) -> P c) -> P n) ->
  forall n, P n.
Proof.
  intros Hstep.
  assert (Hsize : forall k n, (size n <= k)%nat -> P n).
  { induction k as [| k IH]; intros n Hk.
    - pose proof (size_pos n). lia.
    - apply Hstep. intros c Hc. apply IH.
      pose proof (size_le_sizes c _ Hc). rewrite size_children in Hk. lia. }
  intros n. apply (Hsize (size n)). lia.
Qed.

(** A node of a subtree heads a segment of it. *)
Lemma subtree_split (f g : node) :
  In g (subtree f) -> exists l1 l2, subtree f = l1 ++ subtree g ++ l2.
Proof.
  revert g. induction f as [f IH] using node_children_ind. intros g Hin.
  rewrite subtree_children in Hin. destruct Hin as [<- | Hin].
  - exists [], []. now rewrite app_nil_r.
  - apply in_flat_map in Hin. destruct Hin as (c & Hc & Hg).
    destruct (IH c Hc g Hg) as (l1 & l2 & Hsplit).
    apply in_split in Hc. destruct Hc as (a & b & Hab).
    rewrite (subtree_children f), Hab, flat_map_app. cbn [flat_map].
    rewrite Hsplit.
    exists (f :: flat_map subtree a ++ l1), (l2 ++ flat_map subtree b).
    cbn [app]. now rewrite <- !app_assoc.
Qed.

Lemma subtree_incl (f g : node) : In g (subtree f) -> incl (subtree g) (subtree f).
Proof.
  intros Hin. destruct (subtree_split f g Hin) as (l1 & l2 & ->).
  intros x Hx. apply in_or_app. right. apply in_or_app. left. exact Hx.
Qed.

Lemma in_walk (n x : node) : In x (walk n) <-> In x (subtree n).
Proof.
  split; apply Permutation_in; [| apply Permutation_sym]; apply walk_perm.
Qed.

Lemma in_names_with (ctx_is : node -> bool) (n : node) (v : string) :
  In v (names_with ctx_is n) <-> exists ctx, In (Name v ctx) (subtree n) /\ ctx_is ctx = true.
Proof.
  unfold names_with. rewrite in_flat_map. split.
  - intros (x & Hx & Hv). apply in_walk in Hx.
    destruct x; try destruct Hv. destruct (ctx_is x) eqn:E; [| destruct Hv].
    destruct Hv as [<- | []]. exists x. auto.
  - intros (ctx & Hin & Hctx). exists (Name v ctx). split; [now apply in_walk |].
    rewrite Hctx. left. reflexivity.
Qed.

Lemma in_dedup (x : string) (l : list string) : In x (dedup l) <-> In x l.
Proof.
  split; [apply DuplicationFacts.dedup_incl |].
  induction l as [| y l IH]; intros Hin; [destruct Hin |]. cbn [dedup].
  destruct (String.eqb_spec y x) as [-> | Hne]; [left; reflexivity |].
  right. apply filter_In. split.
  - apply IH. destruct Hin as [-> | Hin]; [congruence | exact Hin].
  - destruct (String.eqb_spec y x); [congruence | reflexivity].
Qed.

(** The unused names of a node: assigned below it, never read below it,
    not starting with an underscore. *)
Lemma in_unused_set (n : node) (v : string) :
  In v (unused_set n) <-> stored v n /\ ~ loaded v n /\ startswith "_" v = false.
Proof.
  unfold unused_set, stored, loaded. rewrite !filter_In, in_dedup, !negb_true_iff.
  rewrite in_names_with. split.
  - intros [[(ctx & Hin & Hctx) Hmem] Hunder].
    destruct ctx; try discriminate. split; [exact Hin |]. split; [| exact Hunder].
    intros Hload. assert (Hm : mem v (names_with is_load n) = true).
    { apply DuplicationFacts.mem_In, in_names_with. exists Load. auto. }
    congruence.
  - intros (Hst & Hnl & Hunder). split; [split |]; [| | exact Hunder].
    + exists Store. auto.
    + destruct (mem v (names_with is_load n)) eqn:E; [| reflexivity].
      exfalso. apply Hnl. apply DuplicationFacts.mem_In, in_names_with in E.
      destruct E as (ctx & Hin & Hctx). destruct ctx; try discriminate. exact Hin.
Qed.

Lemma unused_set_NoDup (n : node) : NoDup (unused_set n).
Proof.
  unfold unused_set. do 2 apply NoDup_filter. apply DuplicationFacts.dedup_NoDup.
Qed.

(** The names are listed in some order, each once. *)
Lemma unused_names_perm (n : node) : Permutation (unused_names n) (unused_set n).
Proof. unfold unused_names. apply PySet.listing_perm. Qed.

Lemma in_unused_names (n : node) (v : string) :
  In v (unused_names n) <-> stored v n /\ ~ loaded v n /\ startswith "_" v = false.
Proof.
  rewrite <- in_unused_set. split; apply Permutation_in;
    [apply unused_names_perm | apply Permutation_sym, unused_names_perm].
Qed.

Lemma unused_names_NoDup (n : node) : NoDup (unused_names n).
Proof.
  apply (Permutation_NoDup (Permutation_sym (unused_names_perm n))), unused_set_NoDup.
Qed.

Lemma Zsum_app (l l' : list Z) : Zsum (l ++ l') = Zsum l + Zsum l'.
Proof. unfold Zsum. induction l as [| x l IH]; cbn [app fold_right]; lia. Qed.

Lemma Zsum_flat_map {A} (f : A -> list Z) (l : list A) :
  Zsum (flat_map f l) = Zsum (map (fun a => Zsum (f a)) l).
Proof.
  induction l as [| a l IH]; [reflexivity |].
  cbn [flat_map map]. rewrite Zsum_app, IH. reflexivity.
Qed.

Lemma Zsum_nonneg (l : list Z) : Forall (fun z => 0 <= z) l -> 0 <= Zsum l.
Proof. unfold Zsum. induction 1; cbn [fold_right]; lia. Qed.

(** The complexity is 1 plus what the nodes of the subtree contribute. *)
Lemma complexity_contributions (n : node) :
  _calculate_cyclomatic_complexity n = 1 + Zsum (map contribution (subtree n)).
Proof.
  unfold _calculate_cyclomatic_complexity. rewrite fold_complexity.
  now rewrite (Zsum_perm _ _ (Permutation_map contribution (walk_perm n))).
Qed.

Lemma contribution_nonneg (f x : node) :
  operands_present f -> In x (subtree f) -> 0 <= contribution x.
Proof.
  intros Hops Hx. unfold contribution.
  destruct x; cbn [is_branch is_handler boolop_extra]; try lia.
  specialize (Hops _ _ Hx). destruct values; [congruence |]. cbn [List.length]. lia.
Qed.

Lemma long_function_visit_spec (rel_path : string) (n : node) :
  long_function_visit rel_path n
  = match function_header n with
    | Some (name, lineno, Some end_lineno) =>
        if 50 <? end_lineno - lineno
        then [long_function_issue rel_path name lineno end_lineno]
        else []
    | _ => []
    end.
Proof.
  destruct n; try reflexivity; cbn [long_function_visit function_header];
    destruct end_lineno; rewrite ?Z.gtb_ltb; reflexivity.
Qed.

Lemma unused_visit_spec (rel_path : string) (n : node) :
  unused_visit rel_path n
  = match function_header n with
    | Some (name, lineno, _) =>
        match unused_names n with
        | [] => []
        | _ :: _ => [unused_issue rel_path name lineno (unused_names n)]
        end
    | None => []
    end.
Proof.
  destruct n; try reflexivity; cbn [unused_visit function_header];
    destruct (unused_names _); reflexivity.
Qed.

End Listing.

End PyRulesFacts.

(** X5.  For a file that parses, the unused-variable detector reports a
    function exactly when some name is assigned below the function node,
    is read nowhere below it and does not start with an underscore; the
    issue lists these names, each once, in the order in which the process
    lists the set, whatever that order is; it is a low smell of 0.1
    hours at the line of the function, without end line, and its title
    shows the first three names of that listing, so at most three of the
    names. *)
Theorem unused_variables_rule
        {so : PySet.order}
        (ast_parse : string -> outcome PyAst.node) (content rel_path : string)
        (tree : PyAst.node) :
  ast_parse content = Returned tree ->
  (forall n v,
      In v (PyAnalysis.unused_names n)
      <-> PyRules.stored v n /\ ~ PyRules.loaded v n /\ PyStr.startswith "_" v = false) /\
  (forall n, NoDup (PyAnalysis.unused_names n)) /\
  (forall n, Permutation (PyAnalysis.unused_names n) (PyAnalysis.unused_set n)) /\
  (forall i,
      In i (PyAnalysis._detect_unused_python_variables ast_parse content rel_path)
      <-> exists n name lineno end_lineno,
          In n (PyAst.subtree tree) /\
          PyRules.function_header n = Some (name, lineno, end_lineno) /\
          PyAnalysis.unused_set n <> [] /\
          i = PyAnalysis.unused_issue rel_path name lineno (PyAnalysis.unused_names n)) /\
  (forall name lineno unused,
      let i := PyAnalysis.unused_issue rel_path name lineno unused in
      issue_type i = "smell" /\ category i = "Unused Variable" /\ severity i = "low" /\
      estimated_hours i = f0_1 /\ line_start i = Some lineno /\ line_end i = None /\
      exists shown,
        title i = ("Function '" ++ name ++ "' has unused variables: "
                   ++ PyStr.join ", " shown)%string /\
        incl shown unused /\ (List.length shown <= 3)%nat).
Proof.
  intros Hparse.
  split; [exact PyRulesFacts.in_unused_names |].
  split; [exact PyRulesFacts.unused_names_NoDup |].
  split; [exact PyRulesFacts.unused_names_perm |]. split.
  { assert (Hempty : forall n, PyAnalysis.unused_names n = [] <-> PyAnalysis.unused_set n = []).
    { intros n. pose proof (PyRulesFacts.unused_names_perm n) as Hp. split; intros E.
      - rewrite E in Hp. now apply Permutation_nil.
      - rewrite E in Hp. now apply Permutation_nil, Permutation_sym. }
    intros i. unfold PyAnalysis._detect_unused_python_variables. rewrite Hparse.
    rewrite in_flat_map. split.
    - intros (n & Hn & Hi). apply PyRulesFacts.in_walk in Hn.
      rewrite PyRulesFacts.unused_visit_spec in Hi.
      destruct (PyRules.function_header n) as [[[name lineno] end_lineno] |] eqn:Hh;
        [| destruct Hi].
      destruct (PyAnalysis.unused_names n) as [| u us] eqn:E; [destruct Hi |].
      destruct Hi as [<- | []]. exists n, name, lineno, end_lineno.
      rewrite E. repeat split; auto.
      intros Hset. apply Hempty in Hset. congruence.
    - intros (n & name & lineno & end_lineno & Hn & Hh & Hne & ->).
      exists n. split; [now apply PyRulesFacts.in_walk |].
      rewrite PyRulesFacts.unused_visit_spec, Hh.
      destruct (PyAnalysis.unused_names n) eqn:E; [| left; reflexivity].
      exfalso. apply Hne, Hempty, E. }
  intros name lineno unused i. subst i.
  cbn [issue_type category severity estimated_hours line_start line_end title
         PyAnalysis.unused_issue].
  repeat (split; [reflexivity |]).
  exists (firstn 3 unused). split; [reflexivity |]. split.
  - intros x Hx. rewrite <- (firstn_skipn 3 unused). apply in_or_app. now left.
  - rewrite length_firstn. lia.
Qed.

Lemma unused_variables_rule_witness :
  Fixtures.fixture_parse "fixture" = Returned Fixtures.fixture_module /\
  (In "tmp" (PyAnalysis.unused_names (so := Samples.last_added) Fixtures.inner_function)
   <-> PyRules.stored "tmp" Fixtures.inner_function /\
       ~ PyRules.loaded "tmp" Fixtures.inner_function /\
       PyStr.startswith "_" "tmp" = false).
Proof.
  split; [reflexivity |].
  exact (proj1 (unused_variables_rule (so := Samples.last_added) Fixtures.fixture_parse
                  "fixture" "m.py" Fixtures.fixture_module eq_refl)
               Fixtures.inner_function "tmp").
Defined.

(** Four unused names under two ways of listing a set: the title shows
    three of them, and which three depends on the order. *)
Example unused_variables_orders :
  map title (PyAnalysis._detect_unused_python_variables
               (so := Samples.first_added) Fixtures.scratch_parse "scratch" "m.py")
  = ["Function 'scratch' has unused variables: alpha, beta, gamma"] /\
  map title (PyAnalysis._detect_unused_python_variables
               (so := Samples.last_added) Fixtures.scratch_parse "scratch" "m.py")
  = ["Function 'scratch' has unused variables: delta, gamma, beta"].
Proof. vm_compute. split; reflexivity. Qed.

(** X6.  A name that is unused in a nested function is reported for
    every enclosing function as well, unless the enclosing function
    reads it: the detector looks at all the nodes below a function,
    nested definitions included. *)
Theorem unused_variables_of_nested_functions {so : PySet.order} (f g : PyAst.node) (v : string) :
  In g (PyAst.subtree f) ->
  In v (PyAnalysis.unused_names g) ->
  ~ PyRules.loaded v f ->
  In v (PyAnalysis.unused_names f).
Proof.
  intros Hg Hv Hload.
  apply PyRulesFacts.in_unused_names in Hv. destruct Hv as (Hst & _ & Hunder).
  apply PyRulesFacts.in_unused_names. split; [| split; assumption].
  apply (PyRulesFacts.subtree_incl f g Hg). exact Hst.
Qed.

Lemma unused_variables_of_nested_functions_witness :
  In Fixtures.inner_function (PyAst.subtree Fixtures.outer_function) /\
  In "tmp" (PyAnalysis.unused_names (so := Samples.first_added) Fixtures.inner_function) /\
  ~ PyRules.loaded "tmp" Fixtures.outer_function /\
  In "tmp" (PyAnalysis.unused_names (so := Samples.first_added) Fixtures.outer_function).
Proof.
  assert (Hg : In Fixtures.inner_function (PyAst.subtree Fixtures.outer_function))
    by (vm_compute; tauto).
  assert (Hv : In "tmp" (PyAnalysis.unused_names (so := Samples.first_added) Fixtures.inner_function))
    by (vm_compute; tauto).
  assert (Hl : ~ PyRules.loaded "tmp" Fixtures.outer_function)
    by (vm_compute; intuition discriminate).
  split; [exact Hg |]. split; [exact Hv |]. split; [exact Hl |].
  exact (unused_variables_of_nested_functions (so := Samples.first_added) _ _ _ Hg Hv Hl).
Defined.

(** X7.  The complexity of a node is 1 plus its own contribution plus,
    for each child, the complexity of the child less 1; so, in a tree
    whose boolean operators all have an operand, every node below a
    function has a complexity between 1 and that of the function: the
    branches of a nested function count for the enclosing one too. *)
Theorem complexity_composes :
  (forall n,
      PyAnalysis._calculate_cyclomatic_complexity n
      = 1 + AstSpec.contribution n
        + Zsum (map (fun c => PyAnalysis._calculate_cyclomatic_complexity c - 1)
                    (PyAst.iter_child_nodes n))) /\
  (forall f g,
      PyRules.operands_present f -> In g (PyAst.subtree f) ->
      1 <= PyAnalysis._calculate_cyclomatic_complexity g
        <= PyAnalysis._calculate_cyclomatic_complexity f).
Proof.
  split.
  - intros n. rewrite PyRulesFacts.complexity_contributions, AstFacts.subtree_children.
    cbn [map]. change (Zsum (?x :: ?l)) with (x + Zsum l).
    rewrite flat_map_concat_map, concat_map, <- flat_map_concat_map.
    rewrite PyRulesFacts.Zsum_flat_map, map_map.
    rewrite Z.add_assoc. f_equal. f_equal. apply map_ext. intros c.
    rewrite PyRulesFacts.complexity_contributions. lia.
  - intros f g Hops Hg.
    destruct (PyRulesFacts.subtree_split f g Hg) as (l1 & l2 & Hsplit).
    rewrite !PyRulesFacts.complexity_contributions, Hsplit.
    assert (Hall : Forall (fun z => 0 <= z) (map AstSpec.contribution (PyAst.subtree f))).
    { apply Forall_map, Forall_forall. intros x Hx.
      now apply (PyRulesFacts.contribution_nonneg f). }
    rewrite Hsplit, !map_app in Hall.
    apply Forall_app in Hall. destruct Hall as [H1 Hall].
    apply Forall_app in Hall. destruct Hall as [Hg' H2].
    rewrite !map_app, !PyRulesFacts.Zsum_app.
    apply PyRulesFacts.Zsum_nonneg in H1, H2, Hg'. lia.
Qed.

(** X8.  For a file that parses, the architecture issues are exactly
    those of the classes of the tree whose body holds more than 20
    function definitions as direct statements (what is nested deeper
    does not count); such an issue is a high God Object issue with an
    estimate of [0.3 * method_count], and 20 methods give no issue. *)
Theorem god_object_rule
        (ast_parse : string -> outcome PyAst.node) (content rel_path : string)
        (tree : PyAst.node) :
  ast_parse content = Returned tree ->
  (forall i,
      In i (PyAnalysis._analyze_python_complexity ast_parse content rel_path) /\
      issue_type i = "architecture"
      <-> exists name lineno end_lineno bases_keywords body decorator_list,
          In (PyAst.ClassDef name lineno end_lineno bases_keywords body decorator_list)
             (PyAst.subtree tree) /\
          20 < PyRules.direct_methods body /\
          i = PyAnalysis.god_object_issue rel_path name lineno end_lineno
                                          (PyRules.direct_methods body)) /\
  (forall name lineno end_lineno method_count,
      let i := PyAnalysis.god_object_issue rel_path name lineno end_lineno method_count in
      issue_type i = "architecture" /\ category i = "God Object" /\ severity i = "high" /\
      estimated_hours i = fmul (of_int method_count) f0_3 /\
      line_start i = Some lineno /\
      line_end i = Some (match end_lineno with Some e => e | None => lineno end)) /\
  (forall body, 0 <= PyRules.direct_methods body <= Z.of_nat (List.length body)) /\
  PyAnalysis.complexity_visit rel_path (Fixtures.class_of 20) = [] /\
  map (fun i => (category i, estimated_hours i))
      (PyAnalysis.complexity_visit rel_path (Fixtures.class_of 21))
  = [("God Object", decimal 63 10)].
Proof.
  intros Hparse. split.
  { intros i. unfold PyAnalysis._analyze_python_complexity. rewrite Hparse.
    rewrite in_flat_map. split.
    - intros [(n & Hn & Hi) Hty]. apply PyRulesFacts.in_walk in Hn.
      destruct n; cbn [PyAnalysis.complexity_visit] in Hi; try destruct Hi.
      + destruct (_ >? 15); [| destruct Hi]. destruct Hi as [<- | []]. discriminate.
      + destruct (_ >? 15); [| destruct Hi]. destruct Hi as [<- | []]. discriminate.
      + fold (PyRules.direct_methods body) in Hi.
        destruct (Z.gtb_spec (PyRules.direct_methods body) 20) as [Hc | _];
          [| destruct Hi].
        destruct Hi as [<- | []].
        exists name, lineno, end_lineno, bases_keywords, body, decorator_list.
        split; [exact Hn |]. split; [lia | reflexivity].
    - intros (name & lineno & e & bk & body & dl & Hn & Hc & ->).
      split; [| reflexivity].
      eexists. split; [apply PyRulesFacts.in_walk; exact Hn |].
      cbn [PyAnalysis.complexity_visit]. fold (PyRules.direct_methods body).
      destruct (Z.gtb_spec (PyRules.direct_methods body) 20); [left; reflexivity | lia]. }
  split.
  { intros name lineno e n i. subst i. cbn. repeat split; reflexivity. }
  split.
  { intros body. unfold PyRules.direct_methods.
    pose proof (filter_length_le PyAst.is_function body). lia. }
  split; vm_compute; reflexivity.
Qed.

Lemma god_object_rule_witness :
  Fixtures.fixture_parse "fixture" = Returned Fixtures.fixture_module /\
  forall body, 0 <= PyRules.direct_methods body <= Z.of_nat (List.length body).
Proof.
  split; [reflexivity |].
  exact (proj1 (proj2 (proj2 (god_object_rule Fixtures.fixture_parse "fixture" "m.py"
                                Fixtures.fixture_module eq_refl)))).
Defined.

(** X9.  For a file that parses, the long-function detector reports
    exactly the function nodes that carry an end line more than 50 lines
    after their first line; the issue is a Long Method smell over these
    lines, high when the distance exceeds 100 and medium otherwise, with
    an estimate of [round((distance - 50) * 0.05, 1)]; a distance of 50
    gives no issue, 51 a medium one of 0.1 hours and 101 a high one. *)
Theorem long_python_functions_rule
        (ast_parse : string -> outcome PyAst.node) (content rel_path : string)
        (tree : PyAst.node) :
  ast_parse content = Returned tree ->
  (forall i,
      In i (PyAnalysis._detect_long_python_functions ast_parse content rel_path)
      <-> exists n name lineno end_lineno,
          In n (PyAst.subtree tree) /\
          PyRules.function_header n = Some (name, lineno, Some end_lineno) /\
          50 < end_lineno - lineno /\
          i = PyAnalysis.long_function_issue rel_path name lineno end_lineno) /\
  (forall name lineno end_lineno,
      let i := PyAnalysis.long_function_issue rel_path name lineno end_lineno in
      issue_type i = "smell" /\ category i = "Long Method" /\
      severity i = (if 100 <? end_lineno - lineno then "high" else "medium") /\
      estimated_hours i = round1 (fmul (of_int (end_lineno - lineno - 50)) f0_05) /\
      line_start i = Some lineno /\ line_end i = Some end_lineno) /\
  (forall n name lineno,
      PyRules.function_header n = Some (name, lineno, None) ->
      PyAnalysis.long_function_visit rel_path n = []) /\
  PyAnalysis.long_function_visit rel_path (Fixtures.spanning_function 10 60) = [] /\
  map (fun i => (severity i, estimated_hours i))
      (PyAnalysis.long_function_visit rel_path (Fixtures.spanning_function 100 151))
  = [("medium", f0_1)] /\
  map (fun i => (severity i, estimated_hours i))
      (PyAnalysis.long_function_visit rel_path (Fixtures.spanning_function 200 301))
  = [("high", decimal 26 10)].
Proof.
  intros Hparse. split.
  { intros i. unfold PyAnalysis._detect_long_python_functions. rewrite Hparse.
    rewrite in_flat_map. split.
    - intros (n & Hn & Hi). apply PyRulesFacts.in_walk in Hn.
      rewrite PyRulesFacts.long_function_visit_spec in Hi.
      destruct (PyRules.function_header n) as [[[name lineno] [e |]] |] eqn:Hh;
        try destruct Hi.
      destruct (Z.ltb_spec 50 (e - lineno)) as [Hc | _]; [| destruct Hi].
      destruct Hi as [<- | []]. exists n, name, lineno, e. auto.
    - intros (n & name & lineno & e & Hn & Hh & Hc & ->).
      exists n. split; [now apply PyRulesFacts.in_walk |].
      rewrite PyRulesFacts.long_function_visit_spec, Hh.
      destruct (Z.ltb_spec 50 (e - lineno)); [left; reflexivity | lia]. }
  split.
  { intros name lineno e i. subst i.
    cbn [issue_type category severity estimated_hours line_start line_end
           PyAnalysis.long_function_issue].
    rewrite Z.gtb_ltb. repeat split; reflexivity. }
  split.
  { intros n name lineno Hh.
    now rewrite PyRulesFacts.long_function_visit_spec, Hh. }
  repeat split; vm_compute; reflexivity.
Qed.

Lemma long_python_functions_rule_witness :
  Fixtures.fixture_parse "fixture" = Returned Fixtures.fixture_module /\
  map (fun i => (title i, line_start i, line_end i))
      (PyAnalysis._detect_long_python_functions Fixtures.fixture_parse "fixture" "m.py")
  = [("Function 'long' is too long (51 lines)", Some 100, Some 151);
     ("Function 'long' is too long (101 lines)", Some 200, Some 301)] /\
  PyAnalysis.long_function_visit "m.py" (Fixtures.spanning_function 10 60) = [].
Proof.
  split; [reflexivity |]. split; [vm_compute; reflexivity |].
  exact (proj1 (proj2 (proj2 (proj2
           (long_python_functions_rule Fixtures.fixture_parse "fixture" "m.py"
              Fixtures.fixture_module eq_refl))))).
Defined.
(* ================================================================== *)
(** ** Normalized blocks *)

(** X10.  The text that the duplication detector hashes for a block is
    the sequence of the words of the block joined by single spaces:
    normalizing is idempotent, and two blocks with the same words, however
    they are indented or spaced, get the same normalized text and so the
    same hash. *)
Theorem normalized_blocks_are_word_sequences (md5_hexdigest : string -> string) :
  (forall block,
      Duplication.normalize block = PyStr.join " " (TextRules.words block)) /\
  (forall block, forallb TextRules.is_word (TextRules.words block) = true) /\
  (forall block,
      Duplication.normalize (Duplication.normalize block) = Duplication.normalize block) /\
  (forall lines1 i1 lines2 i2,
      TextRules.words (PyStr.join PyStr.nl (firstn Duplication.min_block_size
                                                   (skipn i1 lines1)))
      = TextRules.words (PyStr.join PyStr.nl (firstn Duplication.min_block_size
                                                     (skipn i2 lines2))) ->
      md5_hexdigest (Duplication.window lines1 i1)
      = md5_hexdigest (Duplication.window lines2 i2)).
Proof.
  split; [exact TextRulesFacts.normalize_words |].
  split; [exact TextRulesFacts.words_are_words |]. split.
  - intros block. rewrite !TextRulesFacts.normalize_words.
    now rewrite TextRulesFacts.words_join by apply TextRulesFacts.words_are_words.
  - intros lines1 i1 lines2 i2 Hw. unfold Duplication.window.
    now rewrite !TextRulesFacts.normalize_words, Hw.
Qed.

(** X11.  Every duplication issue names a file of the cache and starts
    at a line from which five lines of that file can be read: the start
    line [s] satisfies [1 <= s] and [s + 4 <= number of lines]; the end
    line that is reported, [s + 5], can lie one line past the end of the
    file, as it does for files of five lines. *)
Theorem duplication_lines_within_file {so : PySet.order}
        (md5_hexdigest : string -> string) (file_contents : Dict.dict string) :
  Forall (fun i => exists content s,
              In (file_path i, content) file_contents /\
              line_start i = Some s /\ line_end i = Some (s + 5) /\ 1 <= s /\
              s + 4 <= Z.of_nat (List.length (PyStr.split PyStr.nl content)))
         (Duplication._detect_duplication md5_hexdigest file_contents) /\
  exists i content,
    Duplication._detect_duplication md5_hexdigest Samples.three_files = [i] /\
    In (file_path i, content) Samples.three_files /\
    line_end i = Some (Z.of_nat (List.length (PyStr.split PyStr.nl content)) + 1).
Proof.
  split.
  - rewrite DuplicationFacts.detect_duplication_map. apply Forall_map, Forall_forall.
    intros [h occ] Hitem. apply filter_In in Hitem. destruct Hitem as [Hitem Hrep].
    unfold DictSpec.repeated in Hrep. cbn [snd] in *.
    destruct occ as [| o occ]; [discriminate |].
    destruct (ReportFacts.table_occurrence md5_hexdigest _ _ _ o Hitem
                ltac:(left; reflexivity)) as (content & Hfile & H1 & H4).
    exists content, (snd o).
    cbn [file_path line_start line_end Duplication.duplication_issue hd].
    split; [exact Hfile |]. split; [reflexivity |]. split; [reflexivity |]. auto.
  - rewrite DuplicationTable.three_files_issues.
    eexists _, Samples.block_text. split; [reflexivity |].
    split; [left; reflexivity |]. vm_compute. reflexivity.
Qed.
(* ================================================================== *)
(** ** The Node manifest *)

Module ManifestRulesFacts.
Import PyStr Stmt StmtSpec StmtFacts Dependencies ManifestRules.

(** The loop over the packages: it appends the issues of the entries
    that come before the first version that is not a string. *)
Lemma package_loop (deps : Dict.dict json) (st : list issue) :
  snd (for_each deps
         (fun item =>
            bind (eval (starts_flexible (snd item))) (fun flexible =>
            when flexible
              (append (flexible_issue (fst item)
                         match snd item with
                         | JString v => v
                         | _ => EmptyString
                         end)))) st)
  = st ++ flexible_issues (string_versions deps).
Proof.
  unfold flexible_issues.
  revert st; induction deps as [| [pkg v] deps IH]; intros st; cbn [for_each].
  - cbn. now rewrite app_nil_r.
  - destruct v; try (cbn; now rewrite app_nil_r).
    cbn [string_versions filter map fst snd].
    unfold bind at 1. cbn [eval starts_flexible fst snd]. unfold bind at 1.
    fold (IssueKinds.flexible s).
    destruct (IssueKinds.flexible s); cbv beta iota delta [eval when append ret].
    + rewrite IH. cbn [map fst snd]. now rewrite <- app_assoc.
    + apply IH.
Qed.

(** [d[k]] after [{**a, **b}]: the value of [b] when [b] has the key. *)
Lemma get_set {V} (d : Dict.dict V) (k h : string) (v : V) :
  Dict.get (Dict.set d k v) h = if String.eqb h k then Some v else Dict.get d h.
Proof.
  induction d as [| [k' v'] d IH]; cbn [Dict.set Dict.get].
  - reflexivity.
  - destruct (String.eqb_spec k k') as [-> | Hne]; cbn [Dict.get].
    + destruct (String.eqb h k'); reflexivity.
    + rewrite IH. destruct (String.eqb_spec h k') as [-> | _]; [| reflexivity].
      destruct (String.eqb_spec k' k); [congruence | reflexivity].
Qed.

Lemma get_update {V} (db da : Dict.dict V) (h : string) :
  Dict.get (fold_left (fun d kv => Dict.set d (fst kv) (snd kv)) db da) h
  = match Dict.get (List.rev db) h with
    | Some v => Some v
    | None => Dict.get da h
    end.
Proof.
  revert da; induction db as [| [k v] db IH] using rev_ind; intros da; [reflexivity |].
  rewrite fold_left_app, rev_app_distr. cbn [fold_left List.rev app Dict.get fst snd].
  rewrite get_set. destruct (String.eqb h k); [reflexivity | apply IH].
Qed.

Lemma keys_set_NoDup {V} (d : Dict.dict V) (k : string) (v : V) :
  NoDup (Dict.keys d) -> NoDup (Dict.keys (Dict.set d k v)).
Proof.
  unfold Dict.keys. induction d as [| [k' v'] d IH]; cbn [Dict.set map fst]; intros Hnd.
  - repeat constructor. intros [].
  - destruct (String.eqb_spec k k') as [-> | Hne]; cbn [map fst]; [exact Hnd |].
    inversion Hnd as [| ? ? Hk Hd]; subst. constructor; [| auto].
    intros Hin. apply ReportFacts.keys_set in Hin. destruct Hin as [-> | Hin]; auto.
Qed.

Lemma keys_update_NoDup {V} (db da : Dict.dict V) :
  NoDup (Dict.keys da) ->
  NoDup (Dict.keys (fold_left (fun d kv => Dict.set d (fst kv) (snd kv)) db da)).
Proof.
  revert da; induction db as [| [k v] db IH]; intros da Hnd; [exact Hnd |].
  cbn [fold_left fst snd]. apply IH, keys_set_NoDup, Hnd.
Qed.

Lemma get_not_key {V} (d : Dict.dict V) (k : string) :
  ~ In k (Dict.keys d) -> Dict.get d k = None.
Proof.
  unfold Dict.keys. induction d as [| [k' v] d IH]; cbn [Dict.get map fst]; intros Hk.
  - reflexivity.
  - destruct (String.eqb_spec k k') as [-> | _]; [exfalso; apply Hk; now left |].
    apply IH. intros Hin. apply Hk. now right.
Qed.

(** With distinct keys the order of the items does not matter. *)
Lemma get_rev {V} (d : Dict.dict V) (h : string) :
  NoDup (Dict.keys d) -> Dict.get (List.rev d) h = Dict.get d h.
Proof.
  intros Hnd. destruct (Dict.get d h) as [v |] eqn:E.
  - apply DuplicationTable.get_In.
    + unfold Dict.keys. rewrite map_rev. apply NoDup_rev. exact Hnd.
    + apply in_rev. rewrite rev_involutive.
      clear Hnd. induction d as [| [k w] d IH]; cbn [Dict.get] in E; [discriminate |].
      destruct (String.eqb_spec h k) as [-> | _]; [left; congruence | right; auto].
  - apply get_not_key. intros Hin. unfold Dict.keys in Hin.
    rewrite map_rev in Hin. apply in_rev in Hin. apply in_map_iff in Hin.
    destruct Hin as ([k v] & <- & Hin).
    apply (DuplicationTable.get_In _ _ _ Hnd) in Hin. cbn [fst] in E. congruence.
Qed.

Lemma try_except_snd (m : block unit) (st : list issue) :
  snd (try_except m st) = snd (m st).
Proof. unfold try_except. destruct (m st) as [[[] | e] st']; reflexivity. Qed.

Lemma when_try_returns (c : bool) (m : block unit) (st : list issue) :
  fst (when c (try_except m) st) = Returned tt.
Proof. destruct c; [apply try_except_returns | reflexivity]. Qed.

Section Manifests.
Variable json_load : string -> outcome json.
Variable fs : Fs.entry.

(** What a [package.json] that is read and parsed adds to the issues. *)
Lemma analyze_dependencies_package_json (project_path text : string) (data : json)
      (deps : Dict.dict json) :
  Fs.read_strict fs (Fs.path_join project_path "package.json") = Returned text ->
  json_load text = Returned data ->
  package_deps data = Returned deps ->
  exists req_issues,
    _analyze_dependencies json_load fs project_path
    = req_issues ++ flexible_issues (string_versions deps) /\
    Forall (fun i => file_path i = "requirements.txt") req_issues.
Proof.
  intros Hread Hload Hdeps. unfold _analyze_dependencies, issues_of.
  assert (Hex : Fs.exists_ fs (Fs.path_join project_path "package.json") = true).
  { apply (DependenciesFacts.read_strict_exists _ _ _ Hread). }
  rewrite Hex.
  set (req := when (Fs.exists_ fs (Fs.path_join project_path "requirements.txt"))
                   (try_except
                      (requirements_block fs
                         (Fs.path_join project_path "requirements.txt")))).
  assert (Happ : appends (fun i => file_path i = "requirements.txt") req).
  { apply appends_when, appends_try, DependenciesFacts.requirements_block_appends.
    reflexivity. }
  destruct (Happ []) as (req_issues & Hsnd & Hreq). cbn [app] in Hsnd.
  pose proof (when_try_returns
                (Fs.exists_ fs (Fs.path_join project_path "requirements.txt"))
                (requirements_block fs (Fs.path_join project_path "requirements.txt"))
                []) as Hfst.
  fold req in Hfst. exists req_issues. split; [| exact Hreq].
  unfold bind at 1. destruct (req []) as [o st]. cbn [fst snd] in Hfst, Hsnd. subst o st.
  cbn [when]. rewrite try_except_snd. unfold package_json_block.
  rewrite Hread. cbn [obind]. rewrite Hload.
  unfold package_deps in Hdeps.
  unfold bind at 1. cbn [eval].
  destruct (get_or_empty data "dependencies") as [a | e]; [| discriminate].
  unfold bind at 1. cbn [eval obind] in *.
  destruct (get_or_empty data "devDependencies") as [b | e]; [| discriminate].
  unfold bind at 1. cbn [eval obind] in *. rewrite Hdeps.
  apply package_loop.
Qed.

End Manifests.

End ManifestRulesFacts.

(** X12.  With a [package.json] that is read and parsed, and whose two
    sections merge into one dictionary, the analyser adds, after the
    issues of [requirements.txt], one Flexible Dependency Version issue
    for each package whose version starts with a caret or a tilde, in the
    order of the merged dictionary; the loop stops at the first version
    that is not a string and what was found before it is kept.  In the
    merged dictionary a package of [devDependencies] takes its version
    from there, every package occurs once, and the issues carry no line
    number. *)
Theorem package_json_rule
        (json_load : string -> outcome Dependencies.json) (fs : Fs.entry)
        (project_path text : string) (data : Dependencies.json)
        (deps : Dict.dict Dependencies.json) :
  Fs.read_strict fs (Fs.path_join project_path "package.json") = Returned text ->
  json_load text = Returned data ->
  ManifestRules.package_deps data = Returned deps ->
  (exists req_issues,
      Dependencies._analyze_dependencies json_load fs project_path
      = req_issues ++ ManifestRules.flexible_issues (ManifestRules.string_versions deps) /\
      Forall (fun i => file_path i = "requirements.txt") req_issues) /\
  (forall dependencies devDependencies,
      Dependencies.get_or_empty data "dependencies"
        = Returned (Dependencies.JObject dependencies) ->
      Dependencies.get_or_empty data "devDependencies"
        = Returned (Dependencies.JObject devDependencies) ->
      NoDup (Dict.keys dependencies) -> NoDup (Dict.keys devDependencies) ->
      NoDup (Dict.keys deps) /\
      forall pkg, Dict.get deps pkg
                  = match Dict.get devDependencies pkg with
                    | Some version => Some version
                    | None => Dict.get dependencies pkg
                    end) /\
  (forall pkg version,
      let i := Dependencies.flexible_issue pkg version in
      file_path i = "package.json" /\ issue_type i = "dependency" /\
      category i = "Flexible Dependency Version" /\ severity i = "low" /\
      estimated_hours i = f0_1 /\ line_start i = None /\ line_end i = None).
Proof.
  intros Hread Hload Hdeps.
  split; [now apply (ManifestRulesFacts.analyze_dependencies_package_json
                       json_load fs project_path text data deps) |].
  split; [| intros pkg version i; subst i; cbn; repeat split; reflexivity].
  intros a b Ha Hb Hnda Hndb. unfold ManifestRules.package_deps in Hdeps.
  rewrite Ha, Hb in Hdeps. cbn [obind Dependencies.merge] in Hdeps.
  injection Hdeps as <-. split.
  - now apply ManifestRulesFacts.keys_update_NoDup.
  - intros pkg. rewrite ManifestRulesFacts.get_update.
    now rewrite ManifestRulesFacts.get_rev.
Qed.

Lemma package_json_rule_witness :
  Fs.read_strict Fixtures.node_fs (Fs.path_join "/app" "package.json") = Returned "package" /\
  Fixtures.fixture_json_load "package" = Returned Fixtures.package_data /\
  exists deps,
    ManifestRules.package_deps Fixtures.package_data = Returned deps /\
    map fst (ManifestRules.string_versions deps) = ["react"; "lodash"; "left-pad"; "jest"] /\
    exists req_issues,
      Dependencies._analyze_dependencies Fixtures.fixture_json_load Fixtures.node_fs "/app"
      = req_issues ++ ManifestRules.flexible_issues (ManifestRules.string_versions deps) /\
      Forall (fun i => file_path i = "requirements.txt") req_issues.
Proof.
  split; [reflexivity |]. split; [reflexivity |].
  eexists. split; [reflexivity |]. split; [reflexivity |].
  exact (proj1 (package_json_rule Fixtures.fixture_json_load Fixtures.node_fs "/app"
                  "package" Fixtures.package_data _ eq_refl eq_refl eq_refl)).
Defined.

(** The sample manifest: [lodash] is judged by its version in
    [devDependencies], [jest] is pinned, and [late], which comes after the
    version that is a number, is not looked at. *)
Example package_json_sample :
  map title (Dependencies._analyze_dependencies Fixtures.fixture_json_load
                                                Fixtures.node_fs "/app")
  = ["Package 'react' uses flexible versioning (^18.2.0)";
     "Package 'lodash' uses flexible versioning (^4.17.0)";
     "Package 'left-pad' uses flexible versioning (~1.3.0)"].
Proof. vm_compute. reflexivity. Qed.
(* ================================================================== *)
(** ** Errors that a run recovers from *)

Module ErrorFacts.
Import PyStr Stmt StmtSpec StmtFacts Dependencies ManifestRules Analyzer.

(** A [try] statement whose first expression raises appends nothing. *)
Lemma exactly_try_raised {A} (e : exn) (k : A -> block unit) :
  appends_exactly (try_except (bind (eval (Raised e)) k)) tt [].
Proof. intros st. unfold try_except, bind, eval. now rewrite app_nil_r. Qed.

Lemma bind_eval {A B} (o : outcome A) (k : A -> block B) (st : list issue) :
  bind (eval o) k st
  = match o with
    | Returned a => k a st
    | Raised e => (Raised e, st)
    end.
Proof. unfold bind, eval. destruct o; reflexivity. Qed.

Lemma exactly_skip : appends_exactly (ret tt) tt [].
Proof. intros st. unfold ret. now rewrite app_nil_r. Qed.

Section Manifests.
Variable json_load : string -> outcome json.
Variable fs : Fs.entry.

(** The [if] statement of the Python manifest. *)
Lemma requirements_statement (project_path : string) :
  appends_exactly
    (when (Fs.exists_ fs (Fs.path_join project_path "requirements.txt"))
          (try_except (requirements_block fs (Fs.path_join project_path "requirements.txt"))))
    tt (requirements_part fs project_path).
Proof.
  unfold requirements_part.
  destruct (Fs.read_strict fs (Fs.path_join project_path "requirements.txt"))
    as [text | e] eqn:Hread.
  - rewrite (DependenciesFacts.read_strict_exists _ _ _ Hread). cbn [when].
    rewrite <- DependenciesFacts.requirements_of_text.
    apply exactly_try. unfold requirements_block. rewrite Hread. cbn [obind].
    intros st. unfold bind, eval.
    rewrite (exactly_for_each _ _ spec_requirement); [reflexivity |].
    intros [n l]. apply DependenciesFacts.requirement_line_exactly.
  - destruct (Fs.exists_ fs _); cbn [when]; [| apply exactly_skip].
    unfold requirements_block. rewrite Hread. cbn [obind]. apply exactly_try_raised.
Qed.

(** The [if] statement of the Node manifest. *)
Lemma package_json_statement (project_path : string) :
  appends_exactly
    (when (Fs.exists_ fs (Fs.path_join project_path "package.json"))
          (try_except
             (package_json_block json_load fs (Fs.path_join project_path "package.json"))))
    tt (package_part json_load fs project_path).
Proof.
  unfold package_part.
  destruct (obind (Fs.read_strict fs (Fs.path_join project_path "package.json")) json_load)
    as [data | e] eqn:Hdata.
  - assert (Hex : Fs.exists_ fs (Fs.path_join project_path "package.json") = true).
    { destruct (Fs.read_strict fs (Fs.path_join project_path "package.json"))
        as [text | e] eqn:Hread; [| discriminate].
      apply (DependenciesFacts.read_strict_exists _ _ _ Hread). }
    rewrite Hex. cbn [when]. unfold package_json_block. rewrite Hdata.
    unfold package_deps.
    intros st. apply injective_projections; [apply try_except_returns |].
    rewrite ManifestRulesFacts.try_except_snd. cbn [snd].
    rewrite bind_eval. cbv beta iota. rewrite bind_eval.
    destruct (get_or_empty data "dependencies") as [a | e]; cbn [obind snd];
      [| now rewrite app_nil_r].
    rewrite bind_eval.
    destruct (get_or_empty data "devDependencies") as [b | e]; cbn [obind snd];
      [| now rewrite app_nil_r].
    rewrite bind_eval.
    destruct (merge a b) as [deps | e]; cbn [snd]; [| now rewrite app_nil_r].
    apply ManifestRulesFacts.package_loop.
  - destruct (Fs.exists_ fs _); cbn [when]; [| apply exactly_skip].
    unfold package_json_block. rewrite Hdata. apply exactly_try_raised.
Qed.

(** The manifest analyser: what the one manifest contributes, then what
    the other does, whether or not either fails. *)
Lemma analyze_dependencies_parts (project_path : string) :
  _analyze_dependencies json_load fs project_path
  = requirements_part fs project_path ++ package_part json_load fs project_path.
Proof.
  unfold _analyze_dependencies, issues_of.
  rewrite (exactly_bind _ _ tt tt _ _ (requirements_statement project_path)
             (package_json_statement project_path)).
  reflexivity.
Qed.

End Manifests.

Section Cache.
Variable fs : Fs.entry.
Variable project_path : string.

(** The first pass, one file. *)
Lemma get_load_file (cache : Dict.dict string) (p k : string) :
  Dict.get (load_file fs project_path cache p) k
  = match Fs.read_ignore fs p with
    | Returned text =>
        if String.eqb k (rel_path_of project_path p) then Some text else Dict.get cache k
    | Raised _ => Dict.get cache k
    end.
Proof.
  unfold load_file. destruct (Fs.read_ignore fs p); [| reflexivity].
  apply ManifestRulesFacts.get_set.
Qed.

(** Files reported under other paths leave an entry of the cache as it
    is. *)
Lemma get_cache_other (code_files : list string) (k : string) :
  ~ In k (map (rel_path_of project_path) code_files) ->
  forall cache,
    Dict.get (fold_left (load_file fs project_path) code_files cache) k = Dict.get cache k.
Proof.
  induction code_files as [| q l IH]; intros Hk cache; [reflexivity |].
  cbn [fold_left map In] in *. rewrite IH by tauto. rewrite get_load_file.
  destruct (Fs.read_ignore fs q); [| reflexivity].
  destruct (String.eqb_spec k (rel_path_of project_path q)); [| reflexivity].
  exfalso. apply Hk. left. congruence.
Qed.

(** The cache after the first pass, for files reported under distinct
    paths: the text of each file that was read. *)
Lemma get_cache (code_files : list string) :
  NoDup (map (rel_path_of project_path) code_files) ->
  forall cache p,
    In p code_files ->
    Dict.get (fold_left (load_file fs project_path) code_files cache)
             (rel_path_of project_path p)
    = match Fs.read_ignore fs p with
      | Returned text => Some text
      | Raised _ => Dict.get cache (rel_path_of project_path p)
      end.
Proof.
  induction code_files as [| q l IH]; intros Hnd cache p Hp; [destruct Hp |].
  cbn [map] in Hnd. inversion Hnd as [| ? ? Hq Hl]; subst. cbn [fold_left].
  destruct Hp as [-> | Hp].
  - rewrite (get_cache_other l _ Hq), get_load_file, String.eqb_refl. reflexivity.
  - rewrite (IH Hl _ p Hp), get_load_file.
    destruct (Fs.read_ignore fs p); [reflexivity |].
    destruct (Fs.read_ignore fs q); [| reflexivity].
    destruct (String.eqb_spec (rel_path_of project_path p) (rel_path_of project_path q))
      as [Heq | _]; [| reflexivity].
    exfalso. apply Hq. rewrite <- Heq. apply in_map, Hp.
Qed.

End Cache.

End ErrorFacts.

(** C8, as the code has it.  Once the files are selected, the run
    returns the report whatever fails on the way: a file that cannot be
    opened is left out of the cache and analysed as the empty text, a
    Python file whose text does not parse adds no complexity and no
    smell issue, and the report still holds the issues of every file,
    then those of the duplication detector and of the two manifests.  A
    manifest that cannot be read, and a [package.json] that is not JSON
    or whose sections do not merge, adds nothing, and the other manifest
    is analysed all the same; but a [package.json] in which a version is
    not a string keeps the issues of the packages before it. *)
Theorem recoverable_errors_contained
        {so : PySet.order}
        (ast_parse : string -> outcome PyAst.node) (md5_hexdigest : string -> string)
        (json_load : string -> outcome Dependencies.json) (fs : Fs.entry)
        (project_path : string) (include_tests : bool) (max_depth : Z)
        (specific_files : option (list string)) (code_files : list string) :
  Analyzer.code_files_of fs project_path include_tests max_depth specific_files
  = Returned code_files ->
  let file_contents := fold_left (Analyzer.load_file fs project_path) code_files [] in
  let all_issues :=
    Analyzer.all_issues_of ast_parse md5_hexdigest json_load fs project_path code_files in
  Z.of_nat (List.length all_issues) <= PY_SSIZE_T_MAX ->
  (exists r,
      Analyzer.analyze_project ast_parse md5_hexdigest json_load fs project_path
                               include_tests max_depth specific_files = Returned r /\
      Analyzer.files_analyzed r = Z.of_nat (List.length code_files) /\
      Analyzer.issues r
      = flat_map (Analyzer.analyze_file ast_parse project_path file_contents) code_files
        ++ Duplication._detect_duplication md5_hexdigest file_contents
        ++ ManifestRules.requirements_part fs project_path
        ++ ManifestRules.package_part json_load fs project_path) /\
  (NoDup (map (Analyzer.rel_path_of project_path) code_files) ->
   forall p,
     In p code_files ->
     let rel_path := Analyzer.rel_path_of project_path p in
     let content := match Fs.read_ignore fs p with
                    | Returned text => text
                    | Raised _ => EmptyString
                    end in
     Dict.get file_contents rel_path
     = match Fs.read_ignore fs p with
       | Returned text => Some text
       | Raised _ => None
       end /\
     Analyzer.analyze_file ast_parse project_path file_contents p
     = Analyzer._analyze_complexity ast_parse content rel_path p
       ++ Analyzer._detect_code_smells ast_parse content rel_path p) /\
  (forall content rel_path abs_path e,
      PyStr.endswith ".py" abs_path = true ->
      ast_parse content = Raised e ->
      Analyzer._analyze_complexity ast_parse content rel_path abs_path = [] /\
      Analyzer._detect_code_smells ast_parse content rel_path abs_path = []) /\
  (forall file_path e,
      PyStr.endswith ".py" file_path = true ->
      ast_parse match Dict.get file_contents
                                (Analyzer.rel_path_of project_path file_path) with
                | Some c => c
                | None => EmptyString
                end = Raised e ->
      Analyzer.analyze_file ast_parse project_path file_contents file_path = []) /\
  Dependencies._analyze_dependencies json_load fs project_path
  = ManifestRules.requirements_part fs project_path
    ++ ManifestRules.package_part json_load fs project_path /\
  (forall e,
      Fs.read_strict fs (Fs.path_join project_path "requirements.txt") = Raised e ->
      ManifestRules.requirements_part fs project_path = []) /\
  (forall e,
      obind (Fs.read_strict fs (Fs.path_join project_path "package.json")) json_load
      = Raised e ->
      ManifestRules.package_part json_load fs project_path = []) /\
  (forall text data deps,
      Fs.read_strict fs (Fs.path_join project_path "package.json") = Returned text ->
      json_load text = Returned data ->
      ManifestRules.package_deps data = Returned deps ->
      ManifestRules.package_part json_load fs project_path
      = ManifestRules.flexible_issues (ManifestRules.string_versions deps)).
Proof.
  intros Hfiles file_contents all_issues Hlen.
  assert (Hparse : forall content rel_path abs_path e,
             PyStr.endswith ".py" abs_path = true ->
             ast_parse content = Raised e ->
             Analyzer._analyze_complexity ast_parse content rel_path abs_path = [] /\
             Analyzer._detect_code_smells ast_parse content rel_path abs_path = []).
  { intros content rel_path abs_path e Hpy He.
    unfold Analyzer._analyze_complexity, Analyzer._detect_code_smells.
    rewrite Hpy.
    unfold PyAnalysis._analyze_python_complexity,
      PyAnalysis._detect_long_python_functions,
      PyAnalysis._detect_unused_python_variables.
    rewrite He. split; [destruct e; reflexivity | reflexivity]. }
  split.
  { destruct (AnalyzerFacts.analyze_project_report ast_parse md5_hexdigest json_load fs
                project_path include_tests max_depth specific_files code_files Hfiles Hlen)
      as (r & Hr & Hi & Hf & _).
    exists r. split; [exact Hr |]. split; [exact Hf |]. rewrite Hi.
    unfold all_issues, Analyzer.all_issues_of. fold file_contents.
    now rewrite ErrorFacts.analyze_dependencies_parts. }
  split.
  { intros Hnd p Hp rel_path content.
    assert (Hget : Dict.get file_contents rel_path
                   = match Fs.read_ignore fs p with
                     | Returned text => Some text
                     | Raised _ => None
                     end).
    { unfold file_contents, rel_path.
      rewrite (ErrorFacts.get_cache fs project_path code_files Hnd [] p Hp).
      destruct (Fs.read_ignore fs p); reflexivity. }
    split; [exact Hget |]. unfold Analyzer.analyze_file. fold rel_path. rewrite Hget.
    unfold content. destruct (Fs.read_ignore fs p); reflexivity. }
  split; [exact Hparse |]. split.
  { intros file_path e Hpy He. unfold Analyzer.analyze_file.
    destruct (Hparse _ (Analyzer.rel_path_of project_path file_path) file_path e Hpy He)
      as [-> ->]. reflexivity. }
  split; [apply ErrorFacts.analyze_dependencies_parts |]. split.
  { intros e He. unfold ManifestRules.requirements_part. now rewrite He. }
  split.
  { intros e He. unfold ManifestRules.package_part. now rewrite He. }
  intros text data deps Hread Hload Hdeps. unfold ManifestRules.package_part.
  rewrite Hread. cbn [obind]. now rewrite Hload, Hdeps.
Qed.

(** The sample project [/app]: [locked.py] cannot be opened and
    [package.json] fails at its second version; the report is returned
    all the same, with the issues of [main.py] and the one issue found
    in the manifest before the failure. *)
Lemma recoverable_errors_witness :
  Analyzer.code_files_of Fixtures.half_fs "/app" true 10 None
  = Returned ["/app/locked.py"; "/app/main.py"] /\
  (let file_contents :=
     fold_left (Analyzer.load_file Fixtures.half_fs "/app")
               ["/app/locked.py"; "/app/main.py"] [] in
   Dict.get file_contents "locked.py" = None /\
   Dict.get file_contents "main.py" = Some "fixture"%string) /\
  exists r,
    Analyzer.analyze_project (so := Samples.first_added) Fixtures.fixture_parse
                             Samples.plain_hash Fixtures.half_json_load
                             Fixtures.half_fs "/app" true 10 None = Returned r /\
    Analyzer.files_analyzed r = 2 /\
    map (fun i => (file_path i, category i, title i)) (Analyzer.issues r)
    = [("main.py", "God Object", "Class 'Big' has too many methods (21)");
       ("main.py", "Long Method", "Function 'long' is too long (51 lines)");
       ("main.py", "Long Method", "Function 'long' is too long (101 lines)");
       ("main.py", "Unused Variable", "Function 'outer' has unused variables: tmp");
       ("main.py", "Unused Variable", "Function 'inner' has unused variables: tmp");
       ("package.json", "Flexible Dependency Version",
        "Package 'a' uses flexible versioning (^1.0)")].
Proof.
  assert (Hfiles : Analyzer.code_files_of Fixtures.half_fs "/app" true 10 None
                   = Returned ["/app/locked.py"; "/app/main.py"])
    by (vm_compute; reflexivity).
  assert (Hlen : Z.of_nat
                   (List.length
                      (Analyzer.all_issues_of
                         (so := Samples.first_added) Fixtures.fixture_parse
                         Samples.plain_hash Fixtures.half_json_load Fixtures.half_fs
                         "/app" ["/app/locked.py"; "/app/main.py"]))
                 <= PY_SSIZE_T_MAX)
    by (apply Z.leb_le; vm_compute; reflexivity).
  destruct (recoverable_errors_contained
              (so := Samples.first_added) Fixtures.fixture_parse Samples.plain_hash
              Fixtures.half_json_load Fixtures.half_fs "/app" true 10 None
              ["/app/locked.py"; "/app/main.py"] Hfiles Hlen)
    as ((r & Hr & Hcount & Hissues) & Hcache & _).
  split; [exact Hfiles |]. split.
  - assert (Hnd : NoDup (map (Analyzer.rel_path_of "/app")
                             ["/app/locked.py"; "/app/main.py"])).
    { vm_compute. repeat constructor; cbn; intuition discriminate. }
    split.
    + exact (proj1 (Hcache Hnd "/app/locked.py" (or_introl eq_refl))).
    + exact (proj1 (Hcache Hnd "/app/main.py" (or_intror (or_introl eq_refl)))).
  - exists r. split; [exact Hr |]. split; [exact Hcount |].
    rewrite Hissues. vm_compute. reflexivity.
Defined.

(** C8, as stated, fails for a manifest that is malformed further in:
    [{"dependencies": {"a": "^1.0", "b": 1}}] is read and parsed, the
    loop over its packages raises [AttributeError] at the version of
    [b], and the issue of [a], appended before, stays in the list and in
    the report. *)
Lemma malformed_manifest_counterexample :
  Fs.read_strict Fixtures.half_fs (Fs.path_join "/app" "package.json") = Returned "half" /\
  Fixtures.half_json_load "half" = Returned Fixtures.half_data /\
  Dependencies.package_json_block Fixtures.half_json_load Fixtures.half_fs
                                  (Fs.path_join "/app" "package.json") []
  = (Raised AttributeError, [Dependencies.flexible_issue "a" "^1.0"]) /\
  Dependencies._analyze_dependencies Fixtures.half_json_load Fixtures.half_fs "/app"
  = [Dependencies.flexible_issue "a" "^1.0"] /\
  (exists r,
      Analyzer.analyze_project (so := Samples.first_added) Fixtures.fixture_parse
                               Samples.plain_hash Fixtures.half_json_load
                               Fixtures.half_fs "/app" true 10 None = Returned r /\
      In (Dependencies.flexible_issue "a" "^1.0") (Analyzer.issues r)) /\
  ~ (Dependencies._analyze_dependencies Fixtures.half_json_load Fixtures.half_fs "/app"
     = []).
Proof.
  split; [reflexivity |]. split; [reflexivity |]. split; [vm_compute; reflexivity |].
  split; [vm_compute; reflexivity |]. split.
  - eexists. split; [vm_compute; reflexivity |].
    cbn [Analyzer.issues]. repeat first [left; reflexivity | right].
  - vm_compute. discriminate.
Qed.

(** The sample project [/proj]: [bad.py] does not parse and
    [package.json] is not JSON; the report still holds the issues of the
    other files and of the Python manifest. *)
Example recoverable_errors_sample :
  match Analyzer.analyze_project (so := Samples.first_added) Samples.sample_parse
                                 Samples.plain_hash Samples.no_json
                                 Samples.project_fs "/proj" true 10 None with
  | Returned r =>
      map (fun i => (file_path i, category i)) (Analyzer.issues r)
      = [("a.py", "High Cyclomatic Complexity"); ("app.js", "Long Method");
         ("tests/test_a.py", "High Cyclomatic Complexity");
         ("requirements.txt", "Potentially Outdated Dependency")]
      /\ Analyzer.files_analyzed r = 4
  | Raised _ => False
  end.
Proof. vm_compute. split; reflexivity. Qed.
(* ================================================================== *)
(** ** What the scores depend on *)

Module ScoreRulesFacts.
Import FloatSpec FloatFacts Scores ScoreRules.

Lemma Permutation_filter_kind {A} (p : A -> bool) (l l' : list A) :
  Permutation l l' -> Permutation (filter p l) (filter p l').
Proof.
  induction 1 as [| x l l' _ IH | x y l | l l' l'' _ IH1 _ IH2]; cbn [filter].
  - constructor.
  - destruct (p x); [constructor |]; exact IH.
  - destruct (p x), (p y); try apply Permutation_refl. apply perm_swap.
  - etransitivity; eassumption.
Qed.

Lemma map_kind_of_type (t : string) (l : list issue) :
  map kind (of_type t l) = filter (fun k => String.eqb (fst k) t) (map kind l).
Proof.
  unfold of_type. induction l as [| i l IH]; [reflexivity |].
  cbn [filter map kind fst]. destruct (String.eqb (issue_type i) t); cbn [map]; now rewrite IH.
Qed.

(** A category score reads the severities of its list, in any order. *)
Lemma calc_category_score_kinds (files : Z) (l l' : list issue) :
  Permutation (map kind l) (map kind l') ->
  calc_category_score files l = calc_category_score files l'.
Proof.
  intros Hperm. unfold calc_category_score.
  pose proof (Permutation_length Hperm) as Hlen. rewrite !length_map in Hlen.
  destruct l as [| i l], l' as [| i' l']; try discriminate; [reflexivity |].
  rewrite !ScoresFacts.fold_left_penalty.
  replace (map (fun i0 => severity_penalty (severity i0)) (i :: l))
    with (map (fun k => severity_penalty (snd k)) (map kind (i :: l)))
    by (rewrite map_map; reflexivity).
  replace (map (fun i0 => severity_penalty (severity i0)) (i' :: l'))
    with (map (fun k => severity_penalty (snd k)) (map kind (i' :: l')))
    by (rewrite map_map; reflexivity).
  now rewrite (AstFacts.Zsum_perm _ _ (Permutation_map _ Hperm)).
Qed.

Lemma of_type_kinds (t : string) (l l' : list issue) :
  Permutation (map kind l) (map kind l') ->
  Permutation (map kind (of_type t l)) (map kind (of_type t l')).
Proof. intros H. rewrite !map_kind_of_type. now apply Permutation_filter_kind. Qed.

Lemma of_type_other (t : string) (i : issue) (l : list issue) :
  issue_type i <> t -> of_type t (i :: l) = of_type t l.
Proof.
  intros Hne. unfold of_type. cbn [filter].
  destruct (String.eqb_spec (issue_type i) t); [congruence | reflexivity].
Qed.

(** The products of the weighted sum, in units of [2^-46]: each is at
    most its exact value plus 64 units. *)
Lemma weighted_products_below (c : Z) :
  0 <= c <= 100 ->
  below ((4 * c * 2 ^ 46 / 10 + 64) * 2 ^ 1028) (fmul (of_int c) f0_4) /\
  below ((3 * c * 2 ^ 46 / 10 + 64) * 2 ^ 1028) (fmul (of_int c) f0_3).
Proof.
  intros Hc.
  assert (Htab : forallb (fun n =>
                    belowb ((4 * Z.of_nat n * 2 ^ 46 / 10 + 64) * 2 ^ 1028)
                           (fmul (of_int (Z.of_nat n)) f0_4)
                    && belowb ((3 * Z.of_nat n * 2 ^ 46 / 10 + 64) * 2 ^ 1028)
                              (fmul (of_int (Z.of_nat n)) f0_3))
                         (seq 0 101) = true) by (vm_compute; reflexivity).
  rewrite forallb_forall in Htab.
  specialize (Htab (Z.to_nat c)). rewrite Z2Nat.id in Htab by lia.
  rewrite andb_true_iff in Htab.
  destruct Htab as [Ha Hb]; [apply in_seq; lia |].
  split; apply belowb_below; assumption.
Qed.

(** The weighted sum of three valid scores never exceeds the exact
    one. *)
Lemma weighted_below_exact (c d e o : Z) :
  valid_score c -> valid_score d -> valid_score e ->
  weighted c d e = Returned o ->
  0 <= o /\ 10 * o <= 4 * c + 3 * d + 3 * e.
Proof.
  unfold valid_score, weighted. intros Hc Hd He Ho.
  destruct (weighted_products_below c Hc) as [Ha _].
  destruct (weighted_products_below d Hd) as [_ Hb].
  destruct (weighted_products_below e He) as [_ Hb'].
  assert (E46 : 2 ^ 46 = 70368744177664) by reflexivity.
  assert (Hka : 0 <= 4 * c * 2 ^ 46 / 10 /\ 10 * (4 * c * 2 ^ 46 / 10) <= 4 * c * 2 ^ 46).
  { split; [apply Z.div_pos; lia | apply Z.mul_div_le; lia]. }
  assert (Hkb : 0 <= 3 * d * 2 ^ 46 / 10 /\ 10 * (3 * d * 2 ^ 46 / 10) <= 3 * d * 2 ^ 46).
  { split; [apply Z.div_pos; lia | apply Z.mul_div_le; lia]. }
  assert (Hkc : 0 <= 3 * e * 2 ^ 46 / 10 /\ 10 * (3 * e * 2 ^ 46 / 10) <= 3 * e * 2 ^ 46).
  { split; [apply Z.div_pos; lia | apply Z.mul_div_le; lia]. }
  remember (4 * c * 2 ^ 46 / 10) as ka eqn:Eka. remember (3 * d * 2 ^ 46 / 10) as kb eqn:Ekb.
  remember (3 * e * 2 ^ 46 / 10) as kc eqn:Ekc. clear Eka Ekb Ekc.
  rewrite E46 in *.
  assert (Hu : 0 < 2 ^ 1028) by (apply Z.pow_pos_nonneg; lia).
  assert (HU : 2 ^ 1074 = 70368744177664 * 2 ^ 1028).
  { rewrite <- E46, <- Z.pow_add_r by lia. reflexivity. }
  assert (H7 : 2 ^ (7 + 1074) = 128 * 70368744177664 * 2 ^ 1028).
  { change (7 + 1074) with (7 + 46 + 1028). rewrite !Z.pow_add_r by lia. rewrite E46.
    reflexivity. }
  assert (Hulp : 2 ^ (Z.max (7 - 53) (-1074) + 1074) = 2 ^ 1028) by reflexivity.
  remember (2 ^ 1028) as u eqn:Eu. clear Eu.
  pose proof (fadd_below _ _ 7 _ _ Ha Hb ltac:(nia) ltac:(nia) ltac:(nia) ltac:(lia))
    as Hab.
  rewrite Hulp in Hab.
  pose proof (fadd_below _ _ 7 _ _ Hab Hb' ltac:(nia) ltac:(nia) ltac:(nia) ltac:(lia))
    as Hsum.
  rewrite Hulp in Hsum.
  destruct (to_int_below _ _ Hsum ltac:(nia)) as (o' & Ho' & Ho0 & Hole).
  rewrite Ho in Ho'. injection Ho' as <-. split; [exact Ho0 |].
  rewrite HU in Hole.
  assert (Hdiv : o * 70368744177664 <= ka + 64 + (kb + 64) + 1 + (kc + 64) + 1).
  { apply Z.mul_le_mono_pos_r with u; [exact Hu |]. lia. }
  lia.
Qed.

End ScoreRulesFacts.

(** X13.  The four scores depend only on the issue types and severities
    of the list and not on their order: two lists with the same types and
    severities, in any order, get the same scores; and an issue whose
    type is none of the five changes no score. *)
Theorem scores_depend_on_kinds (files_analyzed : Z) :
  (forall issues issues',
      Permutation (map ScoreRules.kind issues) (map ScoreRules.kind issues') ->
      Scores._calculate_scores issues files_analyzed
      = Scores._calculate_scores issues' files_analyzed) /\
  (forall i issues,
      ~ In (issue_type i) issue_types ->
      Scores._calculate_scores (i :: issues) files_analyzed
      = Scores._calculate_scores issues files_analyzed).
Proof.
  split.
  - intros issues issues' Hperm. unfold Scores._calculate_scores.
    destruct (files_analyzed =? 0); [reflexivity |].
    rewrite (ScoreRulesFacts.calc_category_score_kinds files_analyzed
               (Scores.of_type "complexity" issues ++ Scores.of_type "smell" issues
                  ++ Scores.of_type "architecture" issues)
               (Scores.of_type "complexity" issues' ++ Scores.of_type "smell" issues'
                  ++ Scores.of_type "architecture" issues')).
    + rewrite (ScoreRulesFacts.calc_category_score_kinds files_analyzed
                 (Scores.of_type "duplication" issues)
                 (Scores.of_type "duplication" issues'))
        by now apply ScoreRulesFacts.of_type_kinds.
      rewrite (ScoreRulesFacts.calc_category_score_kinds files_analyzed
                 (Scores.of_type "dependency" issues)
                 (Scores.of_type "dependency" issues'))
        by now apply ScoreRulesFacts.of_type_kinds.
      reflexivity.
    + rewrite !map_app.
      repeat apply Permutation_app; now apply ScoreRulesFacts.of_type_kinds.
  - intros i issues Hty. unfold Scores._calculate_scores.
    rewrite !(ScoreRulesFacts.of_type_other _ i issues); [reflexivity | ..];
      intros E; apply Hty; rewrite E; cbn; tauto.
Qed.

(** X14.  The overall score never exceeds the exact weighted average of
    the three category scores, [(4c + 3d + 3e) / 10]; it is 100 exactly
    when the three category scores are 100, and it equals the category
    scores when the three are equal.  It can be one less than the floor
    of the exact average: category scores of 0, 1 and 9 give 2. *)
Theorem overall_score_bounds (issues : list issue) (files_analyzed : Z)
        (s : Scores.scores) :
  Scores._calculate_scores issues files_analyzed = Returned s ->
  0 <= Scores.overall s /\
  10 * Scores.overall s
  <= 4 * Scores.complexity s + 3 * Scores.duplication s + 3 * Scores.dependency s /\
  (Scores.overall s = 100
   <-> Scores.complexity s = 100 /\ Scores.duplication s = 100 /\
       Scores.dependency s = 100) /\
  (Scores.complexity s = Scores.duplication s ->
   Scores.duplication s = Scores.dependency s ->
   Scores.overall s = Scores.complexity s) /\
  ScoreRules.weighted 0 1 9 = Returned 2.
Proof.
  intros Hs.
  assert (Hw : Scores.valid_score (Scores.complexity s) /\
               Scores.valid_score (Scores.duplication s) /\
               Scores.valid_score (Scores.dependency s) /\
               ScoreRules.weighted (Scores.complexity s) (Scores.duplication s)
                                   (Scores.dependency s) = Returned (Scores.overall s)).
  { unfold Scores._calculate_scores in Hs.
    destruct (files_analyzed =? 0).
    { injection Hs as <-. cbn [Scores.complexity Scores.duplication Scores.dependency
                               Scores.overall].
      unfold Scores.valid_score.
      split; [lia |]. split; [lia |]. split; [lia |]. vm_compute. reflexivity. }
    destruct (Scores.calc_category_score files_analyzed _) as [c | ex] eqn:Ec in Hs;
      cbv [obind] in Hs; [| discriminate].
    destruct (Scores.calc_category_score files_analyzed _) as [d | ex] eqn:Ed in Hs;
      [| discriminate].
    destruct (Scores.calc_category_score files_analyzed _) as [e | ex] eqn:Ee in Hs;
      [| discriminate].
    fold (ScoreRules.weighted c d e) in Hs.
    destruct (ScoreRules.weighted c d e) as [o | ex] eqn:Eo; [| discriminate].
    injection Hs as <-. cbn [Scores.complexity Scores.duplication Scores.dependency
                             Scores.overall].
    apply ScoresFacts.calc_category_score_range in Ec, Ed, Ee. auto. }
  destruct Hw as (Hc & Hd & He & Ho).
  destruct (ScoreRulesFacts.weighted_below_exact _ _ _ _ Hc Hd He Ho) as [Ho0 Hle].
  unfold Scores.valid_score in *.
  split; [exact Ho0 |]. split; [exact Hle |]. split; [| split].
  - split; [intros H100; lia |].
    intros (E1 & E2 & E3). rewrite E1, E2, E3 in Ho.
    assert (E : ScoreRules.weighted 100 100 100 = Returned 100) by (vm_compute; reflexivity).
    rewrite E in Ho. now injection Ho.
  - intros E1 E2. rewrite <- E2, <- E1 in Ho.
    assert (Htab : forallb (fun n => match ScoreRules.weighted (Z.of_nat n) (Z.of_nat n)
                                                               (Z.of_nat n) with
                                     | Returned o => o =? Z.of_nat n
                                     | Raised _ => false
                                     end) (seq 0 101) = true) by (vm_compute; reflexivity).
    rewrite forallb_forall in Htab.
    specialize (Htab (Z.to_nat (Scores.complexity s))).
    rewrite Z2Nat.id in Htab by lia. rewrite Ho in Htab.
    apply Z.eqb_eq, Htab, in_seq. lia.
  - vm_compute. reflexivity.
Qed.

Lemma overall_score_bounds_witness :
  Scores._calculate_scores Samples.scored_issues 10 = Returned (Scores.mk_scores 2 0 1 9) /\
  10 * 2 <= 4 * 0 + 3 * 1 + 3 * 9.
Proof.
  assert (Hs : Scores._calculate_scores Samples.scored_issues 10
               = Returned (Scores.mk_scores 2 0 1 9)) by (vm_compute; reflexivity).
  split; [exact Hs |].
  exact (proj1 (proj2 (overall_score_bounds Samples.scored_issues 10 _ Hs))).
Defined.
(* ================================================================== *)
(** ** The walk over the project tree *)

Module WalkFacts.
Import PyStr TextSpec StrFacts WalkRules Analyzer.

(** Induction on a file tree, sub-directories first. *)
Lemma entry_ind_sub (P : Fs.entry -> Prop) :
  (forall readable decodable text, P (Fs.File readable decodable text)) ->
  (forall listable entries,
      (forall name sub, In (name, sub) entries -> P sub) -> P (Fs.Dir listable entries)) ->
  forall e, P e.
Proof.
  intros Hfile Hdir. fix IH 1. intros [r d t | listable entries].
  - apply Hfile.
  - apply Hdir. induction entries as [| [n s] entries IHl].
    + intros name sub [].
    + intros name sub [Heq | Hin].
      * injection Heq as <- <-. apply IH.
      * exact (IHl name sub Hin).
Qed.

Lemma plain_dirs_dir (listable : bool) (entries : list (string * Fs.entry))
      (name : string) (sub : Fs.entry) :
  plain_dirs (Fs.Dir listable entries) = true -> In (name, sub) entries ->
  (Fs.is_dir sub = true -> plain name = true) /\ plain_dirs sub = true.
Proof.
  cbn [plain_dirs]. induction entries as [| [n s] entries IH]; intros Hall Hin.
  - destruct Hin.
  - apply andb_true_iff in Hall. destruct Hall as [Hhead Hall].
    apply andb_true_iff in Hhead. destruct Hhead as [Hname Hsub].
    destruct Hin as [Heq | Hin]; [| exact (IH Hall Hin)].
    injection Heq as <- <-. split; [| exact Hsub].
    intros Hd. rewrite Hd in Hname. exact Hname.
Qed.

Lemma collect_file_spec (include_tests : bool) (root file : string) :
  collect_file include_tests root file
  = if admitted include_tests file then [Fs.path_join root file] else [].
Proof.
  unfold collect_file, admitted.
  destruct (mem _ code_extensions); [| reflexivity].
  destruct include_tests, (mentions_test file); reflexivity.
Qed.

(** The loop body of the walk for a directory that can be listed. *)
Lemma collect_from_dir (project_path : string) (include_tests : bool) (max_depth : Z)
      (root : string) (entries : list (string * Fs.entry)) :
  collect_from project_path include_tests max_depth root (Fs.Dir true entries)
  = if count_char Fs.sep (drop (String.length project_path) root) >=? max_depth then []
    else
      flat_map (collect_file include_tests root)
               (map fst (filter (fun ne => negb (Fs.is_dir (snd ne))) entries))
      ++ flat_map (fun ds : string * Fs.entry =>
                     if Fs.is_dir (snd ds) && keep_dir include_tests (fst ds)
                     then collect_from project_path include_tests max_depth
                                       (Fs.path_join root (fst ds)) (snd ds)
                     else [])
                  entries.
Proof.
  cbn [collect_from]. destruct (_ >=? max_depth); [reflexivity |]. f_equal.
  induction entries as [| [d sub] entries IH]; [reflexivity |].
  cbn [flat_map fst snd]. now rewrite IH.
Qed.

Lemma incl_flat_map {A B} (f g : A -> list B) (l : list A) :
  (forall a, In a l -> incl (f a) (g a)) -> incl (flat_map f l) (flat_map g l).
Proof.
  intros Hfg b Hb. apply in_flat_map in Hb. destruct Hb as (a & Ha & Hb).
  apply in_flat_map. exists a. split; [exact Ha | exact (Hfg a Ha b Hb)].
Qed.

(** A larger depth limit loses no file. *)
Lemma collect_from_depth (project_path : string) (include_tests : bool)
      (max_depth max_depth' : Z) (e : Fs.entry) :
  max_depth <= max_depth' ->
  forall root,
    incl (collect_from project_path include_tests max_depth root e)
         (collect_from project_path include_tests max_depth' root e).
Proof.
  intros Hle. induction e as [r d t | listable entries IH] using entry_ind_sub;
    intros root; [apply incl_refl |].
  destruct listable; [| apply incl_refl]. rewrite !collect_from_dir.
  destruct (Z.geb_spec (count_char Fs.sep (drop (String.length project_path) root))
                       max_depth) as [Hcut | Hgo]; [intros p [] |].
  destruct (Z.geb_spec (count_char Fs.sep (drop (String.length project_path) root))
                       max_depth') as [Hcut' | _]; [lia |].
  apply incl_app_app; [apply incl_refl |].
  apply incl_flat_map. intros [d sub] Hin. cbn [fst snd].
  destruct (Fs.is_dir sub && keep_dir include_tests d); [| apply incl_refl].
  exact (IH d sub Hin _).
Qed.

(** Including the tests loses no file. *)
Lemma collect_from_tests (project_path : string) (max_depth : Z) (e : Fs.entry) :
  forall root,
    incl (collect_from project_path false max_depth root e)
         (collect_from project_path true max_depth root e).
Proof.
  induction e as [r d t | listable entries IH] using entry_ind_sub;
    intros root; [apply incl_refl |].
  destruct listable; [| apply incl_refl]. rewrite !collect_from_dir.
  destruct (_ >=? max_depth); [apply incl_refl |].
  apply incl_app_app.
  - apply incl_flat_map. intros file _. rewrite !collect_file_spec. unfold admitted.
    destruct (mem _ code_extensions); [| apply incl_refl]. cbn [andb orb].
    destruct (negb (mentions_test file)); [apply incl_refl | intros p []].
  - apply incl_flat_map. intros [d sub] Hin. cbn [fst snd]. unfold keep_dir.
    destruct (Fs.is_dir sub); [| apply incl_refl]. cbn [andb orb].
    destruct (negb (mem d exclude_dirs)); [| apply incl_refl]. cbn [andb].
    destruct (negb (mentions_test d)); [| intros p []].
    exact (IH d sub Hin _).
Qed.

(** With a depth limit of zero or less nothing is collected. *)
Lemma collect_from_no_depth (project_path : string) (include_tests : bool)
      (max_depth : Z) (root : string) (e : Fs.entry) :
  max_depth <= 0 -> collect_from project_path include_tests max_depth root e = [].
Proof.
  intros Hle. destruct e as [r d t | [|] entries]; try reflexivity.
  rewrite collect_from_dir.
  pose proof (ReportFacts.count_char_nonneg
                Fs.sep (drop (String.length project_path) root)).
  destruct (Z.geb_spec (count_char Fs.sep (drop (String.length project_path) root))
                       max_depth); [reflexivity | lia].
Qed.

(** A path that names an entry holds no null character. *)
Lemma lookup_no_null (fs : Fs.entry) (path : string) (e : Fs.entry) :
  Fs.lookup fs path = Some e -> Fs.embedded_null path = false.
Proof.
  unfold Fs.lookup. destruct (Fs.embedded_null path); [| reflexivity].
  rewrite orb_true_r. discriminate.
Qed.

(** From a root that names an entry the walk returns. *)
Lemma collect_returned (fs : Fs.entry) (project_path : string) (include_tests : bool)
      (max_depth : Z) (top : Fs.entry) :
  Fs.lookup fs project_path = Some top ->
  _collect_code_files fs project_path include_tests max_depth
  = Returned (collect_from project_path include_tests max_depth project_path top).
Proof.
  intros Htop. unfold _collect_code_files, walk_top.
  now rewrite (lookup_no_null _ _ _ Htop), Htop.
Qed.

Lemma walk_top_depth (fs : Fs.entry) (project_path : string) (include_tests : bool)
      (max_depth max_depth' : Z) :
  max_depth <= max_depth' ->
  incl (walk_top fs project_path include_tests max_depth)
       (walk_top fs project_path include_tests max_depth').
Proof.
  intros Hle. unfold walk_top. destruct (Fs.lookup fs project_path) as [top |].
  - now apply collect_from_depth.
  - apply incl_refl.
Qed.

Lemma walk_top_tests (fs : Fs.entry) (project_path : string) (max_depth : Z) :
  incl (walk_top fs project_path false max_depth)
       (walk_top fs project_path true max_depth).
Proof.
  unfold walk_top. destruct (Fs.lookup fs project_path) as [top |].
  - apply collect_from_tests.
  - apply incl_refl.
Qed.

Lemma walk_top_no_depth (fs : Fs.entry) (project_path : string) (include_tests : bool)
      (max_depth : Z) :
  max_depth <= 0 -> walk_top fs project_path include_tests max_depth = [].
Proof.
  intros Hle. unfold walk_top. destruct (Fs.lookup fs project_path) as [top |].
  - now apply collect_from_no_depth.
  - reflexivity.
Qed.

End WalkFacts.

(* ================================================================== *)
(** ** Paths built by the walk *)

Module PathFacts.
Import PyStr TextSpec StrFacts WalkRules Analyzer.

Lemma count_char_append (c : ascii) (a b : string) :
  count_char c (a ++ b) = count_char c a + count_char c b.
Proof. induction a as [| x a IH]; cbn [append count_char]; [lia | rewrite IH; lia]. Qed.

Lemma count_char_absent (c : ascii) (s : string) :
  occurs c s = false -> count_char c s = 0.
Proof.
  induction s as [| x s IH]; [reflexivity |]. cbn [occurs count_char].
  intros H. apply orb_false_iff in H. destruct H as [-> Hs]. now rewrite IH.
Qed.

Lemma rev_acc_append (s acc : string) : rev_acc s acc = (rev s ++ acc)%string.
Proof.
  unfold rev. revert acc; induction s as [| c s IH]; intros acc; [reflexivity |].
  cbn [rev_acc]. rewrite IH, (IH (String c EmptyString)), append_assoc. reflexivity.
Qed.

Lemma rev_append (a b : string) : rev (a ++ b) = (rev b ++ rev a)%string.
Proof.
  induction a as [| c a IH]; cbn [append].
  - now rewrite append_nil_r.
  - unfold rev at 1 3. cbn [rev_acc]. rewrite !rev_acc_append, IH, append_assoc.
    reflexivity.
Qed.

Lemma occurs_rev (c : ascii) (s : string) : occurs c (rev s) = occurs c s.
Proof.
  induction s as [| x s IH]; [reflexivity |].
  unfold rev. cbn [rev_acc]. rewrite rev_acc_append, occurs_append, IH.
  cbn [occurs]. rewrite orb_false_r. apply orb_comm.
Qed.

Lemma rev_empty (s : string) : rev s = EmptyString -> s = EmptyString.
Proof.
  destruct s as [| c s]; [reflexivity |]. unfold rev. cbn [rev_acc].
  rewrite rev_acc_append. destruct (rev s); discriminate.
Qed.

Lemma plain_spec (d : string) :
  plain d = true -> d <> EmptyString /\ occurs Fs.sep d = false.
Proof.
  unfold plain. rewrite andb_true_iff, !negb_true_iff. intros [Hne Hocc].
  split; [| exact Hocc]. intros ->. discriminate.
Qed.

Lemma plain_not_absolute (d : string) : plain d = true -> startswith "/" d = false.
Proof.
  intros Hd. apply plain_spec in Hd. destruct Hd as [_ Hocc].
  unfold startswith. rewrite prefix_one. destruct d as [| c d]; [reflexivity |].
  cbn [occurs] in Hocc. apply orb_false_iff in Hocc. apply Hocc.
Qed.

Lemma endswith_plain (a d : string) : plain d = true -> endswith "/" (a ++ d) = false.
Proof.
  intros Hd. apply plain_spec in Hd. destruct Hd as [Hne Hocc].
  unfold endswith. rewrite rev_append. change (rev "/") with "/"%string.
  rewrite prefix_one. rewrite <- occurs_rev in Hocc.
  destruct (rev d) as [| c r] eqn:Er; [apply rev_empty in Er; congruence |].
  cbn [append]. cbn [occurs] in Hocc. apply orb_false_iff in Hocc. apply Hocc.
Qed.

Lemma open_ended_spec (a : string) :
  open_ended a = true -> a <> EmptyString /\ endswith "/" a = false.
Proof.
  unfold open_ended. rewrite andb_true_iff, !negb_true_iff. intros [Hne He].
  split; [| exact He]. intros ->. discriminate.
Qed.

(** Joining a plain name to an open-ended path. *)
Lemma path_join_plain (a d : string) :
  open_ended a = true -> plain d = true ->
  Fs.path_join a d = (a ++ "/" ++ d)%string /\
  open_ended (a ++ "/" ++ d) = true.
Proof.
  intros Ha Hd. apply open_ended_spec in Ha. destruct Ha as [Hne He]. split.
  - unfold Fs.path_join. rewrite (plain_not_absolute d Hd), He.
    destruct (String.eqb_spec a EmptyString); [congruence | reflexivity].
  - unfold open_ended. apply andb_true_iff. split.
    + destruct a; [congruence | reflexivity].
    + rewrite <- append_assoc, (endswith_plain _ d Hd). reflexivity.
Qed.

(** The files that the walk collects below a directory whose path is
    [project_path ++ suffix]. *)
Lemma collect_from_spec (project_path : string) (include_tests : bool) (max_depth : Z)
      (e : Fs.entry) :
  plain_dirs e = true ->
  forall suffix p,
    open_ended (project_path ++ suffix) = true ->
    In p (collect_from project_path include_tests max_depth (project_path ++ suffix) e)
    <-> exists dirs file,
        located dirs e file /\
        count_char Fs.sep suffix + Z.of_nat (List.length dirs) < max_depth /\
        forallb (keep_dir include_tests) dirs = true /\
        admitted include_tests file = true /\
        p = path_below (project_path ++ suffix) dirs file.
Proof.
  induction e as [r d t | listable entries IH] using WalkFacts.entry_ind_sub;
    intros Hplain suffix p Hopen.
  - split; [intros [] |]. intros (dirs & file & Hloc & _). destruct dirs; destruct Hloc.
  - destruct listable;
      [| split; [intros [] |]; intros (dirs & file & Hloc & _); destruct dirs; destruct Hloc].
    rewrite WalkFacts.collect_from_dir, drop_append.
    pose proof (ReportFacts.count_char_nonneg Fs.sep suffix) as Hdepth.
    destruct (Z.geb_spec (count_char Fs.sep suffix) max_depth) as [Hcut | Hgo].
    { split; [intros [] |]. intros (dirs & file & _ & Hlt & _). lia. }
    rewrite in_app_iff, !in_flat_map. split.
    + intros [(file & Hfile & Hp) | ([d sub] & Hin & Hp)].
      * rewrite WalkFacts.collect_file_spec in Hp.
        destruct (admitted include_tests file) eqn:Hadm; [| destruct Hp].
        destruct Hp as [<- | []].
        apply in_map_iff in Hfile. destruct Hfile as ([file' x] & Hf & Hx).
        cbn [fst] in Hf. subst file'. apply filter_In in Hx. destruct Hx as [Hx Hnd].
        cbn [snd] in Hnd. apply negb_true_iff in Hnd.
        exists [], file. cbn [located List.length forallb]. repeat split; try lia; auto.
        exists x. auto.
      * cbn [fst snd] in Hp.
        destruct (Fs.is_dir sub) eqn:Hd; [| destruct Hp]. cbn [andb] in Hp.
        destruct (keep_dir include_tests d) eqn:Hk; [| destruct Hp].
        destruct (WalkFacts.plain_dirs_dir _ _ _ _ Hplain Hin) as [Hname Hsub].
        specialize (Hname Hd).
        destruct (path_join_plain _ d Hopen Hname) as [Hjoin Hopen'].
        rewrite Hjoin, append_assoc in Hp. rewrite append_assoc in Hopen'.
        apply (IH d sub Hin Hsub _ p Hopen') in Hp.
        destruct Hp as (dirs & file & Hloc & Hlt & Hkeep & Hadm & ->).
        exists (d :: dirs), file. cbn [located List.length forallb].
        rewrite Hk, Hkeep.
        rewrite !count_char_append in Hlt.
        destruct (plain_spec d Hname) as [_ Hocc].
        rewrite (count_char_absent _ _ Hocc) in Hlt.
        change (count_char Fs.sep "/") with 1 in Hlt.
        repeat split; try lia; auto.
        -- exists sub. auto.
        -- unfold path_below. cbn [fold_left]. now rewrite Hjoin, append_assoc.
    + intros (dirs & file & Hloc & Hlt & Hkeep & Hadm & ->).
      destruct dirs as [| d dirs]; cbn [located] in Hloc.
      * left. destruct Hloc as (x & Hx & Hnd). exists file. split.
        -- apply in_map_iff. exists (file, x). split; [reflexivity |].
           apply filter_In. cbn [snd]. rewrite Hnd. auto.
        -- rewrite WalkFacts.collect_file_spec, Hadm. left. reflexivity.
      * right. destruct Hloc as (sub & Hin & Hd & Hloc). exists (d, sub).
        split; [exact Hin |]. cbn [fst snd forallb] in *.
        apply andb_true_iff in Hkeep. destruct Hkeep as [Hk Hkeep].
        rewrite Hd, Hk. cbn [andb].
        destruct (WalkFacts.plain_dirs_dir _ _ _ _ Hplain Hin) as [Hname Hsub].
        specialize (Hname Hd).
        destruct (path_join_plain _ d Hopen Hname) as [Hjoin Hopen'].
        rewrite Hjoin, append_assoc. rewrite append_assoc in Hopen'.
        apply (IH d sub Hin Hsub _ _ Hopen').
        exists dirs, file. repeat split; auto.
        -- rewrite !count_char_append.
           destruct (plain_spec d Hname) as [_ Hocc].
           rewrite (count_char_absent _ _ Hocc).
           change (count_char Fs.sep "/") with 1.
           cbn [List.length] in Hlt. lia.
        -- unfold path_below. cbn [fold_left]. now rewrite Hjoin, append_assoc.
Qed.

Lemma endswith_separator (base : string) : endswith "/" (base ++ "/") = true.
Proof.
  unfold endswith. rewrite rev_append. change (rev "/") with "/"%string.
  cbn [append]. rewrite prefix_one. apply Ascii.eqb_refl.
Qed.

(** Joining a plain name to a path that ends with the separator. *)
Lemma path_join_closed (base d : string) :
  plain d = true ->
  Fs.path_join (base ++ "/") d = (base ++ "/" ++ d)%string /\
  open_ended (base ++ "/" ++ d) = true.
Proof.
  intros Hd. split.
  - unfold Fs.path_join.
    rewrite (plain_not_absolute d Hd), endswith_separator, orb_true_r.
    apply append_assoc.
  - unfold open_ended. apply andb_true_iff. split.
    + destruct base; reflexivity.
    + rewrite <- (append_assoc base "/" d), (endswith_plain _ d Hd). reflexivity.
Qed.

End PathFacts.

(** X15.  The walk loses no file when its limits are relaxed: every
    file collected with a depth limit is collected with any larger one,
    every file collected without the tests is collected with them, and
    with a depth limit of zero or less nothing is collected.  The walk
    returns a list for every project path without a null character, and
    raises [ValueError], whatever the limits, for one that has it. *)
Theorem collected_files_grow
        (fs : Fs.entry) (project_path : string) (include_tests : bool) (max_depth : Z) :
  (forall max_depth' files,
      max_depth <= max_depth' ->
      Analyzer._collect_code_files fs project_path include_tests max_depth
      = Returned files ->
      exists files',
        Analyzer._collect_code_files fs project_path include_tests max_depth'
        = Returned files' /\
        incl files files') /\
  (forall files,
      Analyzer._collect_code_files fs project_path false max_depth = Returned files ->
      exists files',
        Analyzer._collect_code_files fs project_path true max_depth = Returned files' /\
        incl files files') /\
  (max_depth <= 0 ->
   Analyzer._collect_code_files fs project_path include_tests max_depth
   = if Fs.embedded_null project_path then Raised ValueError else Returned []) /\
  (Fs.embedded_null project_path = false ->
   exists files,
     Analyzer._collect_code_files fs project_path include_tests max_depth
     = Returned files) /\
  (Fs.embedded_null project_path = true ->
   Analyzer._collect_code_files fs project_path include_tests max_depth
   = Raised ValueError).
Proof.
  unfold Analyzer._collect_code_files.
  destruct (Fs.embedded_null project_path).
  - split; [intros md' files _ H; discriminate |].
    split; [intros files H; discriminate |].
    split; [reflexivity |]. split; [discriminate | reflexivity].
  - split.
    { intros md' files Hle H. injection H as <-. eexists. split; [reflexivity |].
      now apply WalkFacts.walk_top_depth. }
    split.
    { intros files H. injection H as <-. eexists. split; [reflexivity |].
      apply WalkFacts.walk_top_tests. }
    split; [intros Hle; now rewrite WalkFacts.walk_top_no_depth |].
    split; [intros _; eexists; reflexivity | discriminate].
Qed.

(** X16.  For a project path that is not empty and does not end with
    the separator, in a tree whose directories have plain names, the
    files collected are exactly the files found below the root through
    fewer than [max_depth] directories, every one of them listable, none
    of them an excluded directory nor, when tests are left out, one whose
    name mentions [test] or [spec]; the file name has a code extension,
    whatever its case, and, when tests are left out, mentions neither
    [test] nor [spec]. *)
Theorem collected_files_rule
        (fs : Fs.entry) (project_path : string) (include_tests : bool) (max_depth : Z)
        (top : Fs.entry) :
  Fs.lookup fs project_path = Some top ->
  WalkRules.open_ended project_path = true ->
  WalkRules.plain_dirs top = true ->
  (exists files,
      Analyzer._collect_code_files fs project_path include_tests max_depth
      = Returned files /\
      forall p,
        In p files
        <-> exists dirs file,
            WalkRules.located dirs top file /\
            Z.of_nat (List.length dirs) < max_depth /\
            forallb (Analyzer.keep_dir include_tests) dirs = true /\
            WalkRules.admitted include_tests file = true /\
            p = WalkRules.path_below project_path dirs file) /\
  (forall d,
      Analyzer.keep_dir include_tests d = true
      <-> ~ In d Analyzer.exclude_dirs /\
          (include_tests = false -> Analyzer.mentions_test d = false)) /\
  (forall file,
      WalkRules.admitted include_tests file = true
      <-> In (PyStr.lower (Fs.splitext_ext file)) Analyzer.code_extensions /\
          (include_tests = false -> Analyzer.mentions_test file = false)).
Proof.
  intros Htop Hopen Hplain. split; [| split].
  - eexists. split; [exact (WalkFacts.collect_returned _ _ _ _ _ Htop) |]. intros p.
    pose proof (PathFacts.collect_from_spec project_path include_tests max_depth top
                  Hplain EmptyString p) as Hspec.
    rewrite StrFacts.append_nil_r in Hspec. exact (Hspec Hopen).
  - intros d. unfold Analyzer.keep_dir.
    rewrite andb_true_iff, negb_true_iff, orb_true_iff, negb_true_iff.
    split.
    + intros [Hex Ht]. split.
      * intros Hin. apply DuplicationFacts.mem_In in Hin. congruence.
      * intros ->. destruct Ht; [discriminate | assumption].
    + intros [Hex Ht]. split.
      * destruct (PyStr.mem d Analyzer.exclude_dirs) eqn:E; [| reflexivity].
        apply DuplicationFacts.mem_In in E. contradiction.
      * destruct include_tests; [left; reflexivity | right; now apply Ht].
  - intros file. unfold WalkRules.admitted.
    rewrite andb_true_iff, orb_true_iff, negb_true_iff, DuplicationFacts.mem_In.
    split.
    + intros [Hext Ht]. split; [exact Hext |].
      intros ->. destruct Ht; [discriminate | assumption].
    + intros [Hext Ht]. split; [exact Hext |].
      destruct include_tests; [left; reflexivity | right; now apply Ht].
Qed.

Lemma collected_files_rule_witness :
  Fs.lookup Samples.project_fs "/proj" <> None /\
  WalkRules.open_ended "/proj" = true /\
  exists files,
    Analyzer._collect_code_files Samples.project_fs "/proj" true 10 = Returned files /\
    forall p,
      In p files
      <-> exists dirs file,
          match Fs.lookup Samples.project_fs "/proj" with
          | Some top => WalkRules.located dirs top file
          | None => False
          end /\
          Z.of_nat (List.length dirs) < 10 /\
          forallb (Analyzer.keep_dir true) dirs = true /\
          WalkRules.admitted true file = true /\
          p = WalkRules.path_below "/proj" dirs file.
Proof.
  split; [discriminate |]. split; [reflexivity |].
  destruct (Fs.lookup Samples.project_fs "/proj") as [top |] eqn:Htop.
  - refine (proj1 (collected_files_rule Samples.project_fs "/proj" true 10 top Htop
                     eq_refl _)).
    vm_compute in Htop. injection Htop as <-. reflexivity.
  - vm_compute in Htop. discriminate.
Defined.

(** Without the tests, a name that merely contains [test] or [spec] is
    left out too, and an extension in capitals is a code extension. *)
Example collected_files_samples :
  Analyzer._collect_code_files Fixtures.outside_fs "/proj" true 10
  = Returned ["/proj/main.py"; "/proj/latest.py"; "/proj/Inspector.JS";
              "/proj/contest/entry.py"] /\
  Analyzer._collect_code_files Fixtures.outside_fs "/proj" false 10
  = Returned ["/proj/main.py"] /\
  Analyzer._collect_code_files Fixtures.outside_fs "/proj" true 1
  = Returned ["/proj/main.py"; "/proj/latest.py"; "/proj/Inspector.JS"] /\
  Analyzer._collect_code_files Fixtures.outside_fs "/proj/" true 1
  = Returned ["/proj/main.py"; "/proj/latest.py"; "/proj/Inspector.JS";
              "/proj/contest/entry.py"].
Proof. vm_compute. repeat split; reflexivity. Qed.

(** X18.  A project path that ends with the separator lets the walk go
    one level deeper: the depth counted for a directory is then one less
    than the number of directories that lead to it, so the files
    collected are those found through at most [max_depth] directories
    (and none when [max_depth] is not positive). *)
Theorem trailing_separator_deepens_walk
        (fs : Fs.entry) (base : string) (include_tests : bool) (max_depth : Z)
        (top : Fs.entry) :
  Fs.lookup fs (base ++ "/") = Some top ->
  WalkRules.plain_dirs top = true ->
  exists files,
    Analyzer._collect_code_files fs (base ++ "/") include_tests max_depth
    = Returned files /\
    forall p,
      In p files
      <-> exists dirs file,
          WalkRules.located dirs top file /\
          0 < max_depth /\ Z.of_nat (List.length dirs) - 1 < max_depth /\
          forallb (Analyzer.keep_dir include_tests) dirs = true /\
          WalkRules.admitted include_tests file = true /\
          p = WalkRules.path_below (base ++ "/") dirs file.
Proof.
  intros Htop Hplain.
  eexists. split; [exact (WalkFacts.collect_returned _ _ _ _ _ Htop) |]. intros p.
  destruct top as [r d t | [|] entries];
    try (split; [intros [] |]; intros (dirs & file & Hloc & _); destruct dirs;
         destruct Hloc).
  rewrite WalkFacts.collect_from_dir.
  replace (PyStr.drop (String.length (base ++ "/")) (base ++ "/")) with EmptyString.
  2:{ rewrite <- (StrFacts.append_nil_r (base ++ "/")) at 2.
      now rewrite StrFacts.drop_append. }
  cbn [PyStr.count_char].
  destruct (Z.geb_spec 0 max_depth) as [Hcut | Hgo].
  { split; [intros [] |]. intros (dirs & file & _ & Hlt & _). lia. }
  rewrite in_app_iff, !in_flat_map. split.
  - intros [(file & Hfile & Hp) | ([d sub] & Hin & Hp)].
    + rewrite WalkFacts.collect_file_spec in Hp.
      destruct (WalkRules.admitted include_tests file) eqn:Hadm; [| destruct Hp].
      destruct Hp as [<- | []].
      apply in_map_iff in Hfile. destruct Hfile as ([file' x] & Hf & Hx).
      cbn [fst] in Hf. subst file'. apply filter_In in Hx. destruct Hx as [Hx Hnd].
      cbn [snd] in Hnd. apply negb_true_iff in Hnd.
      exists [], file. cbn [WalkRules.located List.length forallb].
      repeat split; try lia; auto. exists x. auto.
    + cbn [fst snd] in Hp.
      destruct (Fs.is_dir sub) eqn:Hd; [| destruct Hp]. cbn [andb] in Hp.
      destruct (Analyzer.keep_dir include_tests d) eqn:Hk; [| destruct Hp].
      destruct (WalkFacts.plain_dirs_dir _ _ _ _ Hplain Hin) as [Hname Hsub].
      specialize (Hname Hd).
      destruct (PathFacts.path_join_closed base d Hname) as [Hjoin Hopen].
      rewrite Hjoin, <- StrFacts.append_assoc in Hp.
      rewrite <- StrFacts.append_assoc in Hopen.
      apply (PathFacts.collect_from_spec _ include_tests max_depth sub Hsub d p Hopen)
        in Hp.
      destruct Hp as (dirs & file & Hloc & Hlt & Hkeep & Hadm & ->).
      destruct (PathFacts.plain_spec d Hname) as [_ Hocc].
      rewrite (PathFacts.count_char_absent _ _ Hocc) in Hlt.
      exists (d :: dirs), file. cbn [WalkRules.located List.length forallb].
      rewrite Hk, Hkeep. repeat split; try lia; auto.
      * exists sub. auto.
      * unfold WalkRules.path_below. cbn [fold_left].
        now rewrite Hjoin, <- StrFacts.append_assoc.
  - intros (dirs & file & Hloc & _ & Hlt & Hkeep & Hadm & ->).
    destruct dirs as [| d dirs]; cbn [WalkRules.located] in Hloc.
    + left. destruct Hloc as (x & Hx & Hnd). exists file. split.
      * apply in_map_iff. exists (file, x). split; [reflexivity |].
        apply filter_In. cbn [snd]. rewrite Hnd. auto.
      * rewrite WalkFacts.collect_file_spec, Hadm. left. reflexivity.
    + right. destruct Hloc as (sub & Hin & Hd & Hloc). exists (d, sub).
      split; [exact Hin |]. cbn [fst snd forallb] in *.
      apply andb_true_iff in Hkeep. destruct Hkeep as [Hk Hkeep].
      rewrite Hd, Hk. cbn [andb].
      destruct (WalkFacts.plain_dirs_dir _ _ _ _ Hplain Hin) as [Hname Hsub].
      specialize (Hname Hd).
      destruct (PathFacts.path_join_closed base d Hname) as [Hjoin Hopen].
      rewrite Hjoin, <- StrFacts.append_assoc.
      rewrite <- StrFacts.append_assoc in Hopen.
      apply (PathFacts.collect_from_spec _ include_tests max_depth sub Hsub d _ Hopen).
      exists dirs, file. repeat split; auto.
      * destruct (PathFacts.plain_spec d Hname) as [_ Hocc].
        rewrite (PathFacts.count_char_absent _ _ Hocc).
        cbn [List.length] in Hlt. lia.
      * unfold WalkRules.path_below. cbn [fold_left].
        now rewrite Hjoin, <- StrFacts.append_assoc.
Qed.

Lemma trailing_separator_deepens_walk_witness :
  Fs.lookup Fixtures.outside_fs ("/proj" ++ "/") <> None /\
  exists files,
    Analyzer._collect_code_files Fixtures.outside_fs ("/proj" ++ "/") true 1
    = Returned files /\
    forall p,
      In p files
      <-> exists dirs file,
          match Fs.lookup Fixtures.outside_fs ("/proj" ++ "/") with
          | Some top => WalkRules.located dirs top file
          | None => False
          end /\
          0 < 1 /\ Z.of_nat (List.length dirs) - 1 < 1 /\
          forallb (Analyzer.keep_dir true) dirs = true /\
          WalkRules.admitted true file = true /\
          p = WalkRules.path_below ("/proj" ++ "/") dirs file.
Proof.
  split; [discriminate |].
  destruct (Fs.lookup Fixtures.outside_fs ("/proj" ++ "/")) as [top |] eqn:Htop.
  - apply (trailing_separator_deepens_walk Fixtures.outside_fs "/proj" true 1 top Htop).
    vm_compute in Htop. injection Htop as <-. reflexivity.
  - vm_compute in Htop. discriminate.
Defined.
(* ================================================================== *)
(** ** Relative paths of the files of the walk *)

Module RelPathFacts.
Import PyStr TextSpec StrFacts WalkRules NameRules PathFacts.

(** Splitting at a one-character separator: the pieces before an
    occurrence, then the pieces after it. *)
Lemma split_go_sep (c : ascii) (a b : string) :
  split_go (String c EmptyString) 0 (a ++ String c b)
  = let '(p, ps) := split_go (String c EmptyString) 0 a in
    (p, ps ++ split (String c EmptyString) b).
Proof.
  induction a as [| x a IH]; cbn [append].
  - cbn [split_go]. rewrite prefix_one, Ascii.eqb_refl. cbn [String.length Nat.sub].
    unfold split. destruct (split_go (String c EmptyString) 0 b); reflexivity.
  - cbn [split_go]. rewrite !prefix_one. cbn [String.length Nat.sub]. rewrite IH.
    destruct (split_go (String c EmptyString) 0 a) as [p ps].
    destruct (Ascii.eqb c x); reflexivity.
Qed.

Lemma split_sep (c : ascii) (a b : string) :
  split (String c EmptyString) (a ++ String c b)
  = split (String c EmptyString) a ++ split (String c EmptyString) b.
Proof.
  unfold split at 1 2. rewrite split_go_sep.
  destruct (split_go (String c EmptyString) 0 a) as [p ps]. reflexivity.
Qed.

Lemma split_absent (c : ascii) (d : string) :
  occurs c d = false -> split (String c EmptyString) d = [d].
Proof.
  unfold split. induction d as [| x d IH]; [reflexivity |].
  cbn [occurs]. intros H. apply orb_false_iff in H. destruct H as [Hx Hd].
  cbn [split_go]. rewrite prefix_one, Hx. specialize (IH Hd).
  destruct (split_go (String c EmptyString) 0 d) as [p ps].
  injection IH as -> ->. reflexivity.
Qed.

Lemma regular_spec (name : string) :
  regular name = true ->
  plain name = true /\ name <> EmptyString /\ name <> "."%string /\ name <> ".."%string.
Proof.
  unfold regular. rewrite !andb_true_iff, !negb_true_iff.
  intros [[Hp H1] H2]. split; [exact Hp |].
  destruct (plain_spec name Hp) as [Hne _]. split; [exact Hne |].
  split; intros ->; discriminate.
Qed.

Lemma norm_step_regular (stack : list string) (name : string) :
  regular name = true -> Fs.norm_step stack name = name :: stack.
Proof.
  intros Hr. apply regular_spec in Hr. destruct Hr as (_ & H0 & H1 & H2).
  unfold Fs.norm_step.
  destruct (String.eqb_spec name EmptyString); [congruence |].
  destruct (String.eqb_spec name "."); [congruence |].
  destruct (String.eqb_spec name ".."); [congruence |]. reflexivity.
Qed.

(** The components of a path extended by a regular name. *)
Lemma components_join (path name : string) :
  regular name = true ->
  Fs.components (path ++ "/" ++ name) = Fs.components path ++ [name].
Proof.
  intros Hr. unfold Fs.components.
  change (path ++ "/" ++ name)%string with (path ++ String "/" name)%string.
  rewrite split_sep, fold_left_app.
  destruct (regular_spec name Hr) as (Hp & _).
  destruct (plain_spec name Hp) as [_ Hocc].
  rewrite (split_absent "/" name Hocc). cbn [fold_left].
  rewrite (norm_step_regular _ _ Hr). reflexivity.
Qed.

Lemma common_prefix_app (l l' : list string) :
  Fs.common_prefix l (l ++ l') = List.length l.
Proof.
  induction l as [| x l IH]; [reflexivity |].
  cbn [Fs.common_prefix app List.length]. now rewrite String.eqb_refl, IH.
Qed.

(** The relative path of what lies below [start] through regular
    names. *)
Lemma relpath_below (start path : string) (names : list string) :
  Fs.components path = Fs.components start ++ names -> names <> [] ->
  Fs.relpath path start = join "/" names.
Proof.
  intros Hc Hne. unfold Fs.relpath. rewrite Hc, common_prefix_app, Nat.sub_diag.
  cbn [repeat app]. rewrite skipn_app, skipn_all, Nat.sub_diag. cbn [skipn app].
  destruct names; [congruence | reflexivity].
Qed.

(** The directory reached from an open-ended path through regular
    names. *)
Lemma fold_join_regular (dirs : list string) (root : string) :
  open_ended root = true -> forallb regular dirs = true ->
  open_ended (fold_left Fs.path_join dirs root) = true /\
  Fs.components (fold_left Fs.path_join dirs root) = Fs.components root ++ dirs.
Proof.
  revert root; induction dirs as [| d dirs IH]; intros root Hopen Hreg; cbn [fold_left].
  - now rewrite app_nil_r.
  - cbn [forallb] in Hreg. apply andb_true_iff in Hreg. destruct Hreg as [Hd Hdirs].
    destruct (regular_spec d Hd) as (Hp & _).
    destruct (path_join_plain root d Hopen Hp) as [Hjoin Hopen'].
    rewrite Hjoin. destruct (IH _ Hopen' Hdirs) as [Ho Hc].
    split; [exact Ho |]. rewrite Hc, (components_join root d Hd), <- app_assoc.
    reflexivity.
Qed.

Lemma regular_names_dir (listable : bool) (entries : list (string * Fs.entry))
      (name : string) (sub : Fs.entry) :
  regular_names (Fs.Dir listable entries) = true -> In (name, sub) entries ->
  regular name = true /\ regular_names sub = true.
Proof.
  cbn [regular_names]. induction entries as [| [n s] entries IH]; intros Hall Hin.
  - destruct Hin.
  - apply andb_true_iff in Hall. destruct Hall as [Hhead Hall].
    apply andb_true_iff in Hhead. destruct Hhead as [Hname Hsub].
    destruct Hin as [Heq | Hin]; [| exact (IH Hall Hin)].
    injection Heq as <- <-. auto.
Qed.

Lemma regular_plain_dirs (e : Fs.entry) : regular_names e = true -> plain_dirs e = true.
Proof.
  induction e as [r d t | listable entries IH] using WalkFacts.entry_ind_sub;
    [reflexivity |].
  intros Hreg. cbn [plain_dirs].
  assert (Hall : forall name sub, In (name, sub) entries ->
                                  plain name = true /\ plain_dirs sub = true).
  { intros name sub Hin.
    destruct (regular_names_dir _ _ _ _ Hreg Hin) as [Hn Hs].
    split; [apply regular_spec in Hn; apply Hn | exact (IH _ _ Hin Hs)]. }
  clear Hreg IH. induction entries as [| [n s] entries IHl]; [reflexivity |].
  destruct (Hall n s (or_introl eq_refl)) as [-> ->].
  rewrite orb_true_r. cbn [andb]. apply IHl. intros name sub Hin. apply Hall. now right.
Qed.

(** The names on the way to a file of a tree with regular names. *)
Lemma located_regular (dirs : list string) (e : Fs.entry) (file : string) :
  regular_names e = true -> located dirs e file ->
  forallb regular dirs = true /\ regular file = true.
Proof.
  revert e; induction dirs as [| d dirs IH]; intros e Hreg Hloc;
    destruct e as [r dd t | [|] entries]; cbn [located] in Hloc; try destruct Hloc.
  - destruct H as [Hin _]. destruct (regular_names_dir _ _ _ _ Hreg Hin). auto.
  - destruct H as (Hin & _ & Hloc).
    destruct (regular_names_dir _ _ _ _ Hreg Hin) as [Hd Hsub].
    destruct (IH _ Hsub Hloc) as [Hdirs Hfile]. cbn [forallb]. rewrite Hd, Hdirs. auto.
Qed.

End RelPathFacts.

(** X17.  For a project path that is not empty and does not end with
    the separator, in a tree whose entries have regular names, every file
    that the walk collects is cached and reported under its path relative
    to the project root: the names of the directories that lead to it
    and its own name, joined by [/], after backslashes are replaced by
    [/]. *)
Theorem collected_files_relative_paths
        (fs : Fs.entry) (project_path : string) (include_tests : bool) (max_depth : Z)
        (top : Fs.entry) :
  Fs.lookup fs project_path = Some top ->
  WalkRules.open_ended project_path = true ->
  NameRules.regular_names top = true ->
  exists files,
    Analyzer._collect_code_files fs project_path include_tests max_depth
    = Returned files /\
    Forall (fun p => exists dirs file,
                WalkRules.located dirs top file /\
                p = WalkRules.path_below project_path dirs file /\
                Analyzer.rel_path_of project_path p
                = Fs.backslash_to_slash (PyStr.join "/" (dirs ++ [file])))
           files.
Proof.
  intros Htop Hopen Hreg.
  eexists. split; [exact (WalkFacts.collect_returned _ _ _ _ _ Htop) |].
  apply Forall_forall. intros p Hp.
  pose proof (PathFacts.collect_from_spec project_path include_tests max_depth top
                (RelPathFacts.regular_plain_dirs top Hreg) EmptyString p) as Hspec.
  rewrite StrFacts.append_nil_r in Hspec. apply (Hspec Hopen) in Hp.
  destruct Hp as (dirs & file & Hloc & _ & _ & _ & ->).
  exists dirs, file. split; [exact Hloc |]. split; [reflexivity |].
  destruct (RelPathFacts.located_regular dirs top file Hreg Hloc) as [Hdirs Hfile].
  destruct (RelPathFacts.fold_join_regular dirs project_path Hopen Hdirs) as [Ho Hc].
  destruct (RelPathFacts.regular_spec file Hfile) as (Hplain & _).
  destruct (PathFacts.path_join_plain _ file Ho Hplain) as [Hjoin _].
  unfold Analyzer.rel_path_of, WalkRules.path_below. rewrite Hjoin. f_equal.
  apply RelPathFacts.relpath_below.
  - now rewrite (RelPathFacts.components_join _ file Hfile), Hc, <- app_assoc.
  - destruct dirs; discriminate.
Qed.

Lemma collected_files_relative_paths_witness :
  Fs.lookup Samples.project_fs "/proj" <> None /\
  WalkRules.open_ended "/proj" = true /\
  (exists files,
      Analyzer._collect_code_files Samples.project_fs "/proj" true 10 = Returned files /\
      map (Analyzer.rel_path_of "/proj") files
      = ["a.py"; "bad.py"; "app.js"; "tests/test_a.py"]) /\
  match Fs.lookup Samples.project_fs "/proj" with
  | Some top =>
      exists files,
        Analyzer._collect_code_files Samples.project_fs "/proj" true 10
        = Returned files /\
        Forall (fun p => exists dirs file,
                    WalkRules.located dirs top file /\
                    p = WalkRules.path_below "/proj" dirs file /\
                    Analyzer.rel_path_of "/proj" p
                    = Fs.backslash_to_slash (PyStr.join "/" (dirs ++ [file])))
               files
  | None => False
  end.
Proof.
  split; [discriminate |]. split; [reflexivity |].
  split; [eexists; split; vm_compute; reflexivity |].
  destruct (Fs.lookup Samples.project_fs "/proj") as [top |] eqn:Htop.
  - apply (collected_files_relative_paths Samples.project_fs "/proj" true 10 top Htop
             eq_refl).
    vm_compute in Htop. injection Htop as <-. reflexivity.
  - vm_compute in Htop. discriminate.
Defined.
(* ================================================================== *)
(** ** Files given by name *)

Module ListedFacts.
Import PyStr TextSpec StrFacts WalkRules NameRules PathFacts RelPathFacts.

(** A path of regular names splits into them. *)
Lemma split_join_regular (names : list string) :
  names <> [] -> forallb regular names = true -> split "/" (join "/" names) = names.
Proof.
  induction names as [| n names IH]; [congruence |]. intros _ Hreg.
  cbn [forallb] in Hreg. apply andb_true_iff in Hreg. destruct Hreg as [Hn Hrest].
  destruct (regular_spec n Hn) as (Hp & _). destruct (plain_spec n Hp) as [_ Hocc].
  rewrite TextRulesFacts.join_cons. destruct names as [| m names].
  - apply (split_absent "/" n Hocc).
  - change (n ++ "/" ++ join "/" (m :: names))%string
      with (n ++ String "/" (join "/" (m :: names)))%string.
    rewrite split_sep, (split_absent "/" n Hocc), IH; [reflexivity | discriminate | exact Hrest].
Qed.

Lemma join_not_absolute (names : list string) (tail : string) :
  names <> [] -> forallb regular names = true ->
  startswith "/" (join "/" names ++ tail) = false.
Proof.
  destruct names as [| n names]; [congruence |]. intros _ Hreg.
  cbn [forallb] in Hreg. apply andb_true_iff in Hreg. destruct Hreg as [Hn _].
  destruct (regular_spec n Hn) as (Hp & _). destruct (plain_spec n Hp) as [Hne Hocc].
  unfold startswith. rewrite prefix_one, TextRulesFacts.join_cons.
  destruct n as [| c n]; [congruence |].
  cbn [occurs] in Hocc. apply orb_false_iff in Hocc. destruct Hocc as [Hc _].
  destruct names; exact Hc.
Qed.

Lemma split_nonempty (sep s : string) : split sep s <> [].
Proof. unfold split. destruct (split_go sep 0 s). discriminate. Qed.

(** Regular names are resolved by plain descent, whatever was passed on
    the way. *)
Lemma resolve_regular (names : list string) :
  forallb regular names = true ->
  forall up e, Fs.resolve up e names = descend e names.
Proof.
  induction names as [| n names IH]; intros Hreg up e; [reflexivity |].
  cbn [forallb] in Hreg. apply andb_true_iff in Hreg. destruct Hreg as [Hn Hrest].
  destruct (regular_spec n Hn) as (_ & H0 & H1 & H2).
  cbn [Fs.resolve descend]. destruct e as [r d t | listable entries]; [reflexivity |].
  destruct (String.eqb_spec n EmptyString); [congruence |].
  destruct (String.eqb_spec n "."); [congruence |].
  destruct (String.eqb_spec n ".."); [congruence |]. cbn [orb].
  destruct (Fs.child n entries); [apply IH, Hrest | reflexivity].
Qed.

(** Resolution goes on from the entry that the first components name. *)
Lemma resolve_app (l1 l2 : list string) (top : Fs.entry) :
  forall up e,
    Fs.resolve up e l1 = Some top ->
    exists up', Fs.resolve up e (l1 ++ l2) = Fs.resolve up' top l2.
Proof.
  induction l1 as [| c l1 IH]; intros up e Hres.
  - cbn [Fs.resolve] in Hres. injection Hres as ->. exists up. reflexivity.
  - cbn [app Fs.resolve] in *. destruct e as [r d t | listable entries]; [discriminate |].
    destruct (String.eqb c EmptyString || String.eqb c "."); [exact (IH _ _ Hres) |].
    destruct (String.eqb c "..").
    + destruct up as [| parent up]; exact (IH _ _ Hres).
    + destruct (Fs.child c entries); [exact (IH _ _ Hres) | discriminate].
Qed.

(** Names that lead nowhere: nothing is found, whatever follows. *)
Lemma resolve_nowhere (names cs : list string) :
  forallb regular names = true ->
  forall up e, descend e names = None -> Fs.resolve up e (names ++ cs) = None.
Proof.
  induction names as [| n names IH]; intros Hreg up e Hd; [discriminate |].
  cbn [forallb] in Hreg. apply andb_true_iff in Hreg. destruct Hreg as [Hn Hrest].
  destruct (regular_spec n Hn) as (_ & H0 & H1 & H2).
  cbn [app Fs.resolve descend] in *.
  destruct e as [r d t | listable entries]; [reflexivity |].
  destruct (String.eqb_spec n EmptyString); [congruence |].
  destruct (String.eqb_spec n "."); [congruence |].
  destruct (String.eqb_spec n ".."); [congruence |]. cbn [orb].
  destruct (Fs.child n entries); [exact (IH Hrest _ _ Hd) | reflexivity].
Qed.

(** Names that lead to a file: nothing is found beyond it. *)
Lemma resolve_through_file (names cs : list string) (r d : bool) (t : string) :
  forallb regular names = true -> cs <> [] ->
  forall up e,
    descend e names = Some (Fs.File r d t) -> Fs.resolve up e (names ++ cs) = None.
Proof.
  intros Hreg Hcs. induction names as [| n names IH]; intros up e Hd.
  - cbn [descend] in Hd. injection Hd as ->. destruct cs; [congruence | reflexivity].
  - cbn [forallb] in Hreg. apply andb_true_iff in Hreg. destruct Hreg as [Hn Hrest].
    destruct (regular_spec n Hn) as (_ & H0 & H1 & H2).
    cbn [app Fs.resolve descend] in *.
    destruct e as [r' d' t' | listable entries]; [reflexivity |].
    destruct (String.eqb_spec n EmptyString); [congruence |].
    destruct (String.eqb_spec n "."); [congruence |].
    destruct (String.eqb_spec n ".."); [congruence |]. cbn [orb].
    destruct (Fs.child n entries); [exact (IH Hrest _ _ Hd) | reflexivity].
Qed.

Lemma lookup_resolve (fs : Fs.entry) (path : string) (e : Fs.entry) :
  Fs.lookup fs path = Some e -> Fs.resolve [] fs (split "/" path) = Some e.
Proof.
  unfold Fs.lookup. destruct (_ || _); [discriminate | auto].
Qed.

(** The path of an entry given by names, below an open-ended root. *)
Lemma path_join_names (root : string) (names : list string) (tail : string) :
  open_ended root = true -> names <> [] -> forallb regular names = true ->
  Fs.path_join root (join "/" names ++ tail)
  = (root ++ String "/" (join "/" names ++ tail))%string.
Proof.
  intros Hopen Hne Hreg. apply open_ended_spec in Hopen. destruct Hopen as [Hroot He].
  unfold Fs.path_join. rewrite (join_not_absolute names tail Hne Hreg), He.
  destruct (String.eqb_spec root EmptyString); [congruence | reflexivity].
Qed.

(** What an entry made of regular names refers to. *)
Lemma lookup_below (fs : Fs.entry) (root : string) (top : Fs.entry) (names : list string) :
  Fs.lookup fs root = Some top -> open_ended root = true ->
  names <> [] -> forallb regular names = true ->
  Fs.embedded_null (join "/" names) = false ->
  Fs.lookup fs (Fs.path_join root (join "/" names)) = descend top names.
Proof.
  intros Htop Hopen Hne Hreg Hnull.
  pose proof (path_join_names root names EmptyString Hopen Hne Hreg) as Hjoin.
  rewrite !append_nil_r in Hjoin. rewrite Hjoin. unfold Fs.lookup.
  rewrite RunFacts.embedded_null_append, (WalkFacts.lookup_no_null _ _ _ Htop).
  cbn [Fs.embedded_null orb]. rewrite Hnull.
  apply open_ended_spec in Hopen. destruct Hopen as [Hroot _].
  destruct root as [| c root]; [congruence |]. cbn [append String.eqb orb].
  change (String c (root ++ String "/" (join "/" names)))
    with (String c root ++ String "/" (join "/" names))%string.
  rewrite split_sep, (split_join_regular names Hne Hreg).
  destruct (resolve_app _ names top [] fs (lookup_resolve _ _ _ Htop)) as (up' & ->).
  apply resolve_regular, Hreg.
Qed.

(** An entry that goes on after names that lead nowhere, or to a file,
    refers to nothing. *)
Lemma lookup_beyond (fs : Fs.entry) (root : string) (top : Fs.entry) (names : list string)
      (tail : string) :
  Fs.lookup fs root = Some top -> open_ended root = true ->
  names <> [] -> forallb regular names = true ->
  descend top names = None \/
  (exists r d t, descend top names = Some (Fs.File r d t)) ->
  Fs.lookup fs (Fs.path_join root (join "/" names ++ "/" ++ tail)) = None.
Proof.
  intros Htop Hopen Hne Hreg Hd.
  rewrite (path_join_names root names _ Hopen Hne Hreg). unfold Fs.lookup.
  destruct (String.eqb _ EmptyString || Fs.embedded_null _); [reflexivity |].
  change (join "/" names ++ "/" ++ tail)%string
    with (join "/" names ++ String "/" tail)%string.
  rewrite !split_sep, (split_join_regular names Hne Hreg).
  destruct (resolve_app _ (names ++ split "/" tail) top [] fs (lookup_resolve _ _ _ Htop))
    as (up' & ->).
  destruct Hd as [Hd | (r & d & t & Hd)].
  - now apply resolve_nowhere.
  - apply (resolve_through_file names _ r d t Hreg (split_nonempty _ _) _ _ Hd).
Qed.

End ListedFacts.

(** X19.  A file given in [specific_files] is neither filtered nor
    confined to the project: an entry that is an absolute path of an
    existing file is analysed as it stands, whatever its extension and
    wherever it lies, it counts as a file analysed, and the issues found
    in it are part of the report. *)
Theorem listed_files_are_not_confined
        {so : PySet.order}
        (ast_parse : string -> outcome PyAst.node) (md5_hexdigest : string -> string)
        (json_load : string -> outcome Dependencies.json) (fs : Fs.entry)
        (project_path : string) (include_tests : bool) (max_depth : Z)
        (listed : list string) (g : string) (r : Analyzer.report) :
  In g listed -> PyStr.startswith "/" g = true -> Fs.exists_ fs g = true ->
  Analyzer.analyze_project ast_parse md5_hexdigest json_load fs project_path include_tests
                           max_depth (Some listed) = Returned r ->
  exists code_files,
    Analyzer.code_files_of fs project_path include_tests max_depth (Some listed)
    = Returned code_files /\
    let file_contents := fold_left (Analyzer.load_file fs project_path) code_files [] in
    In g code_files /\
    1 <= Analyzer.files_analyzed r /\
    incl (Analyzer.analyze_file ast_parse project_path file_contents g)
         (Analyzer.issues r).
Proof.
  intros Hg Habs Hex Hrun.
  destruct (RunFacts.analyze_project_returned _ _ _ _ _ _ _ _ _ Hrun)
    as (code_files & sc & Hfiles & _ & Hissues & Hcount & _).
  exists code_files. split; [exact Hfiles |]. intros file_contents.
  assert (Hin : In g code_files).
  { destruct listed as [| f rest]; [destruct Hg |].
    assert (Hsel : code_files
                   = filter (Fs.exists_ fs) (map (Fs.path_join project_path) (f :: rest)))
      by (unfold Analyzer.code_files_of in Hfiles; congruence).
    rewrite Hsel. apply filter_In. split; [| exact Hex].
    apply in_map_iff. exists g. split; [| exact Hg].
    unfold Fs.path_join. now rewrite Habs. }
  split; [exact Hin |]. split.
  - rewrite Hcount.
    assert (Hlen : forall l : list string, In g l -> 1 <= Z.of_nat (List.length l)).
    { intros [| x l] H; [destruct H | cbn [List.length]; lia]. }
    exact (Hlen _ Hin).
  - rewrite Hissues. unfold Analyzer.all_issues_of. fold file_contents.
    intros i Hi. apply in_or_app. left. apply in_flat_map. exists g. auto.
Qed.

Lemma listed_files_are_not_confined_witness :
  exists r,
    Analyzer.analyze_project (so := Samples.first_added) Fixtures.fixture_parse
                             Samples.plain_hash Samples.no_json
                             Fixtures.outside_fs "/proj" true 10
                             (Some ["main.py"; "/etc/tool.js"]) = Returned r /\
    exists code_files,
      Analyzer.code_files_of Fixtures.outside_fs "/proj" true 10
                             (Some ["main.py"; "/etc/tool.js"]) = Returned code_files /\
      In "/etc/tool.js" code_files /\
      1 <= Analyzer.files_analyzed r.
Proof.
  destruct (Analyzer.analyze_project (so := Samples.first_added) Fixtures.fixture_parse
              Samples.plain_hash Samples.no_json Fixtures.outside_fs "/proj" true 10
              (Some ["main.py"; "/etc/tool.js"])) as [r | e] eqn:E.
  - exists r. split; [reflexivity |].
    destruct (listed_files_are_not_confined
                (so := Samples.first_added)
                Fixtures.fixture_parse Samples.plain_hash Samples.no_json
                Fixtures.outside_fs "/proj" true 10 ["main.py"; "/etc/tool.js"]
                "/etc/tool.js" r (or_intror (or_introl eq_refl)) eq_refl eq_refl E)
      as (code_files & Hfiles & H1 & H2 & _).
    exists code_files. split; [exact Hfiles |]. split; [exact H1 | exact H2].
  - vm_compute in E. discriminate.
Defined.

(** The file outside the project is reported under a path that climbs
    out of the root. *)
Example listed_files_sample :
  match Analyzer.analyze_project (so := Samples.first_added) Fixtures.fixture_parse
                                 Samples.plain_hash Samples.no_json
                                 Fixtures.outside_fs "/proj" true 10
                                 (Some ["main.py"; "/etc/tool.js"; "missing.py"]) with
  | Returned r =>
      Analyzer.files_analyzed r = 2 /\
      In ("../etc/tool.js", "High Cyclomatic Complexity")
         (map (fun i => (file_path i, category i)) (Analyzer.issues r))
  | Raised _ => False
  end.
Proof. vm_compute. split; [reflexivity | tauto]. Qed.

(** C5, as the code has it.  With a non-empty list of specific files
    the files analysed are the listed entries, joined to the root, that
    exist, in the order of the list; the tree is not walked: the
    selection does not fail even when a walk would, the run does not
    depend on [include_tests] or [max_depth], and its report counts the
    files kept and holds their issues.  Below a root that exists, an
    entry made of regular names joined by the separator is kept exactly
    when the names, followed one by one from the root, lead to an entry;
    an entry that goes on after names that lead nowhere or to a file is
    not kept.  An empty list is treated like no list: the tree is
    walked. *)
Theorem specific_files_selection
        {so : PySet.order}
        (ast_parse : string -> outcome PyAst.node) (md5_hexdigest : string -> string)
        (json_load : string -> outcome Dependencies.json) (fs : Fs.entry)
        (project_path : string) (include_tests : bool) (max_depth : Z)
        (f : string) (rest : list string) :
  let listed := f :: rest in
  let kept := filter (Fs.exists_ fs) (map (Fs.path_join project_path) listed) in
  Analyzer.code_files_of fs project_path include_tests max_depth (Some listed)
  = Returned kept /\
  (forall p,
      In p kept
      <-> exists g, In g listed /\ p = Fs.path_join project_path g /\
                    Fs.exists_ fs p = true) /\
  (forall r,
      Analyzer.analyze_project ast_parse md5_hexdigest json_load fs project_path
                               include_tests max_depth (Some listed) = Returned r ->
      Analyzer.files_analyzed r = Z.of_nat (List.length kept) /\
      Analyzer.issues r
      = Analyzer.all_issues_of ast_parse md5_hexdigest json_load fs project_path kept) /\
  (Z.of_nat (List.length
               (Analyzer.all_issues_of ast_parse md5_hexdigest json_load fs project_path
                                       kept)) <= PY_SSIZE_T_MAX ->
   exists r,
     Analyzer.analyze_project ast_parse md5_hexdigest json_load fs project_path
                              include_tests max_depth (Some listed) = Returned r) /\
  (forall include_tests' max_depth',
      Analyzer.analyze_project ast_parse md5_hexdigest json_load fs project_path
                               include_tests' max_depth' (Some listed)
      = Analyzer.analyze_project ast_parse md5_hexdigest json_load fs project_path
                                 include_tests max_depth (Some listed)) /\
  (forall top names,
      Fs.lookup fs project_path = Some top ->
      WalkRules.open_ended project_path = true ->
      names <> [] -> forallb NameRules.regular names = true ->
      Fs.embedded_null (PyStr.join "/" names) = false ->
      In (PyStr.join "/" names) listed ->
      (In (Fs.path_join project_path (PyStr.join "/" names)) kept
       <-> WalkRules.descend top names <> None)) /\
  (forall top names tail,
      Fs.lookup fs project_path = Some top ->
      WalkRules.open_ended project_path = true ->
      names <> [] -> forallb NameRules.regular names = true ->
      WalkRules.descend top names = None \/
      (exists r d t, WalkRules.descend top names = Some (Fs.File r d t)) ->
      ~ In (Fs.path_join project_path (PyStr.join "/" names ++ "/" ++ tail)) kept) /\
  Analyzer.code_files_of fs project_path include_tests max_depth (Some [])
  = Analyzer._collect_code_files fs project_path include_tests max_depth /\
  Analyzer.analyze_project ast_parse md5_hexdigest json_load fs project_path
                           include_tests max_depth (Some [])
  = Analyzer.analyze_project ast_parse md5_hexdigest json_load fs project_path
                             include_tests max_depth None.
Proof.
  intros listed kept.
  assert (Hkept : forall p,
             In p kept
             <-> exists g, In g listed /\ p = Fs.path_join project_path g /\
                           Fs.exists_ fs p = true).
  { intros p. unfold kept. rewrite filter_In, in_map_iff. split.
    - intros [(g & <- & Hg) Hex]. exists g. auto.
    - intros (g & Hg & -> & Hex). split; [exists g; auto | exact Hex]. }
  split; [reflexivity |]. split; [exact Hkept |]. split.
  { intros r Hrun.
    destruct (RunFacts.analyze_project_returned _ _ _ _ _ _ _ _ _ Hrun)
      as (code_files & sc & Hfiles & _ & Hissues & Hcount & _).
    assert (Hsel : code_files = kept)
      by (unfold Analyzer.code_files_of in Hfiles; subst kept listed; congruence).
    rewrite <- Hsel. auto. }
  split.
  { intros Hlen.
    destruct (AnalyzerFacts.analyze_project_report ast_parse md5_hexdigest json_load fs
                project_path include_tests max_depth (Some listed) kept eq_refl Hlen)
      as (r & Hr & _).
    exists r. exact Hr. }
  split; [reflexivity |]. split.
  { intros top names Htop Hopen Hne Hreg Hnull Hin. rewrite Hkept.
    unfold Fs.exists_.
    rewrite (ListedFacts.lookup_below fs project_path top names Htop Hopen Hne Hreg Hnull).
    split.
    - intros (g & _ & _ & Hex). destruct (WalkRules.descend top names); [| discriminate].
      discriminate.
    - intros Hd. exists (PyStr.join "/" names). split; [exact Hin |].
      split; [reflexivity |].
      destruct (WalkRules.descend top names); [reflexivity | congruence]. }
  split.
  { intros top names tail Htop Hopen Hne Hreg Hd Hin. apply Hkept in Hin.
    destruct Hin as (_ & _ & _ & Hex). unfold Fs.exists_ in Hex.
    rewrite (ListedFacts.lookup_beyond fs project_path top names tail Htop Hopen Hne
               Hreg Hd) in Hex. discriminate. }
  split; reflexivity.
Qed.

(** C5, as stated, fails: with the empty list the tree is walked and
    four files are analysed. *)
Lemma empty_specific_files_counterexample :
  Analyzer.code_files_of Samples.project_fs "/proj" true 10 (Some [])
  = Returned ["/proj/a.py"; "/proj/bad.py"; "/proj/app.js"; "/proj/tests/test_a.py"] /\
  (exists r,
      Analyzer.analyze_project (so := Samples.first_added) Samples.sample_parse
                               Samples.plain_hash Samples.no_json
                               Samples.project_fs "/proj" true 10 (Some []) = Returned r /\
      Analyzer.files_analyzed r = 4) /\
  ~ (Analyzer.code_files_of Samples.project_fs "/proj" true 10 (Some []) = Returned []).
Proof.
  split; [vm_compute; reflexivity |]. split.
  - eexists. split; [vm_compute; reflexivity | reflexivity].
  - vm_compute. discriminate.
Qed.

(** Entries that name nothing are dropped, each for its reason: a
    missing directory before [..], a file followed by a separator or by
    a name, a missing file; an entry through a directory and [..] is
    kept, spelled as it was given. *)
Example specific_files_sample :
  Analyzer.code_files_of Fixtures.outside_fs "/proj" false 0
    (Some ["main.py"; "nodir/../main.py"; "main.py/"; "main.py/x"; "contest/entry.py";
           "missing.py"; "contest/../latest.py"; "contest"])
  = Returned ["/proj/main.py"; "/proj/contest/entry.py"; "/proj/contest/../latest.py";
              "/proj/contest"] /\
  WalkRules.descend (Fs.Dir true []) ["nodir"] = None /\
  Analyzer.code_files_of Fixtures.outside_fs Samples.null_path false 0
    (Some ["main.py"; "/proj/main.py"])
  = Returned ["/proj/main.py"].
Proof. vm_compute. repeat split; reflexivity. Qed.
(* ================================================================== *)
(** ** The category scores in integer arithmetic *)

Module RoundingFacts.
Import FloatSpec FloatFacts.

(** Rounding [mx * 2^ex]: the mantissa is cut at the exponent [e1] that
    the format selects, rounded to one of its two neighbours, and the
    result denotes that neighbour exactly. *)
Lemma round_aux_value (mx ex : Z) (lx : location) :
  0 < mx ->
  let e1 := Z.max ex (fexp prec emax (Zdigits2 mx + ex)) in
  let m1 := mx / 2 ^ (e1 - ex) in
  exists m2, m1 <= m2 <= m1 + 1 /\
    match binary_round_aux prec emax false mx ex lx with
    | S754_zero s => s = false /\ m2 = 0
    | S754_finite s m e => s = false /\ e1 <= e <= e1 + 1 /\ Zpos m * 2 ^ (e - e1) = m2
    | S754_infinity s => s = false /\ 971 <= e1
    | S754_nan => False
    end.
Proof.
  intros Hmx e1 m1.
  assert (Hm0 : 0 <= mx) by lia.
  unfold binary_round_aux.
  destruct (shr_fexp_spec mx ex lx Hm0) as [He1 Hm1].
  destruct (shr_fexp prec emax mx ex lx) as [mrs1 e1']. cbn [fst snd] in He1, Hm1.
  fold e1 in He1, Hm1. subst e1'. fold m1 in Hm1.
  set (m2 := round_nearest_even (shr_m mrs1) (loc_of_shr_record mrs1)).
  pose proof (round_nearest_even_bounds (shr_m mrs1) (loc_of_shr_record mrs1)) as Hr.
  fold m2 in Hr. rewrite Hm1 in Hr.
  exists m2. split; [exact Hr |].
  assert (Hd : 0 < Zdigits2 mx).
  { destruct mx; cbn [Zdigits2]; lia. }
  assert (Hlow : 2 ^ (Zdigits2 mx - 1) <= mx < 2 ^ Zdigits2 mx).
  { destruct mx as [| p | p]; try lia. cbn [Zdigits2].
    split; [apply digits2_pos_low | apply digits2_pos_bound]. }
  assert (Hfe : -1074 <= e1 /\ Zdigits2 mx + ex - 53 <= e1 /\ ex <= e1).
  { unfold e1, fexp, SpecFloat.emin, prec, emax. lia. }
  assert (Hm1lt : 0 <= m1 < 2 ^ 53).
  { unfold m1. split; [apply Z.div_pos; lia |].
    apply Z.div_lt_upper_bound; [lia |].
    rewrite <- Z.pow_add_r by lia.
    apply Z.lt_le_trans with (2 ^ Zdigits2 mx); [lia |].
    apply Z.pow_le_mono_r; lia. }
  assert (Hm2 : 0 <= m2 <= 2 ^ 53) by lia.
  destruct (shr_fexp_spec m2 e1 loc_Exact (proj1 Hm2)) as [He2 Hm3].
  destruct (shr_fexp prec emax m2 e1 loc_Exact) as [mrs2 e2]. cbn [fst snd] in He2, Hm3.
  rewrite <- He2 in Hm3.
  assert (Hexact : e1 <= e2 <= e1 + 1 /\ shr_m mrs2 * 2 ^ (e2 - e1) = m2).
  { destruct (Z.eq_dec m2 (2 ^ 53)) as [Etop | Hne].
    - rewrite Etop in He2, Hm3. change (Zdigits2 (2 ^ 53)) with 54 in He2.
      assert (E2 : e2 = e1 + 1).
      { rewrite He2. unfold fexp, SpecFloat.emin, prec, emax. lia. }
      rewrite E2 in Hm3 |- *. replace (e1 + 1 - e1) with 1 in Hm3 |- * by lia.
      rewrite Hm3, Etop. split; [lia | reflexivity].
    - assert (Hd2 : Zdigits2 m2 <= 53) by (apply Zdigits2_le; lia).
      assert (E2 : e2 = e1).
      { rewrite He2. unfold fexp, SpecFloat.emin, prec, emax. lia. }
      rewrite E2 in Hm3 |- *. rewrite Z.sub_diag in Hm3 |- *.
      rewrite Z.div_1_r in Hm3. rewrite Hm3. split; lia. }
  destruct Hexact as [Hle Hval].
  destruct (shr_m mrs2) as [| m3 | m3] eqn:Em3.
  - cbn. split; [reflexivity | lia].
  - destruct (Z.leb_spec e2 (emax - prec)) as [Hfin | Hinf]; cbn; auto.
    unfold emax, prec in Hinf. split; [reflexivity | lia].
  - assert (0 <= 2 ^ (e2 - e1)) by lia. lia.
Qed.

(** The exponent of the cut stays below what the size of the quantity
    calls for. *)
Lemma cut_exponent_bound (mx ex B : Z) :
  0 < mx < 2 ^ (B - ex) -> ex <= B ->
  Z.max ex (fexp prec emax (Zdigits2 mx + ex)) <= Z.max ex (Z.max (B - 53) (-1074)).
Proof.
  intros Hmx HB.
  assert (Hd : Zdigits2 mx <= B - ex) by (apply Zdigits2_le; lia).
  unfold fexp, SpecFloat.emin, prec, emax. lia.
Qed.

(** A cut above the smallest exponent keeps 53 bits. *)
Lemma cut_normal (mx ex : Z) :
  0 < mx ->
  let e1 := Z.max ex (fexp prec emax (Zdigits2 mx + ex)) in
  ex < e1 -> -1074 < e1 -> 2 ^ 52 <= mx / 2 ^ (e1 - ex).
Proof.
  intros Hmx e1 Hcut Hmin.
  assert (Hlow : 2 ^ (Zdigits2 mx - 1) <= mx).
  { destruct mx as [| p | p]; try lia. cbn [Zdigits2]. apply digits2_pos_low. }
  assert (Hd : 0 < Zdigits2 mx) by (destruct mx; cbn [Zdigits2]; lia).
  assert (He1 : e1 - ex = Zdigits2 mx - 53).
  { unfold e1, fexp, SpecFloat.emin, prec, emax in *. lia. }
  rewrite He1. apply Z.div_le_lower_bound; [lia |].
  rewrite <- Z.pow_add_r by lia.
  replace (Zdigits2 mx - 53 + 52) with (Zdigits2 mx - 1) by lia. exact Hlow.
Qed.

(** The integer part of a rounded quantity; the conversion fails only
    on overflow. *)
Lemma to_int_round (mx ex : Z) (lx : location) :
  0 < mx ->
  let e1 := Z.max ex (fexp prec emax (Zdigits2 mx + ex)) in
  let m1 := mx / 2 ^ (e1 - ex) in
  exists m2, m1 <= m2 <= m1 + 1 /\
    match to_int (binary_round_aux prec emax false mx ex lx) with
    | Returned n => n = if e1 <=? 0 then m2 / 2 ^ (- e1) else m2 * 2 ^ e1
    | Raised _ => 971 <= e1
    end.
Proof.
  intros Hmx e1 m1.
  destruct (round_aux_value mx ex lx Hmx) as (m2 & Hm2 & Hres).
  fold e1 in Hres. fold e1 m1 in Hm2.
  exists m2. split; [exact Hm2 |].
  destruct (binary_round_aux prec emax false mx ex lx) as [s | s | | s m e].
  - destruct Hres as [_ ->]. cbn [to_int]. now destruct (e1 <=? 0).
  - cbn [to_int]. lia.
  - contradiction.
  - destruct Hres as (-> & He & Hval). cbn [to_int]. subst m2.
    destruct (Z.leb_spec e1 0) as [Hneg | Hpos].
    + destruct e as [| e' | e'] eqn:Ee; cbn [magnitude_trunc].
      * replace (0 - e1) with (- e1) by lia. rewrite Z.div_mul by lia. lia.
      * replace (Z.pos e' - e1) with (Z.pos e' + - e1) by lia.
        rewrite Z.pow_add_r, Z.mul_assoc by lia. now rewrite Z.div_mul by lia.
      * replace (- e1) with (Z.pos e' + (Z.neg e' - e1)) by lia.
        rewrite Z.pow_add_r by lia.
        rewrite Z.div_mul_cancel_r by lia. reflexivity.
    + destruct e as [| e' | e'] eqn:Ee; cbn [magnitude_trunc]; try lia.
      rewrite <- Z.mul_assoc, <- Z.pow_add_r by lia. do 2 f_equal. lia.
Qed.

(** The quotient of two positive integers: the scaled integer quotient,
    rounded with the position of the remainder. *)
Lemma fdiv_positive (p f : positive) :
  let s := - Z.min (fexp prec emax (Zdigits2 (Zpos p) - Zdigits2 (Zpos f))) 0 in
  fdiv (exact (Zpos p)) (exact (Zpos f))
  = binary_round_aux prec emax false ((Zpos p * 2 ^ s) / Zpos f) (- s)
                     (new_location (Zpos f) ((Zpos p * 2 ^ s) mod Zpos f)).
Proof.
  intros s. cbn [exact]. unfold fdiv, SFdiv, SFdiv_core_binary.
  replace (Zdigits2 (Zpos p) + 0 - (Zdigits2 (Zpos f) + 0))
    with (Zdigits2 (Zpos p) - Zdigits2 (Zpos f)) by lia.
  replace (Z.min (fexp prec emax (Zdigits2 (Zpos p) - Zdigits2 (Zpos f))) (0 - 0))
    with (- s) by (unfold s; lia).
  assert (Hs : 0 <= s).
  { unfold s, fexp, SpecFloat.emin, prec, emax. lia. }
  replace (0 - 0 - - s) with s by lia.
  assert (Hm : match s with
               | 0 => Zpos p
               | Zpos _ => Z.shiftl (Zpos p) s
               | Zneg _ => 0
               end = Zpos p * 2 ^ s).
  { destruct s as [| s' | s'] eqn:Es.
    - cbn. lia.
    - now rewrite Z.shiftl_mul_pow2 by lia.
    - lia. }
  rewrite Hm. unfold Z.div, Z.modulo.
  destruct (Z.div_eucl (Zpos p * 2 ^ s) (Zpos f)) as [q r]. reflexivity.
Qed.

Lemma new_location_spec (n k : Z) :
  0 < n -> 0 <= k < n ->
  new_location n k = if k =? 0 then loc_Exact else loc_Inexact (2 * k ?= n).
Proof.
  intros Hn Hk. unfold new_location, new_location_even, new_location_odd.
  destruct (Z.even n) eqn:Ev.
  - destruct (Z.leb_spec n 0); [lia |].
    destruct (Z.eqb_spec k 0) as [-> | Hne]; reflexivity.
  - destruct (Z.leb_spec n 0); [lia |].
    destruct (Z.eqb_spec k 0) as [-> | Hne]; [reflexivity |].
    f_equal.
    assert (Hodd : Z.odd n = true) by (now rewrite <- Z.negb_even, Ev).
    apply Z.odd_spec in Hodd. destruct Hodd as [h Hh].
    destruct (Z.compare_spec (2 * k + 1) n); destruct (Z.compare_spec (2 * k) n);
      try reflexivity; lia.
Qed.

(** Two fractions of the same value have the same integer quotient, and
    their remainders lie at the same position. *)
Lemma same_fraction (a f a' f' : Z) :
  0 < f -> 0 < f' -> 0 <= a -> a * f' = a' * f ->
  a / f = a' / f' /\ new_location f (a mod f) = new_location f' (a' mod f').
Proof.
  intros Hf Hf' Ha Heq.
  pose proof (Z.div_mod a f ltac:(lia)) as Ha1.
  pose proof (Z.mod_pos_bound a f Hf) as Hr.
  pose proof (Z.div_mod a' f' ltac:(lia)) as Ha2.
  pose proof (Z.mod_pos_bound a' f' Hf') as Hr'.
  set (q := a / f) in *. set (r := a mod f) in *.
  set (q' := a' / f') in *. set (r' := a' mod f') in *.
  assert (Hdiff : f * f' * (q - q') = r' * f - r * f') by nia.
  assert (Hb : 0 <= r * f' < f * f') by nia.
  assert (Hb' : 0 <= r' * f < f * f') by nia.
  assert (Hq : q = q').
  { destruct (Z.lt_trichotomy q q') as [Hlt | [Heq' | Hgt]]; [| exact Heq' |].
    - assert (f * f' * (q - q') <= f * f' * (-1)) by (apply Z.mul_le_mono_nonneg_l; nia).
      lia.
    - assert (f * f' * 1 <= f * f' * (q - q')) by (apply Z.mul_le_mono_nonneg_l; nia).
      lia. }
  assert (Hrr : r * f' = r' * f) by nia.
  split; [exact Hq |].
  rewrite !new_location_spec by lia.
  destruct (Z.eqb_spec r 0) as [Hr0 | Hr0]; destruct (Z.eqb_spec r' 0) as [Hr0' | Hr0'];
    try reflexivity; try nia.
  f_equal.
  destruct (Z.compare_spec (2 * r) f); destruct (Z.compare_spec (2 * r') f');
    try reflexivity; nia.
Qed.

End RoundingFacts.

Module ExactFacts.
Import FloatSpec FloatFacts RoundingFacts ExactRules Scores.

Lemma tenths_table (k s : Z) :
  1 <= k <= 99 -> 49 <= s <= 57 -> tenth_ok k s = true.
Proof.
  intros Hk Hs.
  assert (Hall : tenths_ok = true) by (vm_compute; reflexivity).
  unfold tenths_ok in Hall. rewrite forallb_forall in Hall.
  specialize (Hall (Z.to_nat k)). rewrite in_seq in Hall.
  specialize (Hall ltac:(lia)). rewrite forallb_forall in Hall.
  specialize (Hall (Z.to_nat s)). rewrite in_seq in Hall.
  specialize (Hall ltac:(lia)). now rewrite !Z2Nat.id in Hall by lia.
Qed.

Lemma digits_bounds (p : positive) :
  0 < Zdigits2 (Zpos p) /\
  2 ^ (Zdigits2 (Zpos p) - 1) <= Zpos p < 2 * 2 ^ (Zdigits2 (Zpos p) - 1).
Proof.
  cbn [Zdigits2]. split; [lia |]. split; [apply digits2_pos_low |].
  rewrite <- Z.pow_succ_r by lia.
  replace (Z.succ (Zpos (digits2_pos p) - 1)) with (Zpos (digits2_pos p)) by lia.
  apply digits2_pos_bound.
Qed.

(** The scale of the division when the two sizes are close: the scaled
    quotient has 53 or 54 bits. *)
Lemma division_scale (p f : positive) :
  Zdigits2 (Zpos p) - Zdigits2 (Zpos f) <= 53 ->
  Zdigits2 (Zpos f) <= 1000 ->
  let s := - Z.min (fexp prec emax (Zdigits2 (Zpos p) - Zdigits2 (Zpos f))) 0 in
  s = 53 - (Zdigits2 (Zpos p) - Zdigits2 (Zpos f)) /\
  2 ^ 52 <= (Zpos p * 2 ^ s) / Zpos f < 2 ^ 54.
Proof.
  intros Hclose Hf s.
  destruct (digits_bounds p) as (Hd1 & Hp). destruct (digits_bounds f) as (Hd2 & Hfb).
  set (d1 := Zdigits2 (Zpos p)) in *. set (d2 := Zdigits2 (Zpos f)) in *.
  assert (Hs : s = 53 - (d1 - d2)).
  { unfold s, fexp, SpecFloat.emin, prec, emax. lia. }
  split; [exact Hs |]. rewrite Hs.
  assert (Hpow : 2 ^ (d1 - 1) * 2 ^ (53 - (d1 - d2)) = 2 ^ 53 * 2 ^ (d2 - 1)).
  { rewrite <- !Z.pow_add_r by lia. f_equal. lia. }
  set (P1 := 2 ^ (d1 - 1)) in *. set (F1 := 2 ^ (d2 - 1)) in *.
  set (S := 2 ^ (53 - (d1 - d2))) in *.
  assert (HS : 0 < S) by (apply Z.pow_pos_nonneg; lia).
  assert (HF1 : 0 < F1) by (apply Z.pow_pos_nonneg; lia).
  assert (HP1 : 0 < P1) by (apply Z.pow_pos_nonneg; lia).
  assert (Hlo : P1 * S <= Zpos p * S) by (apply Z.mul_le_mono_nonneg_r; lia).
  assert (Hhi : Zpos p * S < 2 * P1 * S) by (apply Z.mul_lt_mono_pos_r; lia).
  split.
  - apply Z.div_le_lower_bound; [lia |].
    change (2 ^ 52) with 4503599627370496. change (2 ^ 53) with 9007199254740992 in Hpow.
    lia.
  - apply Z.div_lt_upper_bound; [lia |].
    change (2 ^ 54) with 18014398509481984. change (2 ^ 53) with 9007199254740992 in Hpow.
    lia.
Qed.

(** The sizes of two integers whose ratio is below ten, or above a
    hundredth. *)
Lemma digits_of_small_ratio (p f : positive) :
  Zpos p < 10 * Zpos f -> Zdigits2 (Zpos p) - Zdigits2 (Zpos f) <= 4.
Proof.
  intros Hr.
  destruct (digits_bounds p) as (Hd1 & Hp). destruct (digits_bounds f) as (Hd2 & Hfb).
  set (d1 := Zdigits2 (Zpos p)) in *. set (d2 := Zdigits2 (Zpos f)) in *.
  destruct (Z_le_gt_dec (d1 - d2) 4) as [| Hgt]; [assumption | exfalso].
  assert (Hpow : 2 ^ (d2 - 1 + 5) <= 2 ^ (d1 - 1)) by (apply Z.pow_le_mono_r; lia).
  rewrite Z.pow_add_r in Hpow by lia. change (2 ^ 5) with 32 in Hpow. lia.
Qed.

Lemma digits_of_tenths (p f : positive) :
  Zpos f <= 10 * Zpos p -> -4 <= Zdigits2 (Zpos p) - Zdigits2 (Zpos f).
Proof.
  intros Hr.
  destruct (digits_bounds p) as (Hd1 & Hp). destruct (digits_bounds f) as (Hd2 & Hfb).
  set (d1 := Zdigits2 (Zpos p)) in *. set (d2 := Zdigits2 (Zpos f)) in *.
  destruct (Z_le_gt_dec (-4) (d1 - d2)) as [| Hgt]; [assumption | exfalso].
  assert (Hpow : 2 ^ (d1 - 1 + 5) <= 2 ^ (d2 - 1)) by (apply Z.pow_le_mono_r; lia).
  rewrite Z.pow_add_r in Hpow by lia. change (2 ^ 5) with 32 in Hpow. lia.
Qed.

(** When [10 p] is [k] times [f], the quotient is the double nearest to
    [k / 10], and ten times it has the integer part [k]. *)
Lemma quotient_of_tenths (p f : positive) (k : Z) :
  1 <= k <= 99 -> 10 * Zpos p = k * Zpos f -> Zdigits2 (Zpos f) <= 1000 ->
  to_int (fmul (fdiv (exact (Zpos p)) (exact (Zpos f))) (of_int 10)) = Returned k.
Proof.
  intros Hk Hmul Hf.
  pose proof (digits_of_small_ratio p f ltac:(nia)) as Hup.
  pose proof (digits_of_tenths p f ltac:(nia)) as Hdown.
  rewrite fdiv_positive.
  destruct (division_scale p f ltac:(lia) Hf) as [Hs Hq].
  set (s := - Z.min (fexp prec emax (Zdigits2 (Zpos p) - Zdigits2 (Zpos f))) 0) in *.
  assert (Hs0 : 0 < 2 ^ s) by (apply Z.pow_pos_nonneg; lia).
  destruct (same_fraction (Zpos p * 2 ^ s) (Zpos f) (k * 2 ^ s) 10) as [Hquot Hloc];
    try nia.
  rewrite Hquot in Hq |- *. rewrite Hloc.
  pose proof (tenths_table k s Hk ltac:(lia)) as Hok. unfold tenth_ok in Hok.
  destruct (Z.leb_spec (2 ^ 52) (k * 2 ^ s / 10)); [| lia].
  destruct (Z.ltb_spec (k * 2 ^ s / 10) (2 ^ 54)); [| lia].
  cbn [andb negb orb] in Hok.
  destruct (to_int _) as [n | e]; [| discriminate].
  apply Z.eqb_eq in Hok. now subst n.
Qed.

(** Ten times a double [q] with [k <= 10 q] and [10 q] far enough below
    [k + 1] has the integer part [k]. *)
Lemma times_ten_int (mq : positive) (eq k : Z) :
  eq <= -46 -> 0 <= k < 100 ->
  k * 2 ^ (- eq) <= 10 * Zpos mq ->
  10 * Zpos mq + 2 ^ (- eq - 46) < (k + 1) * 2 ^ (- eq) ->
  to_int (fmul (S754_finite false mq eq) (of_int 10)) = Returned k.
Proof.
  intros Heq Hk Hlow Hupp. rewrite ScoresFacts.of_int_10.
  unfold fmul, SFmul. cbn [xorb].
  set (M := Zpos (mq * 5629499534213120)). set (E := eq + -49).
  assert (HM : M = Zpos mq * 10 * 2 ^ 49).
  { unfold M. rewrite Pos2Z.inj_mul. change (2 ^ 49) with 562949953421312. lia. }
  assert (HM0 : 0 < M) by (unfold M; lia).
  assert (HQ : 0 < 2 ^ (- eq)) by (apply Z.pow_pos_nonneg; lia).
  assert (HQ46 : 0 < 2 ^ (- eq - 46)) by (apply Z.pow_pos_nonneg; lia).
  assert (Hu : 2 ^ (- E) = 2 ^ 49 * 2 ^ (- eq)).
  { rewrite <- Z.pow_add_r by lia. f_equal. unfold E. lia. }
  assert (Hsize : M < 2 ^ (7 - E)).
  { replace (7 - E) with (7 + - E) by lia. rewrite Z.pow_add_r, Hu, HM by (unfold E; lia).
    change (2 ^ 7) with 128. change (2 ^ 49) with 562949953421312. nia. }
  pose proof (cut_exponent_bound M E 7 ltac:(lia) ltac:(unfold E; lia)) as Hcut.
  destruct (to_int_round M E loc_Exact HM0) as (m2 & Hm2 & Hint).
  set (e1 := Z.max E (fexp prec emax (Zdigits2 M + E))) in *.
  assert (He1 : E <= e1 <= -46) by (unfold e1, E in *; lia).
  destruct (to_int _) as [n | err]; [| lia]. subst n.
  destruct (Z.leb_spec e1 0); [| lia]. f_equal.
  assert (HT : 0 < 2 ^ (- e1)) by (apply Z.pow_pos_nonneg; lia).
  assert (HG : 0 < 2 ^ (e1 - E)) by (apply Z.pow_pos_nonneg; lia).
  assert (HTG : 2 ^ (e1 - E) * 2 ^ (- e1) = 2 ^ (- E)).
  { rewrite <- Z.pow_add_r by lia. f_equal. lia. }
  assert (HG46 : 2 ^ (e1 - E) <= 2 ^ 49 * 2 ^ (- eq - 46)).
  { rewrite <- Z.pow_add_r by lia. apply Z.pow_le_mono_r; unfold E; lia. }
  set (T := 2 ^ (- e1)) in *. set (G := 2 ^ (e1 - E)) in *.
  set (Q := 2 ^ (- eq)) in *. set (Q46 := 2 ^ (- eq - 46)) in *.
  change (2 ^ 49) with 562949953421312 in *.
  assert (Hlo : k * T <= M / G).
  { apply Z.div_le_lower_bound; [lia |]. nia. }
  assert (Hhi : M / G < (k + 1) * T - 1).
  { apply Z.div_lt_upper_bound; [lia |]. nia. }
  symmetry. apply Z.div_unique with (r := m2 - k * T); lia.
Qed.

(** The two inequalities behind the next lemma: [mx] is the quotient of
    [p * T * G] by [f], and [m1] the quotient of [mx] by [G]. *)
Lemma cut_quotient_lower (p f k T G mx m1 r r1 : Z) :
  0 < f -> 0 <= k -> 0 < G -> 18 * f <= T ->
  p * (T * G) = f * mx + r -> 0 <= r < f ->
  mx = G * m1 + r1 -> 0 <= r1 < G ->
  k * f < 10 * p ->
  k * T <= 10 * m1.
Proof.
  intros Hf Hk HG HT Hp Hr Hmx Hr1 Hkp.
  destruct (Z_le_gt_dec (k * T) (10 * m1)) as [| Hno]; [assumption | exfalso].
  assert (E1 : G * (10 * m1 + 1) <= G * (k * T)) by (apply Z.mul_le_mono_nonneg_l; lia).
  assert (A : 10 * mx + 10 <= G * (k * T + 9)) by lia.
  assert (B : f * (10 * mx + 10) <= f * (G * (k * T + 9)))
    by (apply Z.mul_le_mono_nonneg_l; lia).
  assert (C : (T * G) * (k * f + 1) <= (T * G) * (10 * p)).
  { apply Z.mul_le_mono_nonneg_l; [| lia].
    apply Z.mul_nonneg_nonneg; lia. }
  assert (D : G * (18 * f) <= G * T) by (apply Z.mul_le_mono_nonneg_l; lia).
  assert (P : 0 < f * G) by (apply Z.mul_pos_pos; lia).
  lia.
Qed.

Lemma cut_quotient_upper (p f k T T49 G mx m1 r r1 : Z) :
  0 < f < 17592186044416 -> 0 <= k -> 0 < G -> 0 < T49 ->
  T = 562949953421312 * T49 ->
  p * (T * G) = f * mx + r -> 0 <= r < f ->
  mx = G * m1 + r1 -> 0 <= r1 < G ->
  10 * p < (k + 1) * f ->
  10 * (m1 + 1) + 8 * T49 < (k + 1) * T.
Proof.
  intros Hf Hk HG HT49 HT Hp Hr Hmx Hr1 Hkp.
  destruct (Z_lt_ge_dec (10 * (m1 + 1) + 8 * T49) ((k + 1) * T)) as [| Hno];
    [assumption | exfalso].
  assert (HTG : 0 <= T * G) by (apply Z.mul_nonneg_nonneg; lia).
  assert (S1 : (T * G) * (10 * p) <= (T * G) * ((k + 1) * f - 1))
    by (apply Z.mul_le_mono_nonneg_l; lia).
  assert (S2 : f * (G * m1) <= f * mx) by (apply Z.mul_le_mono_nonneg_l; lia).
  assert (HfG : 0 <= f * G) by (apply Z.mul_nonneg_nonneg; lia).
  assert (S3 : (f * G) * ((k + 1) * T - 10 * m1) <= (f * G) * (18 * T49))
    by (apply Z.mul_le_mono_nonneg_l; lia).
  assert (HTG49 : 0 < T49 * G) by (apply Z.mul_pos_pos; lia).
  assert (S4 : (T49 * G) * (18 * f + 1) <= (T49 * G) * 562949953421312)
    by (apply Z.mul_le_mono_nonneg_l; lia).
  subst T. lia.
Qed.

(** When [10 p / f] lies strictly between [k] and [k + 1], so does ten
    times the quotient, with room to spare on the upper side. *)
Lemma quotient_between (p f : positive) (k : Z) :
  0 <= k < 100 -> Zpos f < 2 ^ 44 ->
  k * Zpos f < 10 * Zpos p < (k + 1) * Zpos f ->
  exists mq eq,
    fdiv (exact (Zpos p)) (exact (Zpos f)) = S754_finite false mq eq /\
    eq <= -46 /\ k * 2 ^ (- eq) <= 10 * Zpos mq /\
    10 * Zpos mq + 2 ^ (- eq - 46) < (k + 1) * 2 ^ (- eq).
Proof.
  intros Hk Hf Hbetween.
  pose proof (digits_of_small_ratio p f ltac:(nia)) as Hup.
  assert (Hd2 : Zdigits2 (Zpos f) <= 44) by (apply Zdigits2_le; lia).
  destruct (digits_bounds p) as (Hd1 & _).
  rewrite fdiv_positive.
  destruct (division_scale p f ltac:(lia) ltac:(lia)) as [Hs Hq].
  set (s := - Z.min (fexp prec emax (Zdigits2 (Zpos p) - Zdigits2 (Zpos f))) 0) in *.
  assert (Hs' : 49 <= s <= 96) by lia.
  assert (HS : 0 < 2 ^ s) by (apply Z.pow_pos_nonneg; lia).
  pose proof (Z.div_mod (Zpos p * 2 ^ s) (Zpos f) ltac:(lia)) as Hdm.
  pose proof (Z.mod_pos_bound (Zpos p * 2 ^ s) (Zpos f) ltac:(lia)) as Hr.
  set (mx := Zpos p * 2 ^ s / Zpos f) in *.
  set (r := (Zpos p * 2 ^ s) mod Zpos f) in *.
  assert (Hmx : 0 < mx) by lia.
  assert (Hsize : mx < 2 ^ (4 - - s)).
  { replace (4 - - s) with (4 + s) by lia. rewrite Z.pow_add_r by lia.
    change (2 ^ 4) with 16. nia. }
  pose proof (cut_exponent_bound mx (- s) 4 ltac:(lia) ltac:(lia)) as Hcut.
  destruct (round_aux_value mx (- s) (new_location (Zpos f) r) Hmx) as (m2 & Hm2 & Hres).
  set (e1 := Z.max (- s) (fexp prec emax (Zdigits2 mx + - s))) in *.
  assert (He1 : - s <= e1 <= -49) by (unfold e1 in *; lia).
  replace (e1 - - s) with (s - - e1) in Hm2 by lia.
  set (t := - e1) in *.
  assert (Ht : 49 <= t <= s) by (unfold t; lia).
  assert (HT : 2 ^ t = 2 ^ 49 * 2 ^ (t - 49)).
  { rewrite <- Z.pow_add_r by lia. f_equal. lia. }
  assert (HT46 : 2 ^ (t - 46) = 8 * 2 ^ (t - 49)).
  { change 8 with (2 ^ 3). rewrite <- Z.pow_add_r by lia. f_equal. lia. }
  assert (HSTG : 2 ^ s = 2 ^ t * 2 ^ (s - t)).
  { rewrite <- Z.pow_add_r by lia. f_equal. lia. }
  assert (HT49 : 0 < 2 ^ (t - 49)) by (apply Z.pow_pos_nonneg; lia).
  assert (HG : 0 < 2 ^ (s - t)) by (apply Z.pow_pos_nonneg; lia).
  assert (HGle : 2 ^ (s - t) <= 2 ^ 47) by (apply Z.pow_le_mono_r; lia).
  pose proof (Z.div_mod mx (2 ^ (s - t)) ltac:(lia)) as Hdm1.
  pose proof (Z.mod_pos_bound mx (2 ^ (s - t)) HG) as Hr1.
  set (m1 := mx / 2 ^ (s - t)) in *. set (r1 := mx mod 2 ^ (s - t)) in *.
  set (S := 2 ^ s) in *. set (T := 2 ^ t) in *. set (G := 2 ^ (s - t)) in *.
  set (T49 := 2 ^ (t - 49)) in *. set (T46 := 2 ^ (t - 46)) in *.
  change (2 ^ 49) with 562949953421312 in HT.
  change (2 ^ 44) with 17592186044416 in Hf.
  change (2 ^ 47) with 140737488355328 in HGle.
  change (2 ^ 52) with 4503599627370496 in Hq.
  assert (Hm1pos : 1 <= m1).
  { destruct (Z_le_gt_dec 1 m1) as [| Hz]; [assumption | exfalso].
    assert (m1 = 0) by (assert (0 <= m1) by (apply Z.div_pos; lia); lia). nia. }
  assert (Hlow : k * T <= 10 * m1).
  { apply (cut_quotient_lower (Zpos p) (Zpos f) k T G mx m1 r r1); subst S; lia. }
  assert (Hupp : 10 * (m1 + 1) + T46 < (k + 1) * T).
  { rewrite HT46.
    apply (cut_quotient_upper (Zpos p) (Zpos f) k T T49 G mx m1 r r1); subst S; lia. }
  destruct (binary_round_aux prec emax false mx (- s) (new_location (Zpos f) r))
    as [sg | sg | | sg mq eq].
  - lia.
  - lia.
  - contradiction.
  - destruct Hres as (-> & Heq & Hval). exists mq, eq.
    split; [reflexivity |]. split; [lia |].
    assert (HW : 0 < 2 ^ (eq - e1)) by (apply Z.pow_pos_nonneg; lia).
    assert (HQ : T = 2 ^ (- eq) * 2 ^ (eq - e1)).
    { unfold T. rewrite <- Z.pow_add_r by lia. f_equal. lia. }
    assert (HQ46 : T46 = 2 ^ (- eq - 46) * 2 ^ (eq - e1)).
    { unfold T46. rewrite <- Z.pow_add_r by lia. f_equal. lia. }
    set (W := 2 ^ (eq - e1)) in *. set (Q := 2 ^ (- eq)) in *.
    set (Q46 := 2 ^ (- eq - 46)) in *.
    split.
    + apply Z.mul_le_mono_pos_r with W; [exact HW |]. nia.
    + apply Z.mul_lt_mono_pos_r with W; [exact HW |]. nia.
Qed.

(** A quotient of ten or more: ten times it has an integer part of a
    hundred or more. *)
Lemma quotient_large (p f : positive) (n : Z) :
  10 * Zpos f <= Zpos p ->
  to_int (fmul (fdiv (exact (Zpos p)) (exact (Zpos f))) (of_int 10)) = Returned n ->
  100 <= n.
Proof.
  intros Hbig. rewrite fdiv_positive.
  set (s := - Z.min (fexp prec emax (Zdigits2 (Zpos p) - Zdigits2 (Zpos f))) 0).
  assert (Hs : 0 <= s) by (unfold s, fexp, SpecFloat.emin, prec, emax; lia).
  assert (HS : 0 < 2 ^ s) by (apply Z.pow_pos_nonneg; lia).
  set (mx := Zpos p * 2 ^ s / Zpos f).
  assert (Hmx : 10 * 2 ^ s <= mx).
  { apply Z.div_le_lower_bound; [lia |]. nia. }
  destruct (round_aux_value mx (- s) (new_location (Zpos f) ((Zpos p * 2 ^ s) mod Zpos f))
              ltac:(lia)) as (m2 & Hm2 & Hres).
  pose proof (cut_normal mx (- s) ltac:(lia)) as Hnormal. cbv zeta in Hnormal.
  set (e1 := Z.max (- s) (fexp prec emax (Zdigits2 mx + - s))) in *.
  assert (He1 : - s <= e1) by (unfold e1; lia).
  assert (HG : 0 < 2 ^ (e1 - - s)) by (apply Z.pow_pos_nonneg; lia).
  assert (HQ : 10 * 2 ^ s <= m2 * 2 ^ (e1 - - s)).
  { destruct (Z_le_gt_dec e1 1) as [Hfine | Hcoarse].
    - assert (Hm1 : 5 * 2 ^ (1 - e1) <= mx / 2 ^ (e1 - - s)).
      { apply Z.div_le_lower_bound; [lia |].
        replace (2 ^ (e1 - - s) * (5 * 2 ^ (1 - e1))) with (5 * 2 ^ (1 + s)).
        - rewrite Z.pow_add_r by lia. change (2 ^ 1) with 2. lia.
        - replace (1 + s) with ((e1 - - s) + (1 - e1)) by lia.
          rewrite Z.pow_add_r by lia. ring. }
      apply Z.le_trans with (5 * 2 ^ (1 - e1) * 2 ^ (e1 - - s)).
      + rewrite <- Z.mul_assoc, <- Z.pow_add_r by lia.
        replace (1 - e1 + (e1 - - s)) with (1 + s) by lia.
        rewrite Z.pow_add_r by lia. change (2 ^ 1) with 2. lia.
      + apply Z.mul_le_mono_nonneg_r; lia.
    - specialize (Hnormal ltac:(lia) ltac:(lia)).
      apply Z.le_trans with (2 ^ 52 * 2 ^ (e1 - - s)).
      + replace (e1 - - s) with (s + e1) by lia. rewrite Z.pow_add_r by lia.
        assert (0 < 2 ^ e1) by (apply Z.pow_pos_nonneg; lia).
        change (2 ^ 52) with 4503599627370496. nia.
      + apply Z.mul_le_mono_nonneg_r; lia. }
  clear Hnormal.
  destruct (binary_round_aux prec emax false mx (- s) _) as [sg | sg | | sg mq eq].
  - destruct Hres as [_ ->]. lia.
  - destruct Hres as [-> _]. discriminate.
  - contradiction.
  - destruct Hres as (-> & Heq & Hval).
    assert (Hq : 10 * 2 ^ s <= Zpos mq * 2 ^ (eq + s)).
    { replace (eq + s) with ((eq - e1) + (e1 - - s)) by lia.
      rewrite Z.pow_add_r, Z.mul_assoc, Hval by lia. exact HQ. }
    clear HQ Hval Hm2 m2.
    rewrite ScoresFacts.of_int_10. unfold fmul, SFmul. cbn [xorb].
    set (M := Zpos (mq * 5629499534213120)). set (E := eq + -49).
    assert (HM : M = Zpos mq * 10 * 2 ^ 49).
    { unfold M. rewrite Pos2Z.inj_mul. change (2 ^ 49) with 562949953421312. lia. }
    assert (HM0 : 0 < M) by (unfold M; lia).
    destruct (to_int_round M E loc_Exact HM0) as (m2 & Hm2 & Hint).
    pose proof (cut_normal M E HM0) as Hnormal. cbv zeta in Hnormal.
    set (e1' := Z.max E (fexp prec emax (Zdigits2 M + E))) in *.
    assert (He1' : E <= e1') by (unfold e1'; lia).
    intros Hn. rewrite Hn in Hint. subst n.
    assert (HG' : 0 < 2 ^ (e1' - E)) by (apply Z.pow_pos_nonneg; lia).
    destruct (Z.leb_spec e1' 0) as [Hneg | Hpos].
    + apply Z.div_le_lower_bound; [apply Z.pow_pos_nonneg; lia |].
      apply Z.le_trans with (M / 2 ^ (e1' - E)); [| lia].
      apply Z.div_le_lower_bound; [lia |].
      rewrite Z.mul_assoc, <- Z.pow_add_r by lia.
      replace (e1' - E + - e1') with (49 - eq) by (unfold E; lia).
      apply Z.mul_le_mono_pos_r with (2 ^ (eq + s)); [apply Z.pow_pos_nonneg; lia |].
      assert (Hp : 2 ^ (49 - eq) * 2 ^ (eq + s) = 2 ^ 49 * 2 ^ s).
      { rewrite <- !Z.pow_add_r by (unfold E in *; lia). f_equal. lia. }
      rewrite HM. change (2 ^ 49) with 562949953421312 in *. lia.
    + assert (Hm1 : 100 <= M / 2 ^ (e1' - E)).
      { destruct (Z.eq_dec e1' E) as [-> | Hne].
        - rewrite Z.sub_diag, Z.div_1_r, HM.
          change (2 ^ 49) with 562949953421312. lia.
        - specialize (Hnormal ltac:(lia) ltac:(lia)).
          change (2 ^ 52) with 4503599627370496 in Hnormal. lia. }
      assert (0 < 2 ^ e1') by (apply Z.pow_pos_nonneg; lia). nia.
Qed.

(** Ten times the quotient of two integers, truncated: what the score
    keeps of it is what integer division gives. *)
Lemma times_ten_floor (p f : positive) (n : Z) :
  Zpos f < 2 ^ 44 ->
  to_int (fmul (fdiv (exact (Zpos p)) (exact (Zpos f))) (of_int 10)) = Returned n ->
  Z.max 0 (100 - n) = Z.max 0 (100 - (10 * Zpos p) / Zpos f).
Proof.
  intros Hf Hn.
  destruct (Z_le_gt_dec (10 * Zpos f) (Zpos p)) as [Hbig | Hsmall].
  - pose proof (quotient_large p f n Hbig Hn) as Hn100.
    assert (100 <= 10 * Zpos p / Zpos f) by (apply Z.div_le_lower_bound; lia).
    lia.
  - pose proof (Z.div_mod (10 * Zpos p) (Zpos f) ltac:(lia)) as Hdm.
    pose proof (Z.mod_pos_bound (10 * Zpos p) (Zpos f) ltac:(lia)) as Hr.
    set (k := 10 * Zpos p / Zpos f) in *. set (r := (10 * Zpos p) mod Zpos f) in *.
    assert (Hk : 0 <= k < 100).
    { split; [apply Z.div_pos; lia |]. apply Z.div_lt_upper_bound; lia. }
    assert (Hret : to_int (fmul (fdiv (exact (Zpos p)) (exact (Zpos f))) (of_int 10))
                   = Returned k).
    { destruct (Z.eq_dec r 0) as [Hr0 | Hr0].
      - apply quotient_of_tenths; [nia | lia |].
        apply Z.le_trans with 44; [apply Zdigits2_le; lia | lia].
      - destruct (quotient_between p f k Hk Hf ltac:(nia)) as (mq & eq & -> & Heq & Hlo & Hhi).
        now apply times_ten_int. }
    rewrite Hret in Hn. now injection Hn as <-.
Qed.

(** A category score is computed without loss. *)
Lemma calc_category_score_exact (files_analyzed : Z) (l : list issue) :
  files_analyzed < 2 ^ 44 ->
  Z.of_nat (List.length l) <= PY_SSIZE_T_MAX ->
  calc_category_score files_analyzed l = Returned (category_points files_analyzed l).
Proof.
  intros Hfiles Hlen.
  destruct (ScoresFacts.calc_category_score_returns files_analyzed l Hlen) as (sc & Hsc).
  rewrite Hsc. f_equal. revert Hsc.
  unfold calc_category_score, category_points, penalty_of. destruct l as [| i l].
  - intros H. injection H as <-. reflexivity.
  - rewrite ScoresFacts.fold_left_penalty.
    pose proof (ScoresFacts.Zsum_penalty_range (i :: l)) as Hrange.
    cbn [List.length] in Hrange.
    set (penalty := Zsum (map (fun i0 => severity_penalty (severity i0)) (i :: l))) in *.
    replace (0 + penalty) with penalty by lia.
    destruct penalty as [| p | p]; try lia.
    destruct (Z.max files_analyzed 1) as [| f | f] eqn:Ef; try lia.
    unfold int_truediv. cbn [Z.eqb].
    destruct (fdiv (exact (Zpos p)) (exact (Zpos f))) as [s | s | | s m e] eqn:Eq;
      cbv [obind]; try discriminate.
    + destruct (to_int _) as [n | err] eqn:En; [| discriminate].
      intros H. injection H as <-. rewrite <- Eq in En.
      apply times_ten_floor; [lia | exact En].
    + destruct (to_int _) as [n | err] eqn:En; [| discriminate].
      intros H. injection H as <-. rewrite <- Eq in En.
      apply times_ten_floor; [lia | exact En].
Qed.

End ExactFacts.

(** X20.  For a run over at least one and fewer than 2^44 files, with no
    more issues than a list can hold, the three category scores are what
    integer arithmetic gives: 100 less the floor of ten times the penalty
    divided by the number of files, and not below 0.  The float division
    and the multiplication by 10 lose nothing. *)
Theorem category_scores_exact (issues : list issue) (files_analyzed : Z) :
  0 < files_analyzed < 2 ^ 44 ->
  Z.of_nat (List.length issues) <= PY_SSIZE_T_MAX ->
  exists s,
    Scores._calculate_scores issues files_analyzed = Returned s /\
    Scores.complexity s
    = ExactRules.category_points
        files_analyzed
        (Scores.of_type "complexity" issues ++ Scores.of_type "smell" issues
         ++ Scores.of_type "architecture" issues) /\
    Scores.duplication s
    = ExactRules.category_points files_analyzed (Scores.of_type "duplication" issues) /\
    Scores.dependency s
    = ExactRules.category_points files_analyzed (Scores.of_type "dependency" issues).
Proof.
  intros Hfiles Hlen.
  destruct (ScoresFacts.calculate_scores_returns issues files_analyzed Hlen)
    as (_ & s & Hs & _).
  exists s. split; [exact Hs |].
  assert (Hsub : forall t, Z.of_nat (List.length (Scores.of_type t issues))
                           <= PY_SSIZE_T_MAX).
  { intros t.
    pose proof (filter_length_le (fun i => String.eqb (issue_type i) t) issues) as H.
    unfold Scores.of_type. lia. }
  assert (Hall : Z.of_nat (List.length
                   (Scores.of_type "complexity" issues ++ Scores.of_type "smell" issues
                      ++ Scores.of_type "architecture" issues)) <= PY_SSIZE_T_MAX).
  { rewrite (Permutation_length (ScoresFacts.complexity_bucket_perm issues)).
    pose proof (filter_length_le
                  (Scores.in_bucket ["complexity"; "smell"; "architecture"]) issues).
    lia. }
  unfold Scores._calculate_scores in Hs.
  destruct (Z.eqb_spec files_analyzed 0) as [| _]; [lia |].
  rewrite !ExactFacts.calc_category_score_exact in Hs by (lia || apply Hsub || exact Hall).
  cbv [obind] in Hs.
  destruct (to_int _) as [o | ex]; [| discriminate].
  injection Hs as <-.
  cbn [Scores.complexity Scores.duplication Scores.dependency]. auto.
Qed.

Lemma category_scores_exact_witness :
  exists s,
    Scores._calculate_scores Samples.scored_issues 30 = Returned s /\
    Scores.complexity s = 65 /\ Scores.duplication s = 67 /\ Scores.dependency s = 70.
Proof.
  destruct (category_scores_exact Samples.scored_issues 30) as (s & Hs & Hc & Hd & He).
  - change (2 ^ 44) with 17592186044416. lia.
  - vm_compute. discriminate.
  - exists s. split; [exact Hs |].
    rewrite Hc, Hd, He. vm_compute. repeat split; reflexivity.
Defined.

(** Three files and penalties of 10, 20 and 2: the quotients 10/3 and
    20/3 are not doubles, and the scores are 67, 34 and 94. *)
Example category_scores_sample :
  Scores._calculate_scores
    [Samples.plain_issue "complexity" "high";
     Samples.plain_issue "duplication" "critical"; Samples.plain_issue "duplication" "medium";
     Samples.plain_issue "dependency" "low"] 3
  = Returned (Scores.mk_scores 65 67 34 94).
Proof. vm_compute. reflexivity. Qed.
(* ================================================================== *)
(** ** The overall score from below *)

Module LowerFacts.
Import FloatSpec FloatFacts RoundingFacts ExactRules Scores ScoreRules.

Lemma above_mono (X Y : Z) (x : float) : Y <= X -> above X x -> above Y x.
Proof. destruct x as [| | | [] m e]; cbn; intuition lia. Qed.

Lemma aboveb_above (X : Z) (x : float) : aboveb X x = true -> above X x.
Proof.
  destruct x as [| | | [] m e]; cbn; try discriminate.
  - now rewrite Z.leb_le.
  - rewrite andb_true_iff, Z.leb_le, Z.leb_le. auto.
Qed.

(** Rounding a positive quantity of value at least [V], below [2^B]. *)
Lemma binary_round_above (mx : positive) (ex V B : Z) :
  -1074 <= ex -> V <= Zpos mx * 2 ^ (ex + 1074) ->
  Zpos mx * 2 ^ (ex + 1074) < 2 ^ (B + 1074) ->
  -1074 <= B <= 1023 ->
  above (V - 2 ^ (Z.max (B - 53) (-1074) + 1074)) (binary_round prec emax false mx ex).
Proof.
  intros Hex HV Hlt HB. unfold binary_round.
  set (t := fexp prec emax (Zpos (digits2_pos mx) + ex)).
  destruct (shl_align_spec mx ex t) as [He Hm].
  destruct (shl_align mx ex t) as [mz ez]. cbn [fst snd] in He, Hm.
  rewrite <- He in Hm.
  assert (HexB : ex < B).
  { assert (H2 : 2 ^ (ex + 1074) < 2 ^ (B + 1074)).
    { assert (Hq : 0 < 2 ^ (ex + 1074)) by lia. clear - Hlt Hq. nia. }
    apply Z.pow_lt_mono_r_iff in H2; lia. }
  assert (Hmxlt : Zpos mx < 2 ^ (B - ex)).
  { replace (B + 1074) with ((B - ex) + (ex + 1074)) in Hlt by lia.
    rewrite (Z.pow_add_r 2 (B - ex) (ex + 1074)) in Hlt by lia.
    assert (Hq : 0 < 2 ^ (ex + 1074)) by lia.
    apply Z.mul_lt_mono_pos_r in Hlt; assumption. }
  assert (Hdig : Zpos (digits2_pos mx) <= B - ex).
  { apply (Zdigits2_le (Zpos mx)); lia. }
  assert (Ht : -1074 <= t <= Z.max (B - 53) (-1074)).
  { unfold t, fexp, SpecFloat.emin, prec, emax. lia. }
  assert (Hez : -1074 <= ez <= ex) by lia.
  assert (Hmzlt : Zpos mz < 2 ^ (B - ez)).
  { rewrite Hm. replace (B - ez) with ((B - ex) + (ex - ez)) by lia.
    rewrite Z.pow_add_r by lia. apply Z.mul_lt_mono_pos_r; [lia | assumption]. }
  assert (HV' : V <= Zpos mz * 2 ^ (ez + 1074)).
  { rewrite Hm. rewrite <- Z.mul_assoc, <- Z.pow_add_r by lia.
    replace (ex - ez + (ez + 1074)) with (ex + 1074) by lia. exact HV. }
  pose proof (cut_exponent_bound (Zpos mz) ez B ltac:(lia) ltac:(lia)) as Hcut.
  destruct (round_aux_value (Zpos mz) ez loc_Exact ltac:(lia)) as (m2 & Hm2 & Hres).
  set (e1 := Z.max ez (fexp prec emax (Zdigits2 (Zpos mz) + ez))) in *.
  set (U := Z.max (B - 53) (-1074)) in *.
  assert (He1 : ez <= e1 <= U) by (unfold e1 in *; lia).
  assert (HG : 0 < 2 ^ (e1 - ez)) by (apply Z.pow_pos_nonneg; lia).
  pose proof (Z.div_mod (Zpos mz) (2 ^ (e1 - ez)) ltac:(lia)) as Hdm.
  pose proof (Z.mod_pos_bound (Zpos mz) (2 ^ (e1 - ez)) HG) as Hr.
  set (m1 := Zpos mz / 2 ^ (e1 - ez)) in *.
  assert (Hpow : 2 ^ (e1 + 1074) = 2 ^ (e1 - ez) * 2 ^ (ez + 1074)).
  { rewrite <- Z.pow_add_r by lia. f_equal. lia. }
  assert (HU : 2 ^ (e1 + 1074) <= 2 ^ (U + 1074)) by (apply Z.pow_le_mono_r; lia).
  assert (Hz : 0 < 2 ^ (ez + 1074)) by (apply Z.pow_pos_nonneg; lia).
  assert (Hval : V - 2 ^ (U + 1074) <= m2 * 2 ^ (e1 + 1074)).
  { apply Z.le_trans with (m1 * 2 ^ (e1 + 1074)).
    - rewrite Hpow. 
      assert (Zpos mz * 2 ^ (ez + 1074) - 2 ^ (e1 - ez) * 2 ^ (ez + 1074)
              <= m1 * (2 ^ (e1 - ez) * 2 ^ (ez + 1074))).
      { rewrite Z.mul_assoc, <- Z.mul_sub_distr_r.
        apply Z.mul_le_mono_nonneg_r; lia. }
      lia.
    - apply Z.mul_le_mono_nonneg_r; [| lia]. apply Z.pow_nonneg. lia. }
  destruct (binary_round_aux prec emax false (Zpos mz) ez loc_Exact) as [s | s | | s m e];
    cbn [above].
  - destruct Hres as [_ Hz2]. rewrite Hz2 in Hval. lia.
  - unfold U in He1. lia.
  - exact Hres.
  - destruct Hres as (-> & Hee & Hme). split; [lia |].
    replace (e + 1074) with ((e - e1) + (e1 + 1074)) by lia.
    rewrite (Z.pow_add_r 2 (e - e1) (e1 + 1074)) by lia.
    rewrite Z.mul_assoc, Hme. exact Hval.
Qed.

(** Adding two non-negative doubles: the sum falls short of the exact
    one by at most one unit in the last place of [2^B]. *)
Lemma fadd_above (X Y X' Y' B : Z) (x y : float) :
  above X x -> above Y y -> below X' x -> below Y' y ->
  X' + Y' < 2 ^ (B + 1074) -> -1074 <= B <= 1023 ->
  above (X + Y - 2 ^ (Z.max (B - 53) (-1074) + 1074)) (fadd x y).
Proof.
  intros Hx Hy Hx' Hy' Hlt HB.
  assert (Hpow : 0 < 2 ^ (Z.max (B - 53) (-1074) + 1074)) by lia.
  destruct x as [sx | sx | | sx mx ex]; try contradiction;
    destruct y as [sy | sy | | sy my ey]; try contradiction.
  - cbn [above] in Hx, Hy. unfold fadd, SFadd.
    destruct sx, sy; cbn [above]; lia.
  - apply above_mono with Y; [cbn [above] in Hx; lia | exact Hy].
  - apply above_mono with X; [cbn [above] in Hy; lia | exact Hx].
  - destruct sx; [contradiction |]. destruct sy; [contradiction |].
    cbn [above below] in Hx, Hy, Hx', Hy'.
    destruct Hx as [Hex Hx], Hy as [Hey Hy], Hx' as [_ Hx'], Hy' as [_ Hy'].
    unfold fadd, SFadd. cbn [cond_Zopp].
    set (ez := Z.min ex ey).
    destruct (shl_align_spec mx ex ez) as [_ Hmx].
    destruct (shl_align_spec my ey ez) as [_ Hmy].
    replace (Z.min ex ez) with ez in Hmx by lia.
    replace (Z.min ey ez) with ez in Hmy by lia.
    set (ax := fst (shl_align mx ex ez)) in *.
    set (ay := fst (shl_align my ey ez)) in *.
    change (Zpos ax + Zpos ay) with (Zpos (ax + ay)).
    cbn [binary_normalize].
    assert (Hsum : Zpos (ax + ay) * 2 ^ (ez + 1074)
                   = Zpos mx * 2 ^ (ex + 1074) + Zpos my * 2 ^ (ey + 1074)).
    { rewrite Pos2Z.inj_add, Z.mul_add_distr_r, Hmx, Hmy.
      rewrite <- !Z.mul_assoc, <- !Z.pow_add_r by lia.
      replace (ex - ez + (ez + 1074)) with (ex + 1074) by lia.
      replace (ey - ez + (ez + 1074)) with (ey + 1074) by lia.
      reflexivity. }
    apply binary_round_above; try lia.
Qed.

(** The integer part of a double is at least the integer part of a lower
    bound of it. *)
Lemma to_int_above (V : Z) (x : float) (n : Z) :
  above V x -> to_int x = Returned n -> V / 2 ^ 1074 <= n.
Proof.
  intros Hx Hn.
  assert (HU : 0 < 2 ^ 1074) by (apply Z.pow_pos_nonneg; lia).
  destruct x as [s | s | | s m e]; try contradiction.
  - cbn in Hn. injection Hn as <-. cbn [above] in Hx.
    apply Z.div_le_upper_bound; lia.
  - destruct s; [contradiction |]. destruct Hx as [He Hx].
    cbn [to_int] in Hn. injection Hn as <-.
    unfold magnitude_trunc. destruct e as [| p | p].
    + rewrite Z.pow_0_r, Z.mul_1_r. cbn [Z.add] in Hx.
      apply Z.div_le_upper_bound; lia.
    + apply Z.div_le_upper_bound; [lia |].
      rewrite Z.pow_add_r in Hx by lia. lia.
    + apply Z.le_trans with (Zpos m * 2 ^ (Zneg p + 1074) / 2 ^ 1074).
      * apply Z.div_le_mono; lia.
      * replace 1074 with (Zpos p + (Zneg p + 1074)) at 2 by lia.
        rewrite (Z.pow_add_r 2 (Zpos p) (Zneg p + 1074)) by lia.
        rewrite Z.div_mul_cancel_r by lia. lia.
Qed.

(** The products of a score with the weights, from below, in units of
    [2^-46]. *)
Lemma weighted_products_above (c : Z) :
  0 <= c <= 100 ->
  above ((4 * c * 2 ^ 46 / 10 - 64) * 2 ^ 1028) (fmul (of_int c) f0_4) /\
  above ((3 * c * 2 ^ 46 / 10 - 64) * 2 ^ 1028) (fmul (of_int c) f0_3).
Proof.
  intros Hc.
  assert (Htab : forallb (fun n =>
                    aboveb ((4 * Z.of_nat n * 2 ^ 46 / 10 - 64) * 2 ^ 1028)
                           (fmul (of_int (Z.of_nat n)) f0_4)
                    && aboveb ((3 * Z.of_nat n * 2 ^ 46 / 10 - 64) * 2 ^ 1028)
                              (fmul (of_int (Z.of_nat n)) f0_3))
                         (seq 0 101) = true) by (vm_compute; reflexivity).
  rewrite forallb_forall in Htab.
  specialize (Htab (Z.to_nat c)). rewrite Z2Nat.id in Htab by lia.
  rewrite andb_true_iff in Htab.
  destruct Htab as [Ha Hb]; [apply in_seq; lia |].
  split; apply aboveb_above; assumption.
Qed.

(** The weighted sum of three valid scores falls short of the exact one
    by less than one. *)
Lemma weighted_above_exact (c d e o : Z) :
  valid_score c -> valid_score d -> valid_score e ->
  weighted c d e = Returned o ->
  4 * c + 3 * d + 3 * e - 10 <= 10 * o.
Proof.
  unfold valid_score, weighted. intros Hc Hd He Ho.
  destruct (weighted_products_above c Hc) as [Ha _].
  destruct (weighted_products_above d Hd) as [_ Hb].
  destruct (weighted_products_above e He) as [_ Hb'].
  destruct (ScoreRulesFacts.weighted_products_below c Hc) as [Ha' _].
  destruct (ScoreRulesFacts.weighted_products_below d Hd) as [_ Hd'].
  destruct (ScoreRulesFacts.weighted_products_below e He) as [_ He'].
  assert (E46 : 2 ^ 46 = 70368744177664) by reflexivity.
  pose proof (Z.div_mod (4 * c * 2 ^ 46) 10 ltac:(lia)) as Hka.
  pose proof (Z.mod_pos_bound (4 * c * 2 ^ 46) 10 ltac:(lia)) as Hra.
  pose proof (Z.div_mod (3 * d * 2 ^ 46) 10 ltac:(lia)) as Hkb.
  pose proof (Z.mod_pos_bound (3 * d * 2 ^ 46) 10 ltac:(lia)) as Hrb.
  pose proof (Z.div_mod (3 * e * 2 ^ 46) 10 ltac:(lia)) as Hkc.
  pose proof (Z.mod_pos_bound (3 * e * 2 ^ 46) 10 ltac:(lia)) as Hrc.
  remember (4 * c * 2 ^ 46 / 10) as ka eqn:Eka. remember (3 * d * 2 ^ 46 / 10) as kb eqn:Ekb.
  remember (3 * e * 2 ^ 46 / 10) as kc eqn:Ekc.
  remember ((4 * c * 2 ^ 46) mod 10) as ra eqn:Era.
  remember ((3 * d * 2 ^ 46) mod 10) as rb eqn:Erb.
  remember ((3 * e * 2 ^ 46) mod 10) as rc eqn:Erc.
  clear Eka Ekb Ekc Era Erb Erc.
  rewrite E46 in *.
  assert (Hu : 0 < 2 ^ 1028) by (apply Z.pow_pos_nonneg; lia).
  assert (HU : 2 ^ 1074 = 70368744177664 * 2 ^ 1028).
  { rewrite <- E46, <- Z.pow_add_r by lia. reflexivity. }
  assert (H7 : 2 ^ (7 + 1074) = 128 * 70368744177664 * 2 ^ 1028).
  { change (7 + 1074) with (7 + 46 + 1028). rewrite !Z.pow_add_r by lia. rewrite E46.
    reflexivity. }
  assert (Hulp : 2 ^ (Z.max (7 - 53) (-1074) + 1074) = 2 ^ 1028) by reflexivity.
  remember (2 ^ 1028) as u eqn:Eu. clear Eu.
  pose proof (fadd_below _ _ 7 _ _ Ha' Hd' ltac:(nia) ltac:(nia) ltac:(nia) ltac:(lia))
    as Hab'.
  rewrite Hulp in Hab'.
  pose proof (fadd_above _ _ _ _ 7 _ _ Ha Hb Ha' Hd' ltac:(nia) ltac:(lia)) as Hab.
  rewrite Hulp in Hab.
  pose proof (fadd_above _ _ _ _ 7 _ _ Hab Hb' Hab' He' ltac:(nia) ltac:(lia)) as Hsum.
  rewrite Hulp in Hsum.
  pose proof (to_int_above _ _ _ Hsum Ho) as Hint.
  rewrite HU in Hint.
  replace ((ka - 64) * u + (kb - 64) * u - u + (kc - 64) * u - u)
    with ((ka + kb + kc - 194) * u) in Hint by ring.
  rewrite Z.div_mul_cancel_r in Hint by lia.
  pose proof (Z.div_mod (4 * c + 3 * d + 3 * e - 1) 10 ltac:(lia)) as Hn.
  pose proof (Z.mod_pos_bound (4 * c + 3 * d + 3 * e - 1) 10 ltac:(lia)) as Hnr.
  assert (Hlow : (4 * c + 3 * d + 3 * e - 1) / 10 <= (ka + kb + kc - 194) / 70368744177664).
  { apply Z.div_le_lower_bound; lia. }
  lia.
Qed.

End LowerFacts.

(** X21.  The overall score is the floor of the exact weighted average
    [(4c + 3d + 3e) / 10] of the three category scores, or one less; it
    can be one less only when [4c + 3d + 3e] is a multiple of 10. *)
Theorem overall_score_within_one (issues : list issue) (files_analyzed : Z)
        (s : Scores.scores) :
  Scores._calculate_scores issues files_analyzed = Returned s ->
  let exact_sum :=
    4 * Scores.complexity s + 3 * Scores.duplication s + 3 * Scores.dependency s in
  Scores.overall s = exact_sum / 10 \/
  (Scores.overall s = exact_sum / 10 - 1 /\ exact_sum mod 10 = 0).
Proof.
  intros Hs exact_sum.
  assert (Hw : Scores.valid_score (Scores.complexity s) /\
               Scores.valid_score (Scores.duplication s) /\
               Scores.valid_score (Scores.dependency s) /\
               ScoreRules.weighted (Scores.complexity s) (Scores.duplication s)
                                   (Scores.dependency s) = Returned (Scores.overall s)).
  { unfold Scores._calculate_scores in Hs.
    destruct (files_analyzed =? 0).
    { injection Hs as <-. cbn [Scores.complexity Scores.duplication Scores.dependency
                               Scores.overall].
      unfold Scores.valid_score.
      split; [lia |]. split; [lia |]. split; [lia |]. vm_compute. reflexivity. }
    destruct (Scores.calc_category_score files_analyzed _) as [c | ex] eqn:Ec in Hs;
      cbv [obind] in Hs; [| discriminate].
    destruct (Scores.calc_category_score files_analyzed _) as [d | ex] eqn:Ed in Hs;
      [| discriminate].
    destruct (Scores.calc_category_score files_analyzed _) as [e | ex] eqn:Ee in Hs;
      [| discriminate].
    fold (ScoreRules.weighted c d e) in Hs.
    destruct (ScoreRules.weighted c d e) as [o | ex] eqn:Eo; [| discriminate].
    injection Hs as <-. cbn [Scores.complexity Scores.duplication Scores.dependency
                             Scores.overall].
    apply ScoresFacts.calc_category_score_range in Ec, Ed, Ee. auto. }
  destruct Hw as (Hc & Hd & He & Ho).
  destruct (ScoreRulesFacts.weighted_below_exact _ _ _ _ Hc Hd He Ho) as [_ Hle].
  pose proof (LowerFacts.weighted_above_exact _ _ _ _ Hc Hd He Ho) as Hge.
  fold exact_sum in Hle, Hge.
  pose proof (Z.div_mod exact_sum 10 ltac:(lia)) as Hdm.
  pose proof (Z.mod_pos_bound exact_sum 10 ltac:(lia)) as Hr.
  remember (exact_sum / 10) as q eqn:Eq. remember (exact_sum mod 10) as r eqn:Er.
  clear Eq Er. clearbody exact_sum. lia.
Qed.

Lemma overall_score_within_one_witness :
  Scores._calculate_scores Samples.scored_issues 10 = Returned (Scores.mk_scores 2 0 1 9) /\
  (2 = (4 * 0 + 3 * 1 + 3 * 9) / 10 \/
   (2 = (4 * 0 + 3 * 1 + 3 * 9) / 10 - 1 /\ (4 * 0 + 3 * 1 + 3 * 9) mod 10 = 0)).
Proof.
  assert (Hs : Scores._calculate_scores Samples.scored_issues 10
               = Returned (Scores.mk_scores 2 0 1 9)) by (vm_compute; reflexivity).
  split; [exact Hs |].
  exact (overall_score_within_one Samples.scored_issues 10 _ Hs).
Defined.
